(* ===== verification/_CoqProject ===== *)
-Q . S2P
Prelude.v
ObjectId.v
Json.v
Url.v
Store.v
Folders.v
Tokens.v
Auth.v
Files.v
System.v
Routing.v
App.v
Contract.v
Interleave.v
Concurrency.v
Requests.v
Deployment.v
Scripts.v
