(* ===== verification/Prelude.v ===== *)
(** * Verification of the google-drive-backend (Express + Mongoose + S3)

    ** The program
    An Express server ([src/src/server.js]) runs [cors()] and
    [express.json()] on every request, then mounts three routers
    ([src/src/routes/auth.js], [folders.js], [files.js]) on three
    controllers.  [authController.js] handles accounts: registration with an
    emailed activation token, activation, login with a JWT, profile,
    password reset with an emailed reset token.  [folderController.js]
    keeps a tree of folders with materialized paths.  [fileController.js]
    keeps file metadata for objects stored in S3.  The Mongoose models
    [Folder.js], [File.js] and [Token.js] give the stored documents; a
    Token expires through a TTL index ([expires: 86400]).  The handlers
    share no memory: they talk only through the MongoDB collections, the
    S3 bucket and the mail transport.

    ** The files
    - [Prelude] (this file): the handler monad [M S R A = S -> S * outcome],
      where [outcome] is [Ok a], [Stop r] (an early [return res.status(..)
      .json(..)]) or [Raise e] (a [throw] caught by the handler's [catch],
      answered 500 by [run_handler]); [try_catch] for a [try]/[catch]
      that goes on after the error; JavaScript truthiness and [||]; the
      hint databases [gdrive] and [gdrive_rw]; the monad laws.
    - [ObjectId]: ObjectIds as numbers below [16^24], printed as 24
      lowercase hex digits ([oid_hex]) and cast from strings of exactly 24
      hex digits ([cast_oid]); a failed cast is Mongoose's CastError.
    - [Json] (Module [Json]): JSON values, [JSON.parse] as a fuelled
      recursive-descent parser over the bytes of a text ([parse_value],
      [parse_json]: the grammar of ECMA-404 with JavaScript's rules for
      escapes, surrogate pairs written as UTF-8, and the last of duplicate
      keys), [JSON.stringify] of a value ([print]), and [req.body.k]
      ([member]).
    - [Url] (Module [Url]): [encodeURIComponent], [decodeURIComponent]
      with the UTF-8 checks of ECMAScript's Decode, Express's
      [decode_param], and qs's query parsing as Express 4 runs it
      ([qs_clean], [query_pair], [query_value]: [+] as space, a value it
      cannot decode kept as it is, the first 1000 parts, a bracketed key
      or a repeated one giving an array or object).
    - [Store]: the documents (Records [user], [token], [folder], [file]),
      the world (one [gmap] per collection, the id counter, the clock, the
      S3 bucket and the outbox of handed-over mails), the JSON answers, and
      the Mongoose queries as a [Collection] class with one instance per
      model: [findById], [findOne] (the first match in id order), [find],
      [create], [save], [deleteOne].  [save loaded d] is Mongoose's
      [updateOne({ _id }, { $set })] of the paths assigned since [loaded]
      was read: each field keeps its stored value when the in-memory value
      equals the loaded one ([pick], [user_delta], ...), and a document
      deleted meanwhile makes it throw DocumentNotFoundError
      ([doc_not_found]).  [owned_doc] is the 404-then-403 guard every
      folder and file handler opens with.
    - [Tokens] (Module [TokenStore]): [Token.findOne], [Token.create],
      [Token.findByIdAndDelete], and the TTL monitor [ttl_reap].
    - [Folders] (Module [FolderController]): [createFolder], [getFolders],
      [deleteFolder], [renameFolder] of [folderController.js], and the tree
      invariant [folders_wf].
    - [Auth] (Module [AuthController], Section [Handlers] over a
      [PasswordHasher] instance for the bcrypt hook of the User model):
      the six handlers of [authController.js].
    - [Files] (Module [FileController]): the six handlers of
      [fileController.js], with the S3 calls as [s3_outcome] arguments.
    - [System] (Module [Server]): the routers of [routes/*.js] and
      [server.js] as [serve] on a [request] type, and the life of the
      system as the step relation [step] (a request served to its answer,
      the clock, the TTL monitor, a mail delivered), with the invariant
      [world_ok].
    - [Routing] (Modules [Express] and [Routes]): the route tables of
      [routes/*.js] and the mounts of [server.js], Express's matching of a
      method and path against them ([dispatch]), and the method and path
      of each [request] of [System] ([endpoint_of]).
    - [App] (Modules [Http], [App], [Client]): the layer stack of
      [server.js] as one function [app] from an HTTP request and the
      store to the answer and the new store: [cors()] ([preflight],
      [with_cors]), [express.json()] ([express_json]: limit, charset,
      strict mode, [JSON.parse]), the router ([dispatch]) with the decoding
      of parameters ([decode_endpoint]), the reading of [req.body],
      [req.query] and the inputs of [protect] and multer
      ([build_auth], [build_folder], [build_file]), the handlers
      ([serve]) and Express's final handler ([not_found], [error_page]);
      [port] and [listen_log] for [PORT] and [app.listen].  [Client]
      gives each [request] the HTTP request a client sends for it
      ([http_of], [env_of]).
    - [Contract]: the shape of every answer ([resp_ok]) and the predicate
      [yields] on handler computations, with one lemma per query and
      helper in the hint database [contract].
    - [Interleave] (Module [Processes]): [activateAccount],
      [registerUser] and [resetPassword] as processes with one atomic step
      per [await] (split into named stages, [activate_found],
      [activate_loaded], [activate_saved] and the same for the reset), and
      a scheduler [sched_step] that interleaves overlapping requests.
    - [Concurrency]: [deleteFolder] and [renameFolder] as processes
      (Module [FolderProcs]), and the invariant [merge_inv] of every
      schedule of an activation and a reset of one user (Section [Merge]).
    - [Requests]: the file handlers (Module [FileProcs]), [authUser],
      [getUserProfile], [getFolders] and [forgotPassword] (Module
      [OtherProcs]) as processes, so that every request of the model has
      one ([request_proc]), and the races of a delete with a download.
    - [Deployment] (Module [Deploy]): the server after [app.listen] as
      the step relation [sys_step] on the store and the requests in
      flight: a request arrives at any time, any request in flight takes
      its next step, and the clock, the TTL monitor and the mail
      transport act in between.
    - [Scripts]: the operator script [scripts/manual_activate.js] as
      [script_main] (the connection, the exit code) around
      [checkActivation] on the same store (Module [ManualActivate]), and
      [scripts/test_email.js] as [testEmail] (Module [TestEmail]): its
      console lines, the options of its transport and the messages it
      hands over, with the SMTP server's answers as inputs.

    ** What is proved
    - Account lifecycle ([Auth]): register, activate and reset end to end;
      the three login failures; an expired token is refused only once the
      TTL monitor has run ([activateAccount_expiry_by_reaper_only]).
    - Folder tree ([Folders]): every folder handler keeps [folders_wf];
      in a well-formed world the parent chain ends and the stored path
      lists the ancestor ids; the 404/403 guards; the root listing; a
      non-ObjectId id answers 500; deleting does not cascade.
    - Files ([Files]): the guards of every file handler; the S3 delete
      comes before the record delete; uploads are filed under any folder id.
    - Tokens ([Tokens]): a consumed token is gone; the reaper removes
      exactly the expired tokens.
    - The system with requests served one at a time ([System]): every
      world reachable from the empty one by [step] satisfies [world_ok]
      (ids below the counter, a well-formed tree, one account per email),
      and along every run a user is never deleted, keeps its email, and
      once active stays active.
    - Routing ([Routing]): every request of the model, sent as its
      method and path, reaches its route with its parameter and runs
      [protect] exactly when its handler reads [req.user]
      ([dispatch_request]); no two routes take the same request, so the
      registration order does not matter ([dispatch_order_free]).
    - The HTTP front end ([App]): the application refines the request
      model: every request of the model a client can send, as the method,
      escaped URL, JSON body and content type it uses, is answered as
      [serve] answers it, behind CORS's header ([app_refines_serve], which
      composes the JSON round trip [Json.parse_print], the URL round trips
      [Url.decode_param_encode] and [Url.query_value_single], and
      [Routing.dispatch_endpoint]); every answer carries
      [Access-Control-Allow-Origin: *], the answers of the front layers
      (204, 400, 404, 413, 415) leave the store unchanged, and every other
      answer is a handler's ([app_answers]).
    - The answer contract ([Contract]): every answer has one of seven
      status codes and every error answer is [{ message }]
      ([serve_answer_shape]).
    - Overlapping requests ([Interleave]): two activations or two resets
      with one token both succeed ([activation_race], [reset_race]) and
      two registrations of one email both create an account
      ([register_race]).
    - Every request in flight ([Requests]): a delete between the
      [File.findById] and the
      [getSignedUrl] of [getDownloadUrl] leaves the client a signed URL,
      answered 200, for an object and record that are gone, where the
      serial order answers 404 ([delete_url_race]); between the lookup and
      the [GetObjectCommand] of [downloadFile] it turns the download into
      the inner [catch]'s 404.
    - Concurrency ([Concurrency]): a delete that runs inside a rename
      makes the rename's [save()] throw and the rename answer 500, which
      no serial order gives ([rename_delete_race]); an activation and a
      reset of one user, in every one of their schedules, both answer 200
      and leave the user active with the new password, because [save]
      sets only the assigned paths ([activate_reset_merge], by rule
      induction on [sched_step] with [merge_inv]).
    - The running server ([Deployment]): with requests arriving at any
      time and their awaits interleaved in any order, every reachable
      state keeps every document under its own id below the allocator and
      a well-formed folder tree ([deployment_store_ok]), so every stored
      path lists the folder's ancestors ([folder_path_is_ancestor_chain]);
      along every run no user is deleted, no email changes and no active
      account becomes inactive ([deployment_account_history]).  The third
      part of [world_ok], one account per email, does not survive
      overlapping requests ([register_race]).  The proof is a rule
      induction on [sys_step] over [cfg_ok]: every request in flight is
      [safe], each awaited call [keeps] the invariant on any world that
      [grows] from the one the request last saw, with a bind rule.
    - The scripts ([Scripts]): the manual activation accepts a
      password-reset token that the endpoint refuses, does what the
      endpoint does on an activation token, and keeps [world_ok]; the mail test
      prints at most the last four characters of the password, sends its
      one message only after [verify()] resolves, and prints the App
      Password advice exactly on an ['EAUTH'] error ([testEmail_outcome]).

    ** Bounds and fuel
    Ids are [N] below [oid_bound = 16^24], the range of a 12-byte
    ObjectId.  The token lifetime is 86400 s, the download URL lifetime
    3600 s.  [Folders.ancestors] walks parent links with fuel [k] for the
    folder with id [k]: [folders_wf] makes every parent id smaller than its
    child's, so [k] steps always reach a root ([ancestors_total]).
    [Interleave.run_alone] takes one unit of fuel per await; the
    activation and the reset await four times each ([bounded 4]), which
    bounds every schedule of the two ([activate_reset_merge]).
    [Json.parse_fuel s = 2 * length s + 1]: every call of the parser
    either reads a character or passes the same text to a call that will,
    so twice the length bounds the depth of calls, and more fuel gives
    the same answer ([parse_fuel_mono]).  [Url.decode_uri_component] and
    [Url.valid_utf8] take [length s + 1], one step per character or
    escape read.  The body limit of [express.json()] is 102400 bytes
    ([json_limit]), compared as [N]; qs reads at most 1000 parts.

    ** Not modelled
    The User model, the [protect] middleware and the multer-S3 upload
    middleware are not among the sources: users are modelled from their
    use in the controllers, the authenticated user arrives as an id, and
    an upload arrives as the stored object's metadata.  bcrypt is the
    [PasswordHasher] class, JWT signing is the [session] record, S3 calls
    are explicit outcomes, and mail delivery is a step that removes the
    first outbox entry.  Of the HTTP layer, the headers arrive parsed (the
    media type and charset of Content-Type, lower-cased), content
    encodings and bodies in another UTF charset or not valid UTF-8 are
    outside the model ([app] answers [None]), as are [req.body] fields of
    a type the handlers are not written for and a protected route without
    a user; the error page shows the text [NODE_ENV=production] shows;
    headers that decide nothing (Content-Type, ETag, X-Powered-By) are
    left out.  [connectDB] ([src/config/db.js]) is not among the sources;
    the server's requests are modelled as if the connection were up, and
    Mongoose's buffering of queries before it is not modelled.  Of the
    scripts, the outcome of the database connection and the SMTP server's
    answers are inputs, and dotenv is not modelled.  Overlapping requests
    are modelled for every handler, one atomic step per await; what
    MongoDB and S3 do inside one call (a [deleteOne] racing a [findById]
    on the server) is taken as atomic, and [authUser]'s
    [user.matchPassword] reads only the loaded document, so it is one
    step with the lookup. *)

From stdpp Require Import base gmap strings list.

(** ** Prelude: the handler monad, JavaScript value helpers and shared lemmas *)

Declare Scope handler_scope.
Delimit Scope handler_scope with H.
Open Scope string_scope.

(** ** Outcome of an async handler body

    An Express handler body either runs to completion with a value
    ([Ok]), leaves early through [return res.status(..).json(..)]
    ([Stop], carrying the response it sent), or throws ([Raise], carrying
    [error.message]); the [catch (error)] around every body turns a
    [Raise] into a 500 response. *)
Inductive outcome (R A : Type) : Type :=
| Ok (a : A)
| Stop (r : R)
| Raise (msg : string).
Arguments Ok {R A} a.
Arguments Stop {R A} r.
Arguments Raise {R A} msg.

(** A computation reads and writes the persistent state [S] (the
    database and the bucket). There are no transactions: the state
    written before a [Raise] or a [Stop] is kept, as in MongoDB. *)
Definition M (S R A : Type) : Type := S -> S * outcome R A.

Section Monad.
Context {S R : Type}.

Definition ret {A} (a : A) : M S R A := fun s => (s, Ok a).

Definition bind {A B} (m : M S R A) (k : A -> M S R B) : M S R B :=
  fun s =>
    match m s with
    | (s', Ok a) => k a s'
    | (s', Stop r) => (s', Stop r)
    | (s', Raise e) => (s', Raise e)
    end.

Definition get : M S R S := fun s => (s, Ok s).
Definition gets {A} (f : S -> A) : M S R A := fun s => (s, Ok (f s)).
Definition modify (f : S -> S) : M S R unit := fun s => (f s, Ok tt).
Definition stop {A} (r : R) : M S R A := fun s => (s, Stop r).
Definition raise {A} (e : string) : M S R A := fun s => (s, Raise e).

(** [try { m } catch (err) { h(err.message) }] inside a body: a throw of
    [m] runs the handler [h] on the state [m] left. *)
Definition try_catch {A} (m : M S R A) (h : string -> M S R A) : M S R A :=
  fun s =>
    match m s with
    | (s', Raise e) => h e s'
    | res => res
    end.

(** [try { body } catch (error) { res.status(500).json(..) }] *)
Definition run_handler (on_error : string -> R) (m : M S R R) (s : S) : S * R :=
  match m s with
  | (s', Ok r) => (s', r)
  | (s', Stop r) => (s', r)
  | (s', Raise e) => (s', on_error e)
  end.
End Monad.

Notation "x <- m ;; k" := (bind m (fun x => k))
  (at level 100, m at next level, right associativity) : handler_scope.
Notation "m ;; k" := (bind m (fun _ => k))
  (at level 100, right associativity) : handler_scope.

(** ** JavaScript values *)

(** A request field that is a string or absent ([undefined] or [null]). *)
Abbreviation jsstr := (option string).

(** JavaScript truthiness of such a field: [""], [undefined] and [null]
    are falsy. *)
Definition truthy (v : jsstr) : bool :=
  match v with
  | Some s => negb (String.eqb s "")
  | None => false
  end.

(** [v || d] on a string field. *)
Definition js_or (v : jsstr) (d : string) : string :=
  match v with
  | Some s => if String.eqb s "" then d else s
  | None => d
  end.

(** Unfold the handler monad and split on the outcome of a step. *)
Ltac hstep :=
  repeat (unfold bind, ret, get, gets, modify, stop, raise, try_catch, run_handler in *; simpl in *).

(** Close a decidable proposition on concrete data by evaluation. *)
Ltac decide_by_eval := apply (bool_decide_unpack _); vm_compute; exact I.

(** ** Shared lemmas *)

Create HintDb gdrive discriminated.
Create Rewrite HintDb gdrive_rw.

Section MonadLaws.
Context {S R : Type}.

Lemma bind_ret_l {A B} (a : A) (k : A -> M S R B) s :
  bind (ret a) k s = k a s.
Proof. reflexivity. Qed.

Lemma bind_stop {A B} (r : R) (k : A -> M S R B) s :
  bind (stop r) k s = (s, Stop r).
Proof. reflexivity. Qed.

Lemma bind_raise {A B} (e : string) (k : A -> M S R B) s :
  bind (raise e) k s = (s, Raise e).
Proof. reflexivity. Qed.

Lemma bind_assoc {A B C} (m : M S R A) (k : A -> M S R B) (h : B -> M S R C) s :
  bind (bind m k) h s = bind m (fun a => bind (k a) h) s.
Proof. unfold bind. destruct (m s) as [s' []]; reflexivity. Qed.
End MonadLaws.

#[export] Hint Rewrite @bind_ret_l @bind_stop @bind_raise : gdrive_rw.

Lemma truthy_spec (v : jsstr) :
  truthy v = true <-> exists s, v = Some s /\ s <> "".
Proof.
  destruct v as [s|]; simpl; split.
  - intros H. exists s. split; [done|]. intros ->. done.
  - intros (s' & [= <-] & Hs). destruct (String.eqb_spec s ""); done.
  - done.
  - intros (? & ? & _). done.
Qed.

Lemma js_or_truthy (v : jsstr) d :
  js_or v d = match v with Some s => if truthy v then s else d | None => d end.
Proof. destruct v as [s|]; simpl; [destruct (String.eqb s ""); done | done]. Qed.

Lemma string_app_cons (c : Ascii.ascii) (s t : string) : String c s +:+ t = String c (s +:+ t).
Proof. reflexivity. Qed.

Lemma string_app_nil_l (t : string) : "" +:+ t = t.
Proof. reflexivity. Qed.

Lemma string_app_assoc (a b c : string) : (a +:+ b) +:+ c = a +:+ (b +:+ c).
Proof.
  induction a as [|ch a IH]; [reflexivity|].
  change (String ch ((a +:+ b) +:+ c) = String ch (a +:+ (b +:+ c))). by rewrite IH.
Qed.

Lemma string_app_nil_r (a : string) : a +:+ "" = a.
Proof.
  induction a as [|ch a IH]; [reflexivity|].
  change (String ch (a +:+ "") = String ch a). by rewrite IH.
Qed.

Lemma string_app_length (a b : string) : String.length (a +:+ b) = (String.length a + String.length b)%nat.
Proof.
  induction a as [|ch a IH]; [reflexivity|].
  change (S (String.length (a +:+ b)) = S (String.length a + String.length b))%nat. by rewrite IH.
Qed.

#[export] Hint Rewrite string_app_cons string_app_nil_l string_app_assoc string_app_nil_r : gdrive_rw.
