(* ===== verification/ObjectId.v ===== *)
(** * ObjectId: 96-bit document identifiers, their hex form and the cast

    Mongoose identifies every document by a BSON ObjectId and casts the
    strings of a request ([req.params.id], [req.query.parent], the body's
    [parentFolder]) to ObjectIds before querying; an id that is not 24 hex
    digits makes the query throw a CastError.  Template literals such as
    [`${parent.path}/${parent._id}`] print an ObjectId as 24 lowercase hex
    digits.  This file models the id as its 96-bit value (a [N] below
    [16^24]), the printing, the cast, and proves that the cast inverts the
    printing. *)

From stdpp Require Import base strings list.
From Stdlib Require Import NArith Ascii Lia.
From S2P Require Import Prelude.

Open Scope N_scope.

(** The value of an ObjectId; the model keeps it below [oid_bound]. *)
Abbreviation oid := N.

Definition oid_digits : nat := 24.
Definition oid_bound : N := 16 ^ 24.

(** ** Printing: [ObjectId.prototype.toHexString] *)

(** The ASCII digit of a value below 16: ['0'..'9'] then ['a'..'f']. *)
Definition hex_digit (d : N) : ascii :=
  ascii_of_N (if d <? 10 then 48 + d else 87 + d).

(** The [k] low hex digits of [n], most significant first, before [acc]. *)
Fixpoint hex_fixed (k : nat) (n : N) (acc : string) : string :=
  match k with
  | O => acc
  | S k' => hex_fixed k' (n / 16) (String (hex_digit (n mod 16)) acc)
  end.

Definition oid_hex (n : oid) : string := hex_fixed oid_digits n "".

(** ** The cast: a string is an ObjectId when it is 24 hex digits,
    in either case *)

Definition hex_value (c : ascii) : option N :=
  let n := N_of_ascii c in
  if (48 <=? n) && (n <=? 57) then Some (n - 48)
  else if (97 <=? n) && (n <=? 102) then Some (n - 87)
  else if (65 <=? n) && (n <=? 70) then Some (n - 55)
  else None.

Fixpoint parse_hex (s : string) (acc : N) : option N :=
  match s with
  | EmptyString => Some acc
  | String c s' =>
      match hex_value c with
      | Some d => parse_hex s' (acc * 16 + d)
      | None => None
      end
  end.

Definition cast_oid (s : string) : option oid :=
  if Nat.eqb (String.length s) oid_digits then parse_hex s 0 else None.

(** The double quote character. *)
Definition dq : string := String "034"%char EmptyString.

(** [error.message] of the CastError thrown by a query on a bad id. *)
Definition cast_error (s : string) : string :=
  "Cast to ObjectId failed for value " +:+ dq +:+ s +:+ dq.

(** The message of Mongoose's DocumentNotFoundError for [{ _id }]. *)
Definition doc_not_found (model : string) (k : oid) : string :=
  "No document found for query " +:+ dq +:+ "{ _id: new ObjectId('" +:+ oid_hex k +:+ "') }" +:+ dq
  +:+ " on model " +:+ dq +:+ model +:+ dq.

(** ** Lemmas *)

Lemma hex_value_digit (d : N) : d < 16 -> hex_value (hex_digit d) = Some d.
Proof.
  intros Hd.
  assert (d = 0 \/ d = 1 \/ d = 2 \/ d = 3 \/ d = 4 \/ d = 5 \/ d = 6 \/ d = 7 \/
          d = 8 \/ d = 9 \/ d = 10 \/ d = 11 \/ d = 12 \/ d = 13 \/ d = 14 \/ d = 15)
    as Hcases by lia.
  repeat destruct Hcases as [->|Hcases]; [reflexivity ..|]. subst. reflexivity.
Qed.

Lemma length_hex_fixed k n acc :
  String.length (hex_fixed k n acc) = (k + String.length acc)%nat.
Proof.
  revert n acc. induction k as [|k IH]; intros n acc; [reflexivity|].
  simpl. rewrite IH. simpl. lia.
Qed.

(** Parsing the printed digits appends the printed value. *)
Lemma parse_hex_fixed k n acc a :
  parse_hex (hex_fixed k n acc) a = parse_hex acc (a * 16 ^ N.of_nat k + n mod 16 ^ N.of_nat k).
Proof.
  revert n acc a. induction k as [|k IH]; intros n acc a.
  - simpl. rewrite N.mod_1_r. f_equal. lia.
  - simpl. rewrite IH. simpl.
    rewrite hex_value_digit by (apply N.mod_lt; lia).
    f_equal.
    replace (16 ^ N.of_nat (S k)) with (16 * 16 ^ N.of_nat k)
      by (rewrite Nat2N.inj_succ, N.pow_succ_r'; lia).
    rewrite N.Div0.mod_mul_r. lia.
Qed.

(** A parsed value is below [16 ^ length]. *)
Lemma parse_hex_bound s a n :
  parse_hex s a = Some n -> n < (a + 1) * 16 ^ N.of_nat (String.length s).
Proof.
  revert a. induction s as [|c s IH]; intros a H; simpl in H.
  - injection H as <-. simpl. lia.
  - destruct (hex_value c) as [d|] eqn:Hc; [|discriminate].
    assert (d < 16).
    { unfold hex_value in Hc. set (v := N_of_ascii c) in Hc.
      destruct (N.leb_spec 48 v), (N.leb_spec v 57), (N.leb_spec 97 v),
               (N.leb_spec v 102), (N.leb_spec 65 v), (N.leb_spec v 70);
        simpl in Hc; simplify_eq; lia. }
    apply IH in H. simpl String.length.
    rewrite Nat2N.inj_succ, N.pow_succ_r'. nia.
Qed.

(** Casting the printed form of an id gives the id back. *)
Theorem cast_oid_hex (n : oid) : n < oid_bound -> cast_oid (oid_hex n) = Some n.
Proof.
  intros Hn. unfold cast_oid, oid_hex.
  rewrite length_hex_fixed, Nat.add_0_r, Nat.eqb_refl.
  rewrite parse_hex_fixed. rewrite N.mod_small by exact Hn. done.
Qed.

(** Every id the cast accepts is below the 96-bit bound. *)
Lemma cast_oid_bound (s : string) (n : oid) : cast_oid s = Some n -> n < oid_bound.
Proof.
  unfold cast_oid. destruct (Nat.eqb_spec (String.length s) oid_digits) as [Hl|]; [|discriminate].
  intros H. apply parse_hex_bound in H. rewrite Hl in H. unfold oid_bound. exact H.
Qed.

(** Printing is injective on valid ids. *)
Lemma oid_hex_inj (n m : oid) :
  n < oid_bound -> m < oid_bound -> oid_hex n = oid_hex m -> n = m.
Proof.
  intros Hn Hm Heq. apply (f_equal cast_oid) in Heq.
  rewrite !cast_oid_hex in Heq by done. congruence.
Qed.

Lemma length_oid_hex (n : oid) : String.length (oid_hex n) = oid_digits.
Proof. unfold oid_hex. rewrite length_hex_fixed. reflexivity. Qed.

Lemma cast_oid_hex_witness :
  2748 < oid_bound /\ cast_oid (oid_hex 2748) = Some 2748.
Proof.
  assert (2748 < oid_bound) as Hb by (unfold oid_bound; lia).
  split; [exact Hb|exact (cast_oid_hex 2748 Hb)].
Defined.
