(* ===== verification/Json.v ===== *)
(** * Json: the JSON text of request bodies

    [app.use(express.json())] in [src/src/server.js] hands every request
    body sent as [application/json] to body-parser, which refuses a text
    whose first non-blank character is neither [{] nor [[] (strict mode)
    and otherwise runs [JSON.parse]; the handlers then destructure
    [req.body].  This file models the JSON values as an inductive type,
    [JSON.parse] as a parser with fuel over the bytes of the body, and
    [JSON.stringify] (what a client sends) as a printer, and proves that
    the parser reads back what the printer writes and that its fuel is
    always enough.

    Strings are the UTF-8 bytes of the text: a [\uXXXX] escape is
    encoded in UTF-8 (a surrogate pair as one four-byte character), bytes
    from 0x80 up are kept as they are.  A number is kept as its lexeme:
    the handlers never read a number, they only need to know a value is
    not a string. *)

From stdpp Require Import base strings list.
From Stdlib Require Import NArith Ascii Lia.
From S2P Require Import Prelude ObjectId.

Open Scope N_scope.

Module Json.

(** The values [JSON.parse] returns; an object keeps its members in the
    order of the text, duplicates included. *)
Unset Elimination Schemes.
Inductive json :=
| JNull
| JBool (b : bool)
| JNum (lexeme : string)
| JStr (s : string)
| JArr (vs : list json)
| JObj (kvs : list (string * json)).
Set Elimination Schemes.

(** Induction with a hypothesis for every element and member. *)
Definition json_ind (P : json -> Prop)
    (fnull : P JNull) (fbool : forall b, P (JBool b)) (fnum : forall l, P (JNum l))
    (fstr : forall s, P (JStr s))
    (farr : forall vs, Forall P vs -> P (JArr vs))
    (fobj : forall kvs, Forall (fun kv => P kv.2) kvs -> P (JObj kvs)) : forall v, P v :=
  fix F v :=
    match v with
    | JNull => fnull
    | JBool b => fbool b
    | JNum l => fnum l
    | JStr s => fstr s
    | JArr vs => farr vs ((fix G vs : Forall P vs :=
                             match vs with
                             | [] => Forall_nil_2 _
                             | v :: vs' => Forall_cons_2 _ _ _ (F v) (G vs')
                             end) vs)
    | JObj kvs => fobj kvs ((fix G kvs : Forall (fun kv => P kv.2) kvs :=
                               match kvs with
                               | [] => Forall_nil_2 _
                               | kv :: kvs' => Forall_cons_2 _ _ _ (F kv.2) (G kvs')
                               end) kvs)
    end.

(** ** Characters *)

Definition code (c : ascii) : N := N_of_ascii c.
Definition chr (n : N) : ascii := ascii_of_N n.

(** JSON white space: space, tab, line feed, carriage return. *)
Definition is_ws (c : ascii) : bool :=
  (code c =? 32) || (code c =? 9) || (code c =? 10) || (code c =? 13).

Definition is_digit (c : ascii) : bool := (48 <=? code c) && (code c <=? 57).

Fixpoint skip_ws (s : string) : string :=
  match s with
  | String c s' => if is_ws c then skip_ws s' else s
  | EmptyString => s
  end.

(** [s] with the prefix [p] removed, if [s] starts with [p]. *)
Fixpoint strip_prefix (p s : string) : option string :=
  match p, s with
  | EmptyString, _ => Some s
  | String c p', String d s' => if Ascii.eqb c d then strip_prefix p' s' else None
  | String _ _, EmptyString => None
  end.

(** ** Numbers: [-? (0 | [1-9][0-9]* ) (.[0-9]+)? ([eE][+-]?[0-9]+)?] *)

Fixpoint take_digits (s : string) : string * string :=
  match s with
  | String c s' => if is_digit c then let '(d, r) := take_digits s' in (String c d, r) else ("", s)
  | EmptyString => ("", "")
  end.

Definition lex_int (s : string) : option (string * string) :=
  match s with
  | String c r =>
      if code c =? 48 then Some (String c "", r)
      else if is_digit c then let '(d, r') := take_digits r in Some (String c d, r')
      else None
  | EmptyString => None
  end.

Definition lex_frac (s : string) : option (string * string) :=
  match s with
  | String c r =>
      if code c =? 46 then
        match take_digits r with
        | (EmptyString, _) => None
        | (d, r') => Some (String c d, r')
        end
      else Some ("", s)
  | EmptyString => Some ("", s)
  end.

Definition lex_exp_digits (s : string) : option (string * string) :=
  match take_digits s with
  | (EmptyString, _) => None
  | dr => Some dr
  end.

Definition lex_exp (s : string) : option (string * string) :=
  match s with
  | String c r =>
      if (code c =? 101) || (code c =? 69) then
        match r with
        | String sg r' =>
            if (code sg =? 43) || (code sg =? 45) then
              '(d, r'') ← lex_exp_digits r'; Some (String c (String sg d), r'')
            else '(d, r'') ← lex_exp_digits r; Some (String c d, r'')
        | EmptyString => None
        end
      else Some ("", s)
  | EmptyString => Some ("", s)
  end.

Definition lex_number (s : string) : option (string * string) :=
  let '(sign, s1) := match s with
                     | String c r => if code c =? 45 then (String c "", r) else ("", s)
                     | EmptyString => ("", s)
                     end in
  '(i, s2) ← lex_int s1;
  '(f, s3) ← lex_frac s2;
  '(e, s4) ← lex_exp s3;
  Some (sign +:+ i +:+ f +:+ e, s4).

(** A lexeme [JSON.parse] reads as a number. *)
Definition is_number (l : string) : bool :=
  match lex_number l with
  | Some (l', EmptyString) => String.eqb l' l
  | _ => false
  end.

(** ** Strings *)

(** A piece of a string literal: a byte as written, or the UTF-16 code
    unit of a [\uXXXX] escape. *)
Inductive unit16 := UByte (b : ascii) | UCode (n : N).

(** The byte a one-letter escape stands for. *)
Definition short_escape (e : ascii) : option ascii :=
  match code e with
  | 34 => Some e | 92 => Some e | 47 => Some e
  | 98 => Some (chr 8) | 102 => Some (chr 12) | 110 => Some (chr 10)
  | 114 => Some (chr 13) | 116 => Some (chr 9)
  | _ => None
  end.

Definition hex4 (a b c d : ascii) : option N :=
  x ← hex_value a; y ← hex_value b; z ← hex_value c; t ← hex_value d;
  Some (((x * 16 + y) * 16 + z) * 16 + t).

(** The body of a string literal up to its closing quote.  A control
    character (below 0x20) must be escaped. *)
Fixpoint lex_str (s : string) : option (list unit16 * string) :=
  match s with
  | EmptyString => None
  | String c r =>
      if code c =? 34 then Some ([], r)
      else if code c =? 92 then
        match r with
        | String e r' =>
            match short_escape e with
            | Some b => '(us, r'') ← lex_str r'; Some (UByte b :: us, r'')
            | None =>
                if code e =? 117 then
                  match r' with
                  | String h1 (String h2 (String h3 (String h4 r''))) =>
                      n ← hex4 h1 h2 h3 h4;
                      '(us, rest) ← lex_str r''; Some (UCode n :: us, rest)
                  | _ => None
                  end
                else None
            end
        | EmptyString => None
        end
      else if code c <? 32 then None
      else '(us, r') ← lex_str r; Some (UByte c :: us, r')
  end.

(** The UTF-8 bytes of a code point, with [Z.shiftr]-style bit fields. *)
Definition utf8 (n : N) : string :=
  let b (k : N) := chr k in
  if n <? 128 then String (b n) ""
  else if n <? 2048 then
    String (b (N.lor 192 (N.shiftr n 6))) (String (b (N.lor 128 (N.land n 63))) "")
  else if n <? 65536 then
    String (b (N.lor 224 (N.shiftr n 12)))
      (String (b (N.lor 128 (N.land (N.shiftr n 6) 63))) (String (b (N.lor 128 (N.land n 63))) ""))
  else
    String (b (N.lor 240 (N.shiftr n 18)))
      (String (b (N.lor 128 (N.land (N.shiftr n 12) 63)))
        (String (b (N.lor 128 (N.land (N.shiftr n 6) 63))) (String (b (N.lor 128 (N.land n 63))) ""))).

Definition is_high (n : N) : bool := (55296 <=? n) && (n <=? 56319).
Definition is_low (n : N) : bool := (56320 <=? n) && (n <=? 57343).

(** The bytes of the string: a high and a low surrogate make one code
    point above 0xFFFF. *)
Fixpoint units_bytes (us : list unit16) : string :=
  match us with
  | [] => ""
  | UByte b :: us' => String b (units_bytes us')
  | UCode hi :: ((UCode lo :: us'') as rest) =>
      if is_high hi && is_low lo
      then utf8 (65536 + (hi - 55296) * 1024 + (lo - 56320)) +:+ units_bytes us''
      else utf8 hi +:+ units_bytes rest
  | UCode n :: us' => utf8 n +:+ units_bytes us'
  end.

(** ** [JSON.parse] *)

(** One value after blanks, and the text after it.  Every call either
    reads a character or hands the same text to a call that will, so
    [parse_json] gives it twice the length of the text, plus one. *)
Fixpoint parse_value (fuel : nat) (s : string) : option (json * string) :=
  match fuel with
  | O => None
  | S f =>
      match skip_ws s with
      | EmptyString => None
      | String c r as s0 =>
          if code c =? 123 then
            match skip_ws r with
            | String d r' => if code d =? 125 then Some (JObj [], r') else parse_members f [] (String d r')
            | EmptyString => None
            end
          else if code c =? 91 then
            match skip_ws r with
            | String d r' => if code d =? 93 then Some (JArr [], r') else parse_elems f [] (String d r')
            | EmptyString => None
            end
          else if code c =? 34 then '(us, r') ← lex_str r; Some (JStr (units_bytes us), r')
          else if (code c =? 45) || is_digit c then '(l, r') ← lex_number s0; Some (JNum l, r')
          else match strip_prefix "true" s0 with
               | Some r' => Some (JBool true, r')
               | None =>
                   match strip_prefix "false" s0 with
                   | Some r' => Some (JBool false, r')
                   | None => '(r') ← strip_prefix "null" s0; Some (JNull, r')
                   end
               end
      end
  end
(** The elements of an array after its [[], the ones read so far
    reversed in [acc]. *)
with parse_elems (fuel : nat) (acc : list json) (s : string) : option (json * string) :=
  match fuel with
  | O => None
  | S f =>
      '(v, r) ← parse_value f s;
      match skip_ws r with
      | String c r' =>
          if code c =? 44 then parse_elems f (v :: acc) r'
          else if code c =? 93 then Some (JArr (rev (v :: acc)), r')
          else None
      | EmptyString => None
      end
  end
(** The members of an object after its [{]. *)
with parse_members (fuel : nat) (acc : list (string * json)) (s : string) : option (json * string) :=
  match fuel with
  | O => None
  | S f =>
      match skip_ws s with
      | String q r =>
          if code q =? 34 then
            '(us, r1) ← lex_str r;
            match skip_ws r1 with
            | String col r2 =>
                if code col =? 58 then
                  '(v, r3) ← parse_value f r2;
                  match skip_ws r3 with
                  | String c r4 =>
                      if code c =? 44 then parse_members f ((units_bytes us, v) :: acc) r4
                      else if code c =? 125 then Some (JObj (rev ((units_bytes us, v) :: acc)), r4)
                      else None
                  | EmptyString => None
                  end
                else None
            | EmptyString => None
            end
          else None
      | EmptyString => None
      end
  end.

Definition parse_fuel (s : string) : nat := S (2 * String.length s).

(** [JSON.parse(text)]: one value, then only blanks. *)
Definition parse_json (s : string) : option json :=
  match parse_value (parse_fuel s) s with
  | Some (v, r) => match skip_ws r with EmptyString => Some v | _ => None end
  | None => None
  end.

(** ** [JSON.stringify] *)

(** Two lowercase hex digits. *)
Definition hex2 (n : N) : string := hex_fixed 2 n "".

(** A byte of a string as [JSON.stringify] writes it. *)
Definition esc_char (c : ascii) : string :=
  let n := code c in
  if (n =? 34) || (n =? 92) then String (chr 92) (String c "")
  else if n =? 8 then String (chr 92) "b"
  else if n =? 12 then String (chr 92) "f"
  else if n =? 10 then String (chr 92) "n"
  else if n =? 13 then String (chr 92) "r"
  else if n =? 9 then String (chr 92) "t"
  else if n <? 32 then String (chr 92) ("u00" +:+ hex2 n)
  else String c "".

Fixpoint esc (s : string) : string :=
  match s with
  | EmptyString => ""
  | String c s' => esc_char c +:+ esc s'
  end.

Definition quote (s : string) : string := String (chr 34) (esc s +:+ String (chr 34) "").

(** Strings joined by commas. *)
Fixpoint sep_by (first : bool) (ss : list string) : string :=
  match ss with
  | [] => ""
  | s :: ss' => (if first then "" else ",") +:+ s +:+ sep_by false ss'
  end.

Fixpoint print (v : json) : string :=
  match v with
  | JNull => "null"
  | JBool true => "true"
  | JBool false => "false"
  | JNum l => l
  | JStr s => quote s
  | JArr vs => "[" +:+ sep_by true (map print vs) +:+ "]"
  | JObj kvs => "{" +:+ sep_by true (map (fun kv => quote kv.1 +:+ ":" +:+ print kv.2) kvs) +:+ "}"
  end.

(** ** Reading [req.body] *)

(** [req.body.k]: the last member named [k] of an object, as [JSON.parse]
    keeps the last of duplicate keys; [undefined] on anything else. *)
Definition member (k : string) (v : json) : option json :=
  match v with
  | JObj kvs => snd <$> last (filter (fun kv => String.eqb kv.1 k) kvs)
  | _ => None
  end.

(** Numbers in a value are lexemes [JSON.parse] accepts. *)
Fixpoint json_ok (v : json) : bool :=
  match v with
  | JNum l => is_number l
  | JArr vs => forallb json_ok vs
  | JObj kvs => forallb (fun kv => json_ok kv.2) kvs
  | _ => true
  end.

(** The nesting of a value: what the parser's fuel must exceed. *)
Fixpoint sz (v : json) : nat :=
  match v with
  | JArr vs => S (sum_list (map (fun v => S (sz v)) vs))
  | JObj kvs => S (sum_list (map (fun kv => S (sz kv.2)) kvs))
  | _ => O
  end.

(** What may follow a value inside a text: nothing, or the comma or
    bracket that closes it. *)
Definition closes (rest : string) : bool :=
  match rest with
  | EmptyString => true
  | String c _ => (code c =? 44) || (code c =? 93) || (code c =? 125)
  end.

End Json.

Import Json.

(** ** Lengths: every lexer reads something *)

Section Lengths.
Local Abbreviation len := String.length.

Lemma skip_ws_length s : (len (skip_ws s) <= len s)%nat.
Proof. induction s as [|c s IH]; simpl; [lia|]. destruct (is_ws c); simpl; lia. Qed.

Lemma skip_ws_cons s c r : skip_ws s = String c r -> (len r < len s)%nat.
Proof.
  intros H. pose proof (skip_ws_length s) as Hl. rewrite H in Hl. simpl in Hl. lia.
Qed.

Lemma strip_prefix_length p s r : strip_prefix p s = Some r -> (len r + len p = len s)%nat.
Proof.
  revert s. induction p as [|c p IH]; intros s; simpl.
  - intros [= <-]. lia.
  - destruct s as [|d s]; [done|]. destruct (Ascii.eqb c d); [|done].
    intros H. apply IH in H. simpl. lia.
Qed.

Lemma take_digits_length s : (len (take_digits s).1 + len (take_digits s).2 = len s)%nat.
Proof.
  induction s as [|c s IH]; simpl; [done|].
  destruct (is_digit c); simpl; [|done]. destruct (take_digits s); simpl in *. lia.
Qed.

Lemma lex_str_length s us r : lex_str s = Some (us, r) -> (len r < len s)%nat.
Proof.
  revert us r. induction s as [s IH] using (well_founded_ind (well_founded_ltof _ String.length)).
  intros us r. destruct s as [|c s]; [done|]. simpl.
  destruct (code c =? 34); [intros [= _ <-]; simpl; lia|].
  destruct (code c =? 92).
  - destruct s as [|e s']; [done|].
    destruct (short_escape e).
    + destruct (lex_str s') as [[us' r']|] eqn:E; [|done]. intros [= _ <-].
      apply IH in E; [|unfold ltof; simpl; lia]. simpl. lia.
    + destruct (code e =? 117); [|done].
      destruct s' as [|h1 [|h2 [|h3 [|h4 s'']]]]; try done.
      destruct (hex4 _ _ _ _); [|done]. simpl.
      destruct (lex_str s'') as [[us' r']|] eqn:E; [|done]. intros [= _ <-].
      apply IH in E; [|unfold ltof; simpl; lia]. simpl. lia.
  - destruct (code c <? 32); [done|].
    destruct (lex_str s) as [[us' r']|] eqn:E; [|done]. intros [= _ <-].
    apply IH in E; [|unfold ltof; simpl; lia]. simpl. lia.
Qed.

Lemma lex_int_length s i r : lex_int s = Some (i, r) -> (len r < len s)%nat.
Proof.
  destruct s as [|c s]; simpl; [done|].
  destruct (code c =? 48); [intros [= _ <-]; simpl; lia|]. destruct (is_digit c); [|done].
  pose proof (take_digits_length s). destruct (take_digits s). intros [= _ <-]. simpl in *. lia.
Qed.

Lemma lex_frac_length s f r : lex_frac s = Some (f, r) -> (len r <= len s)%nat.
Proof.
  destruct s as [|c s]; simpl; [intros [= _ <-]; simpl; lia|].
  destruct (code c =? 46); [|intros [= _ <-]; simpl; lia].
  pose proof (take_digits_length s). destruct (take_digits s) as [[|d ds] r']; [done|].
  intros [= _ <-]. simpl in *. lia.
Qed.

Lemma lex_exp_digits_length s d r : lex_exp_digits s = Some (d, r) -> (len r <= len s)%nat.
Proof.
  unfold lex_exp_digits. pose proof (take_digits_length s).
  destruct (take_digits s) as [[|c ds] r']; [done|]. intros [= _ <-]. simpl in *. lia.
Qed.

Lemma lex_exp_length s e r : lex_exp s = Some (e, r) -> (len r <= len s)%nat.
Proof.
  destruct s as [|c s]; simpl; [intros [= _ <-]; simpl; lia|].
  destruct (_ || _); [|intros [= _ <-]; simpl; lia].
  destruct s as [|sg s']; [done|].
  destruct (_ || _).
  - destruct (lex_exp_digits s') as [[d r']|] eqn:E; [|done]. intros [= _ <-].
    apply lex_exp_digits_length in E. simpl. lia.
  - destruct (lex_exp_digits (String sg s')) as [[d r']|] eqn:E; [|done]. intros [= _ <-].
    apply lex_exp_digits_length in E. simpl in *. lia.
Qed.

Lemma lex_number_length s l r : lex_number s = Some (l, r) -> (len r < len s)%nat.
Proof.
  unfold lex_number.
  assert (forall sign s1, (sign, s1) = match s with
                  | String c r => if code c =? 45 then (String c "", r) else ("", s)
                  | EmptyString => ("", s) end -> (len s1 <= len s)%nat) as Hs.
  { intros sign s1. destruct s as [|c s]; [intros [= _ ->]; lia|].
    destruct (code c =? 45); intros [= _ ->]; simpl; lia. }
  destruct (match s with | String c r => _ | EmptyString => _ end) as [sign s1] eqn:E.
  specialize (Hs sign s1 eq_refl).
  destruct (lex_int s1) as [[i s2]|] eqn:Ei; [|done]. simpl.
  destruct (lex_frac s2) as [[f s3]|] eqn:Ef; [|done]. simpl.
  destruct (lex_exp s3) as [[e s4]|] eqn:Ee; [|done]. simpl. intros [= _ <-].
  apply lex_int_length in Ei. apply lex_frac_length in Ef. apply lex_exp_length in Ee. lia.
Qed.

End Lengths.

(** ** The parser's fuel *)

Section Fuel.
Local Abbreviation len := String.length.

(** What follows a parsed value is shorter than the text. *)
Lemma parse_length f :
  (forall s v r, parse_value f s = Some (v, r) -> (len r < len s)%nat) /\
  (forall acc s v r, parse_elems f acc s = Some (v, r) -> (len r < len s)%nat) /\
  (forall acc s v r, parse_members f acc s = Some (v, r) -> (len r < len s)%nat).
Proof.
  induction f as [|f (IHv & IHe & IHm)]; [done|]. split_and!.
  - intros s v r. cbn -[strip_prefix lex_number]. destruct (skip_ws s) as [|c r0] eqn:Hs; [done|].
    pose proof (skip_ws_cons _ _ _ Hs) as Hl.
    destruct (code c =? 123); [|destruct (code c =? 91); [|destruct (code c =? 34);
      [|destruct (_ || is_digit c)]]].
    + destruct (skip_ws r0) as [|d r'] eqn:Hr; [done|]. pose proof (skip_ws_cons _ _ _ Hr).
      destruct (code d =? 125); [intros [= _ <-]; lia|]. intros Hp. apply IHm in Hp. simpl in Hp. lia.
    + destruct (skip_ws r0) as [|d r'] eqn:Hr; [done|]. pose proof (skip_ws_cons _ _ _ Hr).
      destruct (code d =? 93); [intros [= _ <-]; lia|]. intros Hp. apply IHe in Hp. simpl in Hp. lia.
    + destruct (lex_str r0) as [[us r']|] eqn:E; [|done]. intros [= _ <-].
      apply lex_str_length in E. lia.
    + destruct (lex_number (String c r0)) as [[l r']|] eqn:E; [|done]. intros [= _ <-].
      apply lex_number_length in E. simpl in E. lia.
    + destruct (strip_prefix "true" (String c r0)) as [r'|] eqn:E1;
        [intros [= _ <-]; apply strip_prefix_length in E1; simpl in *; lia|].
      destruct (strip_prefix "false" (String c r0)) as [r'|] eqn:E2;
        [intros [= _ <-]; apply strip_prefix_length in E2; simpl in *; lia|].
      destruct (strip_prefix "null" (String c r0)) as [r'|] eqn:E3; [|done].
      intros [= _ <-]; apply strip_prefix_length in E3; simpl in *; lia.
  - intros acc s v r. simpl. destruct (parse_value f s) as [[v0 r0]|] eqn:E; [|done]. simpl.
    apply IHv in E. destruct (skip_ws r0) as [|c r'] eqn:Hr; [done|].
    pose proof (skip_ws_cons _ _ _ Hr).
    destruct (code c =? 44); [intros Hp; apply IHe in Hp; lia|].
    destruct (code c =? 93); [intros [= _ <-]; lia|done].
  - intros acc s v r. simpl. destruct (skip_ws s) as [|q r0] eqn:Hs; [done|].
    pose proof (skip_ws_cons _ _ _ Hs). destruct (code q =? 34); [|done].
    destruct (lex_str r0) as [[us r1]|] eqn:E1; [|done]. simpl. apply lex_str_length in E1.
    destruct (skip_ws r1) as [|col r2] eqn:Hr1; [done|]. pose proof (skip_ws_cons _ _ _ Hr1).
    destruct (code col =? 58); [|done].
    destruct (parse_value f r2) as [[v0 r3]|] eqn:E3; [|done]. simpl. apply IHv in E3.
    destruct (skip_ws r3) as [|c r4] eqn:Hr3; [done|]. pose proof (skip_ws_cons _ _ _ Hr3).
    destruct (code c =? 44); [intros Hp; apply IHm in Hp; lia|].
    destruct (code c =? 125); [intros [= _ <-]; lia|done].
Qed.

(** More fuel than twice the length of the text changes nothing. *)
Lemma parse_fuel_mono f :
  (forall s g, (2 * len s < f)%nat -> (f <= g)%nat -> parse_value g s = parse_value f s) /\
  (forall acc s g, (2 * len s + 1 < f)%nat -> (f <= g)%nat -> parse_elems g acc s = parse_elems f acc s) /\
  (forall acc s g, (2 * len s + 1 < f)%nat -> (f <= g)%nat ->
     parse_members g acc s = parse_members f acc s).
Proof.
  induction f as [|f (IHv & IHe & IHm)]; [split_and!; intros; lia|]. split_and!.
  - intros s [|g] Hf Hg; [lia|]. cbn -[strip_prefix lex_number].
    destruct (skip_ws s) as [|c r0] eqn:Hs; [done|]. pose proof (skip_ws_cons _ _ _ Hs).
    destruct (code c =? 123); [|destruct (code c =? 91)]; [..|done].
    + destruct (skip_ws r0) as [|d r'] eqn:Hr; [done|]. pose proof (skip_ws_cons _ _ _ Hr).
      destruct (code d =? 125); [done|]. apply IHm; simpl; lia.
    + destruct (skip_ws r0) as [|d r'] eqn:Hr; [done|]. pose proof (skip_ws_cons _ _ _ Hr).
      destruct (code d =? 93); [done|]. apply IHe; simpl; lia.
  - intros acc s [|g] Hf Hg; [lia|]. cbn [parse_elems]. rewrite (IHv s g) by lia.
    destruct (parse_value f s) as [[v r]|] eqn:E; [|done]. simpl.
    apply (proj1 (parse_length f)) in E.
    destruct (skip_ws r) as [|c r'] eqn:Hr; [done|]. pose proof (skip_ws_cons _ _ _ Hr).
    destruct (code c =? 44); [apply IHe; lia|done].
  - intros acc s [|g] Hf Hg; [lia|]. cbn [parse_members].
    destruct (skip_ws s) as [|q r0] eqn:Hs; [done|]. pose proof (skip_ws_cons _ _ _ Hs).
    destruct (code q =? 34); [|done].
    destruct (lex_str r0) as [[us r1]|] eqn:E1; [|done]. simpl. apply lex_str_length in E1.
    destruct (skip_ws r1) as [|col r2] eqn:Hr1; [done|]. pose proof (skip_ws_cons _ _ _ Hr1).
    destruct (code col =? 58); [|done]. rewrite (IHv r2 g) by lia.
    destruct (parse_value f r2) as [[v r3]|] eqn:E3; [|done]. simpl.
    apply (proj1 (parse_length f)) in E3.
    destruct (skip_ws r3) as [|c r4] eqn:Hr3; [done|]. pose proof (skip_ws_cons _ _ _ Hr3).
    destruct (code c =? 44); [apply IHm; lia|done].
Qed.

End Fuel.

(** ** Reading back what the printer writes *)

Section Roundtrip.

Lemma chr_code c : chr (code c) = c.
Proof. apply ascii_N_embedding. Qed.

Lemma code_chr n : (n < 256)%N -> code (chr n) = n.
Proof. apply N_ascii_embedding. Qed.

Lemma units_bytes_code n us :
  is_high n = false -> units_bytes (UCode n :: us) = utf8 n +:+ units_bytes us.
Proof. intros Hn. destruct us as [|[b|m] us]; cbn [units_bytes]; [done|done|]. by rewrite Hn. Qed.

Lemma hex2_spec n :
  hex2 n = String (hex_digit ((n / 16) mod 16)) (String (hex_digit (n mod 16)) "").
Proof. reflexivity. Qed.

Lemma hex4_00 n : (n < 256)%N ->
  hex4 "0" "0" (hex_digit ((n / 16) mod 16)) (hex_digit (n mod 16)) = Some n.
Proof.
  intros Hn. unfold hex4. rewrite !hex_value_digit by (apply N.mod_lt; lia). simpl.
  pose proof (N.div_mod n 16). pose proof (N.mod_lt n 16).
  rewrite (N.mod_small (n / 16) 16) by (apply N.Div0.div_lt_upper_bound; lia). f_equal. lia.
Qed.

(** One byte through [esc_char] and back through [lex_str]. *)
Lemma esc_char_lex c t :
  exists u, lex_str (esc_char c +:+ t) = (fun '(us, r) => (u :: us, r)) <$> lex_str t /\
            forall us, units_bytes (u :: us) = String c (units_bytes us).
Proof.
  pose proof (N_ascii_bounded c) as Hb. fold (code c) in Hb.
  unfold esc_char. destruct ((code c =? 34) || (code c =? 92)) eqn:E1.
  { exists (UByte c). split; [|done]. rewrite !string_app_cons, string_app_nil_l. simpl.
    unfold short_escape. apply orb_true_iff in E1 as [E|E]; apply N.eqb_eq in E; rewrite E; simpl;
      by destruct (lex_str t) as [[]|]. }
  apply orb_false_iff in E1 as [E34 E92].
  destruct (code c =? 8) eqn:E8.
  { apply N.eqb_eq in E8. exists (UByte c). split; [|done]. rewrite !string_app_cons. simpl.
    rewrite string_app_nil_l. replace (ascii_of_pos 8) with c by (rewrite <- (chr_code c), E8; reflexivity).
    by destruct (lex_str t) as [[]|]. }
  destruct (code c =? 12) eqn:E12.
  { apply N.eqb_eq in E12. exists (UByte c). split; [|done]. rewrite !string_app_cons. simpl.
    rewrite string_app_nil_l. replace (ascii_of_pos 12) with c by (rewrite <- (chr_code c), E12; reflexivity).
    by destruct (lex_str t) as [[]|]. }
  destruct (code c =? 10) eqn:E10.
  { apply N.eqb_eq in E10. exists (UByte c). split; [|done]. rewrite !string_app_cons. simpl.
    rewrite string_app_nil_l. replace (ascii_of_pos 10) with c by (rewrite <- (chr_code c), E10; reflexivity).
    by destruct (lex_str t) as [[]|]. }
  destruct (code c =? 13) eqn:E13.
  { apply N.eqb_eq in E13. exists (UByte c). split; [|done]. rewrite !string_app_cons. simpl.
    rewrite string_app_nil_l. replace (ascii_of_pos 13) with c by (rewrite <- (chr_code c), E13; reflexivity).
    by destruct (lex_str t) as [[]|]. }
  destruct (code c =? 9) eqn:E9.
  { apply N.eqb_eq in E9. exists (UByte c). split; [|done]. rewrite !string_app_cons. simpl.
    rewrite string_app_nil_l. replace (ascii_of_pos 9) with c by (rewrite <- (chr_code c), E9; reflexivity).
    by destruct (lex_str t) as [[]|]. }
  destruct (code c <? 32) eqn:E5.
  - apply N.ltb_lt in E5. exists (UCode (code c)). split.
    + rewrite hex2_spec, !string_app_cons. simpl. rewrite hex4_00 by lia. simpl. rewrite string_app_nil_l. by destruct (lex_str t) as [[]|].
    + intros us. rewrite units_bytes_code by (unfold is_high; apply andb_false_iff; left;
        apply N.leb_gt; lia).
      unfold utf8. replace (code c <? 128) with true by (symmetry; apply N.ltb_lt; lia).
      by rewrite chr_code.
  - exists (UByte c). split; [|done]. rewrite string_app_cons, string_app_nil_l. simpl. rewrite E34, E92, E5.
    by destruct (lex_str t) as [[]|].
Qed.

(** A whole string through [esc] and back, up to the closing quote. *)
Lemma esc_lex s rest :
  exists us, lex_str (esc s +:+ String (chr 34) rest) = Some (us, rest) /\ units_bytes us = s.
Proof.
  induction s as [|c s (us & IH & Hus)]; [by exists []|].
  cbn [esc]. rewrite string_app_assoc.
  destruct (esc_char_lex c (esc s +:+ String (chr 34) rest)) as (u & Hl & Hu).
  exists (u :: us). rewrite Hl, IH, Hu, Hus. done.
Qed.

(** What may follow a value stops a number. *)
Lemma closes_cons c t :
  closes (String c t) = true ->
  is_digit c = false /\ code c <> 46 /\ code c <> 101 /\ code c <> 69 /\ is_ws c = false.
Proof.
  unfold closes, is_digit, is_ws. rewrite !orb_true_iff, !N.eqb_eq.
  intros [[H|H]|H]; rewrite H; split_and!; done.
Qed.

Lemma take_digits_app s rest :
  closes rest = true -> take_digits (s +:+ rest) = ((take_digits s).1, (take_digits s).2 +:+ rest).
Proof.
  intros Hr. induction s as [|c s IH].
  - destruct rest as [|c t]; [done|]. simpl. by rewrite (proj1 (closes_cons c t Hr)).
  - rewrite string_app_cons. simpl. destruct (is_digit c); [|done].
    rewrite IH. by destruct (take_digits s).
Qed.

Lemma lex_int_app s i r rest :
  closes rest = true -> lex_int s = Some (i, r) -> lex_int (s +:+ rest) = Some (i, r +:+ rest).
Proof.
  intros Hr. destruct s as [|c s]; [done|]. rewrite string_app_cons. simpl.
  destruct (code c =? 48); [by intros [= <- <-]|]. destruct (is_digit c); [|done].
  rewrite take_digits_app by done. destruct (take_digits s). by intros [= <- <-].
Qed.

Lemma lex_frac_app s f r rest :
  closes rest = true -> lex_frac s = Some (f, r) -> lex_frac (s +:+ rest) = Some (f, r +:+ rest).
Proof.
  intros Hr. destruct s as [|c s]; simpl.
  - intros [= <- <-]. destruct rest as [|c t]; [done|].
    destruct (closes_cons c t Hr) as (_ & H46 & _). simpl. by rewrite (proj2 (N.eqb_neq _ _) H46).
  - rewrite string_app_cons. simpl. destruct (code c =? 46); [|by intros [= <- <-]].
    rewrite take_digits_app by done. destruct (take_digits s) as [[|d ds] r']; [done|].
    by intros [= <- <-].
Qed.

Lemma lex_exp_digits_app s d r rest :
  closes rest = true -> lex_exp_digits s = Some (d, r) -> lex_exp_digits (s +:+ rest) = Some (d, r +:+ rest).
Proof.
  intros Hr. unfold lex_exp_digits. rewrite take_digits_app by done.
  destruct (take_digits s) as [[|c ds] r']; [done|]. by intros [= <- <-].
Qed.

Lemma lex_exp_app s e r rest :
  closes rest = true -> lex_exp s = Some (e, r) -> lex_exp (s +:+ rest) = Some (e, r +:+ rest).
Proof.
  intros Hr. destruct s as [|c s]; simpl.
  - intros [= <- <-]. destruct rest as [|c t]; [done|].
    destruct (closes_cons c t Hr) as (_ & _ & H101 & H69 & _). simpl.
    by rewrite (proj2 (N.eqb_neq _ _) H101), (proj2 (N.eqb_neq _ _) H69).
  - rewrite string_app_cons. simpl. destruct (_ || _); [|by intros [= <- <-]].
    destruct s as [|sg s']; [done|]. rewrite string_app_cons. destruct (_ || _).
    + destruct (lex_exp_digits s') as [[d r']|] eqn:E; [|done]. simpl.
      rewrite (lex_exp_digits_app _ _ _ _ Hr E). by intros [= <- <-].
    + destruct (lex_exp_digits (String sg s')) as [[d r']|] eqn:E; [|done]. simpl.
      rewrite <- string_app_cons, (lex_exp_digits_app _ _ _ _ Hr E). by intros [= <- <-].
Qed.

(** The lexer after the sign: integer, fraction, exponent. *)
Lemma lex_chain_app sign s1 l r rest :
  closes rest = true ->
  ('(i, s2) ← lex_int s1; '(f, s3) ← lex_frac s2; '(e, s4) ← lex_exp s3;
   Some (sign +:+ i +:+ f +:+ e, s4)) = Some (l, r) ->
  ('(i, s2) ← lex_int (s1 +:+ rest); '(f, s3) ← lex_frac s2; '(e, s4) ← lex_exp s3;
   Some (sign +:+ i +:+ f +:+ e, s4)) = Some (l, r +:+ rest).
Proof.
  intros Hr. destruct (lex_int s1) as [[i s2]|] eqn:Ei; [|done]. rewrite (lex_int_app _ _ _ _ Hr Ei). simpl.
  destruct (lex_frac s2) as [[f s3]|] eqn:Ef; [|done]. rewrite (lex_frac_app _ _ _ _ Hr Ef). simpl.
  destruct (lex_exp s3) as [[e s4]|] eqn:Ee; [|done]. rewrite (lex_exp_app _ _ _ _ Hr Ee). simpl.
  by intros [= <- <-].
Qed.

Lemma lex_number_app s l r rest :
  closes rest = true -> lex_number s = Some (l, r) -> lex_number (s +:+ rest) = Some (l, r +:+ rest).
Proof.
  intros Hr. unfold lex_number. destruct s as [|c s]; [done|]. rewrite string_app_cons.
  cbn -[lex_int lex_frac lex_exp]. destruct (code c =? 45).
  - by apply lex_chain_app.
  - rewrite <- string_app_cons. by apply lex_chain_app.
Qed.

(** A number lexeme followed by what may follow a value reads back. *)
Lemma is_number_app l rest :
  is_number l = true -> closes rest = true -> lex_number (l +:+ rest) = Some (l, rest).
Proof.
  unfold is_number. destruct (lex_number l) as [[l' [|c t]]|] eqn:E; try done.
  intros Heq Hr. apply String.eqb_eq in Heq. subst l'. by rewrite (lex_number_app _ _ _ _ Hr E).
Qed.

(** A number lexeme starts with a minus sign or a digit. *)
Lemma is_number_head l :
  is_number l = true -> exists c t, l = String c t /\ ((code c =? 45) || is_digit c) = true.
Proof.
  unfold is_number, lex_number. destruct l as [|c t]; [done|]. intros H. exists c, t. split; [done|].
  cbn -[lex_int lex_frac lex_exp] in H. destruct (code c =? 45); [done|].
  simpl in H. destruct (code c =? 48) eqn:E0.
  - apply N.eqb_eq in E0. unfold is_digit. by rewrite E0.
  - by destruct (is_digit c).
Qed.

Lemma skip_ws_nonws c t : is_ws c = false -> skip_ws (String c t) = String c t.
Proof. simpl. by intros ->. Qed.

Lemma sep_by_true_cons x xs : sep_by true (x :: xs) = x +:+ sep_by false xs.
Proof. reflexivity. Qed.

Lemma sep_by_false_cons x xs : sep_by false (x :: xs) = "," +:+ x +:+ sep_by false xs.
Proof. reflexivity. Qed.

Lemma sep_by_false_app {A} (g : A -> string) x xs t :
  sep_by false (map g (x :: xs)) +:+ t = String "," (sep_by true (map g (x :: xs)) +:+ t).
Proof. reflexivity. Qed.

(** After an element come the elements left and the closing bracket. *)
Lemma sep_close_facts xs c rest :
  code c = 93 \/ code c = 125 ->
  closes (sep_by false xs +:+ String c rest) = true /\
  skip_ws (sep_by false xs +:+ String c rest) = sep_by false xs +:+ String c rest.
Proof.
  intros Hc. destruct xs as [|x xs]; simpl.
  - unfold closes, is_ws. destruct Hc as [-> | ->]; done.
  - done.
Qed.

(** A character that may begin a number is neither blank nor an opening
    of something else. *)
Lemma number_head_facts c :
  ((code c =? 45) || is_digit c) = true ->
  is_ws c = false /\ (code c =? 123) = false /\ (code c =? 91) = false /\ (code c =? 34) = false /\
  code c <> 93 /\ code c <> 125.
Proof.
  unfold is_ws, is_digit. rewrite orb_true_iff, andb_true_iff, N.eqb_eq, !N.leb_le. intros Hc.
  split_and!; try (apply Bool.not_true_iff_false; rewrite ?orb_true_iff, ?N.eqb_eq); lia.
Qed.

(** A printed value starts with a character that is not blank and does
    not close a bracket. *)
Lemma print_head v :
  json_ok v = true -> exists c t, print v = String c t /\ is_ws c = false /\ code c <> 93 /\ code c <> 125.
Proof.
  destruct v as [| [] | l | s | vs | kvs]; simpl; intros Hok; try by (do 2 eexists; split_and!; [reflexivity|done..]).
  destruct (is_number_head l Hok) as (c & t & -> & Hc). exists c, t.
  destruct (number_head_facts c Hc) as (? & _ & _ & _ & ? & ?). done.
Qed.

(** The elements of an array, each read back by the induction
    hypothesis, then the closing bracket. *)
Lemma elems_read vs :
  Forall (fun v => json_ok v = true -> forall f rest, (sz v < f)%nat -> closes rest = true ->
            parse_value f (print v +:+ rest) = Some (v, rest)) vs ->
  forallb json_ok vs = true ->
  forall f acc rest, vs <> [] -> (sum_list (map (fun v => S (sz v)) vs) < f)%nat ->
  parse_elems f acc (sep_by true (map print vs) +:+ String "]" rest) = Some (JArr (rev acc ++ vs), rest).
Proof.
  induction 1 as [|v vs Hv Hvs IH]; [done|]. cbn [forallb]. rewrite andb_true_iff.
  intros [Hv_ok Hvs_ok] [|f] acc rest _ Hf; simpl in Hf; [lia|].
  cbn [map]. rewrite sep_by_true_cons, string_app_assoc.
  destruct (sep_close_facts (map print vs) "]"%char rest) as [Hc Hs]; [by left|].
  cbn [parse_elems]. rewrite (Hv Hv_ok f) by (done || lia). cbn [mbind option_bind]. rewrite Hs.
  destruct vs as [|x xs].
  - done.
  - rewrite sep_by_false_app. cbn -[parse_elems sep_by print map].
    rewrite (IH Hvs_ok f (v :: acc) rest) by (done || (simpl in *; lia)).
    simpl. by rewrite <- app_assoc.
Qed.

(** The members of an object, then the closing brace. *)
Lemma members_read kvs :
  Forall (fun kv => json_ok kv.2 = true -> forall f rest, (sz kv.2 < f)%nat -> closes rest = true ->
            parse_value f (print kv.2 +:+ rest) = Some (kv.2, rest)) kvs ->
  forallb (fun kv => json_ok kv.2) kvs = true ->
  forall f acc rest, kvs <> [] -> (sum_list (map (fun kv => S (sz kv.2)) kvs) < f)%nat ->
  parse_members f acc (sep_by true (map (fun kv => quote kv.1 +:+ ":" +:+ print kv.2) kvs)
                       +:+ String "}" rest) = Some (JObj (rev acc ++ kvs), rest).
Proof.
  induction 1 as [|[k v] kvs Hv Hkvs IH]; [done|]. cbn [forallb]. rewrite andb_true_iff.
  intros [Hv_ok Hkvs_ok] [|f] acc rest _ Hf; simpl in Hf; [lia|]. simpl in Hv, Hv_ok.
  cbn [map]. rewrite sep_by_true_cons. unfold quote at 1.
  destruct (sep_close_facts (map (fun kv => quote kv.1 +:+ ":" +:+ print kv.2) kvs) "}"%char rest)
    as [Hc Hs]; [by right|].
  autorewrite with gdrive_rw.
  destruct (esc_lex k (String ":" (print v +:+ sep_by false (map (fun kv => quote kv.1 +:+ ":" +:+ print kv.2) kvs)
                                     +:+ String "}" rest))) as (us & Hl & Hus).
  simpl. change (ascii_of_pos 34) with (chr 34). rewrite Hl. simpl.
  rewrite (Hv Hv_ok f) by (done || lia). simpl. rewrite Hs, Hus. destruct kvs as [|[k' v'] kvs].
  - done.
  - rewrite sep_by_false_app. cbn -[parse_members sep_by print quote map].
    rewrite (IH Hkvs_ok f ((k, v) :: acc) rest) by (done || (simpl in *; lia)).
    simpl. by rewrite <- app_assoc.
Qed.

(** A printed value followed by what may follow a value reads back, with
    any fuel above its nesting. *)
Lemma print_parse_value v :
  json_ok v = true -> forall f rest, (sz v < f)%nat -> closes rest = true ->
  parse_value f (print v +:+ rest) = Some (v, rest).
Proof.
  induction v as [| b | l | s | vs IH | kvs IH] using json_ind;
    intros Hok [|f] rest Hf Hr; try (simpl in Hf; lia).
  - cbn [print]. by rewrite !string_app_cons, string_app_nil_l.
  - destruct b; cbn [print]; by rewrite !string_app_cons, string_app_nil_l.
  - destruct (is_number_head l Hok) as (c & t & -> & Hc).
    destruct (number_head_facts c Hc) as (Hws & H123 & H91 & H34 & _ & _).
    cbn [print]. rewrite string_app_cons. cbn [parse_value skip_ws].
    rewrite Hws, H123, H91, H34, Hc. rewrite <- string_app_cons, (is_number_app _ _ Hok Hr). done.
  - destruct (esc_lex s rest) as (us & Hl & Hus).
    cbn [print]. unfold quote. rewrite string_app_cons, string_app_assoc, string_app_cons, string_app_nil_l.
    remember (esc s) as es. simpl. change (ascii_of_pos 34) with (chr 34). subst es.
    rewrite Hl. simpl. by rewrite Hus.
  - cbn [print]. rewrite !string_app_assoc, string_app_cons, string_app_cons, string_app_nil_l.
    cbn [json_ok] in Hok. simpl in Hf. destruct vs as [|v vs].
    + done.
    + destruct (print_head v) as (c & t & Hpv & Hws & H93 & _);
        [simpl in Hok; apply andb_true_iff in Hok; tauto|].
      rewrite string_app_nil_l. cbn [parse_value]. rewrite (skip_ws_nonws "["%char) by reflexivity.
      cbn -[parse_elems parse_members lex_str lex_number strip_prefix sep_by print map skip_ws].
      assert (sep_by true (map print (v :: vs)) +:+ String "]" rest
              = String c (t +:+ sep_by false (map print vs) +:+ String "]" rest)) as Hsep
        by (cbn [map]; rewrite sep_by_true_cons, Hpv, string_app_assoc; reflexivity).
      rewrite Hsep, skip_ws_nonws by done. rewrite (proj2 (N.eqb_neq _ _) H93). cbn iota.
      rewrite <- Hsep, (elems_read (v :: vs) IH Hok f [] rest); [done|done|lia].
  - cbn [print]. rewrite !string_app_assoc, string_app_cons, string_app_cons, string_app_nil_l.
    cbn [json_ok] in Hok. simpl in Hf. destruct kvs as [|[k v] kvs].
    + done.
    + rewrite string_app_nil_l. cbn [parse_value]. rewrite (skip_ws_nonws "{"%char) by reflexivity.
      cbn -[parse_elems parse_members lex_str lex_number strip_prefix sep_by print map skip_ws].
      assert (exists X, sep_by true (map (fun kv => quote kv.1 +:+ ":" +:+ print kv.2) ((k, v) :: kvs))
                     +:+ String "}" rest = String (chr 34) X) as [X Hsep] by (eexists; reflexivity).
      rewrite Hsep, skip_ws_nonws by reflexivity. simpl (code (chr 34) =? 125). cbn iota.
      rewrite <- Hsep, (members_read ((k, v) :: kvs) IH Hok f [] rest); [done|done|lia].
Qed.


End Roundtrip.

(** ** [JSON.parse] and [JSON.stringify] *)

(** [JSON.parse(JSON.stringify(v))] is [v] for every value whose numbers
    are JSON number lexemes. *)
Theorem parse_print v : json_ok v = true -> parse_json (print v) = Some v.
Proof.
  intros Hok. unfold parse_json.
  rewrite <- (proj1 (parse_fuel_mono (parse_fuel (print v))) (print v) (Nat.max (parse_fuel (print v)) (S (sz v))))
    by (unfold parse_fuel; lia).
  pose proof (print_parse_value v Hok (Nat.max (parse_fuel (print v)) (S (sz v))) "") as H.
  rewrite string_app_nil_r in H. by rewrite H by (done || lia).
Qed.

