(* ===== verification/Url.v ===== *)
(** * Url: the URL of a request as Express decodes it

    Express routes on the path of [req.url] (before [?]), decodes every
    route parameter with [decodeURIComponent] (a [URIError] becomes a 400
    "Failed to decode param"), and parses the query string with qs (its
    default "extended" parser), which turns [%5B] and [%5D] into brackets,
    reads the first 1000 parts, cuts each after its first [\]=] or at its
    first [=], and decodes with [+] as a space, keeping a value it cannot
    decode as it is.  A client builds such a URL with
    [encodeURIComponent].  This file models the three, over strings of
    bytes: Node hands Express the URL as one character per byte, and the
    model keeps a decoded text as its UTF-8 bytes.  [decodeURIComponent]
    checks the UTF-8 sequences of its escapes as ECMAScript's Decode does:
    a lead byte and its continuation bytes, no overlong form, no
    surrogate, nothing above U+10FFFF. *)

From stdpp Require Import base strings list.
From Stdlib Require Import NArith Ascii Lia.
From S2P Require Import Prelude ObjectId Json.
Import Json.

Open Scope N_scope.

Module Url.

(** ** [encodeURIComponent] *)

(** [A-Z a-z 0-9 - _ . ! ~ * ' ( )] stay as they are. *)
Definition is_unreserved (c : ascii) : bool :=
  let n := code c in
  ((48 <=? n) && (n <=? 57)) || ((65 <=? n) && (n <=? 90)) || ((97 <=? n) && (n <=? 122)) ||
  (n =? 45) || (n =? 95) || (n =? 46) || (n =? 33) || (n =? 126) || (n =? 42) ||
  (n =? 39) || (n =? 40) || (n =? 41).

(** An upper-case hex digit. *)
Definition hex_upper (d : N) : ascii := ascii_of_N (if d <? 10 then 48 + d else 55 + d).

Definition pct (b : N) : string :=
  String "%" (String (hex_upper (b / 16)) (String (hex_upper (b mod 16)) "")).

Fixpoint encode_uri_component (s : string) : string :=
  match s with
  | EmptyString => ""
  | String c s' => (if is_unreserved c then String c "" else pct (code c)) +:+ encode_uri_component s'
  end.

(** ** [decodeURIComponent] *)

Definition hex_byte (a b : ascii) : option N :=
  x ← hex_value a; y ← hex_value b; Some (x * 16 + y).

(** The length of the UTF-8 sequence a lead byte announces; 0 for a
    byte that cannot lead one. *)
Definition utf8_len (b : N) : nat :=
  if b <? 128 then 1
  else if N.land b 224 =? 192 then 2
  else if N.land b 240 =? 224 then 3
  else if N.land b 248 =? 240 then 4
  else 0.

Definition is_cont (b : N) : bool := N.land b 192 =? 128.

(** A lead byte and its continuation bytes encode a code point, with no
    overlong form, no surrogate and nothing above U+10FFFF. *)
Definition utf8_ok (bs : list N) : bool :=
  match bs with
  | [b0; b1] =>
      is_cont b1 && (128 <=? N.lor (N.shiftl (N.land b0 31) 6) (N.land b1 63))
  | [b0; b1; b2] =>
      let cp := N.lor (N.shiftl (N.land b0 15) 12) (N.lor (N.shiftl (N.land b1 63) 6) (N.land b2 63)) in
      is_cont b1 && is_cont b2 && (2048 <=? cp) && negb ((55296 <=? cp) && (cp <=? 57343))
  | [b0; b1; b2; b3] =>
      let cp := N.lor (N.shiftl (N.land b0 7) 18)
                  (N.lor (N.shiftl (N.land b1 63) 12) (N.lor (N.shiftl (N.land b2 63) 6) (N.land b3 63))) in
      is_cont b1 && is_cont b2 && is_cont b3 && (65536 <=? cp) && (cp <=? 1114111)
  | _ => false
  end.

Definition bytes (bs : list N) : string := foldr (fun b acc => String (chr b) acc) "" bs.

(** [n] more escapes [%XX]. *)
Fixpoint read_escapes (n : nat) (s : string) : option (list N * string) :=
  match n with
  | O => Some ([], s)
  | S n' =>
      match s with
      | String p (String h1 (String h2 r)) =>
          if code p =? 37 then
            b ← hex_byte h1 h2; '(bs, r') ← read_escapes n' r; Some (b :: bs, r')
          else None
      | _ => None
      end
  end.

(** One step per character read; [None] is the [URIError]. *)
Fixpoint decode_fuel (fuel : nat) (s : string) : option string :=
  match fuel with
  | O => None
  | S f =>
      match s with
      | EmptyString => Some ""
      | String c r =>
          if code c =? 37 then
            match r with
            | String h1 (String h2 r') =>
                b ← hex_byte h1 h2;
                if b <? 128 then t ← decode_fuel f r'; Some (String (chr b) t)
                else
                  match utf8_len b with
                  | O | S O => None
                  | S n =>
                      '(bs, r'') ← read_escapes n r';
                      if utf8_ok (b :: bs) then t ← decode_fuel f r''; Some (bytes (b :: bs) +:+ t)
                      else None
                  end
            | _ => None
            end
          else t ← decode_fuel f r; Some (utf8 (code c) +:+ t)
      end
  end.

Definition decode_uri_component (s : string) : option string :=
  decode_fuel (S (String.length s)) s.

(** [n] raw bytes. *)
Fixpoint take_bytes (n : nat) (s : string) : option (list N * string) :=
  match n with
  | O => Some ([], s)
  | S n' =>
      match s with
      | String c r => '(bs, r') ← take_bytes n' r; Some (code c :: bs, r')
      | EmptyString => None
      end
  end.

(** The UTF-8 texts: what [decodeURIComponent] accepts back. *)
Fixpoint valid_fuel (fuel : nat) (s : string) : bool :=
  match fuel with
  | O => false
  | S f =>
      match s with
      | EmptyString => true
      | String c r =>
          if code c <? 128 then valid_fuel f r
          else
            match utf8_len (code c) with
            | O | S O => false
            | S n =>
                match take_bytes n r with
                | Some (bs, r') => utf8_ok (code c :: bs) && valid_fuel f r'
                | None => false
                end
            end
      end
  end.

Definition valid_utf8 (s : string) : bool := valid_fuel (S (String.length s)) s.

(** ** Express: parameters and the query string *)

(** [decode_param]: an empty parameter stays; a [URIError] becomes the
    400 ["Failed to decode param '...'"]. *)
Definition decode_param (val : string) : string + string :=
  match val with
  | EmptyString => inl val
  | _ =>
      match decode_uri_component val with
      | Some t => inl t
      | None => inr ("Failed to decode param '" +:+ val +:+ "'")
      end
  end.

(** A character of the URL as the UTF-8 bytes of a JavaScript string. *)
Fixpoint latin1_utf8 (s : string) : string :=
  match s with
  | EmptyString => ""
  | String c s' => utf8 (code c) +:+ latin1_utf8 s'
  end.

Fixpoint plus_to_space (s : string) : string :=
  match s with
  | EmptyString => ""
  | String c s' => String (if code c =? 43 then " "%char else c) (plus_to_space s')
  end.

(** qs's decoder: [+] is a space, then [decodeURIComponent], and the text
    as it is when that throws. *)
Definition qs_decode (s : string) : string :=
  let s' := plus_to_space s in
  match decode_uri_component s' with
  | Some t => t
  | None => latin1_utf8 s'
  end.

(** [s] cut at the first [c], if [c] occurs. *)
Fixpoint split_at (c : ascii) (s : string) : option (string * string) :=
  match s with
  | EmptyString => None
  | String d s' =>
      if Ascii.eqb d c then Some ("", s')
      else '(a, b) ← split_at c s'; Some (String d a, b)
  end.

Fixpoint split_all (c : ascii) (s : string) : list string :=
  match s with
  | EmptyString => [""]
  | String d s' =>
      if Ascii.eqb d c then "" :: split_all c s'
      else match split_all c s' with
           | [] => [String d ""]
           | x :: xs => String d x :: xs
           end
  end.

(** qs first turns every [%5B] and [%5D] (in either case) into the
    bracket it escapes. *)
Fixpoint qs_clean (s : string) : string :=
  match s with
  | String p ((String a (String b r)) as t) =>
      if (code p =? 37) && (code a =? 53) && ((code b =? 66) || (code b =? 98)) then String "[" (qs_clean r)
      else if (code p =? 37) && (code a =? 53) && ((code b =? 68) || (code b =? 100)) then String "]" (qs_clean r)
      else String p (qs_clean t)
  | _ => s
  end.

(** [part.indexOf(']=')]: the text up to and including the [\]], and
    the text after the [=]. *)
Fixpoint split_bracket_eq (s : string) : option (string * string) :=
  match s with
  | String c ((String d r) as t) =>
      if (code c =? 93) && (code d =? 61) then Some ("]", r)
      else '(k, v) ← split_bracket_eq t; Some (String c k, v)
  | _ => None
  end.

(** One [key=value] of the query: qs cuts after the first [\]=], or else
    at the first [=], decodes both sides, and gives [''] to a key
    without [=]. *)
Definition query_pair (part : string) : string * string :=
  match split_bracket_eq part with
  | Some (k, v) => (qs_decode k, qs_decode v)
  | None =>
      match split_at "=" part with
      | Some (k, v) => (qs_decode k, qs_decode v)
      | None => (qs_decode part, "")
      end
  end.

(** qs's [parameterLimit]: the parts after the first thousand are dropped. *)
Definition parameter_limit : nat := 1000.

(** The pairs of the query; an empty part gives the key [''], which qs
    drops. *)
Definition query_pairs (q : string) : list (string * string) :=
  map query_pair (filter (fun p => negb (String.eqb p "")) (take parameter_limit (split_all "&" (qs_clean q)))).

(** What [req.query.name] is. *)
Inductive qvalue :=
| QAbsent                (** [undefined] *)
| QOne (v : string)      (** one string *)
| QMany.                 (** an array or an object: several values, or a
                             bracketed key; the handlers are not modelled
                             on these *)

(** Whether [s], after an opening bracket, closes a group [[^[\]]*\]]. *)
Fixpoint closes_group (s : string) : bool :=
  match s with
  | EmptyString => false
  | String c s' => if code c =? 93 then true else if code c =? 91 then false else closes_group s'
  end.

(** qs's [parseKeys]: the part of a key before its first bracket group
    [[...]], when it has one; such a key makes the value an array or an
    object under that parent. *)
Fixpoint bracket_parent (key : string) : option string :=
  match key with
  | EmptyString => None
  | String c s' =>
      if (code c =? 91) && closes_group s' then Some ""
      else p ← bracket_parent s'; Some (String c p)
  end.

Definition query_value (name : string) (q : string) : qvalue :=
  let ps := query_pairs q in
  if existsb (fun kv => bool_decide (bracket_parent kv.1 = Some name)) ps then QMany
  else match filter (fun kv => String.eqb kv.1 name) ps with
       | [] => QAbsent
       | [(_, v)] => QOne v
       | _ => QMany
       end.

(** [parseurl]: the path and the query string of [req.url]. *)
Definition split_url (url : string) : string * string :=
  match split_at "?" url with
  | Some (p, q) => (p, q)
  | None => (url, "")
  end.

End Url.

Import Url.

(** ** Escaped texts *)

(** Percent-escaping that keeps the characters [keep] selects:
    [encodeURIComponent] keeps the unreserved ones, and what qs reads
    after its bracket replacement keeps the brackets too. *)
Fixpoint escape_with (keep : ascii -> bool) (s : string) : string :=
  match s with
  | EmptyString => ""
  | String c s' => (if keep c then String c "" else pct (code c)) +:+ escape_with keep s'
  end.

Definition qs_keep (c : ascii) : bool := is_unreserved c || (code c =? 91) || (code c =? 93).

Fixpoint has_char (c : ascii) (s : string) : bool :=
  match s with
  | EmptyString => false
  | String d s' => Ascii.eqb d c || has_char c s'
  end.

(** A key of letters, digits and [-_.!~*'()] is its own escape. *)
Fixpoint plain (s : string) : bool :=
  match s with
  | EmptyString => true
  | String c s' => is_unreserved c && plain s'
  end.

(** ** Lemmas *)

Section Digits.

Lemma hex_upper_value d : d < 16 -> hex_value (hex_upper d) = Some d.
Proof.
  intros Hd.
  assert (d = 0 \/ d = 1 \/ d = 2 \/ d = 3 \/ d = 4 \/ d = 5 \/ d = 6 \/ d = 7 \/
          d = 8 \/ d = 9 \/ d = 10 \/ d = 11 \/ d = 12 \/ d = 13 \/ d = 14 \/ d = 15)
    as Hc by lia.
  repeat destruct Hc as [->|Hc]; [reflexivity ..|subst; reflexivity].
Qed.

Lemma hex_byte_pct b : b < 256 -> hex_byte (hex_upper (b / 16)) (hex_upper (b mod 16)) = Some b.
Proof.
  intros Hb. unfold hex_byte.
  rewrite !hex_upper_value by (apply N.mod_lt || apply N.Div0.div_lt_upper_bound; lia).
  simpl. f_equal. pose proof (N.div_mod b 16). lia.
Qed.

Lemma pct_code c r :
  pct (code c) +:+ r = String "%" (String (hex_upper (code c / 16)) (String (hex_upper (code c mod 16)) r)).
Proof. reflexivity. Qed.

(** Facts on the 256 characters, by evaluation. *)
Lemma unreserved_code c : is_unreserved c = true -> code c < 128 /\ (code c =? 37) = false.
Proof. destruct c as [[] [] [] [] [] [] [] []]; vm_compute; intuition congruence. Qed.

Lemma qs_keep_code c : qs_keep c = true -> code c < 128 /\ (code c =? 37) = false.
Proof. destruct c as [[] [] [] [] [] [] [] []]; vm_compute; intuition congruence. Qed.

Lemma cont_high c : is_cont (code c) = true -> 128 <= code c.
Proof. destruct c as [[] [] [] [] [] [] [] []]; vm_compute; intuition congruence. Qed.

Lemma pct_digits_unreserved c :
  is_unreserved (hex_upper (code c / 16)) = true /\ is_unreserved (hex_upper (code c mod 16)) = true.
Proof. destruct c as [[] [] [] [] [] [] [] []]; split; reflexivity. Qed.

(** qs's replacement sees [%5B] exactly in the escape of [\[], and [%5D]
    in that of [\]]. *)
Lemma pct_bracket c :
  ((code (hex_upper (code c / 16)) =? 53) &&
   ((code (hex_upper (code c mod 16)) =? 66) || (code (hex_upper (code c mod 16)) =? 98)) = (code c =? 91)) /\
  ((code (hex_upper (code c / 16)) =? 53) &&
   ((code (hex_upper (code c mod 16)) =? 68) || (code (hex_upper (code c mod 16)) =? 100)) = (code c =? 93)).
Proof. destruct c as [[] [] [] [] [] [] [] []]; split; reflexivity. Qed.

Lemma ascii_utf8 c : code c < 128 -> utf8 (code c) = String c "".
Proof. intros Hc. unfold utf8. rewrite (proj2 (N.ltb_lt _ _) Hc). by rewrite chr_code. Qed.

Lemma has_char_app c s t : has_char c (s +:+ t) = has_char c s || has_char c t.
Proof. induction s as [|d s IH]; simpl; [done|]. by rewrite IH, orb_assoc. Qed.

Lemma code_eq c n : (code c =? n) = true -> c = chr n.
Proof. intros E%N.eqb_eq. by rewrite <- E, chr_code. Qed.

End Digits.

Section Escape.
Local Abbreviation len := String.length.

(** What [keep] keeps is ASCII and not [%]. *)
Variable keep : ascii -> bool.
Hypothesis keep_ascii : forall c, keep c = true -> code c < 128 /\ (code c =? 37) = false.

Lemma cont_escaped c : is_cont (code c) = true -> keep c = false.
Proof.
  intros Hc. destruct (keep c) eqn:Hk; [|done].
  destruct (keep_ascii c Hk). pose proof (cont_high c Hc). lia.
Qed.

Lemma escape_length s : (len s <= len (escape_with keep s))%nat.
Proof.
  induction s as [|c s IH]; simpl; [lia|].
  rewrite string_app_length. destruct (keep c); simpl; lia.
Qed.

Lemma take_bytes_spec n r bs r' :
  take_bytes n r = Some (bs, r') -> r = bytes bs +:+ r' /\ (len r' <= len r)%nat.
Proof.
  revert r bs. induction n as [|n IH]; intros r bs; simpl.
  - intros [= <- <-]. split; [done | lia].
  - destruct r as [|c r]; [discriminate|].
    destruct (take_bytes n r) as [[bs0 r0]|] eqn:E; [|discriminate]. intros [= <- <-].
    destruct (IH _ _ E) as [-> Hl]. simpl. rewrite chr_code. split; [done|].
    rewrite string_app_length in *. simpl. lia.
Qed.

Lemma utf8_ok_conts b bs : utf8_ok (b :: bs) = true -> Forall (fun x => is_cont x = true) bs.
Proof.
  destruct bs as [|b1 [|b2 [|b3 [|? ?]]]]; simpl; try discriminate;
    rewrite ?andb_true_iff; intuition auto.
Qed.

Lemma read_escapes_escape n r bs r' :
  take_bytes n r = Some (bs, r') -> Forall (fun x => is_cont x = true) bs ->
  read_escapes n (escape_with keep r) = Some (bs, escape_with keep r').
Proof.
  revert r bs. induction n as [|n IH]; intros r bs; cbn [take_bytes].
  - by intros [= <- <-].
  - destruct r as [|c r]; [discriminate|]. simpl.
    destruct (take_bytes n r) as [[bs0 r0]|] eqn:E; [|discriminate]. intros [= <- <-] Hc.
    apply Forall_cons in Hc as [Hc Hcs]. cbn [escape_with]. rewrite (cont_escaped c Hc).
    rewrite pct_code. simpl.
    rewrite hex_byte_pct by apply N_ascii_bounded. simpl. by rewrite (IH _ _ E Hcs).
Qed.

(** Every step of [decodeURIComponent] undoes one character of the
    escaping. *)
Lemma decode_fuel_escape f g s :
  (len s < f)%nat -> valid_fuel g s = true -> decode_fuel f (escape_with keep s) = Some s.
Proof.
  revert g s. induction f as [|f IH]; intros g s Hf; [lia|].
  destruct g as [|g]; [discriminate|].
  destruct s as [|c r]; [done|]. simpl in Hf. cbn [valid_fuel escape_with].
  pose proof (N_ascii_bounded c) as Hb. fold (code c) in Hb.
  destruct (keep c) eqn:Hu.
  - destruct (keep_ascii c Hu) as [Hl H37].
    rewrite (proj2 (N.ltb_lt _ _) Hl). intros Hv. rewrite string_app_cons, string_app_nil_l. simpl.
    rewrite H37, (IH g r) by (done || lia). simpl. by rewrite ascii_utf8.
  - rewrite pct_code. cbn [decode_fuel]. change (code "%") with 37. simpl (37 =? 37).
    rewrite hex_byte_pct by done. cbn [mbind option_bind].
    destruct (code c <? 128) eqn:Hl.
    + intros Hv. rewrite (IH g r) by (done || lia). simpl. by rewrite chr_code.
    + destruct (utf8_len (code c)) as [|[|n]]; try discriminate.
      destruct (take_bytes (S n) r) as [[bs r']|] eqn:Ht; [|discriminate].
      intros [Hok Hv]%andb_true_iff. destruct (take_bytes_spec _ _ _ _ Ht) as [Hr Hlen].
      rewrite (read_escapes_escape _ _ _ _ Ht (utf8_ok_conts _ _ Hok)). cbn [mbind option_bind].
      rewrite Hok, (IH g r') by (done || lia). simpl. by rewrite chr_code, Hr.
Qed.

Lemma decode_escape s : valid_utf8 s = true -> decode_uri_component (escape_with keep s) = Some s.
Proof.
  intros Hv. unfold decode_uri_component. apply (decode_fuel_escape _ (S (String.length s))); [|exact Hv].
  pose proof (escape_length s). lia.
Qed.

(** A character the escaping neither keeps nor uses ([%] and the hex
    digits) never occurs in what it writes. *)
Lemma escape_no_char c s :
  is_unreserved c = false -> keep c = false -> (code c =? 37) = false ->
  has_char c (escape_with keep s) = false.
Proof.
  intros Hu Hk H37. induction s as [|d s IH]; [done|]. cbn [escape_with].
  rewrite has_char_app, IH, orb_false_r.
  destruct (keep d) eqn:Hd.
  - cbn [has_char]. rewrite orb_false_r. destruct (Ascii.eqb_spec d c) as [->|]; congruence.
  - destruct (pct_digits_unreserved d) as [H1 H2]. unfold pct. cbn [has_char].
    repeat match goal with |- context [Ascii.eqb ?x c] => destruct (Ascii.eqb_spec x c) as [<-|] end;
      try done; congruence.
Qed.

Lemma escape_nonempty s : s <> "" -> escape_with keep s <> "".
Proof.
  destruct s as [|c s]; [done|]. intros _. cbn [escape_with].
  destruct (keep c); discriminate.
Qed.

End Escape.

Section Query.

Lemma encode_escape s : encode_uri_component s = escape_with is_unreserved s.
Proof. induction s as [|c s IH]; simpl; [done|]. by rewrite IH. Qed.

(** [decodeURIComponent] undoes [encodeURIComponent] on every UTF-8 text. *)
Lemma decode_encode s : valid_utf8 s = true -> decode_uri_component (encode_uri_component s) = Some s.
Proof. rewrite encode_escape. apply (decode_escape is_unreserved unreserved_code). Qed.

Lemma encode_no_char c s :
  is_unreserved c = false -> (code c =? 37) = false -> has_char c (encode_uri_component s) = false.
Proof. intros. rewrite encode_escape. by apply (escape_no_char is_unreserved). Qed.

Lemma encode_nonempty s : s <> "" -> encode_uri_component s <> "".
Proof. rewrite encode_escape. apply (escape_nonempty is_unreserved). Qed.

Lemma split_at_none c s : has_char c s = false -> split_at c s = None.
Proof.
  induction s as [|d s IH]; simpl; [done|]. intros [Hd Hs]%orb_false_iff.
  by rewrite Hd, IH.
Qed.

Lemma split_at_app c s t : has_char c s = false -> split_at c (s +:+ String c t) = Some (s, t).
Proof.
  induction s as [|d s IH]; simpl.
  - by rewrite Ascii.eqb_refl.
  - intros [Hd Hs]%orb_false_iff. by rewrite Hd, IH.
Qed.

Lemma split_all_none c s : has_char c s = false -> split_all c s = [s].
Proof.
  induction s as [|d s IH]; simpl; [done|]. intros [Hd Hs]%orb_false_iff.
  by rewrite Hd, IH.
Qed.

Lemma code_neq c d : Ascii.eqb c d = false -> (code c =? code d) = false.
Proof.
  intros H. destruct (code c =? code d) eqn:E; [|done].
  apply N.eqb_eq in E. rewrite <- (chr_code c), <- (chr_code d), E, Ascii.eqb_refl in H. discriminate.
Qed.

Lemma plus_to_space_id s : has_char "+" s = false -> plus_to_space s = s.
Proof.
  induction s as [|d s IH]; simpl; [done|]. intros [Hd Hs]%orb_false_iff. rewrite IH by done.
  pose proof (code_neq d "+" Hd) as E. change (code "+") with 43 in E. by rewrite E.
Qed.

Lemma qs_clean_step p a b r :
  qs_clean (String p (String a (String b r))) =
  if (code p =? 37) && (code a =? 53) && ((code b =? 66) || (code b =? 98)) then String "[" (qs_clean r)
  else if (code p =? 37) && (code a =? 53) && ((code b =? 68) || (code b =? 100)) then String "]" (qs_clean r)
  else String p (qs_clean (String a (String b r))).
Proof. reflexivity. Qed.

Lemma qs_clean_cons c t : (code c =? 37) = false -> qs_clean (String c t) = String c (qs_clean t).
Proof. intros H. destruct t as [|a [|b r]]; [done|done|]. rewrite qs_clean_step. by rewrite H. Qed.

Lemma qs_clean_plain s t : has_char "%" s = false -> qs_clean (s +:+ t) = s +:+ qs_clean t.
Proof.
  induction s as [|c s IH]; [done|]. cbn [has_char]. intros [Hc Hs]%orb_false_iff.
  pose proof (code_neq c "%" Hc) as E. change (code "%") with 37 in E.
  rewrite string_app_cons, qs_clean_cons, IH by done. done.
Qed.

Lemma qs_clean_pct c t :
  qs_clean (pct (code c) +:+ t) =
  (if code c =? 91 then "[" else if code c =? 93 then "]" else pct (code c)) +:+ qs_clean t.
Proof.
  rewrite pct_code. destruct (pct_bracket c) as [E91 E93].
  destruct (pct_digits_unreserved c) as [U1 U2].
  rewrite qs_clean_step. change (code "%" =? 37) with true. cbn [andb]. rewrite E91, E93.
  destruct (code c =? 91); [done|]. destruct (code c =? 93); [done|].
  rewrite !qs_clean_cons by (apply unreserved_code; done). reflexivity.
Qed.

(** What qs reads of an escaped value once it has put the brackets back. *)
Lemma qs_clean_encode v : qs_clean (encode_uri_component v) = escape_with qs_keep v.
Proof.
  induction v as [|c v IH]; [done|]. cbn [encode_uri_component escape_with]. unfold qs_keep.
  destruct (is_unreserved c) eqn:Hu; cbn [orb].
  - rewrite string_app_cons, string_app_nil_l, qs_clean_cons, IH by (apply unreserved_code; done).
    done.
  - rewrite qs_clean_pct, IH. destruct (code c =? 91) eqn:E91; [by rewrite (code_eq c 91 E91)|].
    destruct (code c =? 93) eqn:E93; [by rewrite (code_eq c 93 E93)|]. done.
Qed.

Lemma qs_decode_escape v : valid_utf8 v = true -> qs_decode (escape_with qs_keep v) = v.
Proof.
  intros Hv. unfold qs_decode.
  rewrite plus_to_space_id by (by apply (escape_no_char qs_keep)).
  by rewrite (decode_escape qs_keep qs_keep_code).
Qed.

Lemma plain_encode k : plain k = true -> encode_uri_component k = k.
Proof.
  induction k as [|c k IH]; simpl; [done|]. intros [-> Hk]%andb_true_iff. by rewrite IH.
Qed.

Lemma plain_no_char c k : is_unreserved c = false -> plain k = true -> has_char c k = false.
Proof.
  intros Hu. induction k as [|d k IH]; simpl; [done|]. intros [Hd Hk]%andb_true_iff.
  rewrite IH by done. destruct (Ascii.eqb_spec d c) as [->|]; [congruence|done].
Qed.

Lemma qs_decode_plain k : plain k = true -> valid_utf8 k = true -> qs_decode k = k.
Proof.
  intros Hk Hv. unfold qs_decode. rewrite plus_to_space_id by (by apply plain_no_char).
  rewrite <- (plain_encode k) at 1 by done. by rewrite decode_encode.
Qed.

Lemma split_bracket_eq_step c d r :
  split_bracket_eq (String c (String d r)) =
  if (code c =? 93) && (code d =? 61) then Some ("]", r)
  else '(k, v) ← split_bracket_eq (String d r); Some (String c k, v).
Proof. reflexivity. Qed.

Lemma split_bracket_eq_no_eq s : has_char "=" s = false -> split_bracket_eq s = None.
Proof.
  induction s as [|c t IH]; [done|]. destruct t as [|d r]; [done|].
  cbn [has_char]. intros [Hc [Hd Hr]%orb_false_iff]%orb_false_iff. rewrite split_bracket_eq_step.
  pose proof (code_neq d "=" Hd) as E. change (code "=") with 61 in E.
  rewrite E, andb_false_r, IH; [done|]. simpl. by rewrite Hd, Hr.
Qed.

Lemma split_bracket_eq_key k t :
  has_char "]" k = false -> has_char "=" t = false -> split_bracket_eq (k +:+ String "=" t) = None.
Proof.
  intros Hk Ht. induction k as [|c k IH].
  - rewrite string_app_nil_l. destruct t as [|d r]; [done|]. rewrite split_bracket_eq_step.
    change (code "=" =? 93) with false. cbn [andb]. by rewrite split_bracket_eq_no_eq.
  - cbn [has_char] in Hk. apply orb_false_iff in Hk as [Hc Hk].
    rewrite string_app_cons. destruct (k +:+ String "=" t) as [|d r] eqn:E; [by destruct k|].
    pose proof (code_neq c "]" Hc) as E93. change (code "]") with 93 in E93.
    rewrite split_bracket_eq_step, E93. cbn [andb]. rewrite IH by done. done.
Qed.

Lemma bracket_parent_none k : has_char "[" k = false -> bracket_parent k = None.
Proof.
  induction k as [|c k IH]; [done|]. cbn [has_char]. intros [Hc Hk]%orb_false_iff.
  pose proof (code_neq c "[" Hc) as E. change (code "[") with 91 in E.
  cbn [bracket_parent]. rewrite E, IH by done. done.
Qed.

(** [k=<encodeURIComponent(v)>] is read by qs as [req.query.k = v]. *)
Lemma query_value_single k v :
  plain k = true -> valid_utf8 k = true -> valid_utf8 v = true ->
  query_value k (k +:+ String "=" (encode_uri_component v)) = QOne v.
Proof.
  intros Hk Hkv Hv.
  assert (qs_clean (k +:+ String "=" (encode_uri_component v)) = k +:+ String "=" (escape_with qs_keep v)) as Hc.
  { rewrite qs_clean_plain by (by apply plain_no_char). rewrite qs_clean_cons by reflexivity.
    by rewrite qs_clean_encode. }
  assert (forall c, is_unreserved c = false -> qs_keep c = false -> (code c =? 37) = false ->
            Ascii.eqb "=" c = false -> has_char c (k +:+ String "=" (escape_with qs_keep v)) = false) as Hno.
  { intros c Hu Hq H37 Heq. rewrite has_char_app. cbn [has_char].
    rewrite plain_no_char, (escape_no_char qs_keep), Heq by done. done. }
  unfold query_value, query_pairs. rewrite Hc, split_all_none by (by apply Hno).
  rewrite take_ge by (simpl; unfold parameter_limit; lia).
  rewrite filter_cons_True, filter_nil by (by destruct k). cbn [map]. unfold query_pair.
  rewrite split_bracket_eq_key; [|by apply plain_no_char|by apply (escape_no_char qs_keep)].
  rewrite split_at_app by (by apply plain_no_char).
  rewrite qs_decode_escape, qs_decode_plain by done.
  cbn [existsb fst]. rewrite bracket_parent_none by (by apply plain_no_char).
  rewrite bool_decide_eq_false_2 by done. cbn [orb].
  rewrite filter_cons_True, filter_nil; [done|]. simpl. by rewrite String.eqb_refl.
Qed.

Lemma query_value_empty k : query_value k "" = QAbsent.
Proof. reflexivity. Qed.

End Query.

(** Express hands a route handler the parameter a client escaped:
    [decode_param] undoes [encodeURIComponent] on every non-empty UTF-8
    text, whatever characters ([/], [%], [?], bytes above 127) it holds. *)
Lemma decode_param_encode p :
  p <> "" -> valid_utf8 p = true -> decode_param (encode_uri_component p) = inl p.
Proof.
  intros Hne Hv. unfold decode_param.
  destruct (encode_uri_component p) eqn:E; [by apply encode_nonempty in E|].
  rewrite <- E. by rewrite decode_encode.
Qed.
