(* ===== verification/Store.v ===== *)
(** * Store: the Mongoose documents, the persistent world and the queries

    The four Mongoose models of [src/src/models] (and the [User] model the
    controllers import, whose file is not in the sources), the state the
    handlers share (the MongoDB collections, the id allocator, the clock,
    the S3 bucket and the outgoing mail queue), the Mongoose queries the
    controllers call, written once against a [Collection] interface, and
    the shape of the HTTP responses. *)

From stdpp Require Import base gmap strings list.
From S2P Require Import Prelude ObjectId.

Open Scope N_scope.
Open Scope handler_scope.

(** ** Documents *)

(** [status: 'inactive' | 'active'] of [User]. *)
Inductive user_status := Inactive | Active.

(** [type: { enum: ['activation', 'reset'] }] of [Token]. *)
Inductive token_type := Activation | Reset.

#[export] Instance user_status_eq_dec : EqDecision user_status.
Proof. solve_decision. Defined.
#[export] Instance token_type_eq_dec : EqDecision token_type.
Proof. solve_decision. Defined.

(** [User]: the password field holds the hash the pre-save hook stored. *)
Record user := mkUser {
  u_id : oid;
  u_firstName : jsstr;
  u_lastName : jsstr;
  u_email : string;
  u_password : string;
  u_status : user_status;
  u_createdAt : N
}.

(** [Token] (models/Token.js): [createdAt] carries the TTL index
    [expires: 86400]. *)
Record token := mkToken {
  t_id : oid;
  t_userId : oid;
  t_token : string;
  t_type : token_type;
  t_createdAt : N
}.

(** [Folder] (models/Folder.js). *)
Record folder := mkFolder {
  f_id : oid;
  f_user : oid;
  f_name : string;
  f_parentFolder : option oid;
  f_path : string;
  f_createdAt : N
}.

(** [File] (models/File.js). *)
Record file := mkFile {
  fl_id : oid;
  fl_user : oid;
  fl_name : string;
  fl_s3Key : string;
  fl_folder : option oid;
  fl_size : N;
  fl_mimeType : string;
  fl_createdAt : N
}.

(** A message handed to the mail transport by [sendEmail]. *)
Record mail := mkMail {
  m_to : string;
  m_subject : string;
  m_text : string
}.

(** ** The world the handlers share *)

Record world := mkWorld {
  users : gmap oid user;
  tokens : gmap oid token;
  folders : gmap oid folder;
  files : gmap oid file;
  next_id : oid;               (** the next ObjectId the driver hands out *)
  now : N;                     (** wall clock, in seconds *)
  bucket : gmap string string; (** the S3 bucket: key to object *)
  outbox : list mail           (** messages dispatched, not awaited *)
}.

(** The world of a fresh deployment at time [t]: empty collections and
    bucket, no mail. *)
Definition empty_world (t : N) : world := mkWorld ∅ ∅ ∅ ∅ 1 t ∅ [].

(** ** Responses: [res.status(code).json(body)] *)

(** The JWT [generateToken(id)] signs: [{ id }], [expiresIn: '30d']. *)
Record session := mkSession { jwt_id : oid; jwt_expiresIn : string }.

(** A presigned GET URL for one bucket key, with its lifetime in seconds. *)
Record presigned := mkPresigned { ps_key : string; ps_expiresIn : N }.

(** The [user] object the auth handlers put in a response. *)
Record user_view := mkUserView {
  uv_id : oid;
  uv_firstName : jsstr;
  uv_lastName : jsstr;
  uv_email : string;
  uv_status : user_status;
  uv_createdAt : option N
}.

Inductive json_body :=
| BMessage (msg : string)                     (** [{ message }] *)
| BSuccess (msg : string)                     (** [{ success: true, message }] *)
| BSession (msg : option string) (jwt : session) (u : user_view)
                                              (** [{ success: true, message?, token, user }] *)
| BProfile (u : user_view)
| BFolder (f : folder)
| BFolders (l : list folder)
| BFile (f : file)
| BFiles (l : list file)
| BUrl (u : presigned)                        (** [{ url }] *)
| BStream (contentType disposition key : string)  (** [response.Body.pipe(res)] *)
| BText (s : string)                          (** [res.send(text)] *)
| BHtml (msg : string)                        (** Express's text/html error page showing [msg] *)
| BEmpty.                                     (** no body (a 204) *)

Record response := mkResponse { status : N; body : json_body }.

(** The computations of a handler. *)
Abbreviation Hnd A := (M world response A).

Definition reply (code : N) (b : json_body) : response := mkResponse code b.

(** [res.status(500).json({ message: error.message })] *)
Definition server_error (e : string) : response := reply 500 (BMessage e).

Definition handle (m : Hnd response) (w : world) : world * response :=
  run_handler server_error m w.

(** ** Collections: the interface the queries are written against *)

(** [doc.save()] sends [updateOne({ _id }, { $set })] with the paths
    assigned since the document was loaded: a field keeps its stored value
    when the in-memory value equals the loaded one. *)
Definition pick {A} `{EqDecision A} (loaded mem stored : A) : A :=
  if decide (loaded = mem) then stored else mem.

Definition user_delta (l m s : user) : user :=
  mkUser (pick (u_id l) (u_id m) (u_id s)) (pick (u_firstName l) (u_firstName m) (u_firstName s))
    (pick (u_lastName l) (u_lastName m) (u_lastName s)) (pick (u_email l) (u_email m) (u_email s))
    (pick (u_password l) (u_password m) (u_password s)) (pick (u_status l) (u_status m) (u_status s))
    (pick (u_createdAt l) (u_createdAt m) (u_createdAt s)).

Definition token_delta (l m s : token) : token :=
  mkToken (pick (t_id l) (t_id m) (t_id s)) (pick (t_userId l) (t_userId m) (t_userId s))
    (pick (t_token l) (t_token m) (t_token s)) (pick (t_type l) (t_type m) (t_type s))
    (pick (t_createdAt l) (t_createdAt m) (t_createdAt s)).

Definition folder_delta (l m s : folder) : folder :=
  mkFolder (pick (f_id l) (f_id m) (f_id s)) (pick (f_user l) (f_user m) (f_user s))
    (pick (f_name l) (f_name m) (f_name s)) (pick (f_parentFolder l) (f_parentFolder m) (f_parentFolder s))
    (pick (f_path l) (f_path m) (f_path s)) (pick (f_createdAt l) (f_createdAt m) (f_createdAt s)).

Definition file_delta (l m s : file) : file :=
  mkFile (pick (fl_id l) (fl_id m) (fl_id s)) (pick (fl_user l) (fl_user m) (fl_user s))
    (pick (fl_name l) (fl_name m) (fl_name s)) (pick (fl_s3Key l) (fl_s3Key m) (fl_s3Key s))
    (pick (fl_folder l) (fl_folder m) (fl_folder s)) (pick (fl_size l) (fl_size m) (fl_size s))
    (pick (fl_mimeType l) (fl_mimeType m) (fl_mimeType s)) (pick (fl_createdAt l) (fl_createdAt m) (fl_createdAt s)).

(** Saved over the document it was loaded from, a changed document is
    stored as it is in memory. *)
Definition pick_loaded {A} `{EqDecision A} (l m : A) : pick l m l = m.
Proof. unfold pick. by case_decide. Defined.

Definition user_delta_loaded l m : user_delta l m l = m.
Proof. unfold user_delta. rewrite ?pick_loaded. by destruct m. Defined.
Definition token_delta_loaded l m : token_delta l m l = m.
Proof. unfold token_delta. rewrite !pick_loaded. by destruct m. Defined.
Definition folder_delta_loaded l m : folder_delta l m l = m.
Proof. unfold folder_delta. rewrite !pick_loaded. by destruct m. Defined.
Definition file_delta_loaded l m : file_delta l m l = m.
Proof. unfold file_delta. rewrite !pick_loaded. by destruct m. Defined.

(** A Mongoose model: its collection in the world, the id of a document,
    the model's name, and how a [save] merges a changed document into the
    stored one, with the laws the generic queries rely on: writing a
    collection changes nothing else the queries read. *)
Class Collection (D : Type) := {
  coll : world -> gmap oid D;
  set_coll : gmap oid D -> world -> world;
  doc_id : D -> oid;
  model_name : string;
  delta : D -> D -> D -> D;
  coll_set : forall m w, coll (set_coll m w) = m;
  set_coll_next : forall m w, next_id (set_coll m w) = next_id w;
  set_coll_now : forall m w, now (set_coll m w) = now w;
  delta_loaded : forall l m, delta l m l = m
}.

#[export] Instance user_collection : Collection user := {|
  coll := users; set_coll m w := {| w with users := m |}; doc_id := u_id;
  model_name := "User"; delta := user_delta;
  coll_set _ _ := eq_refl; set_coll_next _ _ := eq_refl; set_coll_now _ _ := eq_refl;
  delta_loaded := user_delta_loaded |}.
#[export] Instance token_collection : Collection token := {|
  coll := tokens; set_coll m w := {| w with tokens := m |}; doc_id := t_id;
  model_name := "Token"; delta := token_delta;
  coll_set _ _ := eq_refl; set_coll_next _ _ := eq_refl; set_coll_now _ _ := eq_refl;
  delta_loaded := token_delta_loaded |}.
#[export] Instance folder_collection : Collection folder := {|
  coll := folders; set_coll m w := {| w with folders := m |}; doc_id := f_id;
  model_name := "Folder"; delta := folder_delta;
  coll_set _ _ := eq_refl; set_coll_next _ _ := eq_refl; set_coll_now _ _ := eq_refl;
  delta_loaded := folder_delta_loaded |}.
#[export] Instance file_collection : Collection file := {|
  coll := files; set_coll m w := {| w with files := m |}; doc_id := fl_id;
  model_name := "File"; delta := file_delta;
  coll_set _ _ := eq_refl; set_coll_next _ _ := eq_refl; set_coll_now _ _ := eq_refl;
  delta_loaded := file_delta_loaded |}.

(** The first matching entry in natural order: the smallest id, ids
    being handed out in increasing order. *)
Fixpoint min_match {D} (P : D -> bool) (l : list (oid * D)) : option (oid * D) :=
  match l with
  | [] => None
  | (k, d) :: l' =>
      let r := min_match P l' in
      if P d then
        match r with
        | Some (k', _) => if (k' <? k)%N then r else Some (k, d)
        | None => Some (k, d)
        end
      else r
  end.

(** The first match of a collection and all matches of a collection. *)
Definition first_match {D} (P : D -> bool) (m : gmap oid D) : option D :=
  snd <$> min_match P (map_to_list m).

Definition select {D} (P : D -> bool) (m : gmap oid D) : list D :=
  (map_to_list (filter (fun kd => P kd.2 = true) m)).*2.

Section Queries.
Context {D : Type} `{Collection D}.

(** [Model.findById(s)]: the string is cast first; a bad id throws. *)
Definition findById (s : string) : Hnd (option D) :=
  match cast_oid s with
  | Some k => gets (fun w => coll w !! k)
  | None => raise (cast_error s)
  end.

(** [Model.findById(oid)] on an id already cast (a stored reference). *)
Definition findByOid (k : oid) : Hnd (option D) := gets (fun w => coll w !! k).

(** [Model.findOne(filter)]. *)
Definition findOne (P : D -> bool) : Hnd (option D) :=
  gets (fun w => first_match P (coll w)).

(** [Model.find(filter)]. *)
Definition find (P : D -> bool) : Hnd (list D) :=
  gets (fun w => select P (coll w)).

(** [Model.create(fields)]: the driver allocates a fresh [_id] and the
    schema defaults [createdAt] to [Date.now]. *)
Definition create (mk : oid -> N -> D) : Hnd D :=
  fun w =>
    let k := next_id w in
    let d := mk k (now w) in
    let w' := set_coll (<[k := d]> (coll w)) w in
    ({| w' with next_id := k + 1 |}, Ok d).

(** [doc.save()] on a document [loaded] earlier and changed in memory to
    [d]: the update matches [{ _id }] of the loaded document; when no
    document has that id any more Mongoose throws DocumentNotFoundError. *)
Definition save (loaded d : D) : Hnd unit :=
  fun w =>
    match coll w !! doc_id loaded with
    | Some s => (set_coll (<[doc_id loaded := delta loaded d s]> (coll w)) w, Ok tt)
    | None => (w, Raise (doc_not_found model_name (doc_id loaded)))
    end.

(** [Model.findByIdAndDelete(id)] on a stored id. *)
Definition deleteById (k : oid) : Hnd unit :=
  modify (fun w => set_coll (delete k (coll w)) w).

(** [Model.deleteOne({ _id: s })]: the string is cast first. *)
Definition deleteOne (s : string) : Hnd unit :=
  match cast_oid s with
  | Some k => deleteById k
  | None => raise (cast_error s)
  end.
End Queries.

(** The [required: true] validator of a [String] path: [undefined],
    [null] and [""] fail validation, and [create] or [save] throws. *)
Definition required (model path : string) (v : jsstr) : Hnd string :=
  match v with
  | Some s =>
      if String.eqb s "" then raise (model +:+ " validation failed: " +:+ path +:+ ": Path `" +:+ path +:+ "` is required.")
      else ret s
  | None => raise (model +:+ " validation failed: " +:+ path +:+ ": Path `" +:+ path +:+ "` is required.")
  end.

(** The guard both controllers write before touching a document:
    [const doc = await Model.findById(req.params.id);
     if (!doc) return res.status(404).json({ message });
     if (doc.user.toString() !== req.user._id.toString())
       return res.status(403).json({ message: 'Not authorized' });] *)
Definition owned_doc {D} `{Collection D} (owner : D -> oid) (missing : string)
    (uid : oid) (id : string) : Hnd D :=
  doc <- findById id ;;
  match doc with
  | None => stop (reply 404 (BMessage missing))
  | Some d =>
      if decide (owner d = uid) then ret d
      else stop (reply 403 (BMessage "Not authorized"))
  end.

(** ** The id invariant of the collections *)

(** Every document sits under its own [_id], and that id was handed out
    by the allocator. *)
Definition keyed_map {D} (id : D -> oid) (n : oid) (m : gmap oid D) : Prop :=
  map_Forall (fun k d => id d = k /\ k < n) m.
Arguments keyed_map : simpl never.

Definition keyed {D} `{Collection D} (w : world) : Prop := keyed_map doc_id (next_id w) (coll w).

Definition ids_wf (w : world) : Prop :=
  keyed (D := user) w /\ keyed (D := token) w /\ keyed (D := folder) w /\ keyed (D := file) w.

(** ** Query lemmas *)

Section QueryLemmas.
Context {D : Type}.
Implicit Types (P : D -> bool) (m : gmap oid D) (l : list (oid * D)).

Lemma min_match_Some P l k d :
  min_match P l = Some (k, d) ->
  (k, d) ∈ l /\ P d = true /\ forall k' d', (k', d') ∈ l -> P d' = true -> k <= k'.
Proof.
  revert k d. induction l as [|[k0 d0] l IH]; intros k d Hm; simpl in Hm; [done|].
  destruct (P d0) eqn:HP.
  - destruct (min_match P l) as [[k1 d1]|] eqn:Hr.
    + destruct (IH k1 d1 eq_refl) as (Hin & HP1 & Hmin).
      destruct (N.ltb_spec k1 k0) as [Hlt|Hge]; simplify_eq.
      * split_and!; [by right|done|]. intros k' d' [[= -> ->]|Hin']%elem_of_cons HP'; [lia|eauto].
      * split_and!; [by left|done|]. intros k' d' [[= -> ->]|Hin']%elem_of_cons HP'; [lia|].
        specialize (Hmin _ _ Hin' HP'). lia.
    + simplify_eq. split_and!; [by left|done|].
      intros k' d' [[= -> ->]|Hin']%elem_of_cons HP'; [lia|].
      clear IH. induction l as [|[k2 d2] l IHl]; [set_solver|].
      simpl in Hr. destruct (P d2) eqn:HP2;
        [destruct (min_match P l) as [[]|]; [destruct (_ <? _)|]; discriminate|].
      apply elem_of_cons in Hin' as [[= -> ->]|Hin']; [congruence|eauto].
  - destruct (IH k d Hm) as (Hin & HP1 & Hmin). split_and!; [by right|done|].
    intros k' d' [[= -> ->]|Hin']%elem_of_cons HP'; [congruence|eauto].
Qed.

Lemma min_match_None P l :
  min_match P l = None -> forall k d, (k, d) ∈ l -> P d = false.
Proof.
  induction l as [|[k0 d0] l IH]; intros Hm k d Hin; [set_solver|].
  simpl in Hm. destruct (P d0) eqn:HP;
    [destruct (min_match P l) as [[]|]; [destruct (_ <? _)|]; discriminate|].
  apply elem_of_cons in Hin as [[= -> ->]|Hin]; eauto.
Qed.

Lemma first_match_Some P m d :
  first_match P m = Some d ->
  exists k, m !! k = Some d /\ P d = true /\
    forall k' d', m !! k' = Some d' -> P d' = true -> k <= k'.
Proof.
  unfold first_match. destruct (min_match P _) as [[k d0]|] eqn:Hm; [|done].
  intros [= <-]. apply min_match_Some in Hm as (Hin & HP & Hmin).
  exists k. split_and!; [by apply elem_of_map_to_list|done|].
  intros k' d' Hk' HP'. apply (Hmin k' d'); [by apply elem_of_map_to_list|done].
Qed.

Lemma first_match_None P m :
  first_match P m = None -> forall k d, m !! k = Some d -> P d = false.
Proof.
  unfold first_match. destruct (min_match P _) eqn:Hm; [done|]. intros _ k d Hk.
  eapply min_match_None; [done|]. by apply elem_of_map_to_list.
Qed.

(** When exactly one document matches, [findOne] returns it. *)
Lemma first_match_unique P m k d :
  m !! k = Some d -> P d = true ->
  (forall k' d', m !! k' = Some d' -> P d' = true -> k' = k) ->
  first_match P m = Some d.
Proof.
  intros Hk HP Huniq. destruct (first_match P m) as [d'|] eqn:Hf.
  - apply first_match_Some in Hf as (k' & Hk' & HP' & _).
    rewrite (Huniq _ _ Hk' HP') in Hk'. congruence.
  - by rewrite (first_match_None P m Hf k d Hk) in HP.
Qed.

Lemma first_match_None_intro P m :
  (forall k d, m !! k = Some d -> P d = false) -> first_match P m = None.
Proof.
  intros Hno. destruct (first_match P m) as [d|] eqn:Hf; [|done].
  apply first_match_Some in Hf as (k & Hk & HP & _). by rewrite (Hno k d Hk) in HP.
Qed.

(** Deleting a document the filter refuses leaves [findOne] as it was. *)
Lemma first_match_delete_other P m k :
  (forall d, m !! k = Some d -> P d = false) -> first_match P (delete k m) = first_match P m.
Proof.
  intros Hk. destruct (first_match P m) as [d|] eqn:Hf.
  - apply first_match_Some in Hf as (k0 & Hk0 & HP & Hmin).
    assert (k0 <> k) as Hne by (intros ->; by rewrite (Hk d Hk0) in HP).
    destruct (first_match P (delete k m)) as [d1|] eqn:Hf1.
    + apply first_match_Some in Hf1 as (k1 & Hk1 & HP1 & Hmin1).
      apply lookup_delete_Some in Hk1 as [Hne1 Hk1].
      assert (k0 = k1) as <- by (apply N.le_antisymm;
        [exact (Hmin _ _ Hk1 HP1)|apply (Hmin1 k0 d); [by rewrite lookup_delete_ne|done]]).
      congruence.
    + rewrite (first_match_None _ _ Hf1 k0 d) in HP; [done|by rewrite lookup_delete_ne].
  - apply first_match_None_intro. intros k' d' Hk'.
    apply lookup_delete_Some in Hk' as [_ Hk']. exact (first_match_None _ _ Hf k' d' Hk').
Qed.

Lemma keyed_map_mono (id : D -> oid) n n' m :
  n <= n' -> keyed_map id n m -> keyed_map id n' m.
Proof. intros Hn Hk j d Hd. destruct (Hk j d Hd). split; [done|lia]. Qed.

Lemma keyed_map_insert (id : D -> oid) n m k d :
  keyed_map id n m -> id d = k -> k < n -> keyed_map id n (<[k := d]> m).
Proof. intros Hk Hid Hlt. apply map_Forall_insert_2; [done|exact Hk]. Qed.

Lemma keyed_map_delete (id : D -> oid) n m k :
  keyed_map id n m -> keyed_map id n (delete k m).
Proof. intros Hk. by apply map_Forall_delete. Qed.

Lemma keyed_map_filter (id : D -> oid) n m (P : oid * D -> Prop) `{!forall x, Decision (P x)} :
  keyed_map id n m -> keyed_map id n (filter P m).
Proof. intros Hk j d [Hd _]%map_lookup_filter_Some. exact (Hk j d Hd). Qed.

Lemma keyed_map_lookup (id : D -> oid) n m k d :
  keyed_map id n m -> m !! k = Some d -> id d = k /\ k < n.
Proof. intros Hk Hd. exact (Hk k d Hd). Qed.

Lemma keyed_map_fresh (id : D -> oid) n m : keyed_map id n m -> m !! n = None.
Proof. intros Hk. destruct (m !! n) as [d|] eqn:Hd; [|done]. destruct (Hk n d Hd). lia. Qed.

Lemma keyed_mono `{Collection D} (w w' : world) :
  coll w' = coll w -> next_id w <= next_id w' -> keyed w -> keyed w'.
Proof. intros Hc Hn Hk. unfold keyed. rewrite Hc. by apply (keyed_map_mono _ (next_id w)). Qed.

Lemma elem_of_select P m d :
  d ∈ select P m <-> exists k, m !! k = Some d /\ P d = true.
Proof.
  unfold select. rewrite list_elem_of_fmap. split.
  - intros ([k d'] & -> & Hin). apply elem_of_map_to_list in Hin. apply map_lookup_filter_Some in Hin.
    simpl in *. naive_solver.
  - intros (k & Hk & HP). exists (k, d). split; [done|].
    apply elem_of_map_to_list, map_lookup_filter_Some. naive_solver.
Qed.
End QueryLemmas.

(** ** Saving a loaded document *)

(** A path assigned since loading overwrites the stored field; a path
    left alone keeps the stored field, whatever wrote it meanwhile. *)
Lemma pick_changed {A} `{EqDecision A} (l m s : A) : l <> m -> pick l m s = m.
Proof. unfold pick. by case_decide. Qed.
Lemma pick_kept {A} `{EqDecision A} (l s : A) : pick l l s = s.
Proof. unfold pick. by case_decide. Qed.
Lemma pick_mem {A} `{EqDecision A} (l m : A) : pick l m m = m.
Proof. unfold pick. by case_decide. Qed.

(** Saving over a document that already holds the in-memory values
    leaves it as it is. *)
Lemma user_delta_mem l m : user_delta l m m = m.
Proof. unfold user_delta. rewrite ?pick_mem. by destruct m. Qed.

Section SaveLemmas.
Context {D : Type} `{Collection D}.

(** [save] over the stored document it was loaded from stores the
    in-memory document. *)
Lemma save_loaded (l d : D) w :
  coll w !! doc_id l = Some l -> save l d w = (set_coll (<[doc_id l := d]> (coll w)) w, Ok tt).
Proof. intros Hl. unfold save. by rewrite Hl, delta_loaded. Qed.

(** [save] of a document deleted since it was loaded throws. *)
Lemma save_gone (l d : D) w :
  coll w !! doc_id l = None -> save l d w = (w, Raise (doc_not_found model_name (doc_id l))).
Proof. intros Hl. unfold save. by rewrite Hl. Qed.

(** In a collection keyed by the ids, [save] of any stored document
    stores the in-memory document under its id. *)
Lemma save_keyed (l d : D) w :
  keyed (D := D) w -> (exists k, coll w !! k = Some l) ->
  save l d w = (set_coll (<[doc_id l := d]> (coll w)) w, Ok tt).
Proof.
  intros Hk [k Hl]. apply save_loaded.
  destruct (keyed_map_lookup _ _ _ _ _ Hk Hl) as [-> _]. exact Hl.
Qed.

End SaveLemmas.

(** ** The ownership guard *)

Section Owned.
Context {D : Type} `{Collection D} (owner : D -> oid) (missing : string).

Lemma owned_doc_state uid id w : fst (owned_doc owner missing uid id w) = w.
Proof.
  unfold owned_doc, findById. destruct (cast_oid id); [|done]. hstep.
  repeat case_match; done.
Qed.

Lemma owned_doc_Ok uid id w w' d :
  owned_doc owner missing uid id w = (w', Ok d) ->
  w' = w /\ exists k, cast_oid id = Some k /\ coll w !! k = Some d /\ owner d = uid.
Proof.
  unfold owned_doc, findById. destruct (cast_oid id) as [k|] eqn:Hk; [|done]. hstep.
  destruct (coll w !! k) as [g|] eqn:Hg; [|done]. case_decide; [|done].
  intros [= <- <-]. eauto.
Qed.

Lemma owned_doc_missing uid id k w :
  cast_oid id = Some k -> coll w !! k = None ->
  owned_doc owner missing uid id w = (w, Stop (reply 404 (BMessage missing))).
Proof. intros Hk Hd. unfold owned_doc, findById. rewrite Hk. hstep. by rewrite Hd. Qed.

Lemma owned_doc_foreign uid id k d w :
  cast_oid id = Some k -> coll w !! k = Some d -> owner d <> uid ->
  owned_doc owner missing uid id w = (w, Stop (reply 403 (BMessage "Not authorized"))).
Proof.
  intros Hk Hd Hu. unfold owned_doc, findById. rewrite Hk. hstep. rewrite Hd.
  by rewrite decide_False.
Qed.

Lemma owned_doc_mine uid id k d w :
  cast_oid id = Some k -> coll w !! k = Some d -> owner d = uid ->
  owned_doc owner missing uid id w = (w, Ok d).
Proof.
  intros Hk Hd Hu. unfold owned_doc, findById. rewrite Hk. hstep. rewrite Hd.
  by rewrite decide_True.
Qed.

Lemma owned_doc_bad_id uid id w :
  cast_oid id = None -> owned_doc owner missing uid id w = (w, Raise (cast_error id)).
Proof. intros Hk. unfold owned_doc, findById. by rewrite Hk. Qed.
End Owned.
