(* ===== verification/Folders.v ===== *)
(** * Folders: the folder controller (src/src/controllers/folderController.js)

    The four handlers [createFolder], [getFolders], [deleteFolder] and
    [renameFolder], each the whole body of the [try] block with its early
    returns, over the [folders] collection of the world.  The theorems
    state the materialized-path computation, the well-formedness
    invariant of the folder tree (parents are older, owned by the same
    user, and the stored path is the parent's path followed by the
    parent's id) and that every handler preserves it, the absence of
    cycles, the ordering of the not-found and forbidden answers, and the
    root-versus-filtered listing. *)

From stdpp Require Import base gmap strings list.
From S2P Require Import Prelude ObjectId Store.

Open Scope N_scope.
Open Scope handler_scope.

Module FolderController.

(** [parent.path ? `${parent.path}/${parent._id}` : `/${parent._id}`] *)
Definition child_path (parent : folder) : string :=
  if String.eqb (f_path parent) "" then "/" +:+ oid_hex (f_id parent)
  else f_path parent +:+ "/" +:+ oid_hex (f_id parent).

(** [if (parentFolder) { ... }]: the path of the new folder, after the
    parent's existence and ownership checks. *)
Definition parent_path (uid : oid) (parentFolder : jsstr) : Hnd string :=
  match parentFolder with
  | Some p =>
      if truthy parentFolder then
        parent <- findById p ;;
        match parent with
        | None => stop (reply 404 (BMessage "Parent folder not found"))
        | Some parent =>
            if decide (f_user parent = uid) then ret (child_path parent)
            else stop (reply 403 (BMessage "Not authorized"))
        end
      else ret ""
  | None => ret ""
  end.

(** [Folder.create({ user, name, parentFolder: parentFolder || null, path })] *)
Definition create_folder_doc (uid : oid) (name : jsstr) (parentFolder : jsstr)
    (path : string) : Hnd folder :=
  n <- required "Folder" "name" name ;;
  let parentRef := if truthy parentFolder then parentFolder ≫= cast_oid else None in
  create (fun k t => mkFolder k uid n parentRef path t).

(** [POST /api/folders] *)
Definition createFolder (uid : oid) (name parentFolder : jsstr) : Hnd response :=
  path <- parent_path uid parentFolder ;;
  folder <- create_folder_doc uid name parentFolder path ;;
  ret (reply 201 (BFolder folder)).

(** [parent && parent !== 'null' && parent !== 'undefined']: the query
    value that selects a parent, if any. *)
Definition parent_filter (parent : jsstr) : option string :=
  match parent with
  | Some p =>
      if truthy parent && negb (String.eqb p "null") && negb (String.eqb p "undefined")
      then Some p else None
  | None => None
  end.

(** The Mongo filter [{ user, parentFolder }]. *)
Definition folder_query (uid : oid) (par : option oid) (f : folder) : bool :=
  bool_decide (f_user f = uid) && bool_decide (f_parentFolder f = par).

(** [GET /api/folders?parent=..]: [query.parentFolder] is cast by
    [Folder.find]; a bad id throws. *)
Definition getFolders (uid : oid) (parent : jsstr) : Hnd response :=
  match parent_filter parent with
  | Some p =>
      match cast_oid p with
      | Some k => fs <- find (folder_query uid (Some k)) ;; ret (reply 200 (BFolders fs))
      | None => raise (cast_error p)
      end
  | None => fs <- find (folder_query uid None) ;; ret (reply 200 (BFolders fs))
  end.

(** The existence-then-ownership guard of delete and rename. *)
Definition owned_folder (uid : oid) (id : string) : Hnd folder :=
  owned_doc f_user "Folder not found" uid id.

(** [DELETE /api/folders/:id] *)
Definition deleteFolder (uid : oid) (id : string) : Hnd response :=
  _ <- owned_folder uid id ;;
  deleteOne (D := folder) id ;;
  ret (reply 200 (BMessage "Folder removed")).

(** [folder.save()]: the [required] validator runs again. *)
Definition save_folder (loaded f : folder) : Hnd unit :=
  _ <- required "Folder" "name" (Some (f_name f)) ;;
  save loaded f.

(** [PATCH /api/folders/:id] with [folder.name = req.body.name || folder.name] *)
Definition renameFolder (uid : oid) (id : string) (name : jsstr) : Hnd response :=
  f <- owned_folder uid id ;;
  let f' := {| f with f_name := js_or name (f_name f) |} in
  save_folder f f' ;;
  ret (reply 200 (BFolder f')).

End FolderController.

Import FolderController.

(** ** The folder-tree invariant *)

(** A stored folder is well formed when it sits under its own id, the id
    was handed out, its name passed validation, and its parent reference
    is either absent (a root, with the empty path) or an older id whose
    folder, while it exists, has the same owner and a path that the
    child's path extends by the parent's id. *)
Definition folder_ok (w : world) (k : oid) (f : folder) : Prop :=
  f_id f = k /\ k < next_id w /\ f_name f <> "" /\
  match f_parentFolder f with
  | None => f_path f = ""
  | Some p =>
      p < k /\
      match folders w !! p with
      | Some pf => f_user pf = f_user f /\ f_path f = f_path pf +:+ "/" +:+ oid_hex p
      | None => True
      end
  end.

#[export] Instance folder_ok_dec w k f : Decision (folder_ok w k f).
Proof.
  unfold folder_ok. destruct (f_parentFolder f); [destruct (folders w !! _)|]; apply _.
Defined.

Definition folders_wf (w : world) : Prop := map_Forall (folder_ok w) (folders w).

#[export] Instance folders_wf_dec w : Decision (folders_wf w).
Proof. unfold folders_wf. apply _. Defined.

(** The world after [Folder.create] stored [f] under the next id. *)
Definition add_folder (w : world) (f : folder) : world :=
  {| w with folders := <[next_id w := f]> (folders w); next_id := next_id w + 1 |}.

(** ** The materialized path, specified by the ancestor chain *)

(** The path a chain of ancestor ids denotes: ["/id1/id2/.../idn"],
    root first. *)
Definition path_of (l : list oid) : string :=
  foldr (fun a acc => "/" +:+ oid_hex a +:+ acc) "" l.

(** Walk the parent references up from [par], collecting the ancestor
    ids root first.  The boolean says whether the walk reached a root
    ([true]) or stopped at a reference to a deleted folder ([false]);
    [None] means the fuel ran out. *)
Fixpoint ancestors (fuel : nat) (fs : gmap oid folder) (par : option oid)
    : option (list oid * bool) :=
  match par with
  | None => Some ([], true)
  | Some p =>
      match fuel with
      | O => None
      | S n =>
          match fs !! p with
          | Some pf => (fun '(l, b) => ((l ++ [p])%list, b)) <$> ancestors n fs (f_parentFolder pf)
          | None => Some ([p], false)
          end
      end
  end.

(** ** A sample tree, built by running the handlers

    User 7 creates ["docs"] at the root, ["work"] inside it and ["2026"]
    inside ["work"]; the folders get the ids 1, 2 and 3. *)
Definition demo_w1 : world := fst (handle (createFolder 7 (Some "docs") None) (empty_world 0)).
Definition demo_w2 : world := fst (handle (createFolder 7 (Some "work") (Some (oid_hex 1))) demo_w1).
Definition demo_tree : world :=
  fst (handle (createFolder 7 (Some "2026") (Some (oid_hex 2))) demo_w2).

(** [fst (m w) = w] for a read-only step [m], specialised to an equation
    [m w = (w', o)]. *)
Ltac read_only lem Heq :=
  let Hs := fresh "Hs" in
  pose proof lem as Hs; rewrite Heq in Hs; simpl in Hs; subst.

(** ** Lemmas on the building blocks *)

Lemma child_path_concat (parent : folder) :
  child_path parent = f_path parent +:+ "/" +:+ oid_hex (f_id parent).
Proof. unfold child_path. by destruct (String.eqb_spec (f_path parent) "") as [->|]. Qed.

Lemma cast_oid_truthy (p : string) (k : oid) : cast_oid p = Some k -> truthy (Some p) = true.
Proof. unfold cast_oid. destruct p; [discriminate|done]. Qed.

Lemma required_ok model path (v : jsstr) n w :
  v = Some n -> n <> "" -> required model path v w = (w, Ok n).
Proof. intros -> Hn. simpl. by destruct (String.eqb_spec n ""). Qed.

Lemma required_state model path (v : jsstr) w :
  fst (required model path v w) = w.
Proof. destruct v as [s|]; simpl; [destruct (String.eqb s "")|]; done. Qed.

Lemma required_Ok model path (v : jsstr) n w w' :
  required model path v w = (w', Ok n) -> v = Some n /\ n <> "" /\ w' = w.
Proof.
  destruct v as [s|]; simpl; [|done].
  destruct (String.eqb_spec s ""); [done|]. intros [= <- <-]. done.
Qed.

(** A stored folder's clause survives a world with the same folders at
    the parent ids it mentions and a larger allocator. *)
Lemma folder_ok_mono w w' k f :
  folder_ok w k f -> next_id w <= next_id w' ->
  (forall p, p < k -> folders w' !! p = folders w !! p) ->
  folder_ok w' k f.
Proof.
  intros (Hid & Hlt & Hn & Hp) Hnext Hsame. split_and!; [done|lia|done|].
  destruct (f_parentFolder f) as [p|]; [|done].
  destruct Hp as [Hpk Hpar]. split; [done|]. by rewrite Hsame.
Qed.

Lemma folders_wf_add w f :
  folders_wf w -> f_id f = next_id w -> f_name f <> "" ->
  match f_parentFolder f with
  | None => f_path f = ""
  | Some p => exists pf, folders w !! p = Some pf /\ f_user pf = f_user f /\
                         f_path f = f_path pf +:+ "/" +:+ oid_hex p
  end ->
  folders_wf (add_folder w f).
Proof.
  intros Hwf Hid Hn Hp. unfold folders_wf, add_folder. simpl.
  apply map_Forall_insert_2.
  - split_and!; simpl; [done|lia|done|].
    destruct (f_parentFolder f) as [p|]; [|done].
    destruct Hp as (pf & Hpf & Hu & Hpath).
    destruct (Hwf p pf Hpf) as (_ & Hplt & _). split; [done|].
    rewrite lookup_insert_ne by lia. by rewrite Hpf.
  - intros k g Hg. eapply folder_ok_mono; [apply Hwf, Hg|simpl; lia|].
    intros p Hp'. destruct (Hwf k g Hg) as (_ & Hk & _). simpl.
    apply lookup_insert_ne. lia.
Qed.

Lemma folders_wf_delete w k :
  folders_wf w -> folders_wf {| w with folders := delete k (folders w) |}.
Proof.
  intros Hwf. unfold folders_wf. simpl.
  apply map_Forall_delete. intros j g Hg.
  destruct (Hwf j g Hg) as (Hid & Hlt & Hn & Hp). split_and!; simpl; [done..|].
  destruct (f_parentFolder g) as [p|]; [|done].
  destruct Hp as [Hpj Hpar]. split; [done|]. rewrite lookup_delete.
  by case_decide.
Qed.

(** Renaming keeps id, owner, parent and path: only the name changes. *)
Lemma folders_wf_rename w k f n :
  folders_wf w -> folders w !! k = Some f -> n <> "" ->
  folders_wf {| w with folders := <[k := {| f with f_name := n |}]> (folders w) |}.
Proof.
  intros Hwf Hf Hn. unfold folders_wf. simpl.
  apply map_Forall_insert_2.
  - destruct (Hwf k f Hf) as (Hid & Hlt & _ & Hp). split_and!; simpl; [done..|].
    destruct (f_parentFolder f) as [p|]; [|done].
    destruct Hp as [Hpk Hpar]. split; [done|].
    by rewrite lookup_insert_ne by lia.
  - intros j g Hg. destruct (Hwf j g Hg) as (Hid & Hlt & Hn' & Hp). split_and!; simpl; [done..|].
    destruct (f_parentFolder g) as [p|]; [|done].
    destruct Hp as [Hpj Hpar]. split; [done|].
    rewrite lookup_insert. case_decide as Hkp; [subst p; by rewrite Hf in Hpar|done].
Qed.

Lemma parent_path_state uid pf w : fst (parent_path uid pf w) = w.
Proof.
  unfold parent_path, findById. destruct pf as [p|]; [|done].
  destruct (truthy _); [|done]. destruct (cast_oid p); [|done]. hstep.
  repeat case_match; done.
Qed.

Lemma parent_path_Ok uid pf w w' path :
  parent_path uid pf w = (w', Ok path) ->
  w' = w /\
  ((truthy pf = false /\ path = "") \/
   exists p k parent, pf = Some p /\ cast_oid p = Some k /\ folders w !! k = Some parent /\
                      f_user parent = uid /\ path = child_path parent).
Proof.
  unfold parent_path, findById. destruct pf as [p|]; [|intros [= <- <-]; auto].
  destruct (truthy _) eqn:Ht; [|intros [= <- <-]; auto].
  destruct (cast_oid p) as [k|] eqn:Hk; [|done]. hstep.
  destruct (folders w !! k) as [parent|] eqn:Hp; [|done].
  case_decide; [|done]. intros [= <- <-]. split; [done|]. right. eauto 10.
Qed.

Lemma create_folder_doc_Ok uid name pf path w w' f :
  create_folder_doc uid name pf path w = (w', Ok f) ->
  exists n, name = Some n /\ n <> "" /\ w' = add_folder w f /\
    f = mkFolder (next_id w) uid n (if truthy pf then pf ≫= cast_oid else None) path (now w).
Proof.
  unfold create_folder_doc, bind. destruct (required _ _ name w) as [w1 [n| |]] eqn:Hr; try done.
  apply required_Ok in Hr as (-> & Hn & ->). intros [= <- <-]. eauto 10.
Qed.

Lemma create_folder_doc_state uid name pf path w w' r :
  create_folder_doc uid name pf path w = (w', r) -> (forall f, r <> Ok f) -> w' = w.
Proof.
  unfold create_folder_doc, bind. destruct name as [n|]; simpl; [|congruence].
  destruct (String.eqb n ""); simpl; [congruence|]. intros [= <- <-] Hr. by destruct (Hr _ eq_refl).
Qed.

(** The guard of delete and rename reads only. *)
Lemma owned_folder_state uid id w : fst (owned_folder uid id w) = w.
Proof. exact (owned_doc_state (D := folder) f_user "Folder not found" uid id w). Qed.

Lemma owned_folder_Ok uid id w w' f :
  owned_folder uid id w = (w', Ok f) ->
  w' = w /\ exists k, cast_oid id = Some k /\ folders w !! k = Some f /\ f_user f = uid.
Proof. exact (owned_doc_Ok (D := folder) f_user "Folder not found" uid id w w' f). Qed.



(** ** Preservation of the invariant by the folder handlers *)

Theorem createFolder_preserves_wf uid name pf w :
  folders_wf w -> folders_wf (fst (handle (createFolder uid name pf) w)).
Proof.
  intros Hwf. unfold handle, run_handler, createFolder, bind.
  destruct (parent_path uid pf w) as [w1 [path|r|e]] eqn:Hp;
    [|read_only (parent_path_state uid pf w) Hp; done..].
  apply parent_path_Ok in Hp as [-> Hcase].
  destruct (create_folder_doc uid name pf path w) as [w2 [f|r|e]] eqn:Hc;
    try (apply create_folder_doc_state in Hc; [by subst|congruence]).
  apply create_folder_doc_Ok in Hc as (n & -> & Hn & -> & ->).
  apply folders_wf_add; simpl; [done..|].
  destruct Hcase as [[-> ->]|(p & k & parent & -> & Hk & Hpar & Hu & ->)]; [done|].
  rewrite (cast_oid_truthy _ _ Hk). simpl. rewrite Hk.
  exists parent. split_and!; [done..|].
  rewrite child_path_concat. by destruct (Hwf k parent Hpar) as [-> _].
Qed.

Theorem deleteFolder_preserves_wf uid id w :
  folders_wf w -> folders_wf (fst (handle (deleteFolder uid id) w)).
Proof.
  intros Hwf. unfold handle, run_handler, deleteFolder, bind.
  destruct (owned_folder uid id w) as [w1 [f|r|e]] eqn:Ho;
    [|read_only (owned_folder_state uid id w) Ho; done..].
  apply owned_folder_Ok in Ho as [-> (k & Hk & _)].
  unfold deleteOne. rewrite Hk. hstep. by apply folders_wf_delete.
Qed.

Theorem renameFolder_preserves_wf uid id name w :
  folders_wf w -> folders_wf (fst (handle (renameFolder uid id name) w)).
Proof.
  intros Hwf. unfold handle, run_handler, renameFolder, bind.
  destruct (owned_folder uid id w) as [w1 [f|r|e]] eqn:Ho;
    [|read_only (owned_folder_state uid id w) Ho; done..].
  apply owned_folder_Ok in Ho as [-> (k & Hk & Hf & Hu)].
  unfold save_folder, bind. simpl.
  destruct (String.eqb_spec (js_or name (f_name f)) ""); [done|].
  destruct (Hwf k f Hf) as [Hid _]. rewrite <- Hid in Hf.
  hstep. rewrite (save_loaded (D := folder) f _ w) by exact Hf. simpl. by apply folders_wf_rename.
Qed.

Theorem getFolders_read_only uid parent w :
  fst (handle (getFolders uid parent) w) = w.
Proof.
  unfold handle, run_handler, getFolders. destruct (parent_filter parent) as [p|];
    [destruct (cast_oid p)|]; done.
Qed.

(** Handlers that leave the folders alone and only move the allocator
    forward keep the invariant. *)
Lemma folders_wf_frame w w' :
  folders w' = folders w -> next_id w <= next_id w' -> folders_wf w -> folders_wf w'.
Proof.
  intros Hf Hn Hwf k f Hk. rewrite Hf in Hk. apply (folder_ok_mono w); [by apply Hwf|done|].
  intros p _. by rewrite Hf.
Qed.

(** ** The stored path is the path of the ancestor chain *)

Lemma path_of_snoc (l : list oid) (p : oid) :
  path_of (l ++ [p])%list = path_of l +:+ "/" +:+ oid_hex p.
Proof.
  induction l as [|a l IH]; [reflexivity|]. simpl. rewrite IH.
  by autorewrite with gdrive_rw.
Qed.

Lemma folders_wf_parent_lt w k f p :
  folders_wf w -> folders w !! k = Some f -> f_parentFolder f = Some p -> p < k.
Proof. intros Hwf Hf Hp. destruct (Hwf k f Hf) as (_ & _ & _ & Hc). rewrite Hp in Hc. tauto. Qed.

(** The walk up the parents ends: parent ids decrease, so [p + 1]
    steps suffice from a parent [p]. *)
Lemma ancestors_total w n par :
  folders_wf w -> (forall p, par = Some p -> (N.to_nat p < n)%nat) ->
  ancestors n (folders w) par <> None.
Proof.
  intros Hwf. revert par. induction n as [|n IH]; intros [p|] Hn; simpl; try done.
  - specialize (Hn p eq_refl). lia.
  - destruct (folders w !! p) as [pf|] eqn:Hpf; [|done].
    destruct (ancestors n (folders w) (f_parentFolder pf)) as [[l b]|] eqn:Ha; [done|].
    exfalso. apply (IH (f_parentFolder pf)); [|done].
    intros q Hq. pose proof (folders_wf_parent_lt w p pf q Hwf Hpf Hq).
    specialize (Hn p eq_refl). lia.
Qed.

Lemma ancestors_path w n p l :
  folders_wf w -> ancestors n (folders w) (Some p) = Some (l, true) ->
  forall pf, folders w !! p = Some pf -> path_of l = f_path pf +:+ "/" +:+ oid_hex p.
Proof.
  intros Hwf. revert p l. induction n as [|n IH]; intros p l Ha pf Hpf; [done|].
  simpl in Ha. rewrite Hpf in Ha.
  destruct (ancestors n (folders w) (f_parentFolder pf)) as [[l' b]|] eqn:Ha'; [|done].
  simpl in Ha. injection Ha as <- ->. rewrite path_of_snoc. f_equal.
  destruct (Hwf p pf Hpf) as (_ & _ & _ & Hc).
  destruct (f_parentFolder pf) as [q|] eqn:Hq.
  - destruct Hc as [_ Hq'].
    destruct (folders w !! q) as [qf|] eqn:Hqf.
    + rewrite (proj2 Hq'). apply (IH q l' Ha' qf Hqf).
    + destruct n as [|n]; simpl in Ha'; [done|]. rewrite Hqf in Ha'. congruence.
  - destruct n; simpl in Ha'; injection Ha' as <-; by rewrite Hc.
Qed.

(** In a well-formed world the parent chain of every folder ends
    (there is no cycle: [k] steps suffice from the folder with id [k]),
    and when it ends at a root the stored materialized path is exactly
    ["/a1/a2/.../an"] for the ancestor ids [a1 .. an], root first. *)
Lemma wf_path_is_ancestor_chain w k f :
  folders_wf w -> folders w !! k = Some f ->
  exists l b, ancestors (N.to_nat k) (folders w) (f_parentFolder f) = Some (l, b) /\
              (b = true -> f_path f = path_of l).
Proof.
  intros Hwf Hf.
  destruct (ancestors (N.to_nat k) (folders w) (f_parentFolder f)) as [[l b]|] eqn:Ha.
  - exists l, b. split; [done|]. intros ->.
    destruct (Hwf k f Hf) as (_ & _ & _ & Hc).
    destruct (f_parentFolder f) as [p|] eqn:Hp.
    + destruct Hc as [Hpk Hpar].
      destruct (folders w !! p) as [pf|] eqn:Hpf.
      * rewrite (proj2 Hpar). symmetry. by eapply ancestors_path.
      * destruct (N.to_nat k); simpl in Ha; [done|]. rewrite Hpf in Ha. congruence.
    + destruct (N.to_nat k); simpl in Ha; injection Ha as <-; by rewrite Hc.
  - exfalso. eapply ancestors_total; [done| |exact Ha].
    intros p Hp. pose proof (folders_wf_parent_lt w k f p Hwf Hf Hp). lia.
Qed.

(** ** Functional behaviour of the folder handlers *)

(** C13: creating a folder under a parent the caller owns stores, under the
    next id, a folder whose parent is the parent's id and whose path is the
    parent's path followed by ["/"] and the parent's id (the ternary of the
    source gives the same string as the plain concatenation), and answers
    201 with it. *)
Theorem createFolder_child uid n p k parent w :
  folders_wf w -> cast_oid p = Some k -> folders w !! k = Some parent ->
  f_user parent = uid -> n <> "" ->
  handle (createFolder uid (Some n) (Some p)) w =
    let f := mkFolder (next_id w) uid n (Some k) (f_path parent +:+ "/" +:+ oid_hex k) (now w) in
    (add_folder w f, reply 201 (BFolder f)).
Proof.
  intros Hwf Hk Hpar Hu Hn.
  unfold handle, run_handler, createFolder, parent_path, create_folder_doc, findById.
  rewrite (cast_oid_truthy _ _ Hk), Hk. hstep. rewrite Hpar.
  rewrite decide_True by done. hstep.
  destruct (String.eqb_spec n ""); [done|]. hstep. rewrite Hk.
  rewrite child_path_concat. by destruct (Hwf k parent Hpar) as [-> _].
Qed.

(** Without a parent (absent, [null] or [""]) the folder is a root with
    the empty path. *)
Lemma createFolder_root uid n pf w :
  truthy pf = false -> n <> "" ->
  handle (createFolder uid (Some n) pf) w =
    let f := mkFolder (next_id w) uid n None "" (now w) in
    (add_folder w f, reply 201 (BFolder f)).
Proof.
  intros Ht Hn. unfold handle, run_handler, createFolder, parent_path, create_folder_doc.
  destruct pf as [p|];
    [assert (p = "") as -> by (simpl in Ht; by destruct (String.eqb_spec p ""))|];
    hstep; (destruct (String.eqb_spec n ""); [done|]); hstep; done.
Qed.

Lemma owned_folder_missing uid id k w :
  cast_oid id = Some k -> folders w !! k = None ->
  owned_folder uid id w = (w, Stop (reply 404 (BMessage "Folder not found"))).
Proof. exact (owned_doc_missing (D := folder) f_user "Folder not found" uid id k w). Qed.

Lemma owned_folder_foreign uid id k f w :
  cast_oid id = Some k -> folders w !! k = Some f -> f_user f <> uid ->
  owned_folder uid id w = (w, Stop (reply 403 (BMessage "Not authorized"))).
Proof. exact (owned_doc_foreign (D := folder) f_user "Folder not found" uid id k f w). Qed.

Lemma owned_folder_mine uid id k f w :
  cast_oid id = Some k -> folders w !! k = Some f -> f_user f = uid ->
  owned_folder uid id w = (w, Ok f).
Proof. exact (owned_doc_mine (D := folder) f_user "Folder not found" uid id k f w). Qed.

Lemma owned_folder_bad_id uid id w :
  cast_oid id = None -> owned_folder uid id w = (w, Raise (cast_error id)).
Proof. exact (owned_doc_bad_id (D := folder) f_user "Folder not found" uid id w). Qed.

(** Existence is checked before ownership.  Deleting a folder id that
    no folder has answers 404, deleting another user's folder answers
    403, and neither changes the world. *)
Theorem deleteFolder_guards uid id k w :
  cast_oid id = Some k ->
  (folders w !! k = None ->
     handle (deleteFolder uid id) w = (w, reply 404 (BMessage "Folder not found"))) /\
  (forall f, folders w !! k = Some f -> f_user f <> uid ->
     handle (deleteFolder uid id) w = (w, reply 403 (BMessage "Not authorized"))).
Proof.
  intros Hk. split.
  - intros Hf. unfold handle, run_handler, deleteFolder, bind. by rewrite (owned_folder_missing _ _ k).
  - intros f Hf Hu. unfold handle, run_handler, deleteFolder, bind.
    by rewrite (owned_folder_foreign _ _ k f).
Qed.

(** The same ordering for renaming. *)
Theorem renameFolder_guards uid id name k w :
  cast_oid id = Some k ->
  (folders w !! k = None ->
     handle (renameFolder uid id name) w = (w, reply 404 (BMessage "Folder not found"))) /\
  (forall f, folders w !! k = Some f -> f_user f <> uid ->
     handle (renameFolder uid id name) w = (w, reply 403 (BMessage "Not authorized"))).
Proof.
  intros Hk. split.
  - intros Hf. unfold handle, run_handler, renameFolder, bind. by rewrite (owned_folder_missing _ _ k).
  - intros f Hf Hu. unfold handle, run_handler, renameFolder, bind.
    by rewrite (owned_folder_foreign _ _ k f).
Qed.

(** C27: an id that is not an ObjectId is neither "not found" nor
    "forbidden": the cast throws and the handlers answer 500 with the
    CastError's message. *)
Theorem folder_bad_id_server_error uid id name w :
  cast_oid id = None ->
  handle (deleteFolder uid id) w = (w, server_error (cast_error id)) /\
  handle (renameFolder uid id name) w = (w, server_error (cast_error id)).
Proof.
  intros Hk. unfold handle, run_handler, deleteFolder, renameFolder, bind.
  by rewrite !owned_folder_bad_id.
Qed.

(** C22: existence before ownership for the parent of a new folder. *)
Theorem createFolder_parent_guards uid name p k w :
  cast_oid p = Some k ->
  (folders w !! k = None ->
     handle (createFolder uid name (Some p)) w = (w, reply 404 (BMessage "Parent folder not found"))) /\
  (forall parent, folders w !! k = Some parent -> f_user parent <> uid ->
     handle (createFolder uid name (Some p)) w = (w, reply 403 (BMessage "Not authorized"))).
Proof.
  intros Hk. unfold handle, run_handler, createFolder, parent_path, findById.
  rewrite (cast_oid_truthy _ _ Hk), Hk. split.
  - intros Hf. hstep. by rewrite Hf.
  - intros parent Hf Hu. hstep. rewrite Hf. by rewrite decide_False.
Qed.

(** Which query values mean "list the roots". *)
Lemma parent_filter_None (parent : jsstr) :
  parent_filter parent = None <->
  parent = None \/ parent = Some "" \/ parent = Some "null" \/ parent = Some "undefined".
Proof.
  destruct parent as [p|]; simpl; [|tauto].
  destruct (String.eqb_spec p ""), (String.eqb_spec p "null"), (String.eqb_spec p "undefined");
    subst; simpl; split; try done; intuition congruence.
Qed.

Lemma parent_filter_oid (p : string) (k : oid) :
  cast_oid p = Some k -> parent_filter (Some p) = Some p.
Proof.
  intros Hk. unfold parent_filter. rewrite (cast_oid_truthy _ _ Hk).
  destruct (String.eqb_spec p "null"), (String.eqb_spec p "undefined"); subst; done.
Qed.

Lemma find_folder_query uid par w :
  exists l, find (folder_query uid par) w = (w, Ok l) /\
    forall f, f ∈ l <-> exists k, folders w !! k = Some f /\ f_user f = uid /\ f_parentFolder f = par.
Proof.
  eexists. split; [reflexivity|]. intros f. simpl. rewrite elem_of_select.
  unfold folder_query. setoid_rewrite andb_true_iff. setoid_rewrite bool_decide_eq_true. done.
Qed.

(** C23: a listing without a parent value (absent, [""], ["null"] or
    ["undefined"]) answers exactly the caller's root folders, never all
    of the caller's folders; it changes nothing. *)
Theorem getFolders_root uid parent w :
  parent_filter parent = None ->
  exists l, handle (getFolders uid parent) w = (w, reply 200 (BFolders l)) /\
    forall f, f ∈ l <-> exists k, folders w !! k = Some f /\ f_user f = uid /\ f_parentFolder f = None.
Proof.
  intros Hp. destruct (find_folder_query uid None w) as (l & Hfind & Hl).
  exists l. split; [|done]. unfold handle, run_handler, getFolders. rewrite Hp.
  unfold bind. by rewrite Hfind.
Qed.

(** A listing under an ObjectId answers exactly the caller's folders
    whose parent is that id. *)
Lemma getFolders_child uid p k w :
  cast_oid p = Some k ->
  exists l, handle (getFolders uid (Some p)) w = (w, reply 200 (BFolders l)) /\
    forall f, f ∈ l <-> exists j, folders w !! j = Some f /\ f_user f = uid /\ f_parentFolder f = Some k.
Proof.
  intros Hk. destruct (find_folder_query uid (Some k) w) as (l & Hfind & Hl).
  exists l. split; [|done]. unfold handle, run_handler, getFolders.
  rewrite (parent_filter_oid p k Hk), Hk. unfold bind. by rewrite Hfind.
Qed.

(** Deleting one's own folder removes that record and nothing else. *)
Lemma deleteFolder_ok uid id k f w :
  cast_oid id = Some k -> folders w !! k = Some f -> f_user f = uid ->
  handle (deleteFolder uid id) w =
    ({| w with folders := delete k (folders w) |}, reply 200 (BMessage "Folder removed")).
Proof.
  intros Hk Hf Hu. unfold handle, run_handler, deleteFolder, bind.
  rewrite (owned_folder_mine _ _ k f) by done. unfold deleteOne. by rewrite Hk.
Qed.

(** C25: deleting a folder does not cascade: every other folder, its
    subfolders included, stays with its parent reference now pointing
    to no folder, and every file stays, those inside it included. *)
Theorem deleteFolder_no_cascade uid id k f w :
  folders_wf w -> cast_oid id = Some k -> folders w !! k = Some f -> f_user f = uid ->
  let w' := fst (handle (deleteFolder uid id) w) in
  folders w' !! k = None /\ files w' = files w /\
  forall j c, folders w !! j = Some c -> f_parentFolder c = Some k ->
    folders w' !! j = Some c.
Proof.
  intros Hwf Hk Hf Hu. simpl. rewrite (deleteFolder_ok uid id k f) by done. simpl.
  split_and!; [apply lookup_delete_eq|done|].
  intros j c Hc Hpar. rewrite lookup_delete_ne; [done|].
  intros Hjk. subst j. pose proof (folders_wf_parent_lt w k c k Hwf Hc Hpar). lia.
Qed.

(** C26: renaming one's own folder changes its name (kept when the new
    name is absent or empty) and nothing else: id, owner, parent and path
    stay, so the paths below it stay valid. *)
Theorem renameFolder_ok uid id name k f w :
  folders_wf w -> cast_oid id = Some k -> folders w !! k = Some f -> f_user f = uid ->
  let f' := {| f with f_name := js_or name (f_name f) |} in
  handle (renameFolder uid id name) w =
    ({| w with folders := <[k := f']> (folders w) |}, reply 200 (BFolder f')).
Proof.
  intros Hwf Hk Hf Hu. destruct (Hwf k f Hf) as (Hid & _ & Hn & _).
  unfold handle, run_handler, renameFolder, bind.
  rewrite (owned_folder_mine _ _ k f) by done. unfold save_folder, bind.
  assert (js_or name (f_name f) <> "") as Hn'.
  { destruct name as [s|]; simpl; [|done]. by destruct (String.eqb_spec s ""). }
  simpl. destruct (String.eqb_spec (js_or name (f_name f)) ""); [done|].
  hstep. rewrite (save_loaded (D := folder) f _ w) by (simpl; by rewrite Hid). simpl. by rewrite Hid.
Qed.

(** C5: the folder-tree invariant is preserved by every folder handler,
    on every path through it (success, early answers and thrown errors). *)
Theorem folder_handlers_preserve_wf uid w :
  folders_wf w ->
  (forall name pf, folders_wf (fst (handle (createFolder uid name pf) w))) /\
  (forall id, folders_wf (fst (handle (deleteFolder uid id) w))) /\
  (forall id name, folders_wf (fst (handle (renameFolder uid id name) w))) /\
  (forall parent, folders_wf (fst (handle (getFolders uid parent) w))).
Proof.
  intros Hwf. split_and!; intros.
  - by apply createFolder_preserves_wf.
  - by apply deleteFolder_preserves_wf.
  - by apply renameFolder_preserves_wf.
  - by rewrite getFolders_read_only.
Qed.

(** ** Witnesses on the sample tree *)

Lemma createFolder_child_witness :
  (folders_wf demo_w2 /\ cast_oid (oid_hex 2) = Some 2 /\
   folders demo_w2 !! 2 = Some (mkFolder 2 7 "work" (Some 1) ("/" +:+ oid_hex 1) 0) /\
   7 = 7 /\ "2026" <> "") /\
  handle (createFolder 7 (Some "2026") (Some (oid_hex 2))) demo_w2 =
    let f := mkFolder (next_id demo_w2) 7 "2026" (Some 2)
               (("/" +:+ oid_hex 1) +:+ "/" +:+ oid_hex 2) (now demo_w2) in
    (add_folder demo_w2 f, reply 201 (BFolder f)).
Proof.
  assert (folders_wf demo_w2) as Hwf by decide_by_eval.
  assert (cast_oid (oid_hex 2) = Some 2) as Hk by (vm_compute; reflexivity).
  assert (folders demo_w2 !! 2 = Some (mkFolder 2 7 "work" (Some 1) ("/" +:+ oid_hex 1) 0))
    as Hp by (vm_compute; reflexivity).
  split; [split_and!; done|].
  exact (createFolder_child 7 "2026" (oid_hex 2) 2 _ demo_w2 Hwf Hk Hp eq_refl ltac:(done)).
Defined.

Lemma folder_handlers_preserve_wf_witness :
  folders_wf demo_tree /\
  ((forall name pf, folders_wf (fst (handle (createFolder 8 name pf) demo_tree))) /\
   (forall id, folders_wf (fst (handle (deleteFolder 8 id) demo_tree))) /\
   (forall id name, folders_wf (fst (handle (renameFolder 8 id name) demo_tree))) /\
   (forall parent, folders_wf (fst (handle (getFolders 8 parent) demo_tree)))).
Proof.
  assert (folders_wf demo_tree) as Hwf by decide_by_eval.
  split; [exact Hwf|exact (folder_handlers_preserve_wf 8 demo_tree Hwf)].
Defined.

Lemma deleteFolder_guards_witness :
  cast_oid (oid_hex 9) = Some 9 /\
  ((folders demo_tree !! 9 = None ->
      handle (deleteFolder 8 (oid_hex 9)) demo_tree = (demo_tree, reply 404 (BMessage "Folder not found"))) /\
   (forall f, folders demo_tree !! 9 = Some f -> f_user f <> 8 ->
      handle (deleteFolder 8 (oid_hex 9)) demo_tree = (demo_tree, reply 403 (BMessage "Not authorized")))).
Proof.
  assert (cast_oid (oid_hex 9) = Some 9) as Hk by (vm_compute; reflexivity).
  split; [exact Hk|exact (deleteFolder_guards 8 (oid_hex 9) 9 demo_tree Hk)].
Defined.

Lemma renameFolder_guards_witness :
  cast_oid (oid_hex 2) = Some 2 /\
  ((folders demo_tree !! 2 = None ->
      handle (renameFolder 8 (oid_hex 2) (Some "x")) demo_tree =
        (demo_tree, reply 404 (BMessage "Folder not found"))) /\
   (forall f, folders demo_tree !! 2 = Some f -> f_user f <> 8 ->
      handle (renameFolder 8 (oid_hex 2) (Some "x")) demo_tree =
        (demo_tree, reply 403 (BMessage "Not authorized")))).
Proof.
  assert (cast_oid (oid_hex 2) = Some 2) as Hk by (vm_compute; reflexivity).
  split; [exact Hk|exact (renameFolder_guards 8 (oid_hex 2) (Some "x") 2 demo_tree Hk)].
Defined.

Lemma folder_bad_id_server_error_witness :
  cast_oid "null" = None /\
  handle (deleteFolder 7 "null") demo_tree = (demo_tree, server_error (cast_error "null")) /\
  handle (renameFolder 7 "null" (Some "x")) demo_tree = (demo_tree, server_error (cast_error "null")).
Proof.
  assert (cast_oid "null" = None) as Hk by reflexivity.
  split; [exact Hk|exact (folder_bad_id_server_error 7 "null" (Some "x") demo_tree Hk)].
Defined.

Lemma createFolder_parent_guards_witness :
  cast_oid (oid_hex 2) = Some 2 /\
  ((folders demo_tree !! 2 = None ->
      handle (createFolder 8 (Some "x") (Some (oid_hex 2))) demo_tree =
        (demo_tree, reply 404 (BMessage "Parent folder not found"))) /\
   (forall parent, folders demo_tree !! 2 = Some parent -> f_user parent <> 8 ->
      handle (createFolder 8 (Some "x") (Some (oid_hex 2))) demo_tree =
        (demo_tree, reply 403 (BMessage "Not authorized")))).
Proof.
  assert (cast_oid (oid_hex 2) = Some 2) as Hk by (vm_compute; reflexivity).
  split; [exact Hk|exact (createFolder_parent_guards 8 (Some "x") (oid_hex 2) 2 demo_tree Hk)].
Defined.

Lemma getFolders_root_witness :
  parent_filter (Some "undefined") = None /\
  exists l, handle (getFolders 7 (Some "undefined")) demo_tree = (demo_tree, reply 200 (BFolders l)) /\
    forall f, f ∈ l <-> exists k, folders demo_tree !! k = Some f /\ f_user f = 7 /\ f_parentFolder f = None.
Proof.
  assert (parent_filter (Some "undefined") = None) as Hp by reflexivity.
  split; [exact Hp|exact (getFolders_root 7 (Some "undefined") demo_tree Hp)].
Defined.

Lemma deleteFolder_no_cascade_witness :
  (folders_wf demo_tree /\ cast_oid (oid_hex 2) = Some 2 /\
   folders demo_tree !! 2 = Some (mkFolder 2 7 "work" (Some 1) ("/" +:+ oid_hex 1) 0) /\ 7 = 7) /\
  let w' := fst (handle (deleteFolder 7 (oid_hex 2)) demo_tree) in
  folders w' !! 2 = None /\ files w' = files demo_tree /\
  forall j c, folders demo_tree !! j = Some c -> f_parentFolder c = Some 2 ->
    folders w' !! j = Some c.
Proof.
  assert (folders_wf demo_tree) as Hwf by decide_by_eval.
  assert (cast_oid (oid_hex 2) = Some 2) as Hk by (vm_compute; reflexivity).
  assert (folders demo_tree !! 2 = Some (mkFolder 2 7 "work" (Some 1) ("/" +:+ oid_hex 1) 0))
    as Hf by (vm_compute; reflexivity).
  split; [split_and!; done|].
  exact (deleteFolder_no_cascade 7 (oid_hex 2) 2 _ demo_tree Hwf Hk Hf eq_refl).
Defined.

Lemma renameFolder_ok_witness :
  (folders_wf demo_tree /\ cast_oid (oid_hex 2) = Some 2 /\
   folders demo_tree !! 2 = Some (mkFolder 2 7 "work" (Some 1) ("/" +:+ oid_hex 1) 0) /\ 7 = 7) /\
  let f := mkFolder 2 7 "work" (Some 1) ("/" +:+ oid_hex 1) 0 in
  let f' := {| f with f_name := js_or None (f_name f) |} in
  handle (renameFolder 7 (oid_hex 2) None) demo_tree =
    ({| demo_tree with folders := <[2 := f']> (folders demo_tree) |}, reply 200 (BFolder f')).
Proof.
  assert (folders_wf demo_tree) as Hwf by decide_by_eval.
  assert (cast_oid (oid_hex 2) = Some 2) as Hk by (vm_compute; reflexivity).
  assert (folders demo_tree !! 2 = Some (mkFolder 2 7 "work" (Some 1) ("/" +:+ oid_hex 1) 0))
    as Hf by (vm_compute; reflexivity).
  split; [split_and!; done|].
  exact (renameFolder_ok 7 (oid_hex 2) None 2 _ demo_tree Hwf Hk Hf eq_refl).
Defined.
