(* ===== verification/Tokens.v ===== *)
(** * Tokens: single-use activation and reset tokens

    The [Token] model (src/src/models/Token.js) and the token queries of
    src/src/controllers/authController.js: issuing a token
    ([Token.create]), looking one up by secret and type
    ([Token.findOne({ token, type })]) and consuming it
    ([Token.findByIdAndDelete]).  Expiry is not checked by any query of
    the code: it is the MongoDB TTL monitor, triggered by the schema's
    [expires: 86400] on [createdAt], that deletes old tokens, in the
    background and periodically.  The monitor is modelled as its own
    step [ttl_reap]; the theorems show what it guarantees after it runs
    and that, between two runs, an expired token is still accepted. *)

From stdpp Require Import base gmap strings list.
From S2P Require Import Prelude ObjectId Store.

Open Scope N_scope.
Open Scope handler_scope.

Module TokenStore.

(** [expires: 86400] (seconds) on [createdAt]. *)
Definition token_ttl : N := 86400.

(** The filter [{ token, type }]. *)
Definition token_query (secret : string) (ty : token_type) (t : token) : bool :=
  String.eqb (t_token t) secret && bool_decide (t_type t = ty).

(** [Token.findOne({ token, type })] *)
Definition findToken (secret : string) (ty : token_type) : Hnd (option token) :=
  findOne (token_query secret ty).

(** [Token.create({ userId, token, type })]; [createdAt] defaults to now. *)
Definition issueToken (uid : oid) (secret : string) (ty : token_type) : Hnd token :=
  create (fun k t => mkToken k uid secret ty t).

(** [Token.findByIdAndDelete(tokenDoc._id)] *)
Definition consumeToken (t : token) : Hnd unit := deleteById (D := token) (t_id t).

(** A token the TTL index marks for deletion: [createdAt + 86400 <= now]. *)
Definition expired (clock : N) (t : token) : bool := t_createdAt t + token_ttl <=? clock.

(** One pass of the TTL monitor: every expired token is deleted. *)
Definition ttl_reap (w : world) : world :=
  {| w with tokens := filter (fun kt => expired (now w) kt.2 = false) (tokens w) |}.

(** The clock advances. *)
Definition tick (dt : N) (w : world) : world := {| w with now := now w + dt |}.

End TokenStore.

Import TokenStore.

(** No stored token carries this secret. *)
Definition secret_fresh (secret : string) (w : world) : Prop :=
  map_Forall (fun _ t => t_token t <> secret) (tokens w).

(** The only stored token with this secret and type is the one at [k]. *)
Definition unique_token (secret : string) (ty : token_type) (k : oid) (w : world) : Prop :=
  map_Forall (fun k' t' => t_token t' = secret -> t_type t' = ty -> k' = k) (tokens w).

(** ** Lemmas *)

Lemma findToken_spec secret ty w :
  findToken secret ty w = (w, Ok (first_match (token_query secret ty) (tokens w))).
Proof. reflexivity. Qed.

Lemma token_query_true secret ty t :
  token_query secret ty t = true <-> t_token t = secret /\ t_type t = ty.
Proof.
  unfold token_query. rewrite andb_true_iff, String.eqb_eq, bool_decide_eq_true. done.
Qed.

(** One pass of the TTL monitor deletes exactly the expired tokens:
    what it keeps is unexpired, and every unexpired token is kept. *)
Lemma lookup_ttl_reap w k t :
  tokens (ttl_reap w) !! k = Some t <-> tokens w !! k = Some t /\ expired (now w) t = false.
Proof. unfold ttl_reap. simpl. rewrite map_lookup_filter_Some. done. Qed.

(** right after the TTL monitor ran, a lookup never returns an expired
    token. *)
Theorem findToken_after_reap secret ty w t :
  snd (findToken secret ty (ttl_reap w)) = Ok (Some t) -> expired (now w) t = false.
Proof.
  rewrite findToken_spec. simpl. intros [= Hf].
  apply first_match_Some in Hf as (k & Hk & _). by apply lookup_ttl_reap in Hk as [_ ?].
Qed.

(** The lookup returns the only token with a given secret and type;
    it does not look at the token's age. *)
Lemma findToken_unique secret ty w k t :
  tokens w !! k = Some t -> t_token t = secret -> t_type t = ty -> unique_token secret ty k w ->
  findToken secret ty w = (w, Ok (Some t)).
Proof.
  intros Hk Hs Hty Huniq. rewrite findToken_spec. do 2 f_equal.
  apply (first_match_unique _ _ k); [done|by apply token_query_true|].
  intros k' t' Hk' Hq. apply token_query_true in Hq as [??]. by apply (Huniq k' t').
Qed.

(** No token with this secret and type: the lookup finds nothing. *)
Lemma findToken_absent secret ty w :
  map_Forall (fun _ t => token_query secret ty t = false) (tokens w) ->
  findToken secret ty w = (w, Ok None).
Proof.
  intros Hno. rewrite findToken_spec. do 2 f_equal. apply first_match_None_intro. exact Hno.
Qed.

(** consuming a token removes it; a second consumption changes
    nothing, and when its secret was unique a later lookup finds
    nothing. *)
Theorem consumeToken_single_use w t :
  tokens w !! t_id t = Some t ->
  let w1 := fst (consumeToken t w) in
  fst (consumeToken t w1) = w1 /\
  ((forall k' t', tokens w !! k' = Some t' -> t_token t' = t_token t -> t_type t' = t_type t -> k' = t_id t) ->
   snd (findToken (t_token t) (t_type t) w1) = Ok None).
Proof.
  intros Ht. cbv zeta. split.
  - unfold consumeToken, deleteById, modify. simpl. by rewrite delete_delete_eq.
  - intros Huniq. rewrite findToken_spec. simpl. f_equal.
    destruct (first_match _ _) as [t'|] eqn:Hf; [|done].
    apply first_match_Some in Hf as (k' & Hk' & Hq & _).
    apply lookup_delete_Some in Hk' as [Hne Hk'].
    apply token_query_true in Hq as [??]. by pose proof (Huniq k' t' Hk' ltac:(done) ltac:(done)).
Qed.
