(* ===== verification/Auth.v ===== *)
(** * Auth: the account lifecycle (src/src/controllers/authController.js)

    The six handlers [registerUser], [activateAccount], [authUser],
    [getUserProfile], [forgotPassword] and [resetPassword], over the
    [users] and [tokens] collections.  Password hashing (the [User]
    model's pre-save hook and [matchPassword], whose file is not in the
    sources) is a [PasswordHasher] the section is generic in; the random
    token secret [crypto.randomBytes(32).toString('hex')] is an input of
    the handler that draws it; [sendEmail] is fire-and-forget: the handler
    queues the message in the world's outbox and answers without waiting
    for it, and the delivery is a separate step of the environment. *)

From stdpp Require Import base gmap strings list.
From S2P Require Import Prelude ObjectId Store Tokens.
Import TokenStore.

Open Scope N_scope.
Open Scope handler_scope.

(** The credential capability: [bcrypt.hash] in the pre-save hook. *)
Class PasswordHasher := { hash_password : string -> string }.

Module AuthController.
Section Handlers.
Context `{PasswordHasher}.
(** [process.env.CLIENT_URL] *)
Context (CLIENT_URL : jsstr).

(** [user.matchPassword(entered)]: [bcrypt.compare] with the stored hash. *)
Definition matchPassword (entered : string) (u : user) : bool :=
  String.eqb (hash_password entered) (u_password u).

(** [generateToken(id)]: [jwt.sign({ id }, JWT_SECRET, { expiresIn: '30d' })]. *)
Definition generateToken (id : oid) : session := mkSession id "30d".

(** [sendEmail(options)] without [await]: the message is handed to the
    transport and the handler goes on. *)
Definition sendEmail (to subject text : string) : Hnd unit :=
  modify (fun w => {| w with outbox := outbox w ++ [mkMail to subject text] |}).

Definition client_url : string := js_or CLIENT_URL "http://localhost:5173".

(** [User.findOne({ email })] *)
Definition findUserByEmail (email : string) : Hnd (option user) :=
  findOne (fun u => String.eqb (u_email u) email).

(** The [user] object of the activation answer (no [createdAt]). *)
Definition activation_view (u : user) : user_view :=
  mkUserView (u_id u) (u_firstName u) (u_lastName u) (u_email u) (u_status u) None.

(** The [user] object of the login and profile answers. *)
Definition profile_view (u : user) : user_view :=
  mkUserView (u_id u) (u_firstName u) (u_lastName u) (u_email u) (u_status u) (Some (u_createdAt u)).

(** [POST /api/auth/register]; [secret] is the random activation token. *)
Definition registerUser (firstName lastName : jsstr) (email password secret : string)
    : Hnd response :=
  userExists <- findUserByEmail email ;;
  match userExists with
  | Some _ => stop (reply 400 (BMessage "User already exists"))
  | None =>
      user <- create (fun k t => mkUser k firstName lastName email (hash_password password) Inactive t) ;;
      _ <- issueToken (u_id user) secret Activation ;;
      let activationUrl := client_url +:+ "/activate/" +:+ secret in
      sendEmail (u_email user) "Account Activation - Cloud Canvas"
        ("Please click the following link to activate your account: " +:+ activationUrl) ;;
      ret (reply 201 (BSuccess "Registration successful. Please check your email to activate your account."))
  end.

(** [GET /api/auth/activate/:token] *)
Definition activateAccount (token : string) : Hnd response :=
  tokenDoc <- findToken token Activation ;;
  match tokenDoc with
  | None => stop (reply 400 (BMessage "Invalid or expired token"))
  | Some td =>
      user <- findByOid (D := user) (t_userId td) ;;
      match user with
      | None => stop (reply 404 (BMessage "User not found"))
      | Some u =>
          let u' := {| u with u_status := Active |} in
          save u u' ;;
          consumeToken td ;;
          ret (reply 200 (BSession (Some "Account activated") (generateToken (u_id u')) (activation_view u')))
      end
  end.

(** [POST /api/auth/login] *)
Definition authUser (email password : string) : Hnd response :=
  user <- findUserByEmail email ;;
  match user with
  | Some u =>
      if matchPassword password u then
        if decide (u_status u = Active) then
          ret (reply 200 (BSession None (generateToken (u_id u)) (profile_view u)))
        else stop (reply 401 (BMessage "Account is not active. Please check your email."))
      else ret (reply 401 (BMessage "Invalid email or password"))
  | None => ret (reply 401 (BMessage "Invalid email or password"))
  end.

(** [GET /api/auth/profile] for the user [protect] authenticated. *)
Definition getUserProfile (uid : oid) : Hnd response :=
  user <- findByOid (D := user) uid ;;
  match user with
  | Some u => ret (reply 200 (BProfile (profile_view u)))
  | None => ret (reply 404 (BMessage "User not found"))
  end.

(** [POST /api/auth/forgot-password]; [secret] is the random reset token. *)
Definition forgotPassword (email secret : string) : Hnd response :=
  user <- findUserByEmail email ;;
  match user with
  | None => stop (reply 404 (BMessage "User not found"))
  | Some u =>
      _ <- issueToken (u_id u) secret Reset ;;
      let resetUrl := client_url +:+ "/reset-password?token=" +:+ secret in
      sendEmail (u_email u) "Password Reset - Cloud Canvas"
        ("You requested a password reset. Click here: " +:+ resetUrl) ;;
      ret (reply 200 (BSuccess "Password reset email sent. Please check your inbox."))
  end.

(** [POST /api/auth/reset-password] *)
Definition resetPassword (token password : string) : Hnd response :=
  tokenDoc <- findToken token Reset ;;
  match tokenDoc with
  | None => stop (reply 400 (BMessage "Invalid or expired token"))
  | Some td =>
      user <- findByOid (D := user) (t_userId td) ;;
      match user with
      | None => stop (reply 404 (BMessage "User not found"))
      | Some u =>
          save u {| u with u_password := hash_password password |} ;;
          consumeToken td ;;
          ret (reply 200 (BSuccess "Password reset successful"))
      end
  end.

End Handlers.
End AuthController.

Import AuthController.

(** A stand-in for bcrypt on concrete runs: any function works for the
    theorems, which are generic in the hasher. *)
Definition demo_hasher : PasswordHasher := {| hash_password p := "$2a$10$" +:+ p |}.

(** A user registered at time 0 whose activation token has reached the
    24-hour limit at time 86400, the TTL monitor not having run. *)
Definition demo_registered : world :=
  fst (handle (@registerUser demo_hasher None (Some "Ada") (Some "L") "ada@x.io" "pw" "s3cr3t")
         (empty_world 0)).
Definition demo_stale : world := tick 86400 demo_registered.

(** Ada has registered (activation secret ["s3cr3t"], token id 2) and
    asked for a password reset (reset secret ["r3s3t"], token id 3). *)
Definition demo_reset_pending : world :=
  fst (handle (@forgotPassword None "ada@x.io" "r3s3t") demo_registered).

(** ** Predicates on the users and tokens of a world *)

(** No registered user has this email. *)
Definition email_free (email : string) (w : world) : Prop :=
  map_Forall (fun _ u => u_email u <> email) (users w).

(** At most one user per email: what [registerUser]'s check maintains
    when requests do not overlap. *)
Definition emails_unique_map (m : gmap oid user) : Prop :=
  map_Forall (fun k1 u1 => map_Forall (fun k2 u2 => u_email u1 = u_email u2 -> k1 = k2) m) m.
Arguments emails_unique_map : simpl never.

Definition emails_unique (w : world) : Prop := emails_unique_map (users w).

(** ** Lemmas on the auth handlers *)

Lemma email_free_of_first_match (email : string) m :
  first_match (fun u => String.eqb (u_email u) email) m = None ->
  map_Forall (fun _ v => u_email v <> email) m.
Proof. intros Hf k v Hv. apply String.eqb_neq. exact (first_match_None _ _ Hf k v Hv). Qed.

(** A new user under a fresh id with an email nobody has. *)
Lemma emails_unique_insert_new m k u :
  emails_unique_map m -> m !! k = None -> map_Forall (fun _ v => u_email v <> u_email u) m ->
  emails_unique_map (<[k := u]> m).
Proof.
  intros Hu Hk Hfree k1 u1 Hu1 k2 u2 Hu2 He.
  apply lookup_insert_Some in Hu1 as [[<- <-]|[Hne1 Hu1]];
  apply lookup_insert_Some in Hu2 as [[<- <-]|[Hne2 Hu2]]; try done.
  - by destruct (Hfree k2 u2 Hu2).
  - by destruct (Hfree k1 u1 Hu1).
  - exact (Hu k1 u1 Hu1 k2 u2 Hu2 He).
Qed.

(** A user saved back under its id with its email unchanged. *)
Lemma emails_unique_insert_same m k u u' :
  emails_unique_map m -> m !! k = Some u -> u_email u' = u_email u ->
  emails_unique_map (<[k := u']> m).
Proof.
  intros Hu Hk He k1 u1 Hu1 k2 u2 Hu2 He12.
  apply lookup_insert_Some in Hu1 as [[<- <-]|[Hne1 Hu1]];
  apply lookup_insert_Some in Hu2 as [[<- <-]|[Hne2 Hu2]]; try done.
  - apply (Hu k u Hk k2 u2 Hu2). congruence.
  - symmetry. apply (Hu k u Hk k1 u1 Hu1). congruence.
  - exact (Hu k1 u1 Hu1 k2 u2 Hu2 He12).
Qed.

Section AuthLemmas.
Context `{PasswordHasher}.

Lemma findUserByEmail_free email w :
  email_free email w -> findUserByEmail email w = (w, Ok None).
Proof.
  intros Hfree. unfold findUserByEmail, findOne, gets. simpl. do 2 f_equal.
  apply first_match_None_intro. intros k u Hu. apply String.eqb_neq, (Hfree k u Hu).
Qed.

Lemma findUserByEmail_unique email w k u :
  users w !! k = Some u -> u_email u = email -> emails_unique w ->
  findUserByEmail email w = (w, Ok (Some u)).
Proof.
  intros Hu He Huniq. unfold findUserByEmail, findOne, gets. simpl. do 2 f_equal.
  apply (first_match_unique _ _ k); [done|by apply String.eqb_eq|].
  intros k' u' Hu' He'. apply String.eqb_eq in He'. symmetry.
  apply (Huniq k u Hu k' u' Hu'). congruence.
Qed.

(** Registering a new email stores an inactive user under the next id,
    an activation token for it under the id after, queues the activation
    mail and answers 201. *)
Lemma registerUser_new CU fn ln email pw secret w :
  email_free email w ->
  let k := next_id w in
  let u := mkUser k fn ln email (hash_password pw) Inactive (now w) in
  let t := mkToken (k + 1) k secret Activation (now w) in
  let m := mkMail email "Account Activation - Cloud Canvas"
             ("Please click the following link to activate your account: " +:+
              client_url CU +:+ "/activate/" +:+ secret) in
  handle (registerUser CU fn ln email pw secret) w =
    ({| w with users := <[k := u]> (users w); tokens := <[k + 1 := t]> (tokens w);
               next_id := k + 2; outbox := outbox w ++ [m] |},
     reply 201 (BSuccess "Registration successful. Please check your email to activate your account.")).
Proof.
  intros Hfree. cbv zeta. unfold handle, run_handler, registerUser, bind.
  rewrite findUserByEmail_free by done. simpl. do 2 f_equal. lia.
Qed.

(** A registered email is refused with 400 and nothing changes. *)
Lemma registerUser_taken CU fn ln email pw secret w k u :
  users w !! k = Some u -> u_email u = email -> emails_unique w ->
  handle (registerUser CU fn ln email pw secret) w = (w, reply 400 (BMessage "User already exists")).
Proof.
  intros Hu He Huniq. unfold handle, run_handler, registerUser, bind.
  by rewrite (findUserByEmail_unique email w k u).
Qed.

(** Activation with the only token of that secret: the user becomes
    active, the token is deleted, and the answer carries a session. *)
Lemma activateAccount_ok secret w k t u :
  keyed (D := user) w -> tokens w !! k = Some t -> t_token t = secret ->
  t_type t = Activation -> unique_token secret Activation k w -> t_id t = k ->
  users w !! t_userId t = Some u ->
  let u' := {| u with u_status := Active |} in
  handle (activateAccount secret) w =
    ({| w with users := <[t_userId t := u']> (users w); tokens := delete k (tokens w) |},
     reply 200 (BSession (Some "Account activated") (generateToken (t_userId t)) (activation_view u'))).
Proof.
  intros Hkeyed Hk Hs Hty Huniq Hid Hu. cbv zeta.
  destruct (Hkeyed _ _ Hu) as [Huid _]. simpl in Huid.
  unfold handle, run_handler, activateAccount, bind.
  rewrite (findToken_unique secret Activation w k t) by done.
  unfold findByOid, gets. simpl. rewrite Hu.
  rewrite (save_loaded (D := user) u _ w) by (simpl; by rewrite Huid). simpl. by rewrite Huid, Hid.
Qed.

(** No activation token with that secret: 400, nothing changes. *)
Lemma activateAccount_invalid secret w :
  map_Forall (fun _ t => token_query secret Activation t = false) (tokens w) ->
  handle (activateAccount secret) w = (w, reply 400 (BMessage "Invalid or expired token")).
Proof.
  intros Hno. unfold handle, run_handler, activateAccount, bind. by rewrite findToken_absent.
Qed.
(** C1: the account lifecycle of one registration.  Registering a new
    email answers 201 and stores an inactive user under the next id;
    activating with the emailed secret answers 200 and makes that user
    active; the token is then gone, and activating with it again answers
    400. *)
Theorem activation_lifecycle CU fn ln email pw secret w :
  ids_wf w -> email_free email w -> secret_fresh secret w ->
  let k := next_id w in
  let w1 := fst (handle (registerUser CU fn ln email pw secret) w) in
  let w2 := fst (handle (activateAccount secret) w1) in
  status (snd (handle (registerUser CU fn ln email pw secret) w)) = 201 /\
  (exists u, users w1 !! k = Some u /\ u_status u = Inactive) /\
  status (snd (handle (activateAccount secret) w1)) = 200 /\
  (exists u, users w2 !! k = Some u /\ u_status u = Active) /\
  snd (findToken secret Activation w2) = Ok None /\
  handle (activateAccount secret) w2 = (w2, reply 400 (BMessage "Invalid or expired token")).
Proof.
  intros (Hku & Hkt & _) Hfree Hfresh. cbv zeta.
  rewrite registerUser_new by done. cbv zeta. simpl.
  set (k := next_id w).
  set (u := mkUser k fn ln email (hash_password pw) Inactive (now w)).
  set (t := mkToken (k + 1) k secret Activation (now w)).
  set (w1 := {| users := <[k:=u]> (users w); tokens := <[k + 1:=t]> (tokens w);
                folders := folders w; files := files w; next_id := k + 2; now := now w;
                bucket := bucket w; outbox := outbox w ++ _ |}).
  assert (keyed (D := user) w1) as Hku1.
  { unfold keyed. simpl. apply map_Forall_insert_2; [simpl; split; [done|lia]|].
    intros j v Hv. destruct (Hku j v Hv). split; [done|lia]. }
  assert (unique_token secret Activation (k + 1) w1) as Huniq.
  { intros j v. simpl. rewrite lookup_insert_Some.
    intros [[<- _]|[_ Hv]] Hs _; [done|]. by destruct (Hfresh j v Hv). }
  rewrite (activateAccount_ok secret w1 (k + 1) t u) by (simpl; rewrite ?lookup_insert_eq; done).
  assert (map_Forall (fun _ v => token_query secret Activation v = false)
            (delete (k + 1) (<[k + 1:=t]> (tokens w)))) as Hgone.
  { rewrite delete_insert_eq. intros j v Hv. apply lookup_delete_Some in Hv as [_ Hv].
    apply not_true_is_false. rewrite token_query_true. intros [Hs _]. by destruct (Hfresh j v Hv). }
  split_and!; [done|by exists u; rewrite lookup_insert_eq|done| | |].
  - eexists. simpl. by rewrite lookup_insert_eq.
  - simpl. f_equal. by apply first_match_None_intro.
  - by rewrite activateAccount_invalid.
Qed.

(** C19: the three ways a login fails all answer 401, but not with the
    same body: an unknown email and a wrong password both give "Invalid
    email or password", while the right password of an inactive account
    gives "Account is not active", which tells the caller that the
    account exists and the password is right.  Nothing changes. *)
Theorem authUser_failures email pw w :
  (email_free email w ->
     handle (authUser email pw) w = (w, reply 401 (BMessage "Invalid email or password"))) /\
  (forall k u, users w !! k = Some u -> u_email u = email -> emails_unique w ->
     (matchPassword pw u = false ->
        handle (authUser email pw) w = (w, reply 401 (BMessage "Invalid email or password"))) /\
     (matchPassword pw u = true -> u_status u = Inactive ->
        handle (authUser email pw) w =
          (w, reply 401 (BMessage "Account is not active. Please check your email.")))).
Proof.
  unfold handle, run_handler, authUser, bind. split.
  - intros Hfree. by rewrite findUserByEmail_free.
  - intros k u Hu He Huniq. rewrite (findUserByEmail_unique email w k u) by done.
    split; intros Hm; rewrite Hm; [done|]. intros Hs. by rewrite decide_False by (rewrite Hs; done).
Qed.

(** The right password of an active account opens a session for it. *)
Lemma authUser_ok email pw w k u :
  users w !! k = Some u -> u_email u = email -> emails_unique w ->
  matchPassword pw u = true -> u_status u = Active ->
  handle (authUser email pw) w =
    (w, reply 200 (BSession None (generateToken (u_id u)) (profile_view u))).
Proof.
  intros Hu He Huniq Hm Hs. unfold handle, run_handler, authUser, bind.
  rewrite (findUserByEmail_unique email w k u) by done. rewrite Hm. by rewrite decide_True.
Qed.

Lemma forgotPassword_unknown CU email secret w :
  email_free email w ->
  handle (forgotPassword CU email secret) w = (w, reply 404 (BMessage "User not found")).
Proof. intros Hfree. unfold handle, run_handler, forgotPassword, bind. by rewrite findUserByEmail_free. Qed.

Lemma forgotPassword_known CU email secret w k u :
  users w !! k = Some u -> u_email u = email -> emails_unique w ->
  let t := mkToken (next_id w) (u_id u) secret Reset (now w) in
  let m := mkMail email "Password Reset - Cloud Canvas"
             ("You requested a password reset. Click here: " +:+
              client_url CU +:+ "/reset-password?token=" +:+ secret) in
  handle (forgotPassword CU email secret) w =
    ({| w with tokens := <[next_id w := t]> (tokens w); next_id := next_id w + 1;
               outbox := outbox w ++ [m] |},
     reply 200 (BSuccess "Password reset email sent. Please check your inbox.")).
Proof.
  intros Hu He Huniq. cbv zeta. unfold handle, run_handler, forgotPassword, bind.
  rewrite (findUserByEmail_unique email w k u) by done. simpl. by rewrite He.
Qed.

Lemma resetPassword_ok secret pw w k t u :
  keyed (D := user) w -> tokens w !! k = Some t -> t_token t = secret ->
  t_type t = Reset -> unique_token secret Reset k w -> t_id t = k ->
  users w !! t_userId t = Some u ->
  handle (resetPassword secret pw) w =
    ({| w with users := <[t_userId t := {| u with u_password := hash_password pw |}]> (users w);
               tokens := delete k (tokens w) |},
     reply 200 (BSuccess "Password reset successful")).
Proof.
  intros Hkeyed Hk Hs Hty Huniq Hid Hu.
  destruct (Hkeyed _ _ Hu) as [Huid _]. simpl in Huid.
  unfold handle, run_handler, resetPassword, bind.
  rewrite (findToken_unique secret Reset w k t) by done.
  unfold findByOid, gets. simpl. rewrite Hu.
  rewrite (save_loaded (D := user) u _ w) by (simpl; by rewrite Huid). simpl. by rewrite Huid, Hid.
Qed.

Lemma resetPassword_invalid secret pw w :
  map_Forall (fun _ t => token_query secret Reset t = false) (tokens w) ->
  handle (resetPassword secret pw) w = (w, reply 400 (BMessage "Invalid or expired token")).
Proof. intros Hno. unfold handle, run_handler, resetPassword, bind. by rewrite findToken_absent. Qed.

(** C14: the password-reset flow.  A reset request for an unknown email
    answers 404 and changes nothing; for a registered email it answers
    200 and stores a reset token for that user; a reset with any other
    secret answers 400; a reset with the emailed secret answers 200,
    replaces the stored password hash and deletes the token. *)
Theorem password_reset_lifecycle CU email secret wrong newpw w k u :
  ids_wf w -> users w !! k = Some u -> u_email u = email -> emails_unique w ->
  secret_fresh secret w -> map_Forall (fun _ t => token_query wrong Reset t = false) (tokens w) ->
  wrong <> secret ->
  let w1 := fst (handle (forgotPassword CU email secret) w) in
  let w2 := fst (handle (resetPassword secret newpw) w1) in
  (forall e, email_free e w ->
     handle (forgotPassword CU e secret) w = (w, reply 404 (BMessage "User not found"))) /\
  status (snd (handle (forgotPassword CU email secret) w)) = 200 /\
  (exists t, tokens w1 !! next_id w = Some t /\ t_token t = secret /\ t_type t = Reset /\
             t_userId t = k) /\
  handle (resetPassword wrong newpw) w1 = (w1, reply 400 (BMessage "Invalid or expired token")) /\
  snd (handle (resetPassword secret newpw) w1) = reply 200 (BSuccess "Password reset successful") /\
  users w2 !! k = Some {| u with u_password := hash_password newpw |} /\
  snd (findToken secret Reset w2) = Ok None.
Proof.
  intros (Hku & Hkt & _) Hu He Huniq Hfresh Hwrong Hne. cbv zeta.
  destruct (Hku k u Hu) as [Huid Hlt]. simpl in Huid.
  pose proof (forgotPassword_known CU email secret w k u Hu He Huniq) as Hf. cbv zeta in Hf.
  set (t := mkToken (next_id w) (u_id u) secret Reset (now w)) in Hf.
  set (w1 := fst (handle (forgotPassword CU email secret) w)).
  assert (users w1 = users w /\ tokens w1 = <[next_id w := t]> (tokens w) /\
          next_id w1 = next_id w + 1) as (Hu1 & Ht1 & Hn1) by (unfold w1; by rewrite Hf).
  assert (keyed (D := user) w1) as Hku1.
  { apply (keyed_mono (D := user) w); [done|rewrite Hn1; lia|exact Hku]. }
  assert (unique_token secret Reset (next_id w) w1) as Huniq1.
  { intros j v. rewrite Ht1, lookup_insert_Some.
    intros [[<- _]|[_ Hv]] Hs _; [done|]. by destruct (Hfresh j v Hv). }
  assert (tokens w1 !! next_id w = Some t) as Ht by (rewrite Ht1; apply lookup_insert_eq).
  assert (users w1 !! t_userId t = Some u) as Hut by (rewrite Hu1; simpl; by rewrite Huid).
  pose proof (resetPassword_ok secret newpw w1 (next_id w) t u Hku1 Ht eq_refl eq_refl Huniq1
                eq_refl Hut) as Hr.
  split_and!.
  - intros e Hfree. by apply forgotPassword_unknown.
  - by rewrite Hf.
  - by exists t.
  - apply resetPassword_invalid. intros j v. rewrite Ht1, lookup_insert_Some.
    intros [[<- <-]|[_ Hv]]; [|by apply Hwrong in Hv].
    apply not_true_is_false. rewrite token_query_true. simpl. intros [? _]. congruence.
  - by rewrite Hr.
  - rewrite Hr. simpl. rewrite Hu1, <- Huid. apply lookup_insert_eq.
  - rewrite Hr. simpl. f_equal. apply first_match_None_intro. simpl. rewrite Ht1, delete_insert_eq.
    intros j v Hv. apply lookup_delete_Some in Hv as [_ Hv].
    apply not_true_is_false. rewrite token_query_true. intros [Hs _]. by destruct (Hfresh j v Hv).
Qed.

(** C9: token expiry is enforced only by the TTL monitor.  An activation
    token older than 24 hours that the monitor has not deleted yet still
    activates the account (answer 200, user active); the same request
    after a pass of the monitor answers 400. *)
Theorem activateAccount_expiry_by_reaper_only secret w k t u :
  keyed (D := user) w -> tokens w !! k = Some t -> t_token t = secret ->
  t_type t = Activation -> unique_token secret Activation k w -> t_id t = k ->
  users w !! t_userId t = Some u -> expired (now w) t = true ->
  status (snd (handle (activateAccount secret) w)) = 200 /\
  (exists u', users (fst (handle (activateAccount secret) w)) !! t_userId t = Some u' /\
              u_status u' = Active) /\
  handle (activateAccount secret) (ttl_reap w) =
    (ttl_reap w, reply 400 (BMessage "Invalid or expired token")).
Proof.
  intros Hku Hk Hs Hty Huniq Hid Hu Hexp.
  rewrite (activateAccount_ok secret w k t u) by done. simpl.
  split_and!; [done|eexists; split; [apply lookup_insert_eq|done]|].
  apply activateAccount_invalid. intros j v Hv.
  apply lookup_ttl_reap in Hv as [Hv Hfresh].
  apply not_true_is_false. rewrite token_query_true. intros [Hsv Htv].
  pose proof (Huniq j v Hv Hsv Htv) as ->. congruence.
Qed.

End AuthLemmas.

(** ** Witnesses *)

#[local] Existing Instance demo_hasher.

Lemma activation_lifecycle_witness :
  (ids_wf (empty_world 0) /\ email_free "ada@x.io" (empty_world 0) /\
   secret_fresh "s3cr3t" (empty_world 0)) /\
  let k := next_id (empty_world 0) in
  let w1 := fst (handle (registerUser None (Some "Ada") (Some "L") "ada@x.io" "pw" "s3cr3t") (empty_world 0)) in
  let w2 := fst (handle (activateAccount "s3cr3t") w1) in
  status (snd (handle (registerUser None (Some "Ada") (Some "L") "ada@x.io" "pw" "s3cr3t") (empty_world 0))) = 201 /\
  (exists u, users w1 !! k = Some u /\ u_status u = Inactive) /\
  status (snd (handle (activateAccount "s3cr3t") w1)) = 200 /\
  (exists u, users w2 !! k = Some u /\ u_status u = Active) /\
  snd (findToken "s3cr3t" Activation w2) = Ok None /\
  handle (activateAccount "s3cr3t") w2 = (w2, reply 400 (BMessage "Invalid or expired token")).
Proof.
  assert (ids_wf (empty_world 0)) as H1 by (split_and!; decide_by_eval).
  assert (email_free "ada@x.io" (empty_world 0)) as H2 by decide_by_eval.
  assert (secret_fresh "s3cr3t" (empty_world 0)) as H3 by decide_by_eval.
  split; [split_and!; assumption|].
  exact (activation_lifecycle None (Some "Ada") (Some "L") "ada@x.io" "pw" "s3cr3t" _ H1 H2 H3).
Defined.

Lemma activateAccount_expiry_by_reaper_only_witness :
  let t := mkToken 2 1 "s3cr3t" Activation 0 in
  let u := mkUser 1 (Some "Ada") (Some "L") "ada@x.io" (hash_password "pw") Inactive 0 in
  (keyed (D := user) demo_stale /\ tokens demo_stale !! 2 = Some t /\ t_token t = "s3cr3t" /\
   t_type t = Activation /\ unique_token "s3cr3t" Activation 2 demo_stale /\ t_id t = 2 /\
   users demo_stale !! t_userId t = Some u /\ expired (now demo_stale) t = true) /\
  status (snd (handle (activateAccount "s3cr3t") demo_stale)) = 200 /\
  (exists u', users (fst (handle (activateAccount "s3cr3t") demo_stale)) !! t_userId t = Some u' /\
              u_status u' = Active) /\
  handle (activateAccount "s3cr3t") (ttl_reap demo_stale) =
    (ttl_reap demo_stale, reply 400 (BMessage "Invalid or expired token")).
Proof.
  cbv zeta.
  assert (keyed (D := user) demo_stale) as H1 by decide_by_eval.
  assert (tokens demo_stale !! 2 = Some (mkToken 2 1 "s3cr3t" Activation 0)) as H2
    by (vm_compute; reflexivity).
  assert (unique_token "s3cr3t" Activation 2 demo_stale) as H5 by decide_by_eval.
  assert (users demo_stale !! 1 = Some (mkUser 1 (Some "Ada") (Some "L") "ada@x.io"
            (hash_password "pw") Inactive 0)) as H7 by (vm_compute; reflexivity).
  split; [split_and!; try assumption; reflexivity|].
  exact (activateAccount_expiry_by_reaper_only "s3cr3t" demo_stale 2 _ _ H1 H2 eq_refl eq_refl
           H5 eq_refl H7 eq_refl).
Defined.

Lemma authUser_failures_witness :
  let u := mkUser 1 (Some "Ada") (Some "L") "ada@x.io" (hash_password "pw") Inactive 0 in
  (email_free "bob@x.io" demo_registered /\ users demo_registered !! 1 = Some u /\
   emails_unique demo_registered /\ matchPassword "nope" u = false /\
   matchPassword "pw" u = true) /\
  handle (authUser "bob@x.io" "pw") demo_registered =
    (demo_registered, reply 401 (BMessage "Invalid email or password")) /\
  handle (authUser "ada@x.io" "nope") demo_registered =
    (demo_registered, reply 401 (BMessage "Invalid email or password")) /\
  handle (authUser "ada@x.io" "pw") demo_registered =
    (demo_registered, reply 401 (BMessage "Account is not active. Please check your email.")).
Proof.
  cbv zeta.
  assert (email_free "bob@x.io" demo_registered) as H1 by decide_by_eval.
  assert (users demo_registered !! 1 = Some (mkUser 1 (Some "Ada") (Some "L") "ada@x.io"
            (hash_password "pw") Inactive 0)) as H2 by (vm_compute; reflexivity).
  assert (emails_unique demo_registered) as H3 by decide_by_eval.
  split; [split_and!; try assumption; reflexivity|].
  split_and!.
  - exact (proj1 (authUser_failures "bob@x.io" "pw" demo_registered) H1).
  - exact (proj1 (proj2 (authUser_failures "ada@x.io" "nope" demo_registered) 1 _ H2 eq_refl H3)
             eq_refl).
  - exact (proj2 (proj2 (authUser_failures "ada@x.io" "pw" demo_registered) 1 _ H2 eq_refl H3)
             eq_refl eq_refl).
Defined.

Lemma password_reset_lifecycle_witness :
  let u := mkUser 1 (Some "Ada") (Some "L") "ada@x.io" (hash_password "pw") Inactive 0 in
  (ids_wf demo_registered /\ users demo_registered !! 1 = Some u /\ u_email u = "ada@x.io" /\
   emails_unique demo_registered /\ secret_fresh "r3s3t" demo_registered /\
   map_Forall (fun _ t => token_query "guess" Reset t = false) (tokens demo_registered) /\
   "guess" <> "r3s3t") /\
  let w1 := fst (handle (forgotPassword None "ada@x.io" "r3s3t") demo_registered) in
  let w2 := fst (handle (resetPassword "r3s3t" "new") w1) in
  (forall e, email_free e demo_registered ->
     handle (forgotPassword None e "r3s3t") demo_registered =
       (demo_registered, reply 404 (BMessage "User not found"))) /\
  status (snd (handle (forgotPassword None "ada@x.io" "r3s3t") demo_registered)) = 200 /\
  (exists t, tokens w1 !! next_id demo_registered = Some t /\ t_token t = "r3s3t" /\
             t_type t = Reset /\ t_userId t = 1) /\
  handle (resetPassword "guess" "new") w1 = (w1, reply 400 (BMessage "Invalid or expired token")) /\
  snd (handle (resetPassword "r3s3t" "new") w1) = reply 200 (BSuccess "Password reset successful") /\
  users w2 !! 1 = Some {| u with u_password := hash_password "new" |} /\
  snd (findToken "r3s3t" Reset w2) = Ok None.
Proof.
  cbv zeta.
  assert (ids_wf demo_registered) as H1 by (split_and!; decide_by_eval).
  assert (users demo_registered !! 1 = Some (mkUser 1 (Some "Ada") (Some "L") "ada@x.io"
            (hash_password "pw") Inactive 0)) as H2 by (vm_compute; reflexivity).
  assert (emails_unique demo_registered) as H4 by decide_by_eval.
  assert (secret_fresh "r3s3t" demo_registered) as H5 by decide_by_eval.
  assert (map_Forall (fun _ t => token_query "guess" Reset t = false) (tokens demo_registered))
    as H6 by decide_by_eval.
  assert ("guess" <> "r3s3t") as H7 by done.
  split; [split_and!; try assumption; reflexivity|].
  exact (password_reset_lifecycle None "ada@x.io" "r3s3t" "guess" "new" demo_registered 1 _
           H1 H2 eq_refl H4 H5 H6 H7).
Defined.
