(* ===== verification/Files.v ===== *)
(** * Files: the file controller (src/src/controllers/fileController.js)

    The six handlers [uploadFileSuccess], [getFiles], [deleteFile],
    [getDownloadUrl], [downloadFile] and [renameFile] over the [files]
    collection and the S3 bucket.  S3 is an external service: the outcome
    of each request the controller sends it (success, or the error it
    throws) is an input of the handler, so that the theorems cover every
    answer the service can give.  The upload itself is done by the
    multer-s3 middleware before the handler runs (its file is not in the
    sources); [s3_upload] models what it leaves behind. *)

From stdpp Require Import base gmap strings list.
From S2P Require Import Prelude ObjectId Store Folders.

Open Scope N_scope.
Open Scope handler_scope.

Module FileController.

(** The answer of the S3 service to one command. *)
Inductive s3_outcome := S3Ok | S3Error (msg : string).

(** [req.file] as multer-s3 fills it in. *)
Record upload := mkUpload {
  up_originalname : string;
  up_key : string;
  up_size : N;
  up_mimetype : string
}.

(** The middleware [upload.single('file')]: the object is in the bucket
    before the handler runs. *)
Definition s3_upload (up : upload) (content : string) (w : world) : world :=
  {| w with bucket := <[up_key up := content]> (bucket w) |}.

(** [await s3.send(new DeleteObjectCommand({ Bucket, Key }))]: S3 deletes
    the key (and answers success for a missing key too), or the call
    throws. *)
Definition s3_delete (key : string) (o : s3_outcome) : Hnd unit :=
  match o with
  | S3Ok => modify (fun w => {| w with bucket := delete key (bucket w) |})
  | S3Error e => raise e
  end.

(** [folder: req.body.folderId || null] cast by [File.create]: a value
    that is not an ObjectId fails validation. *)
Definition folder_ref (folderId : jsstr) : Hnd (option oid) :=
  match folderId with
  | Some s =>
      if truthy folderId then
        match cast_oid s with
        | Some k => ret (Some k)
        | None => raise ("File validation failed: folder: " +:+ cast_error s)
        end
      else ret None
  | None => ret None
  end.

(** [POST /api/files/upload] *)
Definition uploadFileSuccess (uid : oid) (file : option upload) (folderId : jsstr) : Hnd response :=
  match file with
  | None => stop (reply 400 (BMessage "No file uploaded"))
  | Some up =>
      name <- required "File" "name" (Some (up_originalname up)) ;;
      key <- required "File" "s3Key" (Some (up_key up)) ;;
      mime <- required "File" "mimeType" (Some (up_mimetype up)) ;;
      fld <- folder_ref folderId ;;
      f <- create (fun k t => mkFile k uid name key fld (up_size up) mime t) ;;
      ret (reply 201 (BFile f))
  end.

(** The Mongo filter [{ user, folder }]. *)
Definition file_query (uid : oid) (fld : option oid) (f : file) : bool :=
  bool_decide (fl_user f = uid) && bool_decide (fl_folder f = fld).

(** [GET /api/files?folder=..] *)
Definition getFiles (uid : oid) (folder : jsstr) : Hnd response :=
  match FolderController.parent_filter folder with
  | Some p =>
      match cast_oid p with
      | Some k => fs <- find (file_query uid (Some k)) ;; ret (reply 200 (BFiles fs))
      | None => raise (cast_error p)
      end
  | None => fs <- find (file_query uid None) ;; ret (reply 200 (BFiles fs))
  end.

(** The existence-then-ownership guard of the four [/:id] handlers. *)
Definition owned_file (uid : oid) (id : string) : Hnd file :=
  owned_doc fl_user "File not found" uid id.

(** [DELETE /api/files/:id]: the object first, then the record. *)
Definition deleteFile (uid : oid) (id : string) (s3 : s3_outcome) : Hnd response :=
  f <- owned_file uid id ;;
  s3_delete (fl_s3Key f) s3 ;;
  deleteOne (D := file) id ;;
  ret (reply 200 (BMessage "File removed")).

(** The lifetime of a download URL: [expiresIn: 3600]. *)
Definition url_ttl : N := 3600.

(** [await getSignedUrl(s3, command, { expiresIn: 3600 })]: the client
    signs locally, without asking S3 whether the object exists; it throws
    when it cannot sign. *)
Definition sign_url (key : string) (s3 : s3_outcome) : Hnd presigned :=
  match s3 with
  | S3Ok => ret (mkPresigned key url_ttl)
  | S3Error e => raise e
  end.

(** [GET /api/files/:id/download-url] *)
Definition getDownloadUrl (uid : oid) (id : string) (s3 : s3_outcome) : Hnd response :=
  f <- owned_file uid id ;;
  url <- sign_url (fl_s3Key f) s3 ;;
  ret (reply 200 (BUrl url)).

(** [await s3.send(new GetObjectCommand(..))] on the bucket as it is when
    the command runs, and the answer: the body piped with the file's type
    and name, or the inner [catch]'s 404 for any failure (a missing key, a
    service error). *)
Definition get_object (f : file) (s3 : s3_outcome) : Hnd response :=
  w <- get ;;
  match s3, bucket w !! fl_s3Key f with
  | S3Ok, Some _ =>
      ret (reply 200 (BStream (fl_mimeType f)
                         ("attachment; filename=" +:+ dq +:+ fl_name f +:+ dq) (fl_s3Key f)))
  | _, _ => ret (reply 404 (BMessage "File not found on server"))
  end.

(** [GET /api/files/:id/download] *)
Definition downloadFile (uid : oid) (id : string) (s3 : s3_outcome) : Hnd response :=
  f <- owned_file uid id ;;
  get_object f s3.

(** [file.save()]: the [required] validator runs again. *)
Definition save_file (loaded f : file) : Hnd unit :=
  _ <- required "File" "name" (Some (fl_name f)) ;;
  save loaded f.

(** [PATCH /api/files/:id] with [file.name = req.body.name || file.name] *)
Definition renameFile (uid : oid) (id : string) (name : jsstr) : Hnd response :=
  f <- owned_file uid id ;;
  let f' := {| f with fl_name := js_or name (fl_name f) |} in
  save_file f f' ;;
  ret (reply 200 (BFile f')).

End FileController.

Import FileController.

(** A bucket and a file stored by the upload path, for the witnesses:
    user 7 uploads [report.pdf] into folder 1 of the sample tree. *)
Definition demo_upload : upload := mkUpload "report.pdf" "u7/report.pdf" 2048 "application/pdf".
Definition demo_files : world :=
  fst (handle (uploadFileSuccess 7 (Some demo_upload) (Some (oid_hex 1)))
         (s3_upload demo_upload "%PDF" demo_tree)).

(** The four handlers behind the guard, as one family. *)
Definition file_handlers (uid : oid) (id : string) (name : jsstr) (s3 : s3_outcome) : list (Hnd response) :=
  [deleteFile uid id s3; renameFile uid id name; getDownloadUrl uid id s3; downloadFile uid id s3].

(** ** The guard of the [/:id] handlers *)

Section Guards.
Context (uid : oid) (id : string) (k : oid) (w : world) (Hk : cast_oid id = Some k).

Lemma owned_file_missing :
  files w !! k = None -> owned_file uid id w = (w, Stop (reply 404 (BMessage "File not found"))).
Proof. exact (owned_doc_missing (D := file) fl_user "File not found" uid id k w Hk). Qed.

Lemma owned_file_foreign f :
  files w !! k = Some f -> fl_user f <> uid ->
  owned_file uid id w = (w, Stop (reply 403 (BMessage "Not authorized"))).
Proof. exact (owned_doc_foreign (D := file) fl_user "File not found" uid id k f w Hk). Qed.

Lemma owned_file_mine f :
  files w !! k = Some f -> fl_user f = uid -> owned_file uid id w = (w, Ok f).
Proof. exact (owned_doc_mine (D := file) fl_user "File not found" uid id k f w Hk). Qed.
End Guards.

(** C21: for every [/api/files/:id] handler and whatever S3 would answer,
    an id no file has answers 404 and another user's file answers 403,
    existence checked first; S3 is not called and nothing changes. *)
Theorem file_handlers_guards uid id name s3 k w :
  cast_oid id = Some k ->
  Forall (fun h =>
    (files w !! k = None -> handle h w = (w, reply 404 (BMessage "File not found"))) /\
    (forall f, files w !! k = Some f -> fl_user f <> uid ->
       handle h w = (w, reply 403 (BMessage "Not authorized"))))
    (file_handlers uid id name s3).
Proof.
  intros Hk. repeat constructor;
    unfold handle, run_handler, deleteFile, renameFile, getDownloadUrl, downloadFile, bind;
    first [intros Hf; by rewrite (owned_file_missing uid id k w Hk Hf)
          |intros f Hf Hu; by rewrite (owned_file_foreign uid id k w Hk f Hf Hu)].
Qed.

(** C18: deleting one's own file removes the S3 object first and the
    record second.  When S3 fails, the handler answers 500 with S3's
    message and neither the record nor the bucket changes; when S3
    succeeds, the object under the file's key and then the record are
    deleted and the answer is 200. *)
Theorem deleteFile_blob_then_record uid id k f w :
  cast_oid id = Some k -> files w !! k = Some f -> fl_user f = uid ->
  (forall e, handle (deleteFile uid id (S3Error e)) w = (w, server_error e)) /\
  handle (deleteFile uid id S3Ok) w =
    ({| w with bucket := delete (fl_s3Key f) (bucket w); files := delete k (files w) |},
     reply 200 (BMessage "File removed")).
Proof.
  intros Hk Hf Hu. unfold handle, run_handler, deleteFile, bind.
  rewrite (owned_file_mine uid id k w Hk f Hf Hu). split; [done|].
  unfold deleteOne. rewrite Hk. done.
Qed.

(** C24: an upload is recorded under whatever folder id the request names:
    the folder is neither looked up nor checked to belong to the
    uploader, so a file can point at a folder that does not exist or that
    another user owns. *)
Theorem uploadFileSuccess_unchecked_folder uid up p k w :
  up_originalname up <> "" -> up_key up <> "" -> up_mimetype up <> "" -> cast_oid p = Some k ->
  let f := mkFile (next_id w) uid (up_originalname up) (up_key up) (Some k) (up_size up)
             (up_mimetype up) (now w) in
  handle (uploadFileSuccess uid (Some up) (Some p)) w =
    ({| w with files := <[next_id w := f]> (files w); next_id := next_id w + 1 |},
     reply 201 (BFile f)).
Proof.
  intros Hn Hkey Hm Hk. cbv zeta. unfold handle, run_handler, uploadFileSuccess, bind.
  rewrite !(required_ok _ _ _ _ _ eq_refl) by done.
  unfold folder_ref. rewrite (cast_oid_truthy _ _ Hk), Hk. done.
Qed.

(** A listing without a folder value answers exactly the caller's files
    at the root. *)
Lemma getFiles_root uid folder w :
  FolderController.parent_filter folder = None ->
  exists l, handle (getFiles uid folder) w = (w, reply 200 (BFiles l)) /\
    forall f, f ∈ l <-> exists k, files w !! k = Some f /\ fl_user f = uid /\ fl_folder f = None.
Proof.
  intros Hp. eexists. split.
  - unfold handle, run_handler, getFiles. rewrite Hp. reflexivity.
  - intros f. simpl. rewrite elem_of_select. unfold file_query.
    setoid_rewrite andb_true_iff. setoid_rewrite bool_decide_eq_true. done.
Qed.

(** The download URL of one's own file names the file's key and lives
    one hour. *)
Lemma getDownloadUrl_ok uid id k f w :
  cast_oid id = Some k -> files w !! k = Some f -> fl_user f = uid ->
  handle (getDownloadUrl uid id S3Ok) w = (w, reply 200 (BUrl (mkPresigned (fl_s3Key f) 3600))).
Proof.
  intros Hk Hf Hu. unfold handle, run_handler, getDownloadUrl, sign_url, bind.
  by rewrite (owned_file_mine uid id k w Hk f Hf Hu).
Qed.

(** ** Witnesses *)

Lemma file_handlers_guards_witness :
  cast_oid (oid_hex 4) = Some 4 /\
  Forall (fun h =>
    (files demo_files !! 4 = None -> handle h demo_files = (demo_files, reply 404 (BMessage "File not found"))) /\
    (forall f, files demo_files !! 4 = Some f -> fl_user f <> 8 ->
       handle h demo_files = (demo_files, reply 403 (BMessage "Not authorized"))))
    (file_handlers 8 (oid_hex 4) None S3Ok).
Proof.
  assert (cast_oid (oid_hex 4) = Some 4) as Hk by (vm_compute; reflexivity).
  split; [exact Hk|exact (file_handlers_guards 8 (oid_hex 4) None S3Ok 4 demo_files Hk)].
Defined.

Lemma deleteFile_blob_then_record_witness :
  let f := mkFile 4 7 "report.pdf" "u7/report.pdf" (Some 1) 2048 "application/pdf" 0 in
  (cast_oid (oid_hex 4) = Some 4 /\ files demo_files !! 4 = Some f /\ fl_user f = 7) /\
  (forall e, handle (deleteFile 7 (oid_hex 4) (S3Error e)) demo_files = (demo_files, server_error e)) /\
  handle (deleteFile 7 (oid_hex 4) S3Ok) demo_files =
    ({| demo_files with bucket := delete (fl_s3Key f) (bucket demo_files);
                        files := delete 4 (files demo_files) |},
     reply 200 (BMessage "File removed")).
Proof.
  cbv zeta.
  assert (cast_oid (oid_hex 4) = Some 4) as Hk by (vm_compute; reflexivity).
  assert (files demo_files !! 4 = Some (mkFile 4 7 "report.pdf" "u7/report.pdf" (Some 1) 2048
            "application/pdf" 0)) as Hf by (vm_compute; reflexivity).
  split; [split_and!; try assumption; reflexivity|].
  exact (deleteFile_blob_then_record 7 (oid_hex 4) 4 _ demo_files Hk Hf eq_refl).
Defined.

Lemma uploadFileSuccess_unchecked_folder_witness :
  (up_originalname demo_upload <> "" /\ up_key demo_upload <> "" /\
   up_mimetype demo_upload <> "" /\ cast_oid (oid_hex 99) = Some 99 /\
   folders demo_tree !! 99 = None) /\
  let f := mkFile (next_id demo_tree) 8 (up_originalname demo_upload) (up_key demo_upload) (Some 99)
             (up_size demo_upload) (up_mimetype demo_upload) (now demo_tree) in
  handle (uploadFileSuccess 8 (Some demo_upload) (Some (oid_hex 99))) demo_tree =
    ({| demo_tree with files := <[next_id demo_tree := f]> (files demo_tree);
                       next_id := next_id demo_tree + 1 |},
     reply 201 (BFile f)).
Proof.
  assert (cast_oid (oid_hex 99) = Some 99) as Hk by (vm_compute; reflexivity).
  assert (folders demo_tree !! 99 = None) as Hno by (vm_compute; reflexivity).
  split; [split_and!; try assumption; done|].
  exact (uploadFileSuccess_unchecked_folder 8 demo_upload (oid_hex 99) 99 demo_tree
           ltac:(done) ltac:(done) ltac:(done) Hk).
Defined.
