(* ===== verification/System.v ===== *)
(** * System: the server, its routes, and the whole system as a step relation

    src/src/server.js mounts the three routers of src/src/routes under
    [/api/auth], [/api/folders] and [/api/files]; every folder and file
    route, and the profile route, runs behind the [protect] middleware,
    which sets [req.user] from the bearer JWT (the middleware file is not
    in the sources: a request of the model carries the id [protect]
    established).  A request is one of the routed endpoints with its
    parameters and the inputs the environment supplies to it: the random
    secret it draws, S3's answer to its command, the object multer-s3
    stored.  The system steps by serving a request, by the clock
    advancing, by a pass of the TTL monitor, or by the mail transport
    taking the next queued message (delivered or not: the outcome is
    only logged).  The theorems state the invariants of every reachable
    world and the state machine of an account. *)

From stdpp Require Import base gmap strings list relations.
From S2P Require Import Prelude ObjectId Store Folders Tokens Auth Files.
Import FolderController TokenStore AuthController FileController.

Open Scope N_scope.
Open Scope handler_scope.

Module Server.

(** [routes/auth.js]; [protect] guards [GET /profile]. *)
Inductive auth_request :=
| RRegister (firstName lastName : jsstr) (email password secret : string)
| RLogin (email password : string)
| RActivate (token : string)
| RProfile (uid : oid)
| RForgot (email secret : string)
| RReset (token password : string).

(** [routes/folders.js]; [protect] guards every route. *)
Inductive folder_request :=
| RCreateFolder (uid : oid) (name parentFolder : jsstr)
| RGetFolders (uid : oid) (parent : jsstr)
| RDeleteFolder (uid : oid) (id : string)
| RRenameFolder (uid : oid) (id : string) (name : jsstr).

(** [routes/files.js]; [protect] guards every route. *)
Inductive file_request :=
| RGetFiles (uid : oid) (folder : jsstr)
| RUpload (uid : oid) (file : option (upload * string)) (folderId : jsstr)
| RDeleteFile (uid : oid) (id : string) (s3 : s3_outcome)
| RRenameFile (uid : oid) (id : string) (name : jsstr)
| RDownload (uid : oid) (id : string) (s3 : s3_outcome)
| RDownloadUrl (uid : oid) (id : string) (s3 : s3_outcome).

(** [server.js]: [GET /] and the three mounted routers. *)
Inductive request :=
| RRoot
| RAuth (r : auth_request)
| RFolders (r : folder_request)
| RFiles (r : file_request).

Section Serve.
Context `{PasswordHasher} (CLIENT_URL : jsstr).

Definition authRouter (r : auth_request) : Hnd response :=
  match r with
  | RRegister fn ln email pw secret => registerUser CLIENT_URL fn ln email pw secret
  | RLogin email pw => authUser email pw
  | RActivate token => activateAccount token
  | RProfile uid => getUserProfile uid
  | RForgot email secret => forgotPassword CLIENT_URL email secret
  | RReset token pw => resetPassword token pw
  end.

Definition folderRouter (r : folder_request) : Hnd response :=
  match r with
  | RCreateFolder uid name parent => createFolder uid name parent
  | RGetFolders uid parent => getFolders uid parent
  | RDeleteFolder uid id => deleteFolder uid id
  | RRenameFolder uid id name => renameFolder uid id name
  end.

(** [POST /upload] runs [upload.single('file')] before the handler. *)
Definition fileRouter (r : file_request) : Hnd response :=
  match r with
  | RGetFiles uid folder => getFiles uid folder
  | RUpload uid file folderId =>
      match file with
      | Some (up, content) => modify (s3_upload up content) ;; uploadFileSuccess uid (Some up) folderId
      | None => uploadFileSuccess uid None folderId
      end
  | RDeleteFile uid id s3 => deleteFile uid id s3
  | RRenameFile uid id name => renameFile uid id name
  | RDownload uid id s3 => downloadFile uid id s3
  | RDownloadUrl uid id s3 => getDownloadUrl uid id s3
  end.

Definition serve (r : request) : Hnd response :=
  match r with
  | RRoot => ret (reply 200 (BText "API is running..."))
  | RAuth r => authRouter r
  | RFolders r => folderRouter r
  | RFiles r => fileRouter r
  end.

(** One step of the system when requests do not overlap: a request is
    served to its answer in one step. *)
Inductive step : world -> world -> Prop :=
| step_request r w : step w (fst (handle (serve r) w))
| step_tick dt w : step w (tick dt w)
| step_reap w : step w (ttl_reap w)
| step_mail w m rest : outbox w = m :: rest -> step w {| w with outbox := rest |}.

End Serve.
End Server.

Import Server.

(** ** The invariant of the whole world *)

(** Every document under its own id below the allocator, a well-formed
    folder tree, and one user per email. *)
Definition world_ok (w : world) : Prop := ids_wf w /\ folders_wf w /\ emails_unique w.

(** From [m] to [m']: no user is deleted, no email changes, and no
    active account becomes inactive. *)
Definition users_grow_map (m m' : gmap oid user) : Prop :=
  map_Forall (fun k u => exists u', m' !! k = Some u' /\ u_email u' = u_email u /\
                                    (u_status u = Active -> u_status u' = Active)) m.
Arguments users_grow_map : simpl never.

(** What one step must keep: the invariant, and the users' history. *)
Definition preserved (w w' : world) : Prop := world_ok w' /\ users_grow_map (users w) (users w').

(** A run from a fresh deployment: Ada registers, then activates her
    account with the emailed secret. *)
Definition demo_run_w1 : world :=
  fst (handle (@serve demo_hasher None (RAuth (RRegister (Some "Ada") (Some "L") "ada@x.io" "pw" "s3cr3t")))
         (empty_world 0)).
Definition demo_run_w2 : world :=
  fst (handle (@serve demo_hasher None (RAuth (RActivate "s3cr3t"))) demo_run_w1).

(** ** Lemmas *)

Lemma users_grow_refl m : users_grow_map m m.
Proof. intros k u Hu. eauto. Qed.

Lemma users_grow_trans m1 m2 m3 :
  users_grow_map m1 m2 -> users_grow_map m2 m3 -> users_grow_map m1 m3.
Proof.
  intros H12 H23 k u Hu. destruct (H12 k u Hu) as (u2 & Hu2 & He2 & Hs2).
  destruct (H23 k u2 Hu2) as (u3 & Hu3 & He3 & Hs3). exists u3. split_and!; [done|congruence|auto].
Qed.

Lemma users_grow_insert_new m k u : m !! k = None -> users_grow_map m (<[k := u]> m).
Proof. intros Hk j v Hv. exists v. rewrite lookup_insert_ne; [done|congruence]. Qed.

Lemma users_grow_insert_same m k u u' :
  m !! k = Some u -> u_email u' = u_email u -> (u_status u = Active -> u_status u' = Active) ->
  users_grow_map m (<[k := u']> m).
Proof.
  intros Hk He Hs j v Hv. destruct (decide (j = k)) as [->|Hne].
  - rewrite Hk in Hv. injection Hv as <-. exists u'. by rewrite lookup_insert_eq.
  - exists v. by rewrite lookup_insert_ne.
Qed.

(** Name the id facts of every document the handler read. *)
Ltac keyed_facts :=
  repeat match goal with
  | H : first_match _ ?m = Some ?d |- _ =>
      let k := fresh "k" in let Hl := fresh "Hl" in let HP := fresh "HP" in
      apply first_match_Some in H as (k & Hl & HP & _)
  | H : ?m !! ?k = Some ?d, Hk : keyed_map ?id ?n ?m |- _ =>
      lazymatch goal with
      | _ : id d = k |- _ => fail
      | _ => let Hid := fresh "Hid" in let Hlt := fresh "Hlt" in
             destruct (keyed_map_lookup id n m k d Hk H) as [Hid Hlt]
      end
  end.

(** The id invariant of a collection after inserts and deletes. *)
Ltac solve_keyed :=
  repeat first
    [ apply keyed_map_insert; [| simpl; first [reflexivity|congruence|lia] | simpl; lia]
    | apply keyed_map_delete
    | apply keyed_map_filter
    | match goal with H : keyed_map ?id ?n ?m |- keyed_map ?id ?n' ?m =>
        apply (keyed_map_mono id n n' m); [lia|exact H] end ].

(** Close the goals [world_ok w'] and [users_grow_map (users w) (users w')]
    for an explicit final world [w']. *)
Ltac solve_world_ok :=
  keyed_facts; split_and!; try solve_keyed;
  try (match goal with Hf : folders_wf ?w |- folders_wf _ =>
         apply (folders_wf_frame w); [reflexivity|simpl; lia|exact Hf] end);
  try apply users_grow_refl;
  try match goal with
      | He : emails_unique_map ?m, H : ?m !! _ = Some ?u0 |- emails_unique_map (<[u_id ?u0 := _]> ?m) =>
          apply (emails_unique_insert_same m (u_id u0) u0); [exact He|congruence|reflexivity]
      | He : emails_unique_map ?m, Hk : keyed_map _ _ ?m,
        Hf : first_match _ ?m = None |- emails_unique_map (<[_ := _]> ?m) =>
          apply emails_unique_insert_new; [exact He|apply (keyed_map_fresh _ _ _ Hk)|
                                           apply (email_free_of_first_match _ _ Hf)]
      end;
  try match goal with
      | H : ?m !! _ = Some ?u0 |- users_grow_map ?m (<[u_id ?u0 := _]> ?m) =>
          apply (users_grow_insert_same m (u_id u0) u0); [congruence|reflexivity|simpl; auto]
      | Hk : keyed_map _ _ ?m |- users_grow_map ?m (<[_ := _]> ?m) =>
          apply users_grow_insert_new; apply (keyed_map_fresh _ _ _ Hk)
      end;
  try done.

(** Split the invariant of the start world into its parts. *)
Ltac intro_world_ok :=
  intros (Hids & Hf & He); destruct Hids as (Hku & Hkt & Hkf & Hkl);
  unfold keyed, emails_unique in *; simpl in *.

(** A [save] of a document the handler read stores it as changed. *)
Ltac rewrite_save :=
  match goal with
  | |- context [save ?l ?d ?w] =>
      rewrite (save_keyed l d w) by first [assumption | eexists; eassumption]
  | H : context [save ?l ?d ?w] |- _ =>
      rewrite (save_keyed l d w) in H by first [assumption | eexists; eassumption]
  end.

(** Run a handler whose definitions were unfolded to the end. *)
Ltac run_to_end :=
  hstep; repeat first [rewrite_save; hstep | case_match; hstep]; simplify_eq;
  repeat (rewrite_save; hstep; simplify_eq);
  unfold world_ok, ids_wf, keyed, emails_unique; simpl in *; solve_world_ok.

(** Handlers that only read. *)
Ltac read_only_tac := hstep; repeat (case_match; hstep; simplify_eq); done.

Lemma preserved_read_only w w' : w' = w -> world_ok w -> preserved w w'.
Proof. intros -> Hok. split; [done|apply users_grow_refl]. Qed.

Section Handlers.
Context `{PasswordHasher} (CU : jsstr).

Lemma authUser_read_only email pw w : fst (handle (authUser email pw) w) = w.
Proof. unfold handle, authUser, findUserByEmail, findOne. read_only_tac. Qed.

Lemma getUserProfile_read_only uid w : fst (handle (getUserProfile uid) w) = w.
Proof. unfold handle, getUserProfile, findByOid. read_only_tac. Qed.

Lemma getFiles_read_only uid folder w : fst (handle (getFiles uid folder) w) = w.
Proof. unfold handle, getFiles, find. read_only_tac. Qed.

Lemma downloadFile_read_only uid id s3 w : fst (handle (downloadFile uid id s3) w) = w.
Proof. unfold handle, downloadFile, get_object, owned_file, owned_doc, findById. read_only_tac. Qed.

Lemma getDownloadUrl_read_only uid id s3 w : fst (handle (getDownloadUrl uid id s3) w) = w.
Proof. unfold handle, getDownloadUrl, sign_url, owned_file, owned_doc, findById. read_only_tac. Qed.

Lemma registerUser_preserved fn ln email pw secret w :
  world_ok w -> preserved w (fst (handle (registerUser CU fn ln email pw secret) w)).
Proof.
  intro_world_ok. unfold preserved, handle, run_handler, registerUser, findUserByEmail, findOne,
    create, issueToken, sendEmail. run_to_end.
Qed.

Lemma activateAccount_preserved secret w :
  world_ok w -> preserved w (fst (handle (activateAccount secret) w)).
Proof.
  intro_world_ok. unfold preserved, handle, run_handler, activateAccount, findToken, findOne,
    findByOid, consumeToken, deleteById. run_to_end.
Qed.

Lemma forgotPassword_preserved email secret w :
  world_ok w -> preserved w (fst (handle (forgotPassword CU email secret) w)).
Proof.
  intro_world_ok. unfold preserved, handle, run_handler, forgotPassword, findUserByEmail, findOne,
    create, issueToken, sendEmail. run_to_end.
Qed.

Lemma resetPassword_preserved token pw w :
  world_ok w -> preserved w (fst (handle (resetPassword token pw) w)).
Proof.
  intro_world_ok. unfold preserved, handle, run_handler, resetPassword, findToken, findOne,
    findByOid, consumeToken, deleteById. run_to_end.
Qed.

(** The folder handlers keep the folder tree by the lemmas of Folders.v;
    the rest of the invariant is checked on the final world. *)
Lemma createFolder_preserved uid name pf w :
  world_ok w -> preserved w (fst (handle (createFolder uid name pf) w)).
Proof.
  intros Hok. pose proof (createFolder_preserves_wf uid name pf w (proj1 (proj2 Hok))) as Hfw.
  revert Hfw. revert Hok. intro_world_ok. intros Hfw.
  unfold preserved, handle, run_handler, createFolder, parent_path, create_folder_doc, findById,
    create, required in *. run_to_end.
Qed.

Lemma deleteFolder_preserved uid id w :
  world_ok w -> preserved w (fst (handle (deleteFolder uid id) w)).
Proof.
  intros Hok. pose proof (deleteFolder_preserves_wf uid id w (proj1 (proj2 Hok))) as Hfw.
  revert Hfw. revert Hok. intro_world_ok. intros Hfw.
  unfold preserved, handle, run_handler, deleteFolder, owned_folder, owned_doc, findById,
    deleteOne, deleteById in *. run_to_end.
Qed.

Lemma renameFolder_preserved uid id name w :
  world_ok w -> preserved w (fst (handle (renameFolder uid id name) w)).
Proof.
  intros Hok. pose proof (renameFolder_preserves_wf uid id name w (proj1 (proj2 Hok))) as Hfw.
  revert Hfw. revert Hok. intro_world_ok. intros Hfw.
  unfold preserved, handle, run_handler, renameFolder, owned_folder, owned_doc, findById,
    save_folder, required in *. run_to_end.
Qed.

Lemma upload_preserved uid file fid w :
  world_ok w -> preserved w (fst (handle (fileRouter (RUpload uid file fid)) w)).
Proof.
  intro_world_ok. unfold preserved, handle, fileRouter, uploadFileSuccess, folder_ref, s3_upload,
    create, required. run_to_end.
Qed.

Lemma deleteFile_preserved uid id s3 w :
  world_ok w -> preserved w (fst (handle (deleteFile uid id s3) w)).
Proof.
  intro_world_ok. unfold preserved, handle, deleteFile, owned_file, owned_doc, findById, s3_delete,
    deleteOne, deleteById. run_to_end.
Qed.

Lemma renameFile_preserved uid id name w :
  world_ok w -> preserved w (fst (handle (renameFile uid id name) w)).
Proof.
  intro_world_ok. unfold preserved, handle, renameFile, owned_file, owned_doc, findById, save_file,
    required. run_to_end.
Qed.

(** Every request keeps the invariant and the users' history. *)
Lemma serve_preserved r w : world_ok w -> preserved w (fst (handle (serve CU r) w)).
Proof.
  intros Hok. destruct r as [|[]|[]|[]]; simpl serve; simpl authRouter; simpl folderRouter.
  - by apply preserved_read_only.
  - by apply registerUser_preserved.
  - apply preserved_read_only; [apply authUser_read_only|done].
  - by apply activateAccount_preserved.
  - apply preserved_read_only; [apply getUserProfile_read_only|done].
  - by apply forgotPassword_preserved.
  - by apply resetPassword_preserved.
  - by apply createFolder_preserved.
  - apply preserved_read_only; [apply getFolders_read_only|done].
  - by apply deleteFolder_preserved.
  - by apply renameFolder_preserved.
  - apply preserved_read_only; [apply getFiles_read_only|done].
  - by apply (upload_preserved uid file folderId).
  - by apply deleteFile_preserved.
  - by apply renameFile_preserved.
  - apply preserved_read_only; [apply downloadFile_read_only|done].
  - apply preserved_read_only; [apply getDownloadUrl_read_only|done].
Qed.

(** The environment's steps: the clock, the TTL monitor and the mail
    transport touch neither the users nor the folders. *)
Lemma step_preserved w w' : step CU w w' -> world_ok w -> preserved w w'.
Proof.
  intros Hs Hok. destruct Hs as [r w|dt w|w|w m rest Hout].
  - by apply serve_preserved.
  - revert Hok. intro_world_ok. split; [|apply users_grow_refl].
    unfold world_ok, ids_wf, keyed, emails_unique. simpl.
    split_and!; try done; try (by apply keyed_map_filter);
      try (apply (folders_wf_frame w); [done|simpl; lia|done]).
  - revert Hok. intro_world_ok. split; [|apply users_grow_refl].
    unfold world_ok, ids_wf, keyed, emails_unique. simpl.
    split_and!; try done; try (by apply keyed_map_filter);
      try (apply (folders_wf_frame w); [done|simpl; lia|done]).
  - revert Hok. intro_world_ok. split; [|apply users_grow_refl].
    unfold world_ok, ids_wf, keyed, emails_unique. simpl.
    split_and!; try done; try (by apply keyed_map_filter);
      try (apply (folders_wf_frame w); [done|simpl; lia|done]).
Qed.
End Handlers.

Lemma empty_world_ok t : world_ok (empty_world t).
Proof.
  unfold world_ok, ids_wf, keyed, emails_unique, keyed_map, emails_unique_map, folders_wf.
  simpl. split_and!; apply map_Forall_empty.
Qed.

(** ** The invariants of every run *)

Section Runs.
Context `{PasswordHasher} (CU : jsstr).

(** C2: every world reachable from a fresh deployment when requests do
    not overlap (each request served to its answer before the next one
    starts, with clock ticks, TTL passes and mail deliveries in between)
    has every document under its own id below the allocator, a
    well-formed folder tree, and at most one user per email.  When
    requests overlap the first two parts still hold
    ([Deployment.deployment_store_ok]) and the third does not
    ([Interleave.register_race]). *)
Theorem reachable_world_ok t w :
  rtc (step CU) (empty_world t) w -> world_ok w.
Proof.
  intros Hrun. remember (empty_world t) as w0 eqn:Hw0.
  assert (world_ok w0) as Hok by (subst; apply empty_world_ok). clear Hw0.
  induction Hrun as [w|w1 w2 w3 Hs Hrest IH]; [done|].
  apply IH. exact (proj1 (step_preserved CU w1 w2 Hs Hok)).
Qed.

(** The history of the users along a run from a well-formed world. *)
Lemma run_users_grow w w' :
  world_ok w -> rtc (step CU) w w' -> world_ok w' /\ users_grow_map (users w) (users w').
Proof.
  intros Hok Hrun. induction Hrun as [w|w1 w2 w3 Hs Hrest IH].
  - split; [done|apply users_grow_refl].
  - destruct (step_preserved CU w1 w2 Hs Hok) as [Hok2 Hg12].
    destruct (IH Hok2) as [Hok3 Hg23]. split; [done|]. by apply (users_grow_trans _ (users w2)).
Qed.

(** C10: the account state machine.  Along any run from a well-formed
    world, a user is never deleted, never changes email, and once
    active is never inactive again. *)
Theorem account_history w w' k u :
  world_ok w -> rtc (step CU) w w' -> users w !! k = Some u ->
  exists u', users w' !! k = Some u' /\ u_email u' = u_email u /\
             (u_status u = Active -> u_status u' = Active).
Proof. intros Hok Hrun Hu. exact (proj2 (run_users_grow w w' Hok Hrun) k u Hu). Qed.
(** mail is fire-and-forget but not lost: from any world the transport
    can take every queued message, first queued first, and the steps that
    do so change nothing but the outbox. *)
Theorem outbox_drains w :
  rtc (step CU) w {| w with outbox := [] |}.
Proof.
  destruct w as [us ts fs fls n c b o]. simpl.
  induction o as [|m o IH]; [apply rtc_refl|].
  eapply rtc_l; [by apply (step_mail CU _ m o)|]. exact IH.
Qed.

End Runs.

(** ** Witnesses *)

Lemma demo_run : rtc (@step demo_hasher None) (empty_world 0) demo_run_w2.
Proof.
  apply (rtc_l _ _ demo_run_w1); [apply step_request|].
  apply (rtc_l _ _ demo_run_w2); [apply step_request|]. apply rtc_refl.
Qed.

Lemma reachable_world_ok_witness :
  rtc (@step demo_hasher None) (empty_world 0) demo_run_w2 /\ world_ok demo_run_w2.
Proof. split; [exact demo_run|exact (reachable_world_ok (H := demo_hasher) None 0 demo_run_w2 demo_run)]. Defined.

Lemma account_history_witness :
  let u := mkUser 1 (Some "Ada") (Some "L") "ada@x.io" "$2a$10$pw" Inactive 0 in
  (world_ok demo_run_w1 /\ rtc (@step demo_hasher None) demo_run_w1 demo_run_w2 /\
   users demo_run_w1 !! 1 = Some u) /\
  exists u', users demo_run_w2 !! 1 = Some u' /\ u_email u' = u_email u /\
             (u_status u = Active -> u_status u' = Active).
Proof.
  cbv zeta.
  assert (world_ok demo_run_w1) as Hok.
  { apply (reachable_world_ok (H := demo_hasher) None 0).
    apply (rtc_l _ _ demo_run_w1); [apply step_request|apply rtc_refl]. }
  assert (rtc (@step demo_hasher None) demo_run_w1 demo_run_w2) as Hrun.
  { apply (rtc_l _ _ demo_run_w2); [apply step_request|apply rtc_refl]. }
  assert (users demo_run_w1 !! 1 = Some (mkUser 1 (Some "Ada") (Some "L") "ada@x.io" "$2a$10$pw" Inactive 0))
    as Hu by (vm_compute; reflexivity).
  split; [split_and!; assumption|].
  exact (account_history (H := demo_hasher) None demo_run_w1 demo_run_w2 1 _ Hok Hrun Hu).
Defined.
