(* ===== verification/Routing.v ===== *)
(** * Routing: how Express dispatches a method and a path

    [server.js] registers [GET /] and mounts the routers of
    [routes/auth.js], [routes/folders.js] and [routes/files.js] under
    [/api/auth], [/api/folders] and [/api/files].  Express (4, default
    options) matches a route path as the regular expression path-to-regexp
    builds for it: literal segments case-insensitively, a [:param] as one
    or more characters other than ['/'], and one optional trailing slash;
    a mounted router sees the path with its mount prefix removed, which
    amounts to matching the concatenated pattern.  A [route.get] handler
    also answers [HEAD].  Routes are tried in the order they are
    registered; a request no route takes ends in Express's 404.

    The route tables are translated from the sources; the matcher models
    Express, a library the sources only call.  An [endpoint] is a route
    with its path parameters; [endpoint_of] forgets from a [request] of
    [System] what does not come from the path (bodies, queries and the
    environment's inputs).  Percent-decoding of parameters is not modelled:
    ids and tokens are hex and decode to themselves. *)

From stdpp Require Import base strings list.
From Stdlib Require Import Ascii.
From S2P Require Import Prelude ObjectId Store Folders Tokens Auth Files System.
Import Server FileController.

Open Scope string_scope.

Module Express.

Inductive http_method := GET | POST | PATCH | DELETE | HEAD.

#[export] Instance http_method_eq_dec : EqDecision http_method.
Proof. solve_decision. Defined.

(** A [route.get] answers [GET] and [HEAD]; the other verbs only themselves. *)
Definition method_matches (routeMethod m : http_method) : bool :=
  bool_decide (routeMethod = m) || bool_decide (routeMethod = GET /\ m = HEAD).

(** [path.split('/')] *)
Fixpoint split_path (s : string) : list string :=
  match s with
  | EmptyString => [EmptyString]
  | String c s' =>
      let rest := split_path s' in
      if Ascii.eqb c "/"%char then EmptyString :: rest
      else match rest with
           | [] => [String c EmptyString]
           | x :: xs => String c x :: xs
           end
  end.

(** A string with no ['/']: one segment. *)
Fixpoint no_slash (s : string) : bool :=
  match s with
  | EmptyString => true
  | String c s' => negb (Ascii.eqb c "/"%char) && no_slash s'
  end.

(** Case folding of the [i] flag on ASCII letters. *)
Definition ascii_lower (c : Ascii.ascii) : Ascii.ascii :=
  let n := Ascii.nat_of_ascii c in
  if (65 <=? n)%nat && (n <=? 90)%nat then Ascii.ascii_of_nat (n + 32) else c.

Fixpoint lower (s : string) : string :=
  match s with
  | EmptyString => EmptyString
  | String c s' => String (ascii_lower c) (lower s')
  end.

(** A segment of a route path: a literal or a [:param]. *)
Inductive pseg := Lit (l : string) | Param.

Definition seg_match (p : pseg) (s : string) : bool :=
  match p with
  | Lit l => String.eqb (lower s) (lower l)
  | Param => negb (String.eqb s "")
  end.

(** The segments after the leading ['/'] against a pattern: the values of
    its parameters, in order, or no match.  One trailing empty segment
    (a trailing slash) is accepted. *)
Fixpoint match_route (pat : list pseg) (segs : list string) : option (list string) :=
  match pat, segs with
  | [], [] => Some []
  | [], [s] => if String.eqb s "" then Some [] else None
  | p :: pat', s :: segs' =>
      if seg_match p s then
        match match_route pat' segs' with
        | Some ps => Some (match p with Param => s :: ps | Lit _ => ps end)
        | None => None
        end
      else None
  | _, _ => None
  end.

End Express.

Import Express.

Module Routes.

(** A route of the application with the values of its path parameters. *)
Inductive endpoint :=
| ERoot
| ERegister | ELogin | EActivate (token : string) | EProfile | EForgot | EReset
| ECreateFolder | EGetFolders | EDeleteFolder (id : string) | ERenameFolder (id : string)
| EGetFiles | EUpload | EDeleteFile (id : string) | ERenameFile (id : string)
| EDownload (id : string) | EDownloadUrl (id : string).

(** The handler a route names, given its parameters. *)
Inductive target := TConst (e : endpoint) | TParam (f : string -> endpoint).

Record route := mkRoute {
  rt_method : http_method;
  rt_path : list pseg;
  rt_protect : bool;       (* [protect] runs before the handler *)
  rt_target : target
}.

Definition build (t : target) (params : list string) : endpoint :=
  match t, params with
  | TConst e, _ => e
  | TParam f, p :: _ => f p
  | TParam f, [] => f ""
  end.

(** [routes/auth.js] *)
Definition auth_routes : list route :=
  [ mkRoute POST [Lit "register"] false (TConst ERegister);
    mkRoute POST [Lit "login"] false (TConst ELogin);
    mkRoute GET [Lit "activate"; Param] false (TParam EActivate);
    mkRoute GET [Lit "profile"] true (TConst EProfile);
    mkRoute POST [Lit "forgot-password"] false (TConst EForgot);
    mkRoute POST [Lit "reset-password"] false (TConst EReset) ].

(** [routes/folders.js]: [router.route('/')] and [router.route('/:id')]. *)
Definition folder_routes : list route :=
  [ mkRoute POST [] true (TConst ECreateFolder);
    mkRoute GET [] true (TConst EGetFolders);
    mkRoute DELETE [Param] true (TParam EDeleteFolder);
    mkRoute PATCH [Param] true (TParam ERenameFolder) ].

(** [routes/files.js] *)
Definition file_routes : list route :=
  [ mkRoute GET [] true (TConst EGetFiles);
    mkRoute POST [Lit "upload"] true (TConst EUpload);
    mkRoute DELETE [Param] true (TParam EDeleteFile);
    mkRoute PATCH [Param] true (TParam ERenameFile);
    mkRoute GET [Param; Lit "download"] true (TParam EDownload);
    mkRoute GET [Param; Lit "download-url"] true (TParam EDownloadUrl) ].

(** [app.use(prefix, router)] *)
Definition mount (prefix : list string) (rs : list route) : list route :=
  map (fun r => {| r with rt_path := map Lit prefix ++ rt_path r |}) rs.

(** [server.js]: [app.get('/')] and the three [app.use] lines, in order. *)
Definition app_routes : list route :=
  [mkRoute GET [] false (TConst ERoot)] ++
  mount ["api"; "auth"] auth_routes ++
  mount ["api"; "folders"] folder_routes ++
  mount ["api"; "files"] file_routes.

(** The first route, in registration order, that takes the request. *)
Fixpoint first_route (m : http_method) (segs : list string) (rs : list route)
    : option (bool * endpoint) :=
  match rs with
  | [] => None
  | r :: rs' =>
      if method_matches (rt_method r) m then
        match match_route (rt_path r) segs with
        | Some ps => Some (rt_protect r, build (rt_target r) ps)
        | None => first_route m segs rs'
        end
      else first_route m segs rs'
  end.

(** Dispatch of [m path]: whether [protect] runs, and the endpoint;
    [None] is Express's final 404. *)
Definition dispatch (m : http_method) (path : string) : option (bool * endpoint) :=
  match split_path path with
  | EmptyString :: segs => first_route m segs app_routes
  | _ => None
  end.

(** ** Requests as HTTP requests *)

Definition join_path (segs : list string) : string :=
  match segs with
  | [] => "/"
  | _ => foldr (fun s acc => "/" +:+ s +:+ acc) "" segs
  end.

(** The method and path segments a client uses for an endpoint. *)
Definition endpoint_method (e : endpoint) : http_method :=
  match e with
  | ERoot | EActivate _ | EProfile | EGetFolders | EGetFiles | EDownload _ | EDownloadUrl _ => GET
  | ERegister | ELogin | EForgot | EReset | ECreateFolder | EUpload => POST
  | EDeleteFolder _ | EDeleteFile _ => DELETE
  | ERenameFolder _ | ERenameFile _ => PATCH
  end.

Definition endpoint_segments (e : endpoint) : list string :=
  match e with
  | ERoot => []
  | ERegister => ["api"; "auth"; "register"]
  | ELogin => ["api"; "auth"; "login"]
  | EActivate t => ["api"; "auth"; "activate"; t]
  | EProfile => ["api"; "auth"; "profile"]
  | EForgot => ["api"; "auth"; "forgot-password"]
  | EReset => ["api"; "auth"; "reset-password"]
  | ECreateFolder | EGetFolders => ["api"; "folders"]
  | EDeleteFolder id | ERenameFolder id => ["api"; "folders"; id]
  | EGetFiles => ["api"; "files"]
  | EUpload => ["api"; "files"; "upload"]
  | EDeleteFile id | ERenameFile id => ["api"; "files"; id]
  | EDownload id => ["api"; "files"; id; "download"]
  | EDownloadUrl id => ["api"; "files"; id; "download-url"]
  end.

Definition endpoint_path (e : endpoint) : string := join_path (endpoint_segments e).

(** The route a request of [System] arrives by. *)
Definition endpoint_of (r : request) : endpoint :=
  match r with
  | RRoot => ERoot
  | RAuth a =>
      match a with
      | RRegister _ _ _ _ _ => ERegister
      | RLogin _ _ => ELogin
      | RActivate t => EActivate t
      | RProfile _ => EProfile
      | RForgot _ _ => EForgot
      | RReset _ _ => EReset
      end
  | RFolders f =>
      match f with
      | RCreateFolder _ _ _ => ECreateFolder
      | RGetFolders _ _ => EGetFolders
      | RDeleteFolder _ id => EDeleteFolder id
      | RRenameFolder _ id _ => ERenameFolder id
      end
  | RFiles f =>
      match f with
      | RGetFiles _ _ => EGetFiles
      | RUpload _ _ _ => EUpload
      | RDeleteFile _ id _ => EDeleteFile id
      | RRenameFile _ id _ => ERenameFile id
      | RDownload _ id _ => EDownload id
      | RDownloadUrl _ id _ => EDownloadUrl id
      end
  end.

(** The path parameters of an endpoint. *)
Definition endpoint_params (e : endpoint) : list string :=
  match e with
  | EActivate p | EDeleteFolder p | ERenameFolder p | EDeleteFile p | ERenameFile p
  | EDownload p | EDownloadUrl p => [p]
  | _ => []
  end.

(** A value a [:param] can carry: not empty, no ['/']. *)
Definition param_ok (p : string) : bool :=
  negb (String.eqb p "") && no_slash p.

(** The requests whose handler reads [req.user], set by [protect]. *)
Definition needs_user (r : request) : bool :=
  match r with
  | RRoot => false
  | RAuth (RProfile _) => true
  | RAuth _ => false
  | RFolders _ | RFiles _ => true
  end.

(** ** Overlap of routes *)

(** Two segments some path segment matches both of. *)
Definition seg_compat (p q : pseg) : bool :=
  match p, q with
  | Lit a, Lit b => String.eqb (lower a) (lower b)
  | _, _ => true
  end.

(** Two route paths some request path matches both of (an over-approximation
    only where a literal is compared with a parameter). *)
Fixpoint pat_overlap (p q : list pseg) : bool :=
  match p, q with
  | [], [] => true
  | [], [Lit l] | [Lit l], [] => String.eqb "" (lower l)
  | x :: p', y :: q' => seg_compat x y && pat_overlap p' q'
  | _, _ => false
  end.

Definition all_methods : list http_method := [GET; POST; PATCH; DELETE; HEAD].

Definition routes_clash (r1 r2 : route) : bool :=
  existsb (fun m => method_matches (rt_method r1) m && method_matches (rt_method r2) m) all_methods
  && pat_overlap (rt_path r1) (rt_path r2).

(** No route is shadowed by an earlier one. *)
Fixpoint no_clash (rs : list route) : bool :=
  match rs with
  | [] => true
  | r :: rs' => forallb (fun r' => negb (routes_clash r r')) rs' && no_clash rs'
  end.

(** Route [r] takes [m] on the segments [segs], with parameters [ps]. *)
Definition route_takes (m : http_method) (segs : list string) (r : route) (ps : list string) : Prop :=
  method_matches (rt_method r) m = true /\ match_route (rt_path r) segs = Some ps.

End Routes.

Import Routes.

(** ** Splitting and joining paths *)

Lemma split_path_no_slash s : no_slash s = true -> split_path s = [s].
Proof.
  induction s as [|c s IH]; [done|]. simpl.
  intros [Hc Hs]%andb_prop. apply negb_true_iff in Hc. rewrite Hc, IH by done. done.
Qed.

Lemma split_path_app s u :
  no_slash s = true -> split_path (s +:+ String "/"%char u) = s :: split_path u.
Proof.
  induction s as [|c s IH]; [done|]. simpl.
  intros [Hc Hs]%andb_prop. apply negb_true_iff in Hc.
  change (String c s +:+ String "/"%char u) with (String c (s +:+ String "/"%char u)). simpl.
  rewrite Hc, IH by done. done.
Qed.

(** Joining segments with ['/'] and splitting gives them back. *)
Lemma split_join s0 segs :
  Forall (fun s => no_slash s = true) (s0 :: segs) ->
  split_path (join_path (s0 :: segs)) = "" :: s0 :: segs.
Proof.
  unfold join_path.
  change (foldr _ "" (s0 :: segs)) with ("/" +:+ s0 +:+ foldr (fun s acc => "/" +:+ s +:+ acc) "" segs).
  revert s0. induction segs as [|s1 segs IH]; intros s0 Hall; inversion Hall as [|? ? Hs0 Hrest]; subst.
  - change ("/" +:+ s0 +:+ "") with (String "/"%char (s0 +:+ "")).
    simpl. rewrite string_app_nil_r, split_path_no_slash by done. done.
  - change ("/" +:+ s0 +:+ foldr (fun s acc => "/" +:+ s +:+ acc) "" (s1 :: segs))
      with (String "/"%char (s0 +:+ String "/"%char (s1 +:+ foldr (fun s acc => "/" +:+ s +:+ acc) "" segs))).
    simpl. rewrite split_path_app by done. f_equal.
    specialize (IH s1 Hrest). change ("/" +:+ ?x) with (String "/"%char x) in IH.
    simpl in IH. injection IH as ->. done.
Qed.

Lemma param_ok_spec p : param_ok p = true -> String.eqb p "" = false /\ no_slash p = true.
Proof. unfold param_ok. intros [Hne Hs]%andb_prop. by apply negb_true_iff in Hne. Qed.

(** Dispatch of a path built from a request: split the path, then run
    the table with the parameter known to be a non-empty segment. *)
Ltac dispatch_built :=
  unfold dispatch, endpoint_path; simpl endpoint_segments;
  rewrite split_join by (repeat constructor; first [reflexivity | assumption]);
  simpl; repeat match goal with H : String.eqb _ "" = false |- _ => rewrite H end;
  reflexivity.

(** Every endpoint, sent as the method and path a client uses for it,
    reaches its own route. *)
Lemma dispatch_endpoint e :
  forallb param_ok (endpoint_params e) = true ->
  exists prot, dispatch (endpoint_method e) (endpoint_path e) = Some (prot, e).
Proof.
  intros Hp. destruct e; simpl in Hp;
    repeat match goal with H : _ && true = true |- _ =>
      rewrite andb_true_r in H; apply param_ok_spec in H as [? ?] end;
    eexists; [reflexivity|dispatch_built..].
Qed.

(** ** Routing theorems *)

(** C20: every request of the model, sent as the method and path a client
    uses for it, is dispatched by Express to that route with its
    parameter, and the route runs [protect] exactly when the handler
    reads [req.user]. *)
Theorem dispatch_request r :
  forallb param_ok (endpoint_params (endpoint_of r)) = true ->
  dispatch (endpoint_method (endpoint_of r)) (endpoint_path (endpoint_of r))
    = Some (needs_user r, endpoint_of r).
Proof.
  intros Hp. destruct r as [|[]|[]|[]]; simpl in Hp;
    repeat match goal with H : _ && true = true |- _ =>
      rewrite andb_true_r in H; apply param_ok_spec in H as [? ?] end;
    [reflexivity|dispatch_built..].
Qed.

Lemma pat_overlap_cons x p y q :
  pat_overlap (x :: p) (y :: q) = seg_compat x y && pat_overlap p q.
Proof. destruct x, p, y, q; reflexivity. Qed.

Lemma match_overlap p q segs ps qs :
  match_route p segs = Some ps -> match_route q segs = Some qs -> pat_overlap p q = true.
Proof.
  revert q segs ps qs. induction p as [|x p IH]; intros q segs ps qs Hp Hq.
  - destruct segs as [|s [|]]; simpl in Hp; try done.
    + by destruct q.
    + destruct (String.eqb_spec s "") as [->|]; [|done].
      destruct q as [|[l|] [|]]; simpl in Hq |- *; try done.
      * by destruct (lower l).
      * by destruct (lower l).
  - destruct segs as [|s segs]; [by destruct x|]. simpl in Hp.
    destruct (seg_match x s) eqn:Hx; [|done].
    destruct (match_route p segs) as [ps'|] eqn:Hp'; [|done].
    destruct q as [|y q]; simpl in Hq.
    + destruct segs; [|done].
      destruct (String.eqb_spec s "") as [->|]; [|done].
      destruct p; [|simpl in Hp'; congruence].
      destruct x as [l|]; simpl in Hx |- *; [exact Hx|done].
    + destruct (seg_match y s) eqn:Hy; [|done].
      destruct (match_route q segs) as [qs'|] eqn:Hq'; [|done].
      rewrite pat_overlap_cons. apply andb_true_intro. split; [|by eapply IH].
      destruct x as [a|], y as [b|]; simpl in *; try done.
      apply String.eqb_eq in Hx, Hy. apply String.eqb_eq. congruence.
Qed.

Lemma routes_clash_intro m segs r1 r2 ps1 ps2 :
  route_takes m segs r1 ps1 -> route_takes m segs r2 ps2 -> routes_clash r1 r2 = true.
Proof.
  intros [Hm1 Hp1] [Hm2 Hp2]. unfold routes_clash. apply andb_true_intro. split.
  - apply existsb_exists. exists m. split; [destruct m; simpl; tauto|]. by rewrite Hm1, Hm2.
  - by eapply match_overlap.
Qed.

(** First match in a table without clashes is the only match. *)
Lemma first_route_spec m segs rs x :
  no_clash rs = true ->
  first_route m segs rs = Some x <->
  exists r ps, r ∈ rs /\ route_takes m segs r ps /\ x = (rt_protect r, build (rt_target r) ps).
Proof.
  induction rs as [|r0 rs IH]; simpl; intros Hnc.
  { split; [done|]. intros (r & ps & Hin & _). by apply not_elem_of_nil in Hin. }
  apply andb_prop in Hnc as [Hfresh Hnc]. rewrite forallb_forall in Hfresh.
  destruct (method_matches (rt_method r0) m) eqn:Hm;
    [destruct (match_route (rt_path r0) segs) as [ps0|] eqn:Hp|].
  - split.
    + intros [= <-]. exists r0, ps0. split_and!; [left|split|]; done.
    + intros (r & ps & Hin & Ht & ->). apply elem_of_cons in Hin as [->|Hin].
      * destruct Ht as [_ Ht]. rewrite Ht in Hp. by simplify_eq.
      * assert (routes_clash r0 r = true) as Hc by (eapply routes_clash_intro; [split|]; done).
        apply list_elem_of_In in Hin. specialize (Hfresh r Hin). by rewrite Hc in Hfresh.
  - rewrite IH by done. split.
    + intros (r & ps & Hin & Ht & ->). exists r, ps. split_and!; [by right|done|done].
    + intros (r & ps & Hin & Ht & ->). apply elem_of_cons in Hin as [->|Hin].
      * destruct Ht as [_ Ht]. congruence.
      * by exists r, ps.
  - rewrite IH by done. split.
    + intros (r & ps & Hin & Ht & ->). exists r, ps. split_and!; [by right|done|done].
    + intros (r & ps & Hin & Ht & ->). apply elem_of_cons in Hin as [->|Hin].
      * destruct Ht as [Ht _]. congruence.
      * by exists r, ps.
Qed.

Lemma app_routes_no_clash : no_clash app_routes = true.
Proof. vm_compute. reflexivity. Qed.

(** C31: Express tries the routes in the order [server.js] and the routers
    register them; no two routes of the application take the same
    request, so that order does not matter: dispatch answers a route
    exactly when it is one of the application's routes that takes the
    method and path, with that route's parameters. *)
Theorem dispatch_order_free m path x :
  dispatch m path = Some x <->
  exists segs, split_path path = "" :: segs /\
  exists r ps, r ∈ app_routes /\ method_matches (rt_method r) m = true /\
    match_route (rt_path r) segs = Some ps /\ x = (rt_protect r, build (rt_target r) ps).
Proof.
  unfold dispatch. destruct (split_path path) as [|[|c s] segs]; cbn -[first_route app_routes].
  - split; [done|]. by intros (segs & ? & _).
  - rewrite (first_route_spec m segs app_routes x app_routes_no_clash). split.
    + intros (r & ps & Hin & [Hm Hp] & ->). exists segs. split; [done|]. by exists r, ps.
    + intros (segs' & [= <-] & r & ps & Hin & Hm & Hp & ->). by exists r, ps.
  - split; [done|]. by intros (segs' & ? & _).
Qed.

Lemma dispatch_request_witness :
  forallb param_ok (endpoint_params (endpoint_of (RFiles (RDownloadUrl 7 (oid_hex 4) S3Ok)))) = true /\
  dispatch GET ("/api/files/" +:+ oid_hex 4 +:+ "/download-url")
    = Some (true, EDownloadUrl (oid_hex 4)).
Proof.
  assert (forallb param_ok (endpoint_params (endpoint_of (RFiles (RDownloadUrl 7 (oid_hex 4) S3Ok)))) = true)
    as Hp by (vm_compute; reflexivity).
  split; [exact Hp|].
  exact (dispatch_request (RFiles (RDownloadUrl 7 (oid_hex 4) S3Ok)) Hp).
Defined.
