(* ===== verification/App.v ===== *)
(** * App: the Express application of [server.js], from HTTP request to answer

    [server.js] builds the application as a stack of layers: [cors()],
    then [express.json()], then [GET /] and the three routers; a request
    nothing answers, or an error a layer passes on, ends in Express's
    final handler.  This file composes the components of the development
    along that stack:
    - [cors] (the [cors] package, default options) sets
      [Access-Control-Allow-Origin: *] on every answer and answers an
      [OPTIONS] preflight itself with a 204;
    - [express_json] (body-parser, default options: limit 100kb, strict,
      type [application/json]) turns the body into [req.body] with
      [Json.parse_json], or into the 400, 413 or 415 error;
    - [Url.split_url], [Routing.dispatch] and [Url.decode_param] find the
      route and decode its parameters (a bad escape is a 400);
    - [build_request] reads [req.params], [req.body], [req.query] and
      the inputs no HTTP request carries ([env_inputs]: the user
      [protect] authenticated, the random token, the S3 outcome, what
      multer read) into a [request] of [System], which [serve] answers.

    Not modelled: header parsing (the content type arrives parsed, its
    media type and charset lower-cased as [content-type] does), content
    encodings, bodies in another UTF encoding or not valid UTF-8 (both
    outside the model: [app] answers [None]), the headers that carry no
    decision (Content-Type, ETag, X-Powered-By), [protect] itself (a
    protected route without a user is outside the model), and values of
    [req.body] fields the handlers are not written for (numbers, objects).
    The error page's text is the one [NODE_ENV=production] shows, the
    status message; elsewhere it shows the error's stack. *)

From stdpp Require Import base gmap strings list.
From Stdlib Require Import NArith Ascii Lia.
From S2P Require Import Prelude ObjectId Json Url Store Folders Tokens Auth Files System Routing.
Import Json Url Server FileController Express Routes.

Open Scope N_scope.

Module Http.

(** The media type and charset of [Content-Type], lower-cased. *)
Record content_type := mkCT { ct_media : string; ct_charset : option string }.

Record http_request := mkHttpRequest {
  rq_method : string;                   (** [req.method], upper case as Node gives it *)
  rq_url : string;                      (** [req.url]: path and query *)
  rq_type : option content_type;
  rq_acrh : option string;              (** [Access-Control-Request-Headers] *)
  rq_body : option string               (** the body's bytes; [None]: no
                                            Content-Length nor Transfer-Encoding *)
}.

Record http_response := mkHttpResponse {
  hr_status : N;
  hr_headers : list (string * string);
  hr_body : json_body
}.

Definition acao : string * string := ("Access-Control-Allow-Origin", "*").

(** [cors()] on an [OPTIONS] request: origin, methods, the request's
    headers reflected, then [204] with [Content-Length: 0]. *)
Definition preflight (acrh : option string) : http_response :=
  mkHttpResponse 204
    ([acao; ("Access-Control-Allow-Methods", "GET,HEAD,PUT,PATCH,POST,DELETE");
      ("Vary", "Access-Control-Request-Headers")] ++
     match acrh with
     | Some h => if String.eqb h "" then [] else [("Access-Control-Allow-Headers", h)]
     | None => []
     end ++ [("Content-Length", "0")])
    BEmpty.

(** An answer of a handler, behind the header [cors()] set before it. *)
Definition with_cors (r : response) : http_response :=
  mkHttpResponse (status r) [acao] (body r).

Definition status_text (st : N) : string :=
  if st =? 400 then "Bad Request"
  else if st =? 404 then "Not Found"
  else if st =? 413 then "Payload Too Large"
  else if st =? 415 then "Unsupported Media Type"
  else "Internal Server Error".

(** finalhandler's page: it keeps the headers set before it and adds its
    own two. *)
Definition final_page (st : N) (msg : string) : http_response :=
  mkHttpResponse st
    [acao; ("Content-Security-Policy", "default-src 'none'"); ("X-Content-Type-Options", "nosniff")]
    (BHtml msg).

(** An error passed to [next(err)]. *)
Definition error_page (st : N) : http_response := final_page st (status_text st).

(** No layer answered: ["Cannot GET /path"], with the path of the
    original URL (encodeurl leaves a path of URL characters as it is). *)
Definition not_found (method path : string) : http_response :=
  final_page 404 ("Cannot " +:+ method +:+ " " +:+ path).

(** ** [express.json()] *)

Inductive body_result :=
| BodyOk (b : json)        (** [req.body] *)
| BodyErr (st : N)         (** [next(err)] with this status *)
| BodyOut.                 (** a body the model does not read *)

Definition json_limit : N := 102400.

Definition has_prefix (p s : string) : bool :=
  match strip_prefix p s with Some _ => true | None => false end.

(** iconv-lite drops a byte order mark. *)
Definition strip_bom (s : string) : string :=
  match s with
  | String a (String b (String c r)) =>
      if (code a =? 239) && (code b =? 187) && (code c =? 191) then r else s
  | _ => s
  end.

(** [strict]: the first character that is not a blank opens an object
    or an array. *)
Definition strict_ok (s : string) : bool :=
  match skip_ws s with
  | String c _ => (code c =? 123) || (code c =? 91)
  | EmptyString => false
  end.

(** [parse(body)]: an empty body is [{}]. *)
Definition parse_body (text : string) : body_result :=
  if String.eqb text "" then BodyOk (JObj [])
  else if negb (strict_ok text) then BodyErr 400
  else match parse_json text with
       | Some v => BodyOk v
       | None => BodyErr 400
       end.

Definition express_json (ct : option content_type) (raw : option string) : body_result :=
  match raw, ct with
  | Some raw, Some t =>
      if String.eqb (ct_media t) "application/json" then
        let charset := default "utf-8" (ct_charset t) in
        if negb (has_prefix "utf-" charset) then BodyErr 415
        else if negb (String.eqb charset "utf-8") then BodyOut
        else if json_limit <? N.of_nat (String.length raw) then BodyErr 413
        else if negb (valid_utf8 raw) then BodyOut
        else parse_body (strip_bom raw)
      else BodyOk (JObj [])
  | _, _ => BodyOk (JObj [])
  end.

End Http.

Import Http.

Module App.

(** ** Parameters, body fields and query values *)

(** [Layer.match] decodes the parameter of the route it matched. *)
Definition with_param (e : endpoint) (p : string) : endpoint :=
  match e with
  | EActivate _ => EActivate p
  | EDeleteFolder _ => EDeleteFolder p
  | ERenameFolder _ => ERenameFolder p
  | EDeleteFile _ => EDeleteFile p
  | ERenameFile _ => ERenameFile p
  | EDownload _ => EDownload p
  | EDownloadUrl _ => EDownloadUrl p
  | _ => e
  end.

Definition decode_endpoint (e : endpoint) : endpoint + string :=
  match endpoint_params e with
  | p :: _ =>
      match decode_param p with
      | inl p' => inl (with_param e p')
      | inr msg => inr msg
      end
  | [] => inl e
  end.

(** [req.body.k] where the handler passes it on as it is: [undefined] or
    a string; [None] for a value the model leaves out. *)
Definition str_field (b : json) (k : string) : option jsstr :=
  match member k b with
  | None => Some None
  | Some (JStr s) => Some (Some s)
  | Some _ => None
  end.

(** [req.body.k] where the handler only tests it ([if (k)], [k || null],
    [k || old]): [null] and [false] act as [undefined]. *)
Definition opt_field (b : json) (k : string) : option jsstr :=
  match member k b with
  | None | Some JNull | Some (JBool false) => Some None
  | Some (JStr s) => Some (Some s)
  | Some _ => None
  end.

(** [req.body.k] used as a string. *)
Definition req_field (b : json) (k : string) : option string :=
  match member k b with
  | Some (JStr s) => Some s
  | _ => None
  end.

(** [req.query.k]. *)
Definition query_field (q k : string) : option jsstr :=
  match query_value k q with
  | QAbsent => Some None
  | QOne v => Some (Some v)
  | QMany => None
  end.

(** What the request needs and no HTTP request carries. *)
Record env_inputs := mkEnv {
  ev_user : option oid;                  (** [req.user._id] as [protect] sets it *)
  ev_secret : string;                    (** [crypto.randomBytes(20).toString('hex')] *)
  ev_s3 : s3_outcome;                    (** what S3 answers the handler *)
  ev_file : option (upload * string);    (** multer: [req.file] and the object's bytes *)
  ev_folderId : jsstr                    (** multer: the form field [folderId] *)
}.

Definition is_multipart (ct : option content_type) : bool :=
  match ct with Some t => String.eqb (ct_media t) "multipart/form-data" | None => false end.

(** The [request] of [System] the route's handler serves: the
    destructuring lines of the controllers, [protect]'s [req.user], and
    [upload.single('file')], which on a multipart request replaces
    [req.body] with the form's fields and leaves any other untouched. *)
Definition build_auth (env : env_inputs) (e : endpoint) (b : json) : option auth_request :=
  match e with
  | ERegister =>
      fn ← str_field b "firstName"; ln ← str_field b "lastName";
      em ← req_field b "email"; pw ← req_field b "password";
      Some (RRegister fn ln em pw (ev_secret env))
  | ELogin => em ← req_field b "email"; pw ← req_field b "password"; Some (RLogin em pw)
  | EActivate t => Some (RActivate t)
  | EProfile => uid ← ev_user env; Some (RProfile uid)
  | EForgot => em ← req_field b "email"; Some (RForgot em (ev_secret env))
  | EReset => t ← req_field b "token"; pw ← req_field b "password"; Some (RReset t pw)
  | _ => None
  end.

Definition build_folder (env : env_inputs) (e : endpoint) (b : json) (q : string) : option folder_request :=
  uid ← ev_user env;
  match e with
  | ECreateFolder =>
      n ← str_field b "name"; p ← opt_field b "parentFolder"; Some (RCreateFolder uid n p)
  | EGetFolders => p ← query_field q "parent"; Some (RGetFolders uid p)
  | EDeleteFolder id => Some (RDeleteFolder uid id)
  | ERenameFolder id => n ← opt_field b "name"; Some (RRenameFolder uid id n)
  | _ => None
  end.

Definition build_file (env : env_inputs) (ct : option content_type) (e : endpoint) (b : json) (q : string)
    : option file_request :=
  uid ← ev_user env;
  match e with
  | EGetFiles => f ← query_field q "folder"; Some (RGetFiles uid f)
  | EUpload =>
      if is_multipart ct then Some (RUpload uid (ev_file env) (ev_folderId env))
      else f ← opt_field b "folderId"; Some (RUpload uid None f)
  | EDeleteFile id => Some (RDeleteFile uid id (ev_s3 env))
  | ERenameFile id => n ← opt_field b "name"; Some (RRenameFile uid id n)
  | EDownload id => Some (RDownload uid id (ev_s3 env))
  | EDownloadUrl id => Some (RDownloadUrl uid id (ev_s3 env))
  | _ => None
  end.

(** The router an endpoint belongs to. *)
Definition build_request (env : env_inputs) (ct : option content_type) (e : endpoint) (b : json) (q : string)
    : option request :=
  match e with
  | ERoot => Some RRoot
  | ERegister | ELogin | EActivate _ | EProfile | EForgot | EReset => RAuth <$> build_auth env e b
  | ECreateFolder | EGetFolders | EDeleteFolder _ | ERenameFolder _ => RFolders <$> build_folder env e b q
  | _ => RFiles <$> build_file env ct e b q
  end.

Definition parse_method (m : string) : option http_method :=
  if String.eqb m "GET" then Some GET
  else if String.eqb m "POST" then Some POST
  else if String.eqb m "PATCH" then Some PATCH
  else if String.eqb m "DELETE" then Some DELETE
  else if String.eqb m "HEAD" then Some HEAD
  else None.

Section App.
Context `{PasswordHasher} (CLIENT_URL : jsstr).

(** The layers of [server.js] in order; [None] when the request leaves
    the model. *)
Definition app (env : env_inputs) (rq : http_request) (w : world) : option (world * http_response) :=
  if String.eqb (rq_method rq) "OPTIONS" then Some (w, preflight (rq_acrh rq))
  else
    match express_json (rq_type rq) (rq_body rq) with
    | BodyOut => None
    | BodyErr st => Some (w, error_page st)
    | BodyOk b =>
        let '(path, q) := split_url (rq_url rq) in
        match (m ← parse_method (rq_method rq); dispatch m path) with
        | None => Some (w, not_found (rq_method rq) path)
        | Some (_, e) =>
            match decode_endpoint e with
            | inr _ => Some (w, error_page 400)
            | inl e' =>
                r ← build_request env (rq_type rq) e' b q;
                let '(w', resp) := handle (serve CLIENT_URL r) w in
                Some (w', with_cors resp)
            end
        end
    end.

End App.

(** [const PORT = process.env.PORT || 5000] and the line [app.listen]
    logs once the server listens. *)
Definition port (env_PORT : jsstr) : string := js_or env_PORT "5000".

Definition listen_log (env_PORT : jsstr) : string := "Server running on port " +:+ port env_PORT.

End App.

Import App.

(** ** A request of the model as a client sends it *)

Module Client.

Definition method_name (m : http_method) : string :=
  match m with GET => "GET" | POST => "POST" | PATCH => "PATCH" | DELETE => "DELETE" | HEAD => "HEAD" end.

(** The path parameter escaped with [encodeURIComponent]. *)
Definition encode_endpoint (e : endpoint) : endpoint :=
  match endpoint_params e with
  | p :: _ => with_param e (encode_uri_component p)
  | [] => e
  end.

(** The query string, [?] excluded. *)
Definition query_of (r : request) : option string :=
  match r with
  | RFolders (RGetFolders _ (Some p)) => Some ("parent" +:+ String "=" (encode_uri_component p))
  | RFiles (RGetFiles _ (Some f)) => Some ("folder" +:+ String "=" (encode_uri_component f))
  | _ => None
  end.

Definition url_of (r : request) : string :=
  endpoint_path (encode_endpoint (endpoint_of r)) +:+
  match query_of r with Some q => String "?" q | None => "" end.

(** [JSON.stringify] leaves out an [undefined] member. *)
Definition opt_member (k : string) (v : jsstr) : list (string * json) :=
  match v with Some s => [(k, JStr s)] | None => [] end.

(** The JSON body's members. *)
Definition fields_of (r : request) : list (string * json) :=
  match r with
  | RAuth (RRegister fn ln em pw _) =>
      opt_member "firstName" fn ++ opt_member "lastName" ln ++ [("email", JStr em); ("password", JStr pw)]
  | RAuth (RLogin em pw) => [("email", JStr em); ("password", JStr pw)]
  | RAuth (RForgot em _) => [("email", JStr em)]
  | RAuth (RReset t pw) => [("token", JStr t); ("password", JStr pw)]
  | RFolders (RCreateFolder _ n p) => opt_member "name" n ++ opt_member "parentFolder" p
  | RFolders (RRenameFolder _ _ n) | RFiles (RRenameFile _ _ n) => opt_member "name" n
  | _ => []
  end.

Definition is_upload (r : request) : bool :=
  match r with RFiles (RUpload _ _ _) => true | _ => false end.

Definition http_of (r : request) : http_request :=
  mkHttpRequest (method_name (endpoint_method (endpoint_of r))) (url_of r)
    (Some (if is_upload r then mkCT "multipart/form-data" None else mkCT "application/json" None))
    None
    (match fields_of r with [] => None | fs => Some (print (JObj fs)) end).

(** The inputs of the request that do not travel in it. *)
Definition env_of (r : request) : env_inputs :=
  match r with
  | RAuth (RRegister _ _ _ _ secret) | RAuth (RForgot _ secret) => mkEnv None secret S3Ok None None
  | RAuth (RProfile uid) | RFolders (RCreateFolder uid _ _) | RFolders (RGetFolders uid _)
  | RFolders (RDeleteFolder uid _) | RFolders (RRenameFolder uid _ _)
  | RFiles (RGetFiles uid _) | RFiles (RRenameFile uid _ _) => mkEnv (Some uid) "" S3Ok None None
  | RFiles (RUpload uid file folderId) => mkEnv (Some uid) "" S3Ok file folderId
  | RFiles (RDeleteFile uid _ s3) | RFiles (RDownload uid _ s3) | RFiles (RDownloadUrl uid _ s3) =>
      mkEnv (Some uid) "" s3 None None
  | _ => mkEnv None "" S3Ok None None
  end.

(** Path parameters a client can send: non-empty UTF-8 texts. *)
Definition params_sendable (e : endpoint) : bool :=
  forallb (fun p => negb (String.eqb p "") && valid_utf8 p) (endpoint_params e).

(** What a client can send: non-empty UTF-8 parameters and query
    values, and a UTF-8 body within the limit. *)
Definition sendable (r : request) : bool :=
  params_sendable (endpoint_of r) &&
  match r with
  | RFolders (RGetFolders _ (Some p)) | RFiles (RGetFiles _ (Some p)) => valid_utf8 p
  | _ => true
  end &&
  match fields_of r with
  | [] => true
  | fs => (N.of_nat (String.length (print (JObj fs))) <=? json_limit) && valid_utf8 (print (JObj fs))
  end.

(** A rename whose new name holds a space, a slash, a plus and an ampersand. *)
Definition demo_rename : request := RFolders (RRenameFolder 7 (oid_hex 4) (Some "Q3 plans/a+b & c")).

End Client.

Import Client.

(** ** Lemmas *)

Section Pipeline.
Context `{PasswordHasher} (CU : jsstr).

(** A request that passes [cors] and [express.json], finds its route and
    decodes its parameter is answered by the handler, behind [cors]'s
    header. *)
Lemma app_route env rq w b path q m prot e e' r :
  String.eqb (rq_method rq) "OPTIONS" = false ->
  express_json (rq_type rq) (rq_body rq) = BodyOk b ->
  split_url (rq_url rq) = (path, q) ->
  parse_method (rq_method rq) = Some m -> dispatch m path = Some (prot, e) ->
  decode_endpoint e = inl e' -> build_request env (rq_type rq) e' b q = Some r ->
  app CU env rq w = Some ((handle (serve CU r) w).1, with_cors (handle (serve CU r) w).2).
Proof.
  intros Ho Hb Hu Hm Hd He Hr. unfold app. rewrite Ho, Hb, Hu, Hm. cbn [mbind option_bind].
  rewrite Hd, He, Hr. cbn [mbind option_bind]. by destruct (handle (serve CU r) w).
Qed.

Lemma express_json_err ct raw st : express_json ct raw = BodyErr st -> st ∈ [400; 413; 415].
Proof.
  unfold express_json, parse_body. repeat case_match; intros Hj; simplify_eq; set_solver.
Qed.

End Pipeline.

(** An answer of the front layers: the store as it was, a status of theirs. *)
Ltac front_answer := intros [= <- <-]; split; [done|left; split; [done|set_solver]].

Section ClientLemmas.

Lemma method_name_parse m : parse_method (method_name m) = Some m.
Proof. by destruct m. Qed.

Lemma method_name_not_options m : String.eqb (method_name m) "OPTIONS" = false.
Proof. by destruct m. Qed.

Lemma no_slash_has_char s : no_slash s = negb (has_char "/" s).
Proof. induction s as [|c s IH]; simpl; [done|]. by rewrite IH, negb_orb. Qed.

Lemma encode_param_ok p : p <> "" -> param_ok (encode_uri_component p) = true.
Proof.
  intros Hp. unfold param_ok. rewrite no_slash_has_char, encode_no_char by reflexivity.
  destruct (String.eqb_spec (encode_uri_component p) "") as [E|]; [|done].
  by apply encode_nonempty in E.
Qed.

Lemma encode_endpoint_method e : endpoint_method (encode_endpoint e) = endpoint_method e.
Proof. by destruct e. Qed.

Lemma encode_endpoint_params e :
  endpoint_params (encode_endpoint e) = map encode_uri_component (endpoint_params e).
Proof. by destruct e. Qed.

Lemma params_sendable_param e p :
  params_sendable e = true -> p ∈ endpoint_params e -> p <> "" /\ valid_utf8 p = true.
Proof.
  intros Hs Hin. unfold params_sendable in Hs. rewrite forallb_forall in Hs.
  apply list_elem_of_In, Hs in Hin. apply andb_true_iff in Hin as [Hne Hv].
  split; [by apply negb_true_iff, String.eqb_neq in Hne|done].
Qed.

Lemma dispatch_client e :
  params_sendable e = true ->
  exists prot, dispatch (endpoint_method e) (endpoint_path (encode_endpoint e)) = Some (prot, encode_endpoint e).
Proof.
  intros Hs. rewrite <- encode_endpoint_method. apply dispatch_endpoint.
  rewrite encode_endpoint_params. apply forallb_forall. intros x (p & <- & Hin)%in_map_iff.
  apply encode_param_ok, (params_sendable_param e p Hs), list_elem_of_In, Hin.
Qed.

Lemma decode_client e : params_sendable e = true -> decode_endpoint (encode_endpoint e) = inl e.
Proof.
  intros Hs. unfold decode_endpoint. rewrite encode_endpoint_params.
  destruct (endpoint_params e) as [|p ps] eqn:Hp.
  - unfold encode_endpoint. by rewrite Hp.
  - destruct (params_sendable_param e p Hs) as [Hne Hv]; [rewrite Hp; left|].
    cbn [map]. rewrite decode_param_encode by done. f_equal.
    unfold encode_endpoint. rewrite Hp. by destruct e; simpl in Hp; simplify_eq.
Qed.

Lemma join_path_no_char c segs :
  Ascii.eqb "/" c = false -> Forall (fun s => has_char c s = false) segs -> has_char c (join_path segs) = false.
Proof.
  intros Hc Hall. destruct segs as [|s0 segs]; [cbn [join_path has_char]; by rewrite Hc|]. unfold join_path.
  induction (s0 :: segs) as [|s ss IH]; [done|]. apply Forall_cons in Hall as [Hs Hss].
  cbn [foldr]. rewrite !has_char_app, IH by done. cbn [has_char]. by rewrite Hc, Hs.
Qed.

Lemma endpoint_path_no_query e : has_char "?" (endpoint_path (encode_endpoint e)) = false.
Proof.
  unfold endpoint_path. apply join_path_no_char; [reflexivity|].
  destruct e; simpl; repeat constructor; try reflexivity; by apply encode_no_char.
Qed.

Lemma split_url_client r :
  split_url (url_of r) = (endpoint_path (encode_endpoint (endpoint_of r)), default "" (query_of r)).
Proof.
  unfold split_url, url_of. destruct (query_of r) as [q|].
  - by rewrite split_at_app by apply endpoint_path_no_query.
  - by rewrite string_app_nil_r, split_at_none by apply endpoint_path_no_query.
Qed.

Lemma strip_bom_keep c t : (code c =? 239) = false -> strip_bom (String c t) = String c t.
Proof. intros Hc. destruct t as [|b [|d r]]; unfold strip_bom; [done|done|by rewrite Hc]. Qed.

Lemma print_obj_head fs : exists t, print (JObj fs) = String "{" t.
Proof. eexists. reflexivity. Qed.

(** A body [JSON.stringify] wrote for an object, within the limit, is
    [req.body] as it was. *)
Lemma express_json_object fs :
  json_ok (JObj fs) = true -> (N.of_nat (String.length (print (JObj fs))) <=? json_limit) = true ->
  valid_utf8 (print (JObj fs)) = true ->
  express_json (Some (mkCT "application/json" None)) (Some (print (JObj fs))) = BodyOk (JObj fs).
Proof.
  intros Hok Hl Hv. unfold express_json. cbn [ct_media ct_charset default].
  rewrite String.eqb_refl. change (has_prefix "utf-" "utf-8") with true. cbn [negb].
  rewrite String.eqb_refl. cbn [negb].
  assert ((json_limit <? N.of_nat (String.length (print (JObj fs)))) = false) as ->
    by (apply N.ltb_ge, N.leb_le, Hl).
  rewrite Hv. cbn [negb]. destruct (print_obj_head fs) as [t Ht]. rewrite Ht.
  rewrite strip_bom_keep by reflexivity. unfold parse_body. cbn [String.eqb negb].
  unfold strict_ok. rewrite skip_ws_nonws by reflexivity. cbn [negb orb].
  change (code "{" =? 123) with true. cbn [negb orb]. by rewrite <- Ht, parse_print.
Qed.

Lemma fields_ok r : json_ok (JObj (fields_of r)) = true.
Proof.
  destruct r as [|[]|[]|[]]; simpl;
    repeat match goal with |- context [opt_member _ ?v] => is_var v; destruct v end; reflexivity.
Qed.

Lemma body_client r :
  match fields_of r with
  | [] => true
  | fs => (N.of_nat (String.length (print (JObj fs))) <=? json_limit) && valid_utf8 (print (JObj fs))
  end = true ->
  express_json (rq_type (http_of r)) (rq_body (http_of r)) = BodyOk (JObj (fields_of r)).
Proof.
  intros Hb. unfold http_of. cbn [rq_type rq_body]. destruct (fields_of r) as [|kv fs] eqn:Hf.
  - by destruct (is_upload r).
  - assert (is_upload r = false) as -> by (destruct r as [|[]|[]|[]]; simpl in Hf; done).
    apply andb_true_iff in Hb as [Hl Hv]. rewrite <- Hf in *.
    apply express_json_object; [apply fields_ok|done|done].
Qed.

Lemma query_field_client k v :
  plain k = true -> valid_utf8 k = true -> valid_utf8 v = true ->
  query_field (k +:+ String "=" (encode_uri_component v)) k = Some (Some v).
Proof. intros. unfold query_field. by rewrite query_value_single. Qed.

Lemma build_client r :
  match r with
  | RFolders (RGetFolders _ (Some p)) | RFiles (RGetFiles _ (Some p)) => valid_utf8 p
  | _ => true
  end = true ->
  build_request (env_of r) (rq_type (http_of r)) (endpoint_of r) (JObj (fields_of r))
    (default "" (query_of r)) = Some r.
Proof.
  intros Hq. destruct r as [|[]|[]|[]]; cbn [env_of http_of rq_type endpoint_of fields_of query_of default];
    repeat match goal with |- context [opt_member _ ?v] => is_var v; destruct v end;
    try reflexivity.
  all: match goal with v : option string |- _ => destruct v as [p|]; [|reflexivity] end;
    cbn [build_request build_folder build_file default from_option id mbind option_bind ev_user];
    by rewrite query_field_client.
Qed.



End ClientLemmas.

(** ** The application's theorems *)

Section AppTheorems.
Context `{PasswordHasher} (CU : jsstr).

(** C7: the HTTP front end refines the request model: every request of
    the model that a client can send (non-empty UTF-8 parameters and
    query values, a UTF-8 JSON body within 100kb), sent as the method,
    escaped URL, JSON body and content type a client uses for it, passes
    [cors()], [express.json()], the router and [decodeURIComponent] and
    is answered exactly as [serve] answers the request, with the header
    [cors()] adds, and leaves the store as [serve] does. *)
Theorem app_refines_serve r w :
  sendable r = true ->
  app CU (env_of r) (http_of r) w = Some ((handle (serve CU r) w).1, with_cors (handle (serve CU r) w).2).
Proof.
  intros Hs. apply andb_true_iff in Hs as [[Hp Hq]%andb_true_iff Hb].
  destruct (dispatch_client (endpoint_of r) Hp) as [prot Hd].
  eapply app_route; [apply method_name_not_options | apply body_client, Hb | apply split_url_client
                    | apply method_name_parse | exact Hd | apply decode_client, Hp | apply build_client, Hq].
Qed.

(** C8: every answer of the application carries
    [Access-Control-Allow-Origin: *] first; an answer the front layers
    give (the 204 preflight, the 400/413/415 of [express.json()], the
    final 404, the 400 of a bad escape in a parameter) leaves the store
    as it was, and every other answer is a handler's answer to some
    request of the model, with the store that handler leaves. *)
Theorem app_answers env rq w w' resp :
  app CU env rq w = Some (w', resp) ->
  hd_error (hr_headers resp) = Some acao /\
  ((w' = w /\ hr_status resp ∈ [204; 400; 404; 413; 415]) \/
   exists r, handle (serve CU r) w = (w', mkResponse (hr_status resp) (hr_body resp))).
Proof.
  unfold app. destruct (String.eqb (rq_method rq) "OPTIONS"); [front_answer|].
  destruct (express_json _ _) as [b|st|] eqn:Hj; [|apply express_json_err in Hj; front_answer|done].
  destruct (split_url (rq_url rq)) as [path q].
  destruct (_ ≫= _) as [[p e]|]; [|front_answer].
  destruct (decode_endpoint e) as [e'|msg]; [|front_answer].
  destruct (build_request _ _ _ _ _) as [r|]; [|done]. cbn [mbind option_bind].
  destruct (handle (serve CU r) w) as [w1 r1] eqn:Eh. intros [= <- <-].
  split; [done|right]. exists r. rewrite Eh. by destruct r1.
Qed.

End AppTheorems.

(** ** Witnesses *)

Lemma app_refines_serve_witness :
  sendable demo_rename = true /\
  app (H := demo_hasher) None (env_of demo_rename) (http_of demo_rename) (empty_world 0)
    = Some ((handle (serve (H := demo_hasher) None demo_rename) (empty_world 0)).1,
            with_cors (handle (serve (H := demo_hasher) None demo_rename) (empty_world 0)).2).
Proof.
  assert (Hs : sendable demo_rename = true) by (vm_compute; reflexivity).
  split; [exact Hs|]. exact (app_refines_serve (H := demo_hasher) None demo_rename (empty_world 0) Hs).
Defined.

(** A body that is not JSON answers 400 with the store unchanged. *)
Lemma app_answers_witness :
  app (H := demo_hasher) None (mkEnv None "" S3Ok None None)
    (mkHttpRequest "POST" "/api/auth/login" (Some (mkCT "application/json" None)) None (Some "email=a"))
    (empty_world 0) = Some (empty_world 0, error_page 400) /\
  hd_error (hr_headers (error_page 400)) = Some acao /\
  ((empty_world 0 = empty_world 0 /\ hr_status (error_page 400) ∈ [204; 400; 404; 413; 415]) \/
   exists r, handle (serve (H := demo_hasher) None r) (empty_world 0)
             = (empty_world 0, mkResponse (hr_status (error_page 400)) (hr_body (error_page 400)))).
Proof.
  assert (Ha : app (H := demo_hasher) None (mkEnv None "" S3Ok None None)
    (mkHttpRequest "POST" "/api/auth/login" (Some (mkCT "application/json" None)) None (Some "email=a"))
    (empty_world 0) = Some (empty_world 0, error_page 400)) by (vm_compute; reflexivity).
  split; [exact Ha|]. exact (app_answers (H := demo_hasher) None _ _ _ _ _ Ha).
Defined.
