(* ===== verification/Contract.v ===== *)
(** * Contract: the shape of every answer of the API

    Whatever the request and the state of the store, the server answers
    with one of the status codes the handlers write (200, 201, 400, 401,
    403, 404, 500), and every error answer (400 and above) has the body
    [{ message }].  The proof is compositional: [yields P m] says that a
    handler computation stops only with a well-formed answer and returns
    only values satisfying [P]; it is closed under [bind], and each query
    of [Store] and each helper of the controllers satisfies it, so the
    handlers do by hints of the [contract] database. *)

From stdpp Require Import base gmap strings list.
From S2P Require Import Prelude ObjectId Store Folders Tokens Auth Files System.
Import FolderController TokenStore AuthController FileController Server.

Open Scope N_scope.
Open Scope handler_scope.

(** The status codes the handlers write. *)
Definition status_codes : list N := [200; 201; 400; 401; 403; 404; 500].

Definition is_message (b : json_body) : bool :=
  match b with BMessage _ => true | _ => false end.

(** A well-formed answer. *)
Definition resp_ok (r : response) : bool :=
  bool_decide (status r ∈ status_codes) && (if status r <? 400 then true else is_message (body r)).

(** A computation stops only with well-formed answers and returns only
    values satisfying [P]; a throw becomes the 500 [{ message }] answer. *)
Definition yields {A} (P : A -> bool) (m : Hnd A) : Prop :=
  forall w, match (m w).2 with
            | Ok a => P a = true
            | Stop r => resp_ok r = true
            | Raise _ => True
            end.

Create HintDb contract discriminated.

Section Yields.
Context {A B : Type}.

Lemma yields_ret (P : A -> bool) a : P a = true -> yields P (ret a).
Proof. intros Ha w. exact Ha. Qed.

Lemma yields_stop (P : A -> bool) r : resp_ok r = true -> yields P (stop r).
Proof. intros Hr w. exact Hr. Qed.

Lemma yields_raise (P : A -> bool) e : yields P (raise e).
Proof. intros w. exact I. Qed.

Lemma yields_gets (f : world -> A) : yields (fun _ => true) (gets f).
Proof. intros w. reflexivity. Qed.

Lemma yields_modify f : yields (fun _ => true) (modify f).
Proof. intros w. reflexivity. Qed.

Lemma yields_bind (P : B -> bool) (m : Hnd A) (k : A -> Hnd B) :
  yields (fun _ => true) m -> (forall a, yields P (k a)) -> yields P (bind m k).
Proof.
  intros Hm Hk w. unfold bind. specialize (Hm w).
  destruct (m w) as [w' [a|r|e]]; simpl in *; [apply Hk|done|done].
Qed.

End Yields.

Lemma yields_handle m w : yields resp_ok m -> resp_ok (handle m w).2 = true.
Proof. intros Hm. specialize (Hm w). unfold handle, run_handler. by destruct (m w) as [w' [a|r|e]]. Qed.

#[export] Hint Resolve yields_gets yields_modify yields_raise : contract.
#[export] Hint Extern 1 (yields _ (ret _)) => apply yields_ret; reflexivity : contract.
#[export] Hint Extern 1 (yields _ (stop _)) => apply yields_stop; reflexivity : contract.

(** Split a handler into its awaited steps and its branches. *)
Ltac yields_tac :=
  repeat first
    [ solve [eauto with contract]
    | apply yields_bind
    | progress intros
    | progress case_match ].

Section Queries.
Context {D} `{Collection D}.

Lemma yields_findById s : yields (fun _ => true) (findById (D := D) s).
Proof. unfold findById. yields_tac. Qed.

Lemma yields_findByOid k : yields (fun _ => true) (findByOid (D := D) k).
Proof. apply yields_gets. Qed.

Lemma yields_findOne P : yields (fun _ => true) (findOne (D := D) P).
Proof. apply yields_gets. Qed.

Lemma yields_find P : yields (fun _ => true) (find (D := D) P).
Proof. apply yields_gets. Qed.

Lemma yields_create mk : yields (fun _ => true) (create (D := D) mk).
Proof. intros w. reflexivity. Qed.

Lemma yields_save l d : yields (fun _ => true) (save (D := D) l d).
Proof. intros w. unfold save. by destruct (coll w !! doc_id l). Qed.

Lemma yields_deleteById k : yields (fun _ => true) (deleteById (D := D) k).
Proof. apply yields_modify. Qed.

Lemma yields_deleteOne s : yields (fun _ => true) (deleteOne (D := D) s).
Proof. unfold deleteOne. yields_tac. Qed.

Lemma yields_owned_doc owner missing uid id :
  yields (fun _ => true) (owned_doc (D := D) owner missing uid id).
Proof. unfold owned_doc. yields_tac; apply yields_findById. Qed.

End Queries.

#[export] Hint Resolve yields_findById yields_findByOid yields_findOne yields_find yields_create
  yields_save yields_deleteById yields_deleteOne yields_owned_doc : contract.

Lemma yields_required model path v : yields (fun _ => true) (required model path v).
Proof. unfold required. yields_tac. Qed.

Lemma yields_s3_delete key o : yields (fun _ => true) (s3_delete key o).
Proof. unfold s3_delete. yields_tac. Qed.

Lemma yields_folder_ref v : yields (fun _ => true) (folder_ref v).
Proof. unfold folder_ref. yields_tac. Qed.

Lemma yields_parent_path uid pf : yields (fun _ => true) (parent_path uid pf).
Proof. unfold parent_path. yields_tac. Qed.

#[export] Hint Resolve yields_required yields_s3_delete yields_folder_ref yields_parent_path : contract.

(** The helpers the controllers build from the queries. *)
Ltac unfold_helpers :=
  unfold create_folder_doc, sendEmail, issueToken, consumeToken, findToken, findUserByEmail,
    owned_folder, owned_file, save_folder, save_file.

Section Routers.
Context `{PasswordHasher} (CU : jsstr).

Lemma yields_authRouter r : yields resp_ok (authRouter CU r).
Proof.
  destruct r; unfold authRouter, registerUser, activateAccount, authUser, getUserProfile,
    forgotPassword, resetPassword; unfold_helpers; yields_tac.
Qed.

Lemma yields_folderRouter r : yields resp_ok (folderRouter r).
Proof.
  destruct r; unfold folderRouter, createFolder, getFolders, deleteFolder, renameFolder;
    unfold_helpers; yields_tac.
Qed.

Lemma yields_fileRouter r : yields resp_ok (fileRouter r).
Proof.
  destruct r; unfold fileRouter, uploadFileSuccess, getFiles, deleteFile, getDownloadUrl,
    sign_url, downloadFile, get_object, renameFile; unfold_helpers; yields_tac.
Qed.

End Routers.

Lemma resp_ok_spec r :
  resp_ok r = true -> status r ∈ status_codes /\ (400 <= status r -> exists msg, body r = BMessage msg).
Proof.
  unfold resp_ok. intros [Hs Hb]%andb_prop. apply bool_decide_eq_true in Hs. split; [done|].
  intros Hge. destruct (N.ltb_spec (status r) 400); [lia|]. destruct (body r); by eauto.
Qed.

(** C6: the answer contract of the API.  Whatever the request and the
    state of the store, the server answers with one of the status codes
    200, 201, 400, 401, 403, 404 and 500, and every error answer has the
    body [{ message }]: every early [return res.status(..).json(..)] of
    the handlers and every thrown error caught by their [catch] keeps to
    it. *)
Theorem serve_answer_shape `{PasswordHasher} CU r w :
  let a := (handle (serve CU r) w).2 in
  status a ∈ status_codes /\ (400 <= status a -> exists msg, body a = BMessage msg).
Proof.
  apply resp_ok_spec, yields_handle.
  destruct r; simpl; [yields_tac|apply yields_authRouter|apply yields_folderRouter|apply yields_fileRouter].
Qed.
