(* ===== verification/Interleave.v ===== *)
(** * Interleave: overlapping requests

    Node runs the handlers of different requests concurrently: a handler
    gives way at every [await], and another request's handler may run
    between two of its database operations.  A handler is modelled here
    as a process, a chain of atomic steps, one per awaited operation; a
    scheduler runs any process that has a next step.  Interleaved, two
    activations or two password resets
    with the same token both succeed, and two registrations of the same
    email both create a user.  Every process of these handlers answers
    within four steps whatever runs between them ([bounded]), so every
    schedule of them can be run to the end (used by Concurrency.v). *)

From stdpp Require Import base gmap strings list relations.
From S2P Require Import Prelude ObjectId Store Tokens Auth.
Import TokenStore AuthController.

Open Scope N_scope.
Open Scope handler_scope.

Module Processes.

(** A request in flight: answered, or waiting to run its next atomic
    step, which changes the world and gives the rest of the request. *)
Inductive proc :=
| PDone (r : response)
| PStep (act : world -> world * proc).

(** [const a = await m; rest(a)]: one atomic step.  An early [return]
    answers; a throw is caught by the handler's [catch] and answers 500. *)
Definition await {A} (m : Hnd A) (rest : A -> proc) : proc :=
  PStep (fun w =>
    match m w with
    | (w', Ok a) => (w', rest a)
    | (w', Stop r) => (w', PDone r)
    | (w', Raise e) => (w', PDone (server_error e))
    end).

(** Run one process with nothing else in between. *)
Fixpoint run_alone (fuel : nat) (p : proc) (w : world) : option (world * response) :=
  match p with
  | PDone r => Some (w, r)
  | PStep act =>
      match fuel with
      | O => None
      | S n => let '(w', p') := act w in run_alone n p' w'
      end
  end.

(** The scheduler: any waiting process may take its next step. *)
Inductive sched_step : world * list proc -> world * list proc -> Prop :=
| sched_run w ps i act :
    ps !! i = Some (PStep act) ->
    sched_step (w, ps) ((act w).1, <[i := (act w).2]> ps).

Section Procs.
Context `{PasswordHasher} (CLIENT_URL : jsstr).

(** [activateAccount]: four awaits, [Token.findOne], [User.findById],
    [user.save()], [Token.findByIdAndDelete]; each stage below is what
    is left after one more await. *)
Definition activate_saved (td : token) (u' : user) : proc :=
  await (consumeToken td) (fun _ =>
  PDone (reply 200 (BSession (Some "Account activated") (generateToken (u_id u'))
                             (activation_view u')))).

Definition activate_loaded (td : token) (u : user) : proc :=
  let u' := {| u with u_status := Active |} in
  await (save u u') (fun _ => activate_saved td u').

Definition activate_found (td : token) : proc :=
  await (findByOid (D := user) (t_userId td)) (fun user =>
  match user with
  | None => PDone (reply 404 (BMessage "User not found"))
  | Some u => activate_loaded td u
  end).

Definition activate_proc (token : string) : proc :=
  await (findToken token Activation) (fun tokenDoc =>
  match tokenDoc with
  | None => PDone (reply 400 (BMessage "Invalid or expired token"))
  | Some td => activate_found td
  end).

(** [registerUser]: [User.findOne], [User.create], [Token.create]; the
    mail is handed over and the answer sent in the last step. *)
Definition register_proc (firstName lastName : jsstr) (email password secret : string) : proc :=
  await (findUserByEmail email) (fun userExists =>
  match userExists with
  | Some _ => PDone (reply 400 (BMessage "User already exists"))
  | None =>
      await (create (fun k t => mkUser k firstName lastName email (hash_password password) Inactive t))
        (fun user =>
      await (issueToken (u_id user) secret Activation) (fun _ =>
      let activationUrl := client_url CLIENT_URL +:+ "/activate/" +:+ secret in
      await (sendEmail (u_email user) "Account Activation - Cloud Canvas"
               ("Please click the following link to activate your account: " +:+ activationUrl))
        (fun _ =>
      PDone (reply 201 (BSuccess "Registration successful. Please check your email to activate your account.")))))
  end).

(** [resetPassword]: [Token.findOne], [User.findById], [user.save()],
    [Token.findByIdAndDelete], in stages as for [activateAccount]. *)
Definition reset_saved (td : token) : proc :=
  await (consumeToken td) (fun _ => PDone (reply 200 (BSuccess "Password reset successful"))).

Definition reset_loaded (td : token) (password : string) (u : user) : proc :=
  await (save u {| u with u_password := hash_password password |}) (fun _ => reset_saved td).

Definition reset_found (td : token) (password : string) : proc :=
  await (findByOid (D := user) (t_userId td)) (fun user =>
  match user with
  | None => PDone (reply 404 (BMessage "User not found"))
  | Some u => reset_loaded td password u
  end).

Definition reset_proc (token password : string) : proc :=
  await (findToken token Reset) (fun tokenDoc =>
  match tokenDoc with
  | None => PDone (reply 400 (BMessage "Invalid or expired token"))
  | Some td => reset_found td password
  end).

End Procs.

(** [p] answers after at most [n] more steps, whatever the world does
    between its steps. *)
Fixpoint bounded (n : nat) (p : proc) : Prop :=
  match p with
  | PDone _ => True
  | PStep act =>
      match n with
      | O => False
      | S n' => forall w, bounded n' (act w).2
      end
  end.

End Processes.

Import Processes.

(** ** Scheduling *)

(** A process that runs to its answer alone also does so among others. *)
Lemma run_alone_sched n p w w' r ps i :
  ps !! i = Some p -> run_alone n p w = Some (w', r) ->
  rtc sched_step (w, ps) (w', <[i := PDone r]> ps).
Proof.
  revert p w ps. induction n as [|n IH]; intros [r0|act] w ps Hi Hrun; simpl in Hrun.
  - simplify_eq. by rewrite list_insert_id.
  - done.
  - simplify_eq. by rewrite list_insert_id.
  - destruct (act w) as [w1 p1] eqn:E.
    eapply rtc_l; [by apply (sched_run _ _ i act)|]. rewrite E; simpl.
    rewrite <- (list_insert_insert_eq ps i (PDone r) p1).
    apply (IH p1); [|done]. apply list_lookup_insert_eq. by eapply lookup_lt_Some.
Qed.

(** One awaited step of process [i]. *)
Lemma sched_await {A} (m : Hnd A) rest w w' a ps i :
  ps !! i = Some (await m rest) -> m w = (w', Ok a) ->
  sched_step (w, ps) (w', <[i := rest a]> ps).
Proof.
  intros Hi Hm. pose proof (sched_run w ps i _ Hi) as Hs. simpl in Hs. by rewrite Hm in Hs.
Qed.

(** ** Races *)

(** Two requests whose first await only reads: both read the same world,
    then the first runs to its answer, then the second. *)
Lemma read_race {A B} (m1 : Hnd A) k1 (m2 : Hnd B) k2 w a1 a2 n1 n2 w1 r1 w2 r2 :
  m1 w = (w, Ok a1) -> m2 w = (w, Ok a2) ->
  run_alone n1 (k1 a1) w = Some (w1, r1) -> run_alone n2 (k2 a2) w1 = Some (w2, r2) ->
  rtc sched_step (w, [await m1 k1; await m2 k2]) (w2, [PDone r1; PDone r2]).
Proof.
  intros H1 H2 R1 R2.
  eapply rtc_l; [by eapply (sched_await m1 k1 w w a1 _ 0)|]. simpl.
  eapply rtc_l; [by eapply (sched_await m2 k2 w w a2 _ 1)|]. simpl.
  eapply rtc_trans; [by eapply (run_alone_sched n1 (k1 a1) w w1 r1 _ 0)|]. simpl.
  eapply rtc_trans; [by eapply (run_alone_sched n2 (k2 a2) w1 w2 r2 _ 1)|]. simpl. apply rtc_refl.
Qed.

Section Races.
Context `{PasswordHasher} (CLIENT_URL : jsstr).

(** C4: Two requests activating with the same token overlap: both look the
    token up before either deletes it, and both answer 200 with a session.
    The spec (concurrency) asks for exactly one success. *)
Theorem activation_race token w td u :
  first_match (token_query token Activation) (tokens w) = Some td ->
  users w !! t_userId td = Some u -> u_id u = t_userId td ->
  exists w' r1 r2,
    rtc sched_step (w, [activate_proc token; activate_proc token]) (w', [PDone r1; PDone r2])
    /\ status r1 = 200 /\ status r2 = 200.
Proof.
  intros Hf Hu Hid. do 3 eexists. split_and!.
  - eapply (read_race _ _ _ _ w (Some td) (Some td) 3 3);
      [by unfold findToken, findOne; hstep; rewrite Hf..| |].
    + unfold activate_found, activate_loaded, activate_saved, reset_found, reset_loaded,
      reset_saved, await, findByOid, save, consumeToken, deleteById. hstep.
      rewrite Hu, Hid, Hu. simpl. by rewrite user_delta_loaded.
    + unfold activate_found, activate_loaded, activate_saved, reset_found, reset_loaded,
      reset_saved, await, findByOid, save, consumeToken, deleteById. hstep.
      cbn. simplify_map_eq. reflexivity.
  - done.
  - done.
Qed.

(** C16: Two password resets with the same token overlap: both look the
    token up before either deletes it, both answer 200, and the password
    stored last wins.  The spec (concurrency) asks that only one use of a
    token succeed. *)
Theorem reset_race token pw1 pw2 w td u :
  first_match (token_query token Reset) (tokens w) = Some td ->
  users w !! t_userId td = Some u -> u_id u = t_userId td ->
  exists w' r1 r2,
    rtc sched_step (w, [reset_proc token pw1; reset_proc token pw2]) (w', [PDone r1; PDone r2])
    /\ status r1 = 200 /\ status r2 = 200
    /\ users w' !! t_userId td = Some {| u with u_password := hash_password pw2 |}.
Proof.
  intros Hf Hu Hid. do 3 eexists. split_and!.
  - eapply (read_race _ _ _ _ w (Some td) (Some td) 3 3);
      [by unfold findToken, findOne; hstep; rewrite Hf..| |].
    + unfold activate_found, activate_loaded, activate_saved, reset_found, reset_loaded,
      reset_saved, await, findByOid, save, consumeToken, deleteById. hstep.
      rewrite Hu, Hid, Hu. simpl. by rewrite user_delta_loaded.
    + unfold activate_found, activate_loaded, activate_saved, reset_found, reset_loaded,
      reset_saved, await, findByOid, save, consumeToken, deleteById. hstep.
      cbn. simplify_map_eq. reflexivity.
  - done.
  - done.
  - simpl. rewrite Hid, lookup_insert_eq. unfold user_delta. simpl.
    by rewrite ?pick_loaded.
Qed.

(** C15: Two registrations of an email no account has overlap: both look
    the email up before either creates its user, both answer 201, and the
    users collection ends with two accounts of that email: the invariant
    that sequential runs keep (one account per email) is broken.  Only a unique
    index on [email] in the User model, which is not among the sources,
    would refuse the second [User.create]. *)
Theorem register_race f l email pw s1 s2 w :
  first_match (fun u => String.eqb (u_email u) email) (users w) = None ->
  exists w' r1 r2,
    rtc sched_step
      (w, [register_proc CLIENT_URL f l email pw s1; register_proc CLIENT_URL f l email pw s2])
      (w', [PDone r1; PDone r2])
    /\ status r1 = 201 /\ status r2 = 201
    /\ (exists k1 k2 u1 u2, k1 <> k2 /\ users w' !! k1 = Some u1 /\ users w' !! k2 = Some u2
        /\ u_email u1 = email /\ u_email u2 = email)
    /\ ~ emails_unique w'.
Proof.
  intros Hf. do 3 eexists. split_and!.
  - eapply (read_race _ _ _ _ w None None 4 4);
      [by unfold findUserByEmail, findOne; hstep; rewrite Hf..| |];
      unfold await, create, issueToken, sendEmail; hstep; reflexivity.
  - done.
  - done.
  - simpl. exists (next_id w), (next_id w + 1 + 1). do 2 eexists. split_and!.
    + lia.
    + rewrite lookup_insert_ne by lia. by rewrite lookup_insert_eq.
    + by rewrite lookup_insert_eq.
    + done.
    + done.
  - simpl. unfold emails_unique, emails_unique_map. intros Huniq.
    assert (next_id w = next_id w + 1 + 1) by
      (eapply (Huniq (next_id w)); simpl;
         [rewrite lookup_insert_ne by lia; apply lookup_insert_eq|apply lookup_insert_eq|done]).
    lia.
Qed.

End Races.

#[local] Existing Instance demo_hasher.

Lemma activation_race_witness :
  (first_match (token_query "s3cr3t" Activation) (tokens demo_registered)
     = Some (mkToken 2 1 "s3cr3t" Activation 0) /\
   users demo_registered !! 1
     = Some (mkUser 1 (Some "Ada") (Some "L") "ada@x.io" (hash_password "pw") Inactive 0)) /\
  exists w' r1 r2,
    rtc sched_step (demo_registered, [activate_proc "s3cr3t"; activate_proc "s3cr3t"])
      (w', [PDone r1; PDone r2])
    /\ status r1 = 200 /\ status r2 = 200.
Proof.
  split; [split; vm_compute; reflexivity|].
  apply (activation_race "s3cr3t" demo_registered (mkToken 2 1 "s3cr3t" Activation 0)
           (mkUser 1 (Some "Ada") (Some "L") "ada@x.io" (hash_password "pw") Inactive 0));
    vm_compute; reflexivity.
Defined.

Lemma register_race_witness :
  first_match (fun u => String.eqb (u_email u) "bob@x.io") (users demo_registered) = None /\
  exists w' r1 r2,
    rtc sched_step
      (demo_registered, [register_proc None None None "bob@x.io" "pw" "k1";
                         register_proc None None None "bob@x.io" "pw" "k2"])
      (w', [PDone r1; PDone r2])
    /\ status r1 = 201 /\ status r2 = 201
    /\ (exists k1 k2 u1 u2, k1 <> k2 /\ users w' !! k1 = Some u1 /\ users w' !! k2 = Some u2
        /\ u_email u1 = "bob@x.io" /\ u_email u2 = "bob@x.io")
    /\ ~ emails_unique w'.
Proof.
  split; [vm_compute; reflexivity|].
  apply (register_race None None None "bob@x.io" "pw" "k1" "k2" demo_registered).
  vm_compute; reflexivity.
Defined.

(** ** Termination of every schedule *)

Lemma bounded_done n r : bounded n (PDone r).
Proof. by destruct n. Qed.

Lemma await_bounded {A} n (m : Hnd A) rest :
  (forall a, bounded n (rest a)) -> bounded (S n) (await m rest).
Proof.
  intros Hrest w. simpl. destruct (m w) as [w' [a|r|e]]; simpl; [apply Hrest|apply bounded_done..].
Qed.

#[local] Hint Resolve await_bounded bounded_done : gdrive.

Section Bounds.
Context `{PasswordHasher} (CLIENT_URL : jsstr).

Lemma activate_loaded_bounded td u : bounded 2 (activate_loaded td u).
Proof. unfold activate_loaded, activate_saved. auto with gdrive. Qed.
Lemma activate_found_bounded td : bounded 3 (activate_found td).
Proof. unfold activate_found. apply await_bounded. intros [u|]; auto using activate_loaded_bounded with gdrive. Qed.
Lemma activate_proc_bounded token : bounded 4 (activate_proc token).
Proof. unfold activate_proc. apply await_bounded. intros [td|]; auto using activate_found_bounded with gdrive. Qed.

Lemma reset_loaded_bounded td pw u : bounded 2 (reset_loaded td pw u).
Proof. unfold reset_loaded, reset_saved. auto with gdrive. Qed.
Lemma reset_found_bounded td pw : bounded 3 (reset_found td pw).
Proof. unfold reset_found. apply await_bounded. intros [u|]; auto using reset_loaded_bounded with gdrive. Qed.
Lemma reset_proc_bounded token pw : bounded 4 (reset_proc token pw).
Proof. unfold reset_proc. apply await_bounded. intros [td|]; auto using reset_found_bounded with gdrive. Qed.

End Bounds.

Lemma sum_list_insert_lt (ns : list nat) i n :
  ns !! i = Some (S n) -> (sum_list (<[i := n]> ns) < sum_list ns)%nat.
Proof.
  revert i. induction ns as [|k ns IH]; intros [|i] Hi; simpl in *; try done.
  - injection Hi as ->. lia.
  - specialize (IH i Hi). lia.
Qed.

(** A step of a schedule of bounded processes: they stay bounded and the
    total bound goes down. *)
Lemma sched_step_bounded s s' ns :
  sched_step s s' -> Forall2 bounded ns s.2 ->
  exists ns', Forall2 bounded ns' s'.2 /\ (sum_list ns' < sum_list ns)%nat.
Proof.
  intros [w ps i act Hi] Hb. simpl in *.
  destruct (Forall2_lookup_r _ _ _ _ _ Hb Hi) as ([|n] & Hn & Hbn); [done|].
  exists (<[i := n]> ns). split.
  - apply Forall2_insert; [done|apply Hbn].
  - by apply sum_list_insert_lt.
Qed.

Lemma bounded_sn s ns : Forall2 bounded ns s.2 -> sn sched_step s.
Proof.
  remember (sum_list ns) as N eqn:HN. revert s ns HN.
  induction (lt_wf N) as [N _ IH]. intros s ns -> Hb.
  constructor. intros s' Hs'.
  destruct (sched_step_bounded _ _ _ Hs' Hb) as (ns' & Hb' & Hlt). eauto.
Qed.

(** Either every process has answered, or one of them can step. *)
Lemma all_done_or_waiting (ps : list proc) :
  (exists rs, ps = PDone <$> rs) \/ (exists i act, ps !! i = Some (PStep act)).
Proof.
  induction ps as [|[r|act] ps [[rs ->]|(i & act' & Hi)]].
  - left. by exists [].
  - left. by exists (r :: rs).
  - right. by exists (S i), act'.
  - right. by exists 0%nat, act.
  - right. by exists 0%nat, act.
Qed.

Lemma nf_sched_done s : nf sched_step s -> exists rs, s.2 = PDone <$> rs.
Proof.
  destruct s as [w ps]. intros Hnf.
  destruct (all_done_or_waiting ps) as [Hd|(i & act & Hi)]; [done|].
  destruct Hnf. eexists. by apply (sched_run w ps i act).
Qed.

Lemma sn_reaches_done s : sn sched_step s -> exists w' rs, rtc sched_step s (w', PDone <$> rs).
Proof.
  induction 1 as [[w ps] _ IH].
  destruct (all_done_or_waiting ps) as [[rs ->]|(i & act & Hi)].
  - exists w, rs. apply rtc_refl.
  - destruct (IH _ (sched_run w ps i act Hi)) as (w' & rs & Hrun).
    exists w', rs. eapply rtc_l; [apply (sched_run w ps i act Hi)|exact Hrun].
Qed.

Lemma sched_step_length s s' : sched_step s s' -> length s'.2 = length s.2.
Proof. intros [w ps i act Hi]. simpl. apply length_insert. Qed.

Lemma rtc_sched_length s s' : rtc sched_step s s' -> length s'.2 = length s.2.
Proof. induction 1 as [|s1 s2 s3 H12 _ IH]; [done|]. rewrite IH. by apply sched_step_length. Qed.

Lemma reset_race_witness :
  let u := mkUser 1 (Some "Ada") (Some "L") "ada@x.io" (hash_password "pw") Inactive 0 in
  let td := mkToken 3 1 "r3s3t" Reset 0 in
  (first_match (token_query "r3s3t" Reset) (tokens demo_reset_pending) = Some td /\
   users demo_reset_pending !! t_userId td = Some u /\ u_id u = t_userId td) /\
  exists w' r1 r2,
    rtc sched_step (demo_reset_pending, [reset_proc "r3s3t" "new1"; reset_proc "r3s3t" "new2"])
      (w', [PDone r1; PDone r2])
    /\ status r1 = 200 /\ status r2 = 200
    /\ users w' !! t_userId td = Some {| u with u_password := hash_password "new2" |}.
Proof.
  cbv zeta.
  assert (first_match (token_query "r3s3t" Reset) (tokens demo_reset_pending)
          = Some (mkToken 3 1 "r3s3t" Reset 0)) as Hf by (vm_compute; reflexivity).
  assert (users demo_reset_pending !! 1
          = Some (mkUser 1 (Some "Ada") (Some "L") "ada@x.io" (hash_password "pw") Inactive 0)) as Hu
    by (vm_compute; reflexivity).
  split; [split_and!; [exact Hf|exact Hu|reflexivity]|].
  exact (reset_race "r3s3t" "new1" "new2" demo_reset_pending _ _ Hf Hu eq_refl).
Defined.
