(* ===== verification/Concurrency.v ===== *)
(** * Concurrency: folder requests in flight, and every schedule of two
    writers of one user

    The folder handlers [renameFolder] and [deleteFolder] of
    [src/src/controllers/folderController.js] as processes in the sense
    of Interleave.v, one step per await; a delete that runs between the
    [Folder.findById] and the [folder.save()] of a rename makes the save
    throw Mongoose's DocumentNotFoundError, and the rename answers 500, an
    answer neither order of the two requests run one after the other
    gives.

    Then all the schedules of an activation and a password reset of the
    same user: whatever the order of their eight steps, both answer 200
    and the user ends active with the new password, because [save] sets
    only the paths the handler assigned.  The proof is a rule induction
    on the scheduler with an invariant that names the stage of each
    process and the fields each has written. *)

From stdpp Require Import base gmap strings list relations.
From S2P Require Import Prelude ObjectId Store Tokens Auth Folders Interleave.
Import TokenStore AuthController FolderController Processes.

Open Scope N_scope.
Open Scope handler_scope.

Module FolderProcs.

(** [deleteFolder]: [Folder.findById] with the owner check, then
    [Folder.deleteOne]. *)
Definition delete_folder_proc (uid : oid) (id : string) : proc :=
  await (owned_folder uid id) (fun _ =>
  await (deleteOne (D := folder) id) (fun _ =>
  PDone (reply 200 (BMessage "Folder removed")))).

(** [renameFolder]: [Folder.findById] with the owner check, then
    [folder.save()] of the renamed document. *)
Definition rename_folder_proc (uid : oid) (id : string) (name : jsstr) : proc :=
  await (owned_folder uid id) (fun f =>
  let f' := {| f with f_name := js_or name (f_name f) |} in
  await (save_folder f f') (fun _ =>
  PDone (reply 200 (BFolder f')))).

(** [createFolder]: [Folder.findById(parentFolder)] with its checks,
    then [Folder.create]. *)
Definition create_folder_proc (uid : oid) (name parentFolder : jsstr) : proc :=
  await (parent_path uid parentFolder) (fun path =>
  await (create_folder_doc uid name parentFolder path) (fun folder =>
  PDone (reply 201 (BFolder folder)))).

End FolderProcs.

Import FolderProcs.

(** ** An activation and a password reset of one user, in any order *)

(** One step of a process, if it has one. *)
Definition proc_step (p : proc) (w : world) : option (world * proc) :=
  match p with
  | PDone _ => None
  | PStep act => Some (act w)
  end.

Section MergeDefs.
Context `{PasswordHasher}.
Variables (ta tr pw : string) (tda tdr : token) (u : user) (w0 : world).

(** The user as stored once the activation ([sa]) and the reset ([sr])
    have saved or not. *)
Definition user_at (sa sr : bool) : user :=
  {| {| u with u_status := if sa then Active else u_status u |} with
       u_password := if sr then hash_password pw else u_password u |}.

Definition del_if (b : bool) (k : oid) (m : gmap oid token) : gmap oid token :=
  if b then delete k m else m.

(** Where the activation is: before each of its awaits, then answered;
    the flags say whether it has saved and deleted its token.  The user
    it loaded is the stored one, with the status it had at the start. *)
Inductive a_stage : proc -> bool -> bool -> Prop :=
| A0 : a_stage (activate_proc ta) false false
| A1 : a_stage (activate_found tda) false false
| A2 b : a_stage (activate_loaded tda (user_at false b)) false false
| A3 u' : a_stage (activate_saved tda u') true false
| A4 r : status r = 200 -> a_stage (PDone r) true true.

Inductive r_stage : proc -> bool -> bool -> Prop :=
| R0 : r_stage (reset_proc tr pw) false false
| R1 : r_stage (reset_found tdr pw) false false
| R2 b : r_stage (reset_loaded tdr pw (user_at b false)) false false
| R3 : r_stage (reset_saved tdr) true false
| R4 r : status r = 200 -> r_stage (PDone r) true true.

(** The invariant of every schedule of the two requests. *)
Definition merge_inv (c : world * list proc) : Prop :=
  exists pa pr sa ca sr cr, c.2 = [pa; pr] /\ a_stage pa sa ca /\ r_stage pr sr cr /\
    users c.1 !! t_userId tda = Some (user_at sa sr) /\
    tokens c.1 = del_if ca (t_id tda) (del_if cr (t_id tdr) (tokens w0)).

End MergeDefs.

(** ** Two processes *)

(** Re-establish the invariant after a step: the stage of the process
    that moved by its constructor, the other's stage and the untouched
    facts from the context. *)
Ltac close_inv :=
  eexists _, _, _, _, _, _; split_and!;
  [reflexivity|first [constructor; done | eassumption]|first [constructor; done | eassumption]|try done|try done].

Lemma sched_step_pair w p1 p2 c' :
  sched_step (w, [p1; p2]) c' ->
  (exists w' p1', proc_step p1 w = Some (w', p1') /\ c' = (w', [p1'; p2])) \/
  (exists w' p2', proc_step p2 w = Some (w', p2') /\ c' = (w', [p1; p2'])).
Proof.
  inversion 1 as [? ? i act Hi]; subst. destruct i as [|[|i]]; simplify_eq/=.
  - left. destruct (act w) as [w' p']. by exists w', p'.
  - right. destruct (act w) as [w' p']. by exists w', p'.
Qed.

(** ** The parent lookup of [createFolder] *)

(** The parent lookup of [createFolder] on a stored and on a missing
    parent. *)
Lemma parent_path_found uid p k parent w :
  cast_oid p = Some k -> folders w !! k = Some parent -> f_user parent = uid ->
  parent_path uid (Some p) w = (w, Ok (child_path parent)).
Proof.
  intros Hk Hp Hu. unfold parent_path, findById.
  rewrite (cast_oid_truthy p k Hk), Hk. hstep. rewrite Hp. by rewrite decide_True.
Qed.

Lemma parent_path_gone uid p k w :
  cast_oid p = Some k -> folders w !! k = None ->
  parent_path uid (Some p) w = (w, Stop (reply 404 (BMessage "Parent folder not found"))).
Proof.
  intros Hk Hp. unfold parent_path, findById. rewrite (cast_oid_truthy p k Hk), Hk. hstep. by rewrite Hp.
Qed.

(** ** A rename overtaken by a delete *)

(** C32: a delete of the folder that runs between the [findById] and the
    [save()] of a rename makes the save throw DocumentNotFoundError: the
    delete answers 200, the rename 500 with Mongoose's message, and the
    folder is gone.  Run one after the other the two requests give no 500:
    a rename after the delete answers 404. *)
Theorem rename_delete_race uid id name k f w :
  cast_oid id = Some k -> folders w !! k = Some f -> f_user f = uid -> f_id f = k ->
  js_or name (f_name f) <> "" ->
  (exists w', rtc sched_step (w, [delete_folder_proc uid id; rename_folder_proc uid id name])
       (w', [PDone (reply 200 (BMessage "Folder removed"));
             PDone (server_error (doc_not_found "Folder" k))])
     /\ folders w' !! k = None) /\
  snd (handle (renameFolder uid id name) (fst (handle (deleteFolder uid id) w)))
    = reply 404 (BMessage "Folder not found").
Proof.
  intros Hk Hf Hu Hid Hn. split.
  - eexists. split.
    + eapply (read_race _ _ _ _ w f f 1 1); [by apply (owned_folder_mine _ _ k)..| |].
      * unfold await, deleteOne. rewrite Hk. hstep. reflexivity.
      * unfold await, save_folder, required. hstep.
        rewrite (proj2 (String.eqb_neq _ _) Hn), save_gone; [|simpl; rewrite Hid; apply lookup_delete_eq].
        simpl. by rewrite Hid.
    + apply lookup_delete_eq.
  - unfold handle, deleteFolder, renameFolder. hstep.
    rewrite (owned_folder_mine uid id k f w) by done. hstep. unfold deleteOne. rewrite Hk. hstep.
    by rewrite (owned_folder_missing _ _ k) by first [done|simpl; apply lookup_delete_eq].
Qed.


(** ** A folder created under a parent deleted meanwhile *)

(** C36: a delete of the parent folder that runs between the parent
    lookup and the [Folder.create] of a [createFolder] lets the create
    answer 201 and store a folder whose parent is gone; run one after the
    other, the create after the delete answers 404. *)
Theorem create_delete_race uid n p k parent w :
  cast_oid p = Some k -> folders w !! k = Some parent -> f_user parent = uid ->
  n <> "" -> k < next_id w ->
  let f := mkFolder (next_id w) uid n (Some k) (child_path parent) (now w) in
  (exists w', rtc sched_step (w, [delete_folder_proc uid p; create_folder_proc uid (Some n) (Some p)])
       (w', [PDone (reply 200 (BMessage "Folder removed")); PDone (reply 201 (BFolder f))])
     /\ folders w' !! next_id w = Some f /\ folders w' !! k = None) /\
  snd (handle (createFolder uid (Some n) (Some p)) (fst (handle (deleteFolder uid p) w)))
    = reply 404 (BMessage "Parent folder not found").
Proof.
  intros Hk Hp Hu Hn Hlt f. split.
  - eexists. split_and!.
    + eapply (read_race _ _ _ _ w parent (child_path parent) 1 1);
        [by apply (owned_folder_mine _ _ k)|by apply (parent_path_found _ _ k)| |].
      * unfold await, deleteOne. rewrite Hk. hstep. reflexivity.
      * unfold await, create_folder_doc, create. rewrite (cast_oid_truthy p k Hk). hstep.
        rewrite (proj2 (String.eqb_neq _ _) Hn). hstep. by rewrite Hk.
    + simpl. by rewrite lookup_insert_eq.
    + simpl. rewrite lookup_insert_ne by lia. apply lookup_delete_eq.
  - assert (fst (handle (deleteFolder uid p) w) = {| w with folders := delete k (folders w) |}) as ->.
    { unfold handle, deleteFolder. hstep. rewrite (owned_folder_mine uid p k parent w) by done.
      hstep. unfold deleteOne. rewrite Hk. by hstep. }
    unfold handle, run_handler, createFolder, bind.
    by rewrite (parent_path_gone _ _ k) by first [done|simpl; apply lookup_delete_eq].
Qed.

Section Merge.
Context `{PasswordHasher}.
Variables (ta tr pw : string) (tda tdr : token) (u : user) (w0 : world).
Local Abbreviation user_at := (user_at pw u).
Local Abbreviation a_stage := (a_stage ta pw tda u).
Local Abbreviation r_stage := (r_stage tr pw tdr u).
Local Abbreviation merge_inv := (merge_inv ta tr pw tda tdr u w0).

Hypothesis Hfa : first_match (token_query ta Activation) (tokens w0) = Some tda.
Hypothesis Hfr : first_match (token_query tr Reset) (tokens w0) = Some tdr.
Hypothesis Hka : tokens w0 !! t_id tda = Some tda.
Hypothesis Hkr : tokens w0 !! t_id tdr = Some tdr.
Hypothesis Hur : t_userId tdr = t_userId tda.
Hypothesis Hu : users w0 !! t_userId tda = Some u.
Hypothesis Hid : u_id u = t_userId tda.

(** [save] of the activation sets [status] and keeps a password the
    reset stored meanwhile; [save] of the reset sets [password] and keeps
    the status. *)
Lemma activate_delta b sr :
  user_delta (user_at false b) {| (user_at false b) with u_status := Active |} (user_at false sr)
  = user_at true sr.
Proof. unfold user_delta, user_at. cbn -[pick]. by rewrite !pick_kept, pick_loaded. Qed.

Lemma reset_delta b sa :
  user_delta (user_at b false) {| (user_at b false) with u_password := hash_password pw |}
    (user_at sa false) = user_at sa true.
Proof. unfold user_delta, user_at. cbn -[pick]. by rewrite !pick_kept, pick_loaded. Qed.


(** Each request's token survives the deletion of the other's. *)
Lemma query_type secret ty t : token_query secret ty t = true -> t_type t = ty.
Proof. unfold token_query. rewrite andb_true_iff, bool_decide_eq_true. tauto. Qed.

Lemma found_type_refused s1 ty1 s2 ty2 m d :
  first_match (token_query s1 ty1) m = Some d -> ty1 <> ty2 -> token_query s2 ty2 d = false.
Proof.
  intros Hf Hty. destruct (first_match_Some _ _ _ Hf) as (_ & _ & Hq & _).
  apply query_type in Hq. apply not_true_is_false. intros Hq'. apply query_type in Hq'. congruence.
Qed.

Lemma activation_token_kept cr :
  first_match (token_query ta Activation) (del_if cr (t_id tdr) (tokens w0)) = Some tda.
Proof.
  destruct cr; simpl; [|exact Hfa]. rewrite first_match_delete_other; [exact Hfa|].
  intros d Hd. rewrite Hkr in Hd. injection Hd as <-. by eapply found_type_refused.
Qed.

Lemma reset_token_kept ca :
  first_match (token_query tr Reset) (del_if ca (t_id tda) (tokens w0)) = Some tdr.
Proof.
  destruct ca; simpl; [|exact Hfr]. rewrite first_match_delete_other; [exact Hfr|].
  intros d Hd. rewrite Hka in Hd. injection Hd as <-. by eapply found_type_refused.
Qed.

(** Every step of either request keeps the invariant. *)
Lemma merge_step c c' : merge_inv c -> sched_step c c' -> merge_inv c'.
Proof.
  destruct c as [w ps]. intros (pa & pr & sa & ca & sr & cr & Hps & Ha & Hr & Huw & Htk) Hs.
  simpl in *. subst ps.
  assert (users w !! u_id u = Some (user_at sa sr)) as Huw' by by rewrite Hid.
  apply sched_step_pair in Hs as [(w' & p' & Hst & ->)|(w' & p' & Hst & ->)].
  - destruct Ha as [| |b|u'|r ?]; unfold proc_step in Hst; [..|done].
    + unfold activate_proc, await, findToken, findOne in Hst. hstep.
      rewrite Htk, activation_token_kept in Hst. simplify_eq. close_inv.
    + unfold activate_found, await, findByOid in Hst. hstep. rewrite Huw in Hst. simplify_eq. close_inv.
    + unfold activate_loaded, await, save in Hst. hstep. rewrite Huw' in Hst. simplify_eq. close_inv.
      simpl. rewrite <- Hid, lookup_insert_eq. f_equal. apply activate_delta.
    + unfold activate_saved, await, consumeToken, deleteById in Hst. hstep. simplify_eq. close_inv.
      simpl. by rewrite Htk.
  - destruct Hr as [| |b| |r ?]; unfold proc_step in Hst; [..|done].
    + unfold reset_proc, await, findToken, findOne in Hst. hstep.
      rewrite Htk, reset_token_kept in Hst. simplify_eq. close_inv.
    + unfold reset_found, await, findByOid in Hst. hstep. rewrite Hur, Huw in Hst. simplify_eq. close_inv.
    + unfold reset_loaded, await, save in Hst. hstep. rewrite Huw' in Hst. simplify_eq. close_inv.
      simpl. rewrite <- Hid, lookup_insert_eq. f_equal. apply reset_delta.
    + unfold reset_saved, await, consumeToken, deleteById in Hst. hstep. simplify_eq. close_inv.
      simpl. rewrite Htk. destruct ca; simpl; [apply delete_delete|done].
Qed.

Lemma merge_rtc c c' : rtc sched_step c c' -> merge_inv c -> merge_inv c'.
Proof. induction 1; eauto using merge_step. Qed.

Lemma merge_inv_start : merge_inv (w0, [activate_proc ta; reset_proc tr pw]).
Proof.
  exists (activate_proc ta), (reset_proc tr pw), false, false, false, false.
  split_and!; [done|constructor|constructor| |done]. simpl. rewrite Hu. f_equal. by destruct u.
Qed.

(** C34: an activation and a password reset of the same user, each with
    its own token, overlap in any of the ways the scheduler allows: some
    schedule answers both, and in every schedule that does both answer 200
    and the user ends active with the new password.  [save] sends only the
    paths the handler assigned, so neither request undoes the other's
    write, even when both loaded the user before either saved.
    [user_at true true] is [u] with status [Active] and the new
    password's hash. *)
Theorem activate_reset_merge :
  (exists w' r1 r2, rtc sched_step (w0, [activate_proc ta; reset_proc tr pw]) (w', [PDone r1; PDone r2])) /\
  forall w' r1 r2,
    rtc sched_step (w0, [activate_proc ta; reset_proc tr pw]) (w', [PDone r1; PDone r2]) ->
    status r1 = 200 /\ status r2 = 200 /\
    users w' !! t_userId tda = Some (user_at true true).
Proof.
  split.
  - destruct (sn_reaches_done (w0, [activate_proc ta; reset_proc tr pw])) as (w' & rs & Hrun).
    { apply (bounded_sn _ [4%nat; 4%nat]). repeat constructor;
        auto using activate_proc_bounded, reset_proc_bounded. }
    pose proof (rtc_sched_length _ _ Hrun) as Hl. simpl in Hl.
    destruct rs as [|r1 [|r2 []]]; simplify_eq/=. eauto.
  - intros w' r1 r2 Hrun.
    destruct (merge_rtc _ _ Hrun merge_inv_start) as (pa & pr & sa & ca & sr & cr & Hps & Ha & Hr & Huw & _).
    simpl in Hps, Huw. injection Hps as Hpa Hpr.
    destruct Ha as [| | | |r1' ?]; [discriminate..|]. destruct Hr as [| | | |r2' ?]; [discriminate..|].
    simplify_eq. auto.
Qed.

End Merge.

(** ** Instances *)

#[local] Existing Instance demo_hasher.

Lemma rename_delete_race_witness :
  let f := mkFolder 1 7 "docs" None "" 0 in
  (cast_oid (oid_hex 1) = Some 1 /\ folders demo_w1 !! 1 = Some f /\ f_user f = 7 /\ f_id f = 1 /\
   js_or (Some "notes") (f_name f) <> "") /\
  (exists w', rtc sched_step
       (demo_w1, [delete_folder_proc 7 (oid_hex 1); rename_folder_proc 7 (oid_hex 1) (Some "notes")])
       (w', [PDone (reply 200 (BMessage "Folder removed"));
             PDone (server_error (doc_not_found "Folder" 1))])
     /\ folders w' !! 1 = None) /\
  snd (handle (renameFolder 7 (oid_hex 1) (Some "notes"))
         (fst (handle (deleteFolder 7 (oid_hex 1)) demo_w1)))
    = reply 404 (BMessage "Folder not found").
Proof.
  cbv zeta. assert (folders demo_w1 !! 1 = Some (mkFolder 1 7 "docs" None "" 0)) as Hf
    by (vm_compute; reflexivity).
  split; [split_and!; [vm_compute; reflexivity|exact Hf|reflexivity|reflexivity|discriminate]|].
  exact (rename_delete_race 7 (oid_hex 1) (Some "notes") 1 _ demo_w1
           ltac:(vm_compute; reflexivity) Hf eq_refl eq_refl ltac:(discriminate)).
Defined.

Lemma create_delete_race_witness :
  let parent := mkFolder 1 7 "docs" None "" 0 in
  (cast_oid (oid_hex 1) = Some 1 /\ folders demo_w1 !! 1 = Some parent /\ f_user parent = 7 /\
   "notes" <> "" /\ 1 < next_id demo_w1) /\
  let f := mkFolder (next_id demo_w1) 7 "notes" (Some 1) (child_path parent) (now demo_w1) in
  (exists w', rtc sched_step
       (demo_w1, [delete_folder_proc 7 (oid_hex 1); create_folder_proc 7 (Some "notes") (Some (oid_hex 1))])
       (w', [PDone (reply 200 (BMessage "Folder removed")); PDone (reply 201 (BFolder f))])
     /\ folders w' !! next_id demo_w1 = Some f /\ folders w' !! 1 = None) /\
  snd (handle (createFolder 7 (Some "notes") (Some (oid_hex 1)))
         (fst (handle (deleteFolder 7 (oid_hex 1)) demo_w1)))
    = reply 404 (BMessage "Parent folder not found").
Proof.
  cbv zeta. assert (folders demo_w1 !! 1 = Some (mkFolder 1 7 "docs" None "" 0)) as Hf
    by (vm_compute; reflexivity).
  assert (1 < next_id demo_w1) as Hlt by (vm_compute; reflexivity).
  split; [split_and!; [vm_compute; reflexivity|exact Hf|reflexivity|discriminate|exact Hlt]|].
  exact (create_delete_race 7 "notes" (oid_hex 1) 1 _ demo_w1
           ltac:(vm_compute; reflexivity) Hf eq_refl ltac:(discriminate) Hlt).
Defined.

Lemma activate_reset_merge_witness :
  let tda := mkToken 2 1 "s3cr3t" Activation 0 in
  let tdr := mkToken 3 1 "r3s3t" Reset 0 in
  let u := mkUser 1 (Some "Ada") (Some "L") "ada@x.io" (hash_password "pw") Inactive 0 in
  (first_match (token_query "s3cr3t" Activation) (tokens demo_reset_pending) = Some tda /\
   first_match (token_query "r3s3t" Reset) (tokens demo_reset_pending) = Some tdr /\
   users demo_reset_pending !! t_userId tda = Some u) /\
  (exists w' r1 r2, rtc sched_step (demo_reset_pending, [activate_proc "s3cr3t"; reset_proc "r3s3t" "new"])
                      (w', [PDone r1; PDone r2])) /\
  forall w' r1 r2,
    rtc sched_step (demo_reset_pending, [activate_proc "s3cr3t"; reset_proc "r3s3t" "new"])
      (w', [PDone r1; PDone r2]) ->
    status r1 = 200 /\ status r2 = 200 /\
    users w' !! t_userId tda
      = Some {| {| u with u_status := Active |} with u_password := hash_password "new" |}.
Proof.
  cbv zeta.
  assert (first_match (token_query "s3cr3t" Activation) (tokens demo_reset_pending)
          = Some (mkToken 2 1 "s3cr3t" Activation 0)) as Hfa by (vm_compute; reflexivity).
  assert (first_match (token_query "r3s3t" Reset) (tokens demo_reset_pending)
          = Some (mkToken 3 1 "r3s3t" Reset 0)) as Hfr by (vm_compute; reflexivity).
  assert (users demo_reset_pending !! 1
          = Some (mkUser 1 (Some "Ada") (Some "L") "ada@x.io" (hash_password "pw") Inactive 0)) as Hu
    by (vm_compute; reflexivity).
  split; [split_and!; assumption|].
  exact (activate_reset_merge "s3cr3t" "r3s3t" "new" _ _ _ demo_reset_pending Hfa Hfr
           ltac:(vm_compute; reflexivity) ltac:(vm_compute; reflexivity) eq_refl Hu eq_refl).
Defined.
