(* ===== verification/Requests.v ===== *)
(** * Requests: every request of the model in flight

    Interleave.v and Concurrency.v give the account handlers that write
    and the folder handlers that write as processes; this file adds the
    others, so that every request of [System] has a process
    ([request_proc]); Deployment.v runs them all together.

    The handlers of [src/src/controllers/fileController.js], one atomic
    step per await:
    [deleteFile] awaits [File.findById], [s3.send(DeleteObjectCommand)]
    and [File.deleteOne]; [renameFile] awaits [File.findById] and
    [file.save()]; [getDownloadUrl] awaits [File.findById] and
    [getSignedUrl]; [downloadFile] awaits [File.findById] and
    [s3.send(GetObjectCommand)]; an upload is multer's S3 put followed by
    [File.create]; [getFiles] awaits one [File.find].

    Interleaved, a delete that runs between the lookup and the signing of
    [getDownloadUrl] leaves the client a signed URL, answered 200, for an
    object the delete has removed; a delete that runs between the lookup
    and the [GetObjectCommand] of [downloadFile] turns the download into
    the inner [catch]'s 404. *)

From stdpp Require Import base gmap strings list relations.
From S2P Require Import Prelude ObjectId Store Folders Tokens Auth Files System Interleave Concurrency.
Import TokenStore AuthController FolderController FileController Processes FolderProcs Server.

Open Scope N_scope.
Open Scope handler_scope.

Module FileProcs.

(** [deleteFile]: the lookup with its guard, the S3 delete, the record
    delete. *)
Definition delete_file_proc (uid : oid) (id : string) (s3 : s3_outcome) : proc :=
  await (owned_file uid id) (fun f =>
  await (s3_delete (fl_s3Key f) s3) (fun _ =>
  await (deleteOne (D := file) id) (fun _ =>
  PDone (reply 200 (BMessage "File removed"))))).

(** [renameFile]: the lookup, then [file.save()] of the renamed document. *)
Definition rename_file_proc (uid : oid) (id : string) (name : jsstr) : proc :=
  await (owned_file uid id) (fun f =>
  let f' := {| f with fl_name := js_or name (fl_name f) |} in
  await (save_file f f') (fun _ =>
  PDone (reply 200 (BFile f')))).

(** [getDownloadUrl]: the lookup, then the signing. *)
Definition download_url_proc (uid : oid) (id : string) (s3 : s3_outcome) : proc :=
  await (owned_file uid id) (fun f =>
  await (sign_url (fl_s3Key f) s3) (fun url =>
  PDone (reply 200 (BUrl url)))).

(** [downloadFile]: the lookup, then [GetObjectCommand] on the bucket as
    it is when that step runs. *)
Definition download_proc (uid : oid) (id : string) (s3 : s3_outcome) : proc :=
  await (owned_file uid id) (fun f =>
  await (get_object f s3) PDone).

(** [POST /upload]: [upload.single('file')] puts the object, then the
    handler's one await, [File.create]. *)
Definition upload_proc (uid : oid) (file : option (upload * string)) (folderId : jsstr) : proc :=
  match file with
  | Some (up, content) =>
      await (modify (s3_upload up content)) (fun _ =>
      await (uploadFileSuccess uid (Some up) folderId) PDone)
  | None => await (uploadFileSuccess uid None folderId) PDone
  end.

(** [getFiles]: one [File.find]. *)
Definition get_files_proc (uid : oid) (folder : jsstr) : proc :=
  await (getFiles uid folder) PDone.

(** The process of a request of the file router. *)
Definition file_proc (r : file_request) : proc :=
  match r with
  | RGetFiles uid folder => get_files_proc uid folder
  | RUpload uid file folderId => upload_proc uid file folderId
  | RDeleteFile uid id s3 => delete_file_proc uid id s3
  | RRenameFile uid id name => rename_file_proc uid id name
  | RDownload uid id s3 => download_proc uid id s3
  | RDownloadUrl uid id s3 => download_url_proc uid id s3
  end.

End FileProcs.

Import FileProcs.

Module OtherProcs.
Section OtherProcs.
Context `{PasswordHasher} (CLIENT_URL : jsstr).

(** [authUser]: [User.findOne], then [user.matchPassword], which compares
    with the loaded document and reads nothing more: one step. *)
Definition login_proc (email password : string) : proc := await (authUser email password) PDone.

(** [getUserProfile]: one [User.findById]. *)
Definition profile_proc (uid : oid) : proc := await (getUserProfile uid) PDone.

(** [getFolders]: one [Folder.find]. *)
Definition get_folders_proc (uid : oid) (parent : jsstr) : proc := await (getFolders uid parent) PDone.

(** [forgotPassword]: [User.findOne], then [Token.create], after which
    the mail is handed over without waiting and the answer sent. *)
Definition forgot_proc (email secret : string) : proc :=
  await (findUserByEmail email) (fun user =>
  match user with
  | None => PDone (reply 404 (BMessage "User not found"))
  | Some u =>
      await (_ <- issueToken (u_id u) secret Reset ;;
             let resetUrl := client_url CLIENT_URL +:+ "/reset-password?token=" +:+ secret in
             sendEmail (u_email u) "Password Reset - Cloud Canvas"
               ("You requested a password reset. Click here: " +:+ resetUrl)) (fun _ =>
      PDone (reply 200 (BSuccess "Password reset email sent. Please check your inbox.")))
  end).

(** The process of every request: [GET /] answers at once. *)
Definition request_proc (r : request) : proc :=
  match r with
  | RRoot => PDone (reply 200 (BText "API is running..."))
  | RAuth a =>
      match a with
      | RRegister fn ln email pw secret => register_proc CLIENT_URL fn ln email pw secret
      | RLogin email pw => login_proc email pw
      | RActivate token => activate_proc token
      | RProfile uid => profile_proc uid
      | RForgot email secret => forgot_proc email secret
      | RReset token pw => reset_proc token pw
      end
  | RFolders f =>
      match f with
      | RCreateFolder uid name parent => create_folder_proc uid name parent
      | RGetFolders uid parent => get_folders_proc uid parent
      | RDeleteFolder uid id => delete_folder_proc uid id
      | RRenameFolder uid id name => rename_folder_proc uid id name
      end
  | RFiles f => file_proc f
  end.

End OtherProcs.
End OtherProcs.

Import OtherProcs.

(** ** Races *)

Section Races.
Variables (uid : oid) (id : string) (k : oid) (f : file) (w : world).
Hypothesis Hk : cast_oid id = Some k.
Hypothesis Hf : files w !! k = Some f.
Hypothesis Hu : fl_user f = uid.

(** The world [deleteFile] leaves, on S3's success. *)
Lemma delete_file_rest :
  run_alone 2 (await (s3_delete (fl_s3Key f) S3Ok) (fun _ =>
                 await (deleteOne (D := file) id) (fun _ => PDone (reply 200 (BMessage "File removed"))))) w
  = Some ({| {| w with bucket := delete (fl_s3Key f) (bucket w) |} with files := delete k (files w) |},
          reply 200 (BMessage "File removed")).
Proof. unfold await, s3_delete, deleteOne. rewrite Hk. hstep. reflexivity. Qed.

Lemma deleteFile_world :
  fst (handle (deleteFile uid id S3Ok) w)
  = {| {| w with bucket := delete (fl_s3Key f) (bucket w) |} with files := delete k (files w) |}.
Proof.
  unfold handle, deleteFile. hstep. rewrite (owned_file_mine uid id k w Hk f Hf Hu). hstep.
  unfold deleteOne. rewrite Hk. by hstep.
Qed.

(** A delete between the lookup and the [GetObjectCommand] of a download
    turns the download into the inner [catch]'s 404. *)
Lemma delete_download_race :
  exists w', rtc sched_step (w, [delete_file_proc uid id S3Ok; download_proc uid id S3Ok])
    (w', [PDone (reply 200 (BMessage "File removed")); PDone (reply 404 (BMessage "File not found on server"))]).
Proof.
  eexists. eapply (read_race _ _ _ _ w f f 2 1); [by apply (owned_file_mine _ _ k)..| |].
  - exact delete_file_rest.
  - unfold await, get_object. hstep. by rewrite lookup_delete_eq.
Qed.

End Races.

Section UrlRace.
Variables (uid : oid) (id : string) (k : oid) (f : file) (w : world).

(** C33: a delete of the file that runs between the [File.findById] and
    the [getSignedUrl] of a [getDownloadUrl] lets the latter answer 200
    with a signed URL for the file's key after the delete has removed
    both the object and the record; run one after the other, the delete
    and then the request for a URL answer 200 and 404.  The spec asks
    each operation to run as a single unit against consistent reads, and
    a download handle to retrieve its object.  In Node the window is the
    time from MongoDB running the lookup to the handler resuming with its
    result, plus what [getSignedUrl] awaits (usually no I/O once the
    credentials are resolved): narrow, but not closed, when the event
    loop is busy. *)
Theorem delete_url_race :
  cast_oid id = Some k -> files w !! k = Some f -> fl_user f = uid ->
  (exists w', rtc sched_step (w, [delete_file_proc uid id S3Ok; download_url_proc uid id S3Ok])
       (w', [PDone (reply 200 (BMessage "File removed"));
             PDone (reply 200 (BUrl (mkPresigned (fl_s3Key f) url_ttl)))])
     /\ files w' !! k = None /\ bucket w' !! fl_s3Key f = None) /\
  snd (handle (getDownloadUrl uid id S3Ok) (fst (handle (deleteFile uid id S3Ok) w)))
    = reply 404 (BMessage "File not found").
Proof.
  intros Hk Hf Hu. split.
  - eexists. split_and!.
    + eapply (read_race _ _ _ _ w f f 2 1); [by apply (owned_file_mine _ _ k)..| |].
      * exact (delete_file_rest id k f w Hk).
      * unfold await, sign_url. hstep. reflexivity.
    + apply lookup_delete_eq.
    + apply lookup_delete_eq.
  - rewrite (deleteFile_world uid id k f w Hk Hf Hu). unfold handle, getDownloadUrl, run_handler, bind.
    rewrite (owned_file_missing uid id k _ Hk) by apply lookup_delete_eq. reflexivity.
Qed.

End UrlRace.

(** ** Witnesses *)

(** User 7's [report.pdf], file 4 of the sample store. *)
Lemma delete_url_race_witness :
  let f := mkFile 4 7 "report.pdf" "u7/report.pdf" (Some 1) 2048 "application/pdf" 0 in
  (cast_oid (oid_hex 4) = Some 4 /\ files demo_files !! 4 = Some f /\ fl_user f = 7) /\
  ((exists w', rtc sched_step (demo_files, [delete_file_proc 7 (oid_hex 4) S3Ok; download_url_proc 7 (oid_hex 4) S3Ok])
       (w', [PDone (reply 200 (BMessage "File removed"));
             PDone (reply 200 (BUrl (mkPresigned (fl_s3Key f) url_ttl)))])
     /\ files w' !! 4 = None /\ bucket w' !! fl_s3Key f = None) /\
   snd (handle (getDownloadUrl 7 (oid_hex 4) S3Ok) (fst (handle (deleteFile 7 (oid_hex 4) S3Ok) demo_files)))
     = reply 404 (BMessage "File not found")).
Proof.
  intros f. assert (Hk : cast_oid (oid_hex 4) = Some 4) by reflexivity.
  assert (Hf : files demo_files !! 4 = Some f) by reflexivity.
  assert (Hu : fl_user f = 7) by reflexivity.
  split; [split_and!; assumption|]. exact (delete_url_race 7 (oid_hex 4) 4 f demo_files Hk Hf Hu).
Defined.
