(* ===== verification/Deployment.v ===== *)
(** * Deployment: the running server with requests in flight

    [server.js] ends with [app.listen]: from then on requests arrive at any
    time, each starts its handler, and Node runs whichever handler's
    awaited database or S3 call has completed.  [Deploy.sys_step] is that
    server: the store with the list of requests in flight, where a request
    arrives as the process of its handler ([Requests.request_proc]), any
    request in flight runs its next atomic step ([Interleave.sched_step]),
    and the clock, the TTL monitor and the mail transport act between any
    two steps.

    The invariant of the sequential runs of [System] loses its third part
    here: two registrations of one email that overlap store two accounts
    ([Interleave.register_race]).  This file proves that the other two
    parts hold in every interleaving: every document sits under its own id
    below the allocator, and the folder tree is well formed, so the stored
    path of every folder lists its ancestors; and that the history of the
    accounts is the one of [System.account_history]: no user is deleted,
    no email changes, no active account becomes inactive.

    The proof is a rule induction on [sys_step] over [cfg_ok]: the store
    is [store_ok] and every request in flight is [safe] from the world in
    which it took its last step.  [safe w0 p] says that every next step of
    [p], run on any [store_ok] world that [grows] from [w0], keeps
    [store_ok], [grows], and leaves a [safe] rest; [keeps] is the same for
    one awaited call, with a bind rule, so the handlers' proofs follow
    their code. *)

From stdpp Require Import base gmap strings list relations.
From S2P Require Import Prelude ObjectId Store Folders Tokens Auth Files System Interleave Concurrency Requests.
Import TokenStore AuthController FolderController FileController Processes FolderProcs FileProcs OtherProcs Server.

Open Scope N_scope.
Open Scope handler_scope.

Module Deploy.
Section Deploy.
Context `{PasswordHasher} (CLIENT_URL : jsstr).

(** [app.listen]: a request arrives and starts its handler; a request in
    flight takes its next step; the clock advances; the TTL monitor
    deletes the expired tokens; the transport takes the oldest message. *)
Inductive sys_step : world * list proc -> world * list proc -> Prop :=
| sys_arrive r w ps : sys_step (w, ps) (w, app ps [request_proc CLIENT_URL r])
| sys_run c c' : sched_step c c' -> sys_step c c'
| sys_tick dt w ps : sys_step (w, ps) (tick dt w, ps)
| sys_reap w ps : sys_step (w, ps) (ttl_reap w, ps)
| sys_mail w m rest ps : outbox w = m :: rest -> sys_step (w, ps) ({| w with outbox := rest |}, ps).

End Deploy.
End Deploy.

Import Deploy.

(** ** The invariant and the relation between an earlier and a later world *)

(** Every document under its own id below the allocator, and a
    well-formed folder tree. *)
Definition store_ok (w : world) : Prop := ids_wf w /\ folders_wf w.

(** A folder that is still stored keeps its owner, parent and path, and a
    folder stored later under an id that was free has an id the allocator
    had not handed out yet. *)
Definition folders_stable (n : oid) (m m' : gmap oid folder) : Prop :=
  forall k f', m' !! k = Some f' ->
    match m !! k with
    | Some f => f_user f' = f_user f /\ f_parentFolder f' = f_parentFolder f /\ f_path f' = f_path f
    | None => n <= k
    end.

(** What a later world keeps of an earlier one. *)
Definition grows (w w' : world) : Prop :=
  next_id w <= next_id w' /\ users_grow_map (users w) (users w') /\
  folders_stable (next_id w) (folders w) (folders w').

(** A request in flight whose every next step, run on any [store_ok]
    world that grows from [w0], keeps the invariant and leaves a safe
    rest. *)
Inductive safe : world -> proc -> Prop :=
| safe_done w0 r : safe w0 (PDone r)
| safe_step w0 act :
    (forall w, store_ok w -> grows w0 w ->
       store_ok (act w).1 /\ grows w (act w).1 /\ safe (act w).1 (act w).2) ->
    safe w0 (PStep act).

(** An awaited call that keeps the invariant, on every world. *)
Definition keeps {A} (m : Hnd A) : Prop :=
  forall w, store_ok w -> store_ok (m w).1 /\ grows w (m w).1.

(** The server's state: the store is [store_ok] and every request in
    flight is safe from a [store_ok] world the store grew from. *)
Definition cfg_ok (c : world * list proc) : Prop :=
  store_ok c.1 /\ Forall (fun p => exists w0, store_ok w0 /\ grows w0 c.1 /\ safe w0 p) c.2.

(** ** The relation [grows] *)

Section Grows.

Lemma folders_stable_refl n m : folders_stable n m m.
Proof. intros k f Hf. rewrite Hf. done. Qed.

Lemma grows_refl w : grows w w.
Proof. split_and!; [lia|apply users_grow_refl|apply folders_stable_refl]. Qed.

Lemma store_ok_folder_lt w k f : store_ok w -> folders w !! k = Some f -> k < next_id w.
Proof. intros [(_ & _ & Hkf & _) _] Hf. exact (proj2 (keyed_map_lookup _ _ _ _ _ Hkf Hf)). Qed.

Lemma grows_trans w0 w1 w2 : store_ok w0 -> grows w0 w1 -> grows w1 w2 -> grows w0 w2.
Proof.
  intros Hok (Hn01 & Hu01 & Hs01) (Hn12 & Hu12 & Hs12). split_and!; [lia|by eapply users_grow_trans|].
  intros k f2 H2. specialize (Hs12 k f2 H2).
  destruct (folders w1 !! k) as [f1|] eqn:H1.
  - specialize (Hs01 k f1 H1). destruct (folders w0 !! k); [|lia].
    destruct Hs01 as (? & ? & ?), Hs12 as (? & ? & ?). split_and!; congruence.
  - destruct (folders w0 !! k) as [f0|] eqn:H0; [|lia].
    pose proof (store_ok_folder_lt w0 k f0 Hok H0). lia.
Qed.

(** Worlds that agree on the collections and the allocator. *)
Lemma store_ok_ext w w' :
  users w' = users w -> tokens w' = tokens w -> folders w' = folders w -> files w' = files w ->
  next_id w' = next_id w -> store_ok w -> store_ok w'.
Proof.
  destruct w, w'; simpl. intros -> -> -> -> ->. unfold store_ok, ids_wf, keyed, folders_wf, folder_ok.
  simpl. done.
Qed.

Lemma grows_ext w w' :
  users w' = users w -> folders w' = folders w -> next_id w <= next_id w' -> grows w w'.
Proof. intros Hu Hf Hn. split_and!; [done|rewrite Hu; apply users_grow_refl|rewrite Hf; apply folders_stable_refl]. Qed.

End Grows.

Create HintDb deploy.
#[export] Hint Resolve grows_refl : deploy.

(** ** The bind rule *)

Section Keeps.

Lemma keeps_read {A} (m : Hnd A) : (forall w, (m w).1 = w) -> keeps m.
Proof. intros Hm w Hw. rewrite Hm. auto with deploy. Qed.

Lemma keeps_ret {A} (a : A) : keeps (ret a).
Proof. by apply keeps_read. Qed.

Lemma keeps_stop {A} r : keeps (stop (A := A) r).
Proof. by apply keeps_read. Qed.

Lemma keeps_raise {A} e : keeps (raise (A := A) e).
Proof. by apply keeps_read. Qed.

Lemma keeps_gets {A} (f : world -> A) : keeps (gets f).
Proof. by apply keeps_read. Qed.

Lemma keeps_bind {A B} (m : Hnd A) (k : A -> Hnd B) :
  keeps m -> (forall a, keeps (k a)) -> keeps (bind m k).
Proof.
  intros Hm Hk w Hw. unfold bind. destruct (Hm w Hw) as [Hw1 Hg1].
  destruct (m w) as [w1 [a|r|e]]; simpl in *; [|done..].
  destruct (Hk a w1 Hw1) as [Hw2 Hg2]. split; [done|]. by apply (grows_trans _ w1).
Qed.

(** A call that changes only the bucket, the clock or the outbox. *)
Lemma keeps_frame {A} (m : Hnd A) :
  (forall w, users (m w).1 = users w /\ tokens (m w).1 = tokens w /\ folders (m w).1 = folders w /\
             files (m w).1 = files w /\ next_id (m w).1 = next_id w) -> keeps m.
Proof.
  intros Hm w Hw. destruct (Hm w) as (Hu & Ht & Hf & Hl & Hn). split.
  - by apply (store_ok_ext w).
  - apply grows_ext; [done|done|lia].
Qed.

End Keeps.

#[export] Hint Resolve keeps_ret keeps_stop keeps_raise keeps_gets : deploy.

(** ** The calls that write *)

(** Split [store_ok] of the world a call starts from. *)
Ltac keeps_intro :=
  let w := fresh "w" in let Hku := fresh "Hku" in let Hkt := fresh "Hkt" in
  let Hkf := fresh "Hkf" in let Hkl := fresh "Hkl" in let Hwf := fresh "Hwf" in
  intros w [(Hku & Hkt & Hkf & Hkl) Hwf]; unfold store_ok, ids_wf, keyed, grows in *; simpl in *.

(** Close the goals of a call that leaves the folders as they were. *)
Ltac keeps_close :=
  split_and?; simpl; try solve_keyed; try lia;
  try match goal with Hf : folders_wf ?w |- folders_wf _ =>
        apply (folders_wf_frame w); [reflexivity|simpl; lia|exact Hf] end;
  try apply users_grow_refl; try apply folders_stable_refl.

Section Primitives.

Lemma pick_eq {A} `{EqDecision A} (l m s : A) : l = m -> pick l m s = s.
Proof. intros ->. unfold pick. by case_decide. Qed.

Lemma pick_cases {A} `{EqDecision A} (l m s : A) : pick l m s = s \/ pick l m s = m.
Proof. unfold pick. case_decide; auto. Qed.

(** A stored folder replaced by one with the same id, owner, parent and
    path, and a name. *)
Lemma folders_wf_replace w k f g :
  folders_wf w -> folders w !! k = Some f -> f_id g = f_id f -> f_user g = f_user f ->
  f_parentFolder g = f_parentFolder f -> f_path g = f_path f -> f_name g <> "" ->
  folders_wf {| w with folders := <[k := g]> (folders w) |}.
Proof.
  intros Hwf Hf Hid Hu Hp Hpath Hn. unfold folders_wf. simpl.
  apply map_Forall_insert_2.
  - destruct (Hwf k f Hf) as (Hid' & Hlt & _ & Hc). split_and!; simpl; [congruence|done|done|].
    rewrite Hp. destruct (f_parentFolder f) as [p|]; [|congruence].
    destruct Hc as [Hpk Hpar]. split; [done|]. rewrite lookup_insert_ne by lia. by rewrite Hu, Hpath.
  - intros j h Hh. destruct (Hwf j h Hh) as (Hid' & Hlt & Hn' & Hc). split_and!; simpl; [done..|].
    destruct (f_parentFolder h) as [p|]; [|done].
    destruct Hc as [Hpj Hpar]. split; [done|].
    rewrite lookup_insert. case_decide as Hkp; [subst p; rewrite Hf in Hpar; by rewrite Hu, Hpath|done].
Qed.

Lemma keeps_create_user (mk : oid -> N -> user) :
  (forall k t, u_id (mk k t) = k) -> keeps (create mk).
Proof.
  intros Hmk. keeps_intro.
  split_and!; try keeps_close; try (apply keyed_map_insert; [solve_keyed|apply Hmk|lia]).
  apply users_grow_insert_new, (keyed_map_fresh _ _ _ Hku).
Qed.

Lemma keeps_create_token (mk : oid -> N -> token) :
  (forall k t, t_id (mk k t) = k) -> keeps (create mk).
Proof.
  intros Hmk. keeps_intro.
  split_and!; try keeps_close; try (apply keyed_map_insert; [solve_keyed|apply Hmk|lia]).
Qed.

Lemma keeps_create_file (mk : oid -> N -> file) :
  (forall k t, fl_id (mk k t) = k) -> keeps (create mk).
Proof.
  intros Hmk. keeps_intro.
  split_and!; try keeps_close; try (apply keyed_map_insert; [solve_keyed|apply Hmk|lia]).
Qed.

Lemma keeps_consumeToken t : keeps (consumeToken t).
Proof. keeps_intro. unfold consumeToken, deleteById, modify. simpl. keeps_close. Qed.

Lemma keeps_deleteOne_file s : keeps (deleteOne (D := file) s).
Proof.
  keeps_intro. unfold deleteOne, deleteById, modify, raise. destruct (cast_oid s); simpl; keeps_close.
Qed.

Lemma keeps_deleteOne_folder s : keeps (deleteOne (D := folder) s).
Proof.
  keeps_intro. unfold deleteOne, deleteById, modify, raise. destruct (cast_oid s) as [k|]; simpl; [|keeps_close].
  split_and!; [keeps_close..|by apply folders_wf_delete|lia|apply users_grow_refl|].
  intros j f Hj. rewrite lookup_delete_Some in Hj. destruct Hj as [_ Hj]. by rewrite Hj.
Qed.

Lemma user_delta_fields l d s :
  u_id d = u_id l -> u_email d = u_email l ->
  u_id (user_delta l d s) = u_id s /\ u_email (user_delta l d s) = u_email s.
Proof. intros Hid He. unfold user_delta. simpl. by rewrite !pick_eq. Qed.

(** [user.save()] of a loaded user changed in its password or made
    active: the stored email stays and an active account stays active. *)
Lemma keeps_save_user (l d : user) :
  u_id d = u_id l -> u_email d = u_email l -> (u_status d = u_status l \/ u_status d = Active) ->
  keeps (save l d).
Proof.
  intros Hid He Hs. keeps_intro. unfold save. simpl.
  destruct (users w !! u_id l) as [s|] eqn:Hl; simpl; [|keeps_close].
  destruct (keyed_map_lookup _ _ _ _ _ Hku Hl) as [Hsid Hlt].
  destruct (user_delta_fields l d s Hid He) as [Hid' He'].
  split_and!; try keeps_close.
  - apply keyed_map_insert; [done|congruence|done].
  - apply (users_grow_insert_same _ _ s); [done|done|]. intros Ha. unfold user_delta. simpl.
    destruct Hs as [Hs|Hs]; [by rewrite pick_eq|].
    by destruct (pick_cases (u_status l) (u_status d) (u_status s)) as [->| ->].
Qed.

(** [folder.save()] after the [required] check of the name, of a loaded
    folder changed in its name only. *)
Lemma keeps_save_folder (l d : folder) :
  f_id d = f_id l -> f_user d = f_user l -> f_parentFolder d = f_parentFolder l -> f_path d = f_path l ->
  keeps (save_folder l d).
Proof.
  intros Hid Hu Hp Hpath. keeps_intro. unfold save_folder, required.
  destruct (String.eqb_spec (f_name d) "") as [Hn|Hn]; hstep; [keeps_close|].
  unfold save. simpl. destruct (folders w !! f_id l) as [s|] eqn:Hl; simpl; [|keeps_close].
  destruct (keyed_map_lookup _ _ _ _ _ Hkf Hl) as [Hsid Hlt].
  destruct (Hwf _ s Hl) as (_ & _ & Hsn & _).
  set (g := folder_delta l d s).
  assert (f_id g = f_id s /\ f_user g = f_user s /\ f_parentFolder g = f_parentFolder s /\
          f_path g = f_path s) as (Hg1 & Hg2 & Hg3 & Hg4) by (subst g; unfold folder_delta; simpl; by rewrite !pick_eq).
  assert (f_name g <> "") as Hgn
    by (subst g; unfold folder_delta; simpl; by destruct (pick_cases (f_name l) (f_name d) (f_name s)) as [->| ->]).
  split_and!; try keeps_close.
  - apply keyed_map_insert; [done|congruence|done].
  - exact (folders_wf_replace w _ s g Hwf Hl Hg1 Hg2 Hg3 Hg4 Hgn).
  - intros k f' Hk. destruct (decide (k = f_id l)) as [->|Hne].
    + rewrite lookup_insert_eq in Hk. injection Hk as <-. rewrite Hl. auto.
    + rewrite lookup_insert_ne in Hk by congruence. by rewrite Hk.
Qed.

Lemma keeps_save_file (l d : file) : fl_id d = fl_id l -> keeps (save l d).
Proof.
  intros Hid. keeps_intro. unfold save. simpl.
  destruct (files w !! fl_id l) as [s|] eqn:Hl; simpl; [|keeps_close].
  destruct (keyed_map_lookup _ _ _ _ _ Hkl Hl) as [Hsid Hlt].
  split_and!; try keeps_close. apply keyed_map_insert; [done| |done].
  unfold file_delta. simpl. rewrite pick_eq; congruence.
Qed.

Lemma keeps_required model path v : keeps (required model path v).
Proof.
  apply keeps_read. intros w. unfold required, raise, ret.
  destruct v as [s|]; [destruct (String.eqb s "")|]; done.
Qed.

Lemma keeps_sendEmail to subject text : keeps (sendEmail to subject text).
Proof. apply keeps_frame. intros w. done. Qed.

Lemma keeps_s3_delete key o : keeps (s3_delete key o).
Proof. apply keeps_frame. intros w. by destruct o. Qed.

Lemma keeps_s3_upload up content : keeps (modify (s3_upload up content)).
Proof. apply keeps_frame. intros w. done. Qed.

End Primitives.

#[export] Hint Resolve keeps_consumeToken keeps_deleteOne_file keeps_deleteOne_folder keeps_required
  keeps_sendEmail keeps_s3_delete keeps_s3_upload : deploy.
#[export] Hint Extern 2 (keeps (create _)) =>
  first [apply keeps_create_user | apply keeps_create_token | apply keeps_create_file]; intros; reflexivity : deploy.
#[export] Hint Extern 2 (keeps (save _ _)) =>
  first [ apply keeps_save_user; [reflexivity|reflexivity|first [left; reflexivity|right; reflexivity]]
        | apply keeps_save_file; reflexivity ] : deploy.
#[export] Hint Extern 2 (keeps (save_folder _ _)) => apply keeps_save_folder; reflexivity : deploy.

(** ** The handlers' calls *)

Lemma keeps_get : keeps get.
Proof. by apply keeps_read. Qed.

#[export] Hint Resolve keeps_get : deploy.

(** A chain of awaited calls, read off the handler's code. *)
Ltac keeps_tac :=
  repeat first
    [ solve [auto with deploy]
    | apply keeps_bind; intros
    | progress unfold findById, findByOid, findOne, find, findToken, findUserByEmail, issueToken,
        owned_doc, owned_file, owned_folder, folder_ref, sign_url, get_object, save_file,
        authUser, getUserProfile, getFolders, getFiles, uploadFileSuccess, parent_path
    | case_match ].

(** [Folder.create] under the next id: the parent, when it is still
    stored, has the owner and the path the new folder was built from. *)
Lemma folders_wf_add_any w f :
  folders_wf w -> f_id f = next_id w -> f_name f <> "" ->
  match f_parentFolder f with
  | None => f_path f = ""
  | Some p => p < next_id w /\
      match folders w !! p with
      | Some pf => f_user pf = f_user f /\ f_path f = f_path pf +:+ "/" +:+ oid_hex p
      | None => True
      end
  end ->
  folders_wf (add_folder w f).
Proof.
  intros Hwf Hid Hn Hp. unfold folders_wf, add_folder. simpl.
  apply map_Forall_insert_2.
  - split_and!; simpl; [done|lia|done|].
    destruct (f_parentFolder f) as [p|]; [|done].
    destruct Hp as [Hplt Hpar]. split; [lia|]. by rewrite lookup_insert_ne by lia.
  - intros k g Hg. eapply folder_ok_mono; [apply Hwf, Hg|simpl; lia|].
    intros p Hp'. destruct (Hwf k g Hg) as (_ & Hk & _). simpl.
    apply lookup_insert_ne. lia.
Qed.

(** The [Folder.create] of [createFolder], run on a world [w2] that grew
    from the world [w] in which [parent_path] read the parent: the parent
    may have been renamed or deleted in between, never moved. *)
Lemma create_folder_step uid name pf path w w2 :
  store_ok w -> parent_path uid pf w = (w, Ok path) -> store_ok w2 -> grows w w2 ->
  store_ok (create_folder_doc uid name pf path w2).1 /\ grows w2 (create_folder_doc uid name pf path w2).1.
Proof.
  intros [(_ & _ & Hkf0 & _) _] Hpp Hw2 (Hn & Hu & Hs).
  apply parent_path_Ok in Hpp as [_ Hcase].
  destruct (create_folder_doc uid name pf path w2) as [w3 [f|r|e]] eqn:E; simpl;
    [|rewrite (create_folder_doc_state _ _ _ _ _ _ _ E) by done; auto with deploy..].
  apply create_folder_doc_Ok in E as (n & -> & Hne & -> & ->).
  destruct Hw2 as [(Hku & Hkt & Hkf & Hkl) Hwf].
  unfold store_ok, ids_wf, keyed, grows, add_folder in *; simpl in *.
  split_and!; try keeps_close.
  - apply folders_wf_add_any; simpl; [done|done|done|].
    destruct Hcase as [[Ht ->]|(p & k & parent & -> & Hk & Hpar & Hup & ->)]; [by rewrite Ht|].
    rewrite (cast_oid_truthy p k Hk). simpl. rewrite Hk.
    destruct (keyed_map_lookup _ _ _ _ _ Hkf0 Hpar) as [Hpid Hplt]. split; [lia|].
    specialize (Hs k). destruct (folders w2 !! k) as [pf'|] eqn:H2; [|done].
    specialize (Hs pf' eq_refl). rewrite Hpar in Hs. destruct Hs as (Hu' & _ & Hpath').
    rewrite child_path_concat, Hpid. split; congruence.
  - intros j g Hj. destruct (decide (j = next_id w2)) as [->|Hne'].
    + rewrite (keyed_map_fresh _ _ _ Hkf). lia.
    + rewrite lookup_insert_ne in Hj by congruence. by rewrite Hj.
Qed.

(** ** Every request in flight is safe *)

Section Processes.
Context `{PasswordHasher} (CU : jsstr).

(** One await: the call keeps the invariant on whatever world it runs,
    and the rest is safe whatever the call answered. *)
Lemma await_safe {A} w0 (m : Hnd A) rest :
  keeps m -> (forall a w, safe w (rest a)) -> safe w0 (await m rest).
Proof.
  intros Hm Hr. constructor. intros w Hw _. unfold await.
  destruct (Hm w Hw) as [Hw' Hg]. destruct (m w) as [w' [a|r|e]]; simpl in *; split_and!; try done; constructor.
Qed.

(** Walk a process await by await. *)
Ltac safe_tac :=
  repeat first
    [ apply safe_done
    | apply await_safe; [keeps_tac|intros ? ?]
    | progress unfold activate_proc, activate_found, activate_loaded, activate_saved, register_proc,
        reset_proc, reset_found, reset_loaded, reset_saved, login_proc, profile_proc, get_folders_proc,
        forgot_proc, delete_folder_proc, rename_folder_proc, file_proc, delete_file_proc,
        rename_file_proc, download_url_proc, download_proc, upload_proc, get_files_proc
    | case_match ].

Lemma create_folder_safe uid name pf w0 : safe w0 (create_folder_proc uid name pf).
Proof.
  unfold create_folder_proc, await. constructor. intros w Hw _.
  pose proof (parent_path_state uid pf w) as Hst.
  destruct (parent_path uid pf w) as [w1 [path|r|e]] eqn:E; simpl in Hst; subst w1; simpl;
    split_and!; auto with deploy; [|constructor..].
  constructor. intros w2 Hw2 Hg. destruct (create_folder_step uid name pf path w w2 Hw E Hw2 Hg) as [H3 G3].
  destruct (create_folder_doc uid name pf path w2) as [w3 [f|r|e]]; simpl in *; split_and!; try done; constructor.
Qed.

Lemma file_proc_safe r w0 : safe w0 (file_proc r).
Proof. destruct r; safe_tac. Qed.

Lemma request_safe r w0 : safe w0 (request_proc CU r).
Proof.
  destruct r as [|[]|[]|f]; cbn [request_proc]; try apply create_folder_safe; try apply file_proc_safe; safe_tac.
Qed.

End Processes.

(** ** The running server *)

Section Server.
Context `{PasswordHasher} (CU : jsstr).

Lemma cfg_ok_frame w w' ps : cfg_ok (w, ps) -> store_ok w' -> grows w w' -> cfg_ok (w', ps).
Proof.
  intros [Hw Hps] Hw' Hg. split; [done|]. simpl in *. eapply Forall_impl; [exact Hps|].
  intros p (w0 & H0 & G0 & S0). exists w0. split_and!; [done|by apply (grows_trans _ w)|done].
Qed.

Lemma store_ok_reap w : store_ok w -> store_ok (ttl_reap w).
Proof.
  intros [(Hku & Hkt & Hkf & Hkl) Hwf]. unfold store_ok, ids_wf, keyed, ttl_reap in *. simpl.
  split_and!; [done|by apply keyed_map_filter|done|done|].
  apply (folders_wf_frame w); [done|simpl; lia|done].
Qed.

(** One step of the server keeps [cfg_ok], and the store grows. *)
Lemma sys_step_ok c c' : cfg_ok c -> sys_step CU c c' -> cfg_ok c' /\ grows c.1 c'.1.
Proof.
  intros Hc Hs. destruct Hs as [r w ps|c c' Hs|dt w ps|w ps|w m rest ps Ho].
  - destruct Hc as [Hw Hps]. split; [split; [exact Hw|]|apply grows_refl]. simpl.
    apply Forall_app; split; [done|]. constructor; [|constructor].
    exists w. split_and!; [done|apply grows_refl|apply request_safe].
  - destruct Hs as [w ps i act Hi]. destruct Hc as [Hw Hps]. simpl in *.
    destruct (Forall_lookup_1 _ _ _ _ Hps Hi) as (w0 & H0 & G0 & S0).
    inversion S0 as [|w0' act' Hstep]; subst. destruct (Hstep w Hw G0) as (Hw' & Hg & Hsafe).
    split; [split; [exact Hw'|]|exact Hg]. simpl. apply Forall_insert.
    + eapply Forall_impl; [exact Hps|]. intros p (w1 & H1 & G1 & S1).
      exists w1. split_and!; [done|by apply (grows_trans _ w)|done].
    + exists (act w).1. split_and!; [done|apply grows_refl|done].
  - assert (store_ok (tick dt w)) by (apply (store_ok_ext w); [done..|apply Hc]).
    assert (grows w (tick dt w)) by (apply grows_ext; simpl; [done|done|lia]).
    split; [by apply (cfg_ok_frame w)|done].
  - assert (store_ok (ttl_reap w)) by (apply store_ok_reap, Hc).
    assert (grows w (ttl_reap w)) by (apply grows_ext; simpl; [done|done|lia]).
    split; [by apply (cfg_ok_frame w)|done].
  - assert (store_ok {| w with outbox := rest |}) by (apply (store_ok_ext w); [done..|apply Hc]).
    assert (grows w {| w with outbox := rest |}) by (apply grows_ext; simpl; [done|done|lia]).
    split; [by apply (cfg_ok_frame w)|done].
Qed.

(** Rule induction along a run. *)
Lemma sys_rtc_ok c c' : cfg_ok c -> rtc (sys_step CU) c c' -> cfg_ok c' /\ grows c.1 c'.1.
Proof.
  intros Hc Hrun. induction Hrun as [c|c1 c2 c3 Hs Hrest IH]; [split; [done|apply grows_refl]|].
  destruct (sys_step_ok c1 c2 Hc Hs) as [Hc2 G12]. destruct (IH Hc2) as [Hc3 G23].
  split; [done|]. apply (grows_trans _ c2.1); [apply Hc|done|done].
Qed.

Lemma cfg_ok_start t : cfg_ok (empty_world t, []).
Proof. destruct (empty_world_ok t) as (Hids & Hwf & _). split; [split; done|constructor]. Qed.

End Server.

(** ** What every interleaving keeps *)

Section Claims.
Context `{PasswordHasher} (CU : jsstr).

(** C3: with requests arriving at any time and their awaits interleaved in
    any order, and clock ticks, TTL passes and mail deliveries in between,
    every document stays under its own id below the allocator and the
    folder tree stays well formed: every folder's parent is an older id,
    and a parent that is still stored has the folder's owner and the
    folder's path minus its last segment.  This holds although a parent
    can be deleted or renamed between the [Folder.findById] and the
    [Folder.create] of [createFolder]. *)
Theorem deployment_store_ok t c :
  rtc (sys_step CU) (empty_world t, []) c -> ids_wf c.1 /\ folders_wf c.1.
Proof. intros Hrun. by destruct (sys_rtc_ok CU _ _ (cfg_ok_start t) Hrun) as [[[Hids Hwf] _] _]. Qed.

(** C11: the account state machine with requests in flight: along any run
    of the server from a reachable state, however the handlers' awaits
    interleave, a user is never deleted, never changes email, and once
    active is never inactive again, because [user.save()] sets only the
    paths its handler assigned. *)
Theorem deployment_account_history t c c' k u :
  rtc (sys_step CU) (empty_world t, []) c -> rtc (sys_step CU) c c' -> users c.1 !! k = Some u ->
  exists u', users c'.1 !! k = Some u' /\ u_email u' = u_email u /\
             (u_status u = Active -> u_status u' = Active).
Proof.
  intros H0 H1 Hu. destruct (sys_rtc_ok CU _ _ (cfg_ok_start t) H0) as [Hc _].
  destruct (sys_rtc_ok CU _ _ Hc H1) as [_ (_ & Hg & _)]. exact (Hg k u Hu).
Qed.

(** C12: the materialized path [createFolder] stores is the ancestor chain:
    in every state the server reaches, the parent chain of every folder
    ends ([k] steps suffice from the folder with id [k]), and when it
    ends at a root the stored path is ["/a1/a2/.../an"] for the ancestor
    ids [a1 .. an], root first. *)
Theorem folder_path_is_ancestor_chain t c k f :
  rtc (sys_step CU) (empty_world t, []) c -> folders c.1 !! k = Some f ->
  exists l b, ancestors (N.to_nat k) (folders c.1) (f_parentFolder f) = Some (l, b) /\
              (b = true -> f_path f = path_of l).
Proof.
  intros Hrun Hf. destruct (sys_rtc_ok CU _ _ (cfg_ok_start t) Hrun) as [[[_ Hwf] _] _].
  exact (wf_path_is_ancestor_chain c.1 k f Hwf Hf).
Qed.

End Claims.

(** ** A run of the server *)

Section Demo.
#[local] Existing Instance demo_hasher.

(** A request arrives; the request in flight at position [i] takes its
    next step. *)
Definition arrive (r : request) (c : world * list proc) : world * list proc :=
  (c.1, app c.2 [request_proc None r]).

Definition run_at (i : nat) (c : world * list proc) : world * list proc :=
  match c.2 !! i with
  | Some (PStep act) => ((act c.1).1, <[i := (act c.1).2]> c.2)
  | _ => c
  end.

Fixpoint run_n (n i : nat) (c : world * list proc) : world * list proc :=
  match n with O => c | S n => run_at i (run_n n i c) end.

Definition waiting (p : option proc) : bool :=
  match p with Some (PStep _) => true | _ => false end.

Lemma arrive_step r c : sys_step None c (arrive r c).
Proof. destruct c as [w ps]. apply sys_arrive. Qed.

Lemma run_at_step i c : waiting (c.2 !! i) = true -> sys_step None c (run_at i c).
Proof.
  destruct c as [w ps]. unfold run_at. simpl.
  destruct (ps !! i) as [[r|act]|] eqn:Hi; [done| |done]. intros _. by apply sys_run, sched_run.
Qed.

(** Ada registers and activates her account, then creates [docs] and,
    under it, [work]: user 1, her activation token 2, folders 3 and 4. *)
Definition demo_registered_c : world * list proc :=
  run_n 4 0
    (arrive (RAuth (RRegister (Some "Ada") (Some "L") "ada@x.io" "pw" "s3cr3t")) (empty_world 0, [])).

Definition demo_final_c : world * list proc :=
  let c := run_n 4 1 (arrive (RAuth (RActivate "s3cr3t")) demo_registered_c) in
  let c := run_n 2 2 (arrive (RFolders (RCreateFolder 1 (Some "docs") None)) c) in
  run_n 2 3 (arrive (RFolders (RCreateFolder 1 (Some "work") (Some (oid_hex 3)))) c).

(** Drive a run backwards from its last step. *)
Ltac demo_run :=
  repeat first
    [ progress cbn [run_n]
    | match goal with |- rtc _ ?c ?c => apply rtc_refl end
    | match goal with |- rtc _ _ (arrive _ _) => eapply rtc_r; [|apply arrive_step] end
    | match goal with |- rtc _ _ (run_at _ _) =>
        eapply rtc_r; [|apply run_at_step; vm_compute; reflexivity] end ].

Lemma demo_run_registered : rtc (sys_step None) (empty_world 0, []) demo_registered_c.
Proof. unfold demo_registered_c. demo_run. Qed.

Lemma demo_run_final : rtc (sys_step None) demo_registered_c demo_final_c.
Proof. unfold demo_final_c. cbv zeta. demo_run. Qed.

End Demo.

(** ** Witnesses *)

Section Witnesses.
#[local] Existing Instance demo_hasher.

Lemma deployment_store_ok_witness :
  rtc (sys_step None) (empty_world 0, []) demo_final_c /\
  (ids_wf demo_final_c.1 /\ folders_wf demo_final_c.1).
Proof.
  pose proof (rtc_trans _ _ _ demo_run_registered demo_run_final) as Hr.
  split; [exact Hr|exact (deployment_store_ok None 0 demo_final_c Hr)].
Defined.

Lemma deployment_account_history_witness :
  let u := mkUser 1 (Some "Ada") (Some "L") "ada@x.io" (hash_password "pw") Inactive 0 in
  (rtc (sys_step None) (empty_world 0, []) demo_registered_c /\
   rtc (sys_step None) demo_registered_c demo_final_c /\ users demo_registered_c.1 !! 1 = Some u) /\
  exists u', users demo_final_c.1 !! 1 = Some u' /\ u_email u' = u_email u /\
             (u_status u = Active -> u_status u' = Active).
Proof.
  cbv zeta.
  assert (users demo_registered_c.1 !! 1 = Some (mkUser 1 (Some "Ada") (Some "L") "ada@x.io" (hash_password "pw") Inactive 0))
    as Hu by (vm_compute; reflexivity).
  split; [split_and!; [exact demo_run_registered|exact demo_run_final|exact Hu]|].
  exact (deployment_account_history None 0 _ _ 1 _ demo_run_registered demo_run_final Hu).
Defined.

Lemma folder_path_is_ancestor_chain_witness :
  let f := mkFolder 4 1 "work" (Some 3) ("/" +:+ oid_hex 3) 0 in
  (rtc (sys_step None) (empty_world 0, []) demo_final_c /\ folders demo_final_c.1 !! 4 = Some f) /\
  exists l b, ancestors (N.to_nat 4) (folders demo_final_c.1) (f_parentFolder f) = Some (l, b) /\
              (b = true -> f_path f = path_of l).
Proof.
  cbv zeta. pose proof (rtc_trans _ _ _ demo_run_registered demo_run_final) as Hr.
  assert (folders demo_final_c.1 !! 4 = Some (mkFolder 4 1 "work" (Some 3) ("/" +:+ oid_hex 3) 0))
    as Hf by (vm_compute; reflexivity).
  split; [split; [exact Hr|exact Hf]|].
  exact (folder_path_is_ancestor_chain None 0 _ 4 _ Hr Hf).
Defined.

End Witnesses.
