(* ===== verification/Scripts.v ===== *)
(** * Scripts: the operator tools of [src/scripts]

    [manual_activate.js] connects to the database, looks up one hard-coded
    token secret and, when it finds it, activates the token's user and
    deletes the token; otherwise it lists the inactive users.  It is
    modelled as a computation on the same store as the server
    ([checkActivation]), its console output as a [report], its
    [try]/[catch] around the save as [try_catch]; [script_main] adds the
    connection, whose failure exits with code 1, and the final exit.
    [test_email.js] prints its configuration (the password masked by
    [mask_pass]), creates a nodemailer transport, and sends itself one
    message once [verify()] resolves; [testEmail] gives its console lines,
    the transport's options and the messages handed over, with the SMTP
    server's answers to [verify()] and [sendMail()] as inputs. *)

From stdpp Require Import base gmap strings list.
From Stdlib Require Import Ascii.
From S2P Require Import Prelude ObjectId Store Tokens Auth Folders System.
Import TokenStore AuthController.

Open Scope N_scope.
Open Scope handler_scope.

Module ManualActivate.

(** What the script reports on the console. *)
Inductive report :=
| TokenNotFound (inactive : list string)
| UserNotFound (userId : oid)
| Activated (email : string)
| SaveFailed (email : string) (error : string).

(** [Token.findOne({ token: targetToken })]: the filter has no [type]. *)
Definition findAnyToken (secret : string) : Hnd (option token) :=
  findOne (fun t => String.eqb (t_token t) secret).

(** The secret the script checks (line 29). *)
Definition targetToken : string :=
  "2aeb025dfa869be88c98a16f037e79ab452c9303f1fffd9317ac863e83d2bb94".

(** [checkActivation] after [connectDB()].  The [try]/[catch] around
    [user.save()] and [Token.findByIdAndDelete] logs the error
    (["FATAL SAVE ERROR"]) and goes on to [process.exit()]. *)
Definition checkActivation (targetToken : string) : Hnd report :=
  tokenDoc <- findAnyToken targetToken ;;
  match tokenDoc with
  | None =>
      inactiveUsers <- find (D := user) (fun u => bool_decide (u_status u = Inactive)) ;;
      ret (TokenNotFound (map u_email inactiveUsers))
  | Some td =>
      user <- findByOid (D := user) (t_userId td) ;;
      match user with
      | Some u =>
          try_catch
            (save u {| u with u_status := Active |} ;;
             consumeToken td ;;
             ret (Activated (u_email u)))
            (fun err => ret (SaveFailed (u_email u) err))
      | None => ret (UserNotFound (t_userId td))
      end
  end.

(** The whole script: [await connectDB()], whose failure is logged and
    ends the process with [process.exit(1)] before any query; then the
    check; then [process.exit()] with code 0.  The result is the exit code
    and what the check reported. *)
Definition script_main (connectError : option string) : Hnd (N * option report) :=
  match connectError with
  | Some _ => ret (1, None)
  | None =>
      r <- checkActivation targetToken ;;
      ret (0, Some r)
  end.

End ManualActivate.

Module TestEmail.

(** [s.slice(-n)]: the last [n] characters, or all of [s] when shorter. *)
Definition slice_last (n : nat) (s : string) : string :=
  String.substring (String.length s - n) n s.

(** [process.env.EMAIL_PASS ? '***' + process.env.EMAIL_PASS.slice(-4) : 'NOT SET'] *)
Definition mask_pass (pass : jsstr) : string :=
  match pass with
  | Some p => if truthy pass then "***" +:+ slice_last 4 p else "NOT SET"
  | None => "NOT SET"
  end.

(** A line on the console: [console.log] or [console.error]. *)
Inductive line := Out (s : string) | Err (s : string).

Definition nl : string := String "010"%char EmptyString.

(** An environment variable as [console.log] and a template print it. *)
Definition js_str (v : jsstr) : string := match v with Some s => s | None => "undefined" end.

(** The options of [nodemailer.createTransport]. *)
Record transport_config := mkTransport {
  tr_service : string;
  tr_host : string;
  tr_port : N;
  tr_secure : bool;
  tr_user : jsstr;
  tr_pass : jsstr;
  tr_rejectUnauthorized : bool
}.

Definition createTransport_config (user pass : jsstr) : transport_config :=
  mkTransport "gmail" "smtp.gmail.com" 587 false user pass false.

(** The message handed to [transporter.sendMail]. *)
Record mail_options := mkMail { m_from : string; m_to : jsstr; m_subject : string; m_html : string }.

Definition spaces (n : nat) : string := String.concat "" (repeat " " n).

Definition test_mail (user : jsstr) (timestamp : string) : mail_options :=
  mkMail (dq +:+ "Cloud Canvas Test" +:+ dq +:+ " <" +:+ js_str user +:+ ">") user
    "Test Email - Cloud Canvas"
    (nl +:+ spaces 16 +:+ "<h2>Email Configuration Test</h2>" +:+
     nl +:+ spaces 16 +:+ "<p>If you're reading this, your email configuration is working correctly!</p>" +:+
     nl +:+ spaces 16 +:+ "<p>Timestamp: " +:+ timestamp +:+ "</p>" +:+ nl +:+ spaces 12).

(** A rejection of [verify()] or [sendMail()]: [error.message], [error.code]. *)
Record smtp_error := mkSmtpError { se_message : string; se_code : jsstr }.

Definition eauth_head : string := nl +:+ "🔑 Authentication failed. Please check:".

(** The [catch] block; the advice when [error.code === 'EAUTH']. *)
Definition failure_lines (e : smtp_error) : list line :=
  app [Err (nl +:+ "❌ Email test failed!"); Err ("Error: " +:+ se_message e)]
  (if bool_decide (se_code e = Some "EAUTH") then
    [Err eauth_head;
     Err "1. EMAIL_USER is correct";
     Err "2. EMAIL_PASS is a valid Gmail App Password (not your regular password)";
     Err "3. 2-Step Verification is enabled on your Google account";
     Err (nl +:+ "How to create App Password:");
     Err "1. Go to: https://myaccount.google.com/apppasswords";
     Err ("2. Select " +:+ dq +:+ "Mail" +:+ dq +:+ " and " +:+ dq +:+ "Other (Custom name)" +:+ dq);
     Err "3. Copy the 16-character password";
     Err "4. Update EMAIL_PASS in .env file"]
  else []).

Definition success_line : string := "✅ Test email sent successfully!".

(** What a run leaves: the console, the transport's options, and the
    messages handed to it. *)
Record run := mkRun { trace : list line; config : transport_config; attempted : list mail_options }.

(** [testEmail()] with [EMAIL_USER], [EMAIL_PASS], the clock, and the
    SMTP server's answers to [verify()] ([None]: it resolves) and to
    [sendMail(mail)] (its [messageId] when it resolves). *)
Definition testEmail (user pass : jsstr) (now : string)
    (verify : option smtp_error) (send : mail_options -> smtp_error + string) : run :=
  let header := [Out ("🧪 Testing email configuration..." +:+ nl); Out ("Email User: " +:+ js_str user);
                 Out ("Email Pass: " +:+ mask_pass pass); Out ""] in
  let cfg := createTransport_config user pass in
  match verify with
  | Some e => mkRun (header ++ [Out "📧 Verifying SMTP connection..."] ++ failure_lines e)%list cfg []
  | None =>
      let m := test_mail user now in
      let pre := (header ++ [Out "📧 Verifying SMTP connection..."; Out ("✅ SMTP connection verified!" +:+ nl);
                             Out "📨 Sending test email..."])%list in
      match send m with
      | inl e => mkRun (pre ++ failure_lines e)%list cfg [m]
      | inr messageId =>
          mkRun (pre ++ [Out success_line; Out ("Message ID: " +:+ messageId);
                         Out (nl +:+ "✨ Email configuration is working perfectly!")])%list cfg [m]
      end
  end.

(** The error the [catch] block receives, if any. *)
Definition failure (user : jsstr) (now : string) (verify : option smtp_error)
    (send : mail_options -> smtp_error + string) : option smtp_error :=
  match verify with
  | Some e => Some e
  | None => match send (test_mail user now) with inl e => Some e | inr _ => None end
  end.

End TestEmail.

Import ManualActivate TestEmail.

(** ** Lemmas on strings *)


(** A substring reaching past the end stops at the end. *)
Lemma substring_to_end (s : string) (i m : nat) :
  (String.length s <= i + m)%nat ->
  String.substring i m s = String.substring i (String.length s - i) s.
Proof.
  revert i m. induction s as [|c s IH]; intros [|i] [|m] Hl; simpl in *; try done; try lia.
  - f_equal. rewrite (IH 0%nat m) by lia. by rewrite Nat.sub_0_r.
  - apply IH. lia.
  - apply IH. lia.
Qed.

Lemma substring_full (s : string) : String.substring 0%nat (String.length s) s = s.
Proof. induction s as [|c s IH]; simpl; [done|by rewrite IH]. Qed.

(** From [i] to the end: a suffix of [s] of length [length s - i]. *)
Lemma substring_suffix (s : string) (i : nat) :
  exists pre, s = pre +:+ String.substring i (String.length s - i) s /\
    String.length (String.substring i (String.length s - i) s) = (String.length s - i)%nat.
Proof.
  revert i. induction s as [|c s IH]; intros [|i].
  - by exists "".
  - by exists "".
  - exists "". rewrite Nat.sub_0_r, substring_full. done.
  - destruct (IH i) as (pre & Hs & Hl). exists (String c pre). simpl. split; [|done].
    by rewrite string_app_cons, <- Hs.
Qed.

(** ** The manual activation script *)

Lemma findAnyToken_unique s w k t :
  tokens w !! k = Some t -> t_token t = s ->
  map_Forall (fun k' t' => t_token t' = s -> k' = k) (tokens w) ->
  findAnyToken s w = (w, Ok (Some t)).
Proof.
  intros Hk Hs Huniq. unfold findAnyToken, findOne, gets. do 2 f_equal.
  apply (first_match_unique _ _ k); [done|by apply String.eqb_eq|].
  intros k' t' Ht' HP. apply String.eqb_eq in HP. exact (Huniq k' t' Ht' HP).
Qed.

(** C17: the script's token lookup has no [type] filter: when the only
    token with the secret is a password-reset token, the activation
    endpoint refuses it with 400, while the script activates the token's
    user and deletes the reset token. *)
Theorem checkActivation_accepts_reset_token s w k t u :
  tokens w !! k = Some t -> t_token t = s -> t_type t = Reset ->
  map_Forall (fun k' t' => t_token t' = s -> k' = k) (tokens w) ->
  users w !! t_userId t = Some u -> u_id u = t_userId t ->
  handle (activateAccount s) w = (w, reply 400 (BMessage "Invalid or expired token")) /\
  checkActivation s w =
    ({| w with users := <[u_id u := {| u with u_status := Active |}]> (users w);
               tokens := delete (t_id t) (tokens w) |}, Ok (Activated (u_email u))).
Proof.
  intros Hk Hs Hty Huniq Hu Hid. split.
  - apply activateAccount_invalid. intros k' t' Ht'. apply not_true_is_false.
    rewrite token_query_true. intros [Hs' Hty'].
    rewrite (Huniq k' t' Ht' Hs') in Ht'. congruence.
  - unfold checkActivation, bind. rewrite (findAnyToken_unique s w k t) by done.
    unfold findByOid, save, consumeToken, deleteById. hstep.
    rewrite Hu, Hid, Hu. simpl. by rewrite user_delta_loaded.
Qed.

(** C28: with an activation token as the only token of its secret, the
    script does to the database exactly what the activation endpoint
    does, whether or not the token's user exists. *)
Theorem checkActivation_as_endpoint s w k t :
  tokens w !! k = Some t -> t_token t = s -> t_type t = Activation ->
  map_Forall (fun k' t' => t_token t' = s -> k' = k) (tokens w) ->
  fst (checkActivation s w) = fst (handle (activateAccount s) w).
Proof.
  intros Hk Hs Hty Huniq.
  assert (unique_token s Activation k w) as Hu by (intros k' t' Ht' Hs' _; exact (Huniq k' t' Ht' Hs')).
  unfold checkActivation, handle, run_handler, activateAccount, bind.
  rewrite (findAnyToken_unique s w k t), (findToken_unique s Activation w k t) by done.
  unfold findByOid, save, consumeToken, deleteById. hstep.
  destruct (users w !! t_userId t) as [u|]; [|done]. hstep. by destruct (users w !! u_id u).
Qed.

(** when no token has the secret the script changes nothing and lists
    exactly the emails of the inactive users. *)
Theorem checkActivation_not_found s w :
  secret_fresh s w ->
  exists l, checkActivation s w = (w, Ok (TokenNotFound l)) /\
    forall e, e ∈ l <-> exists k u, users w !! k = Some u /\ u_status u = Inactive /\ u_email u = e.
Proof.
  intros Hfresh. unfold checkActivation, bind, findAnyToken, findOne, find, gets.
  rewrite first_match_None_intro; [|intros k t Ht; apply String.eqb_neq, (Hfresh k t Ht)].
  hstep. eexists. split; [reflexivity|]. intros e. rewrite list_elem_of_fmap. split.
  - intros (u & -> & Hin). apply elem_of_select in Hin as (k & Hk & Hi).
    apply bool_decide_eq_true in Hi. eauto.
  - intros (k & u & Hk & Hi & <-). exists u. split; [done|].
    apply elem_of_select. exists k. split; [done|]. by apply bool_decide_eq_true.
Qed.

(** C29: run against a database the server keeps well formed, the script
    keeps it well formed: ids, folder tree and one account per email; it
    deletes no user, changes no email, and only ever activates. *)
Theorem checkActivation_preserved s w :
  world_ok w -> preserved w (fst (checkActivation s w)).
Proof.
  intro_world_ok. unfold preserved, checkActivation, findAnyToken, findOne, find,
    findByOid, consumeToken, deleteById. run_to_end.
Qed.

(** Run on a database keyed by the ids, the check always reports: no
    query throws out of it, and the [catch] of [user.save()] never fires,
    because the user was just loaded from the collection it is saved to. *)
Lemma checkActivation_reports s w :
  keyed (D := user) w ->
  exists r, snd (checkActivation s w) = Ok r /\ forall e m, r <> SaveFailed e m.
Proof.
  intros Hk. unfold checkActivation, findAnyToken, findOne, find, findByOid, consumeToken, deleteById.
  hstep. destruct (first_match _ _) as [td|]; hstep; [|by eexists].
  destruct (users w !! t_userId td) as [u|] eqn:Hu; hstep; [|by eexists].
  rewrite (save_keyed u _ w Hk) by eauto. hstep. by eexists.
Qed.

(** ** The password the mail test prints *)

(** Membership of a line of the console in a trace of literal lines. *)
Ltac lines_tac :=
  rewrite ?elem_of_app, ?elem_of_cons, ?elem_of_nil in *; unfold eauth_head, success_line, nl in *;
  intuition (try discriminate).

Lemma failure_lines_eauth e :
  Err eauth_head ∈ failure_lines e <-> se_code e = Some "EAUTH".
Proof.
  unfold failure_lines. case_bool_decide as Hc; split; try done; [intros _|intros Hin; exfalso]; lines_tac.
Qed.

Lemma failure_lines_success e : Out success_line ∉ failure_lines e.
Proof. unfold failure_lines. case_bool_decide; lines_tac. Qed.

Lemma failure_eauth_iff (o : option smtp_error) :
  (exists e, o = Some e /\ Err eauth_head ∈ failure_lines e) <-> (exists e, o = Some e /\ se_code e = Some "EAUTH").
Proof.
  split; intros (e & -> & H); exists e; split; try done; by apply failure_lines_eauth.
Qed.

(** C35: [test_email.js] creates its transport for Gmail on port 587 with
    certificate checks off; it hands the SMTP server one message,
    addressed to [EMAIL_USER], and only after [verify()] resolves; it
    prints the App Password advice exactly when the error it catches has
    the code ['EAUTH'], and reports success exactly when both calls
    resolve. *)
Theorem testEmail_outcome user pass now verify send :
  config (testEmail user pass now verify send) = mkTransport "gmail" "smtp.gmail.com" 587 false user pass false /\
  attempted (testEmail user pass now verify send) =
    match verify with Some _ => [] | None => [test_mail user now] end /\
  (Err eauth_head ∈ trace (testEmail user pass now verify send) <->
     exists e, failure user now verify send = Some e /\ se_code e = Some "EAUTH") /\
  (Out success_line ∈ trace (testEmail user pass now verify send) <-> failure user now verify send = None).
Proof.
  rewrite <- failure_eauth_iff. unfold testEmail, failure.
  destruct verify as [e|]; [|destruct (send (test_mail user now)) as [e|mid]];
    cbn [config attempted trace]; split_and!; try reflexivity.
  - split; [|intros (e' & [= <-] & H); rewrite elem_of_app; right; rewrite elem_of_app; by right].
    intros Hin. exists e. split; [done|]. rewrite !elem_of_app in Hin.
    destruct Hin as [Hin|[Hin|Hin]]; [exfalso; lines_tac..|done].
  - pose proof (failure_lines_success e). split; [|done]. intros Hin. exfalso. lines_tac.
  - split; [|intros (e' & [= <-] & H); rewrite elem_of_app; by right].
    intros Hin. exists e. split; [done|]. rewrite elem_of_app in Hin.
    destruct Hin as [Hin|Hin]; [exfalso; lines_tac|done].
  - pose proof (failure_lines_success e). split; [|done]. intros Hin. exfalso. lines_tac.
  - split; [intros Hin; exfalso; lines_tac|by intros (? & ? & _)].
  - split; [done|]. intros _. lines_tac.
Qed.

(** C30: the console line of [test_email.js] shows at most the last four
    characters of a set password, behind ["***"], and ["NOT SET"] when
    the variable is unset or empty. *)
Theorem mask_pass_shows_last4 :
  (forall p, p <> "" ->
     exists pre suffix, mask_pass (Some p) = "***" +:+ suffix /\ p = pre +:+ suffix /\
       String.length suffix = Nat.min 4 (String.length p)) /\
  mask_pass None = "NOT SET" /\ mask_pass (Some "") = "NOT SET".
Proof.
  split_and!; [|done|done]. intros p Hp.
  unfold mask_pass. replace (truthy (Some p)) with true by (symmetry; apply truthy_spec; eauto).
  unfold slice_last. rewrite substring_to_end by lia.
  destruct (substring_suffix p (String.length p - 4)) as (pre & Hs & Hl).
  exists pre; eexists. split_and!; [reflexivity|exact Hs|]. rewrite Hl. lia.
Qed.

(** ** Instances *)

#[local] Existing Instance demo_hasher.

Lemma demo_reset_pending_ok : world_ok demo_reset_pending.
Proof.
  apply forgotPassword_preserved.
  exact (proj1 (registerUser_preserved None (Some "Ada") (Some "L") "ada@x.io" "pw" "s3cr3t"
                  (empty_world 0) (empty_world_ok 0))).
Qed.

Lemma checkActivation_accepts_reset_token_witness :
  let t := mkToken 3 1 "r3s3t" Reset 0 in
  let u := mkUser 1 (Some "Ada") (Some "L") "ada@x.io" (hash_password "pw") Inactive 0 in
  (tokens demo_reset_pending !! 3 = Some t /\ t_token t = "r3s3t" /\ t_type t = Reset /\
   map_Forall (fun k' t' => t_token t' = "r3s3t" -> k' = 3) (tokens demo_reset_pending) /\
   users demo_reset_pending !! t_userId t = Some u /\ u_id u = t_userId t) /\
  handle (activateAccount "r3s3t") demo_reset_pending
    = (demo_reset_pending, reply 400 (BMessage "Invalid or expired token")) /\
  checkActivation "r3s3t" demo_reset_pending =
    ({| demo_reset_pending with
        users := <[u_id u := {| u with u_status := Active |}]> (users demo_reset_pending);
        tokens := delete (t_id t) (tokens demo_reset_pending) |}, Ok (Activated (u_email u))).
Proof.
  cbv zeta.
  assert (tokens demo_reset_pending !! 3 = Some (mkToken 3 1 "r3s3t" Reset 0)) as Hk
    by (vm_compute; reflexivity).
  assert (map_Forall (fun k' t' => t_token t' = "r3s3t" -> k' = 3) (tokens demo_reset_pending)) as Hu
    by decide_by_eval.
  assert (users demo_reset_pending !! 1
          = Some (mkUser 1 (Some "Ada") (Some "L") "ada@x.io" (hash_password "pw") Inactive 0)) as Hus
    by (vm_compute; reflexivity).
  split; [split_and!; assumption || reflexivity|].
  exact (checkActivation_accepts_reset_token "r3s3t" demo_reset_pending 3 _ _ Hk eq_refl eq_refl Hu Hus eq_refl).
Defined.

Lemma checkActivation_as_endpoint_witness :
  (tokens demo_reset_pending !! 2 = Some (mkToken 2 1 "s3cr3t" Activation 0) /\
   map_Forall (fun k' t' => t_token t' = "s3cr3t" -> k' = 2) (tokens demo_reset_pending)) /\
  fst (checkActivation "s3cr3t" demo_reset_pending)
    = fst (handle (activateAccount "s3cr3t") demo_reset_pending).
Proof.
  assert (tokens demo_reset_pending !! 2 = Some (mkToken 2 1 "s3cr3t" Activation 0)) as Hk
    by (vm_compute; reflexivity).
  assert (map_Forall (fun k' t' => t_token t' = "s3cr3t" -> k' = 2) (tokens demo_reset_pending)) as Hu
    by decide_by_eval.
  split; [split; assumption|].
  exact (checkActivation_as_endpoint "s3cr3t" demo_reset_pending 2 _ Hk eq_refl eq_refl Hu).
Defined.

Lemma checkActivation_preserved_witness :
  world_ok demo_reset_pending /\
  preserved demo_reset_pending (fst (checkActivation "r3s3t" demo_reset_pending)).
Proof.
  split; [exact demo_reset_pending_ok|].
  exact (checkActivation_preserved "r3s3t" demo_reset_pending demo_reset_pending_ok).
Defined.

